(** * GALUR: catalogue site, admin handlers and cart store

    A shallow embedding of the request handlers ([src/pages/api/...]), the
    data helpers ([src/lib/data/admin.ts], [src/lib/data/products.ts],
    [src/lib/data/categories.ts]), the cart store ([src/stores/cart.ts])
    and the fetching of products by the category page
    ([CategoryPageShell]).

    Conventions of the embedding:
    - a JavaScript [number] is [NaN], a signed infinity or an exact
      rational ([Num q]); every binary64 value is one of these, and the
      comparisons and [Math.floor]/[Math.ceil] used by the code are exact
      on them; a quotient is rounded to the nearest binary64, as [/]
      rounds it;
    - a JavaScript string is a [string], one [ascii] per code unit (the
      model covers the code units below 256);
    - a JavaScript object used as a dictionary is a [gmap string _];
    - [async] code runs in the monad [M]: state passing over a [world]
      (tables, object storage, console, the calls issued so far) with
      thrown values as a second outcome. *)

From Stdlib Require Import ZArith QArith Qround Qabs String Ascii List Lia Bool Permutation.
From stdpp Require Import base option list gmap strings pretty.

Set Warnings "-register-all".
Local Open Scope Z_scope.
Local Open Scope string_scope.
Local Open Scope list_scope.

(** ** JavaScript numbers *)

Inductive number : Type :=
| NaN
| Infinity (negative : bool)
| Num (q : Q).

Definition num_of_Z (z : Z) : number := Num (inject_Z z).

(** [a < b]; any comparison with [NaN] is false. *)
Definition num_lt (a b : number) : bool :=
  match a, b with
  | NaN, _ | _, NaN => false
  | Infinity true, Infinity true => false
  | Infinity true, _ => true
  | _, Infinity true => false
  | Infinity false, _ => false
  | Num _, Infinity false => true
  | Num p, Num q => negb (Qle_bool q p)
  end.

(** [a > b]. *)
Definition num_gt (a b : number) : bool := num_lt b a.

Definition isNaN (v : number) : bool :=
  match v with NaN => true | _ => false end.

(** [Math.floor]. *)
Definition Math_floor (v : number) : number :=
  match v with
  | Num q => num_of_Z (Qfloor q)
  | other => other
  end.

(** [Math.ceil]. *)
Definition Math_ceil (v : number) : number :=
  match v with
  | Num q => num_of_Z (Qceiling q)
  | other => other
  end.

(** [a + b]; finite sums are taken exactly. *)
Definition num_add (a b : number) : number :=
  match a, b with
  | NaN, _ | _, NaN => NaN
  | Infinity s, Infinity t => if Bool.eqb s t then Infinity s else NaN
  | Infinity s, Num _ | Num _, Infinity s => Infinity s
  | Num p, Num q => Num (Qred (p + q))
  end.

(** [a - b]. *)
Definition num_sub (a b : number) : number :=
  match a, b with
  | NaN, _ | _, NaN => NaN
  | Infinity s, Infinity t => if Bool.eqb s t then NaN else Infinity s
  | Infinity s, Num _ => Infinity s
  | Num _, Infinity s => Infinity (negb s)
  | Num p, Num q => Num (Qred (p - q))
  end.

Definition is_negative (q : Q) : bool := negb (Qle_bool 0 q).

(** [a * b]. *)
Definition num_mul (a b : number) : number :=
  match a, b with
  | NaN, _ | _, NaN => NaN
  | Infinity s, Infinity t => Infinity (xorb s t)
  | Infinity s, Num q | Num q, Infinity s =>
      if Qeq_bool q 0 then NaN else Infinity (xorb s (is_negative q))
  | Num p, Num q => Num (Qred (p * q))
  end.

(** [2^e], for an exponent of either sign. *)
Definition pow2 (e : Z) : Q :=
  if (0 <=? e)%Z then inject_Z (2 ^ e) else Qinv (inject_Z (2 ^ (- e))).

(** The exponent of a positive rational: the [e] with
    [2^e <= x < 2^(e+1)]. *)
Definition exponent (x : Q) : Z :=
  let e := Z.log2 (Qnum x) - Z.log2 (Zpos (Qden x)) in
  if Qle_bool (pow2 e) x then e else e - 1.

(** The integer nearest to a rational that is not negative, the even one
    of the two when it lies half way between them. *)
Definition nearest_even (x : Q) : Z :=
  let f := Qfloor x in
  match Qcompare (x - inject_Z f) (1 # 2) with
  | Lt => f
  | Gt => f + 1
  | Eq => if Z.even f then f else f + 1
  end.

(** The binary64 value that an exact result is rounded to (to the
    nearest, ties to even): 53 significant bits, exponents from -1022
    (below it the spacing stays [2^-1074]) to 1023, and an infinity from
    [2^1024 - 2^970] on. *)
Definition binary64 (x : Q) : number :=
  if Qeq_bool x 0 then Num 0
  else
    let a := Qabs x in
    let spacing := pow2 (Z.max (exponent a) (-1022) - 52) in
    let v := (inject_Z (nearest_even (a / spacing)) * spacing)%Q in
    if Qle_bool (pow2 1024) v then Infinity (is_negative x)
    else Num (Qred (if is_negative x then - v else v)).

(** [a / b]: the exact quotient, rounded. *)
Definition num_div (a b : number) : number :=
  match a, b with
  | NaN, _ | _, NaN => NaN
  | Infinity _, Infinity _ => NaN
  | Infinity s, Num q => Infinity (xorb s (is_negative q))
  | Num _, Infinity _ => Num 0
  | Num p, Num q =>
      if Qeq_bool q 0 then
        if Qeq_bool p 0 then NaN else Infinity (is_negative p)
      else binary64 (p / q)
  end.

(** Truthiness of a number: [NaN] and zero are falsy. *)
Definition num_truthy (v : number) : bool :=
  match v with
  | NaN => false
  | Infinity _ => true
  | Num q => negb (Qeq_bool q 0)
  end.

(** A number is an integer between [lo] and [hi]. *)
Definition int_between (lo hi : Z) (v : number) : Prop :=
  exists n : Z, v = num_of_Z n /\ lo <= n <= hi.

(** ** The cart store ([src/stores/cart.ts]) *)

Module Cart.

Definition MIN_QUANTITY : number := num_of_Z 1.
Definition MAX_QUANTITY : number := num_of_Z 99.
Definition DEFAULT_QUANTITY : number := num_of_Z 1.

Definition clampQuantity (value : number) : number :=
  if isNaN value || num_lt value MIN_QUANTITY then MIN_QUANTITY
  else if num_gt value MAX_QUANTITY then MAX_QUANTITY
  else Math_floor value.

(** [Omit<CartItem, "quantity">]. *)
Record CartItemData : Type := {
  d_id : Z;
  d_name : string;
  d_slug : string;
  d_brand : option string;
  d_description : option string;
  d_image_url : option string;
}.

(** An object of the cart: the fields that were spread into it and its
    quantity.  The fields are those of the product the item was added
    with; the object stored under a key that the cart only inherits (see
    [Object_prototype]) has none and holds its quantity alone. *)
Record CartItem : Type := {
  fields : option CartItemData;
  quantity : number;
}.

(** [{ ...product, quantity }]. *)
Definition with_quantity (product : CartItemData) (q : number) : CartItem :=
  {| fields := Some product; quantity := q |}.

(** [{ ...item, quantity }]. *)
Definition set_item_quantity (item : CartItem) (q : number) : CartItem :=
  {| fields := fields item; quantity := q |}.

(** The value held by [$cart]. *)
Abbreviation cart := (gmap string CartItem).

(** The properties that the value of [$cart], an object literal,
    inherits from [Object.prototype].  Each is a function (the prototype
    itself for [__proto__]): truthy, with no [quantity] and no enumerable
    property of its own. *)
Definition Object_prototype : list string :=
  [ "constructor"; "hasOwnProperty"; "isPrototypeOf"; "propertyIsEnumerable";
    "toLocaleString"; "toString"; "valueOf";
    "__defineGetter__"; "__defineSetter__"; "__lookupGetter__"; "__lookupSetter__";
    "__proto__" ].

(** What [currentCart[productId]] finds. *)
Inductive property : Type :=
| Own (item : CartItem)
| Inherited
| Missing.

(** [currentCart[productId]]: the entry of the cart, or else what the
    cart inherits under that name. *)
Definition get_property (currentCart : cart) (productId : string) : property :=
  match currentCart !! productId with
  | Some item => Own item
  | None =>
      if existsb (String.eqb productId) Object_prototype then Inherited else Missing
  end.

(** [found.quantity] where a number is expected: the [undefined] of an
    inherited property counts as [NaN] in a sum, a difference or a
    comparison. *)
Definition quantity_of (found : property) : number :=
  match found with
  | Own item => quantity item
  | Inherited | Missing => NaN
  end.

(** [{ ...found, quantity }]: an inherited property has nothing to
    spread. *)
Definition spread_with_quantity (found : property) (q : number) : CartItem :=
  match found with
  | Own item => set_item_quantity item q
  | Inherited | Missing => {| fields := None; quantity := q |}
  end.

(** [if (found)]: an object or a function is truthy, [undefined] is not. *)
Definition found_truthy (found : property) : bool :=
  match found with
  | Own _ | Inherited => true
  | Missing => false
  end.

Definition addToCart (product : CartItemData) (quantity_ : option number)
    (currentCart : cart) : cart :=
  let quantity_ := default DEFAULT_QUANTITY quantity_ in
  let productId := pretty (d_id product) in
  let quantityToAdd := clampQuantity quantity_ in
  let found := get_property currentCart productId in
  if found_truthy found then
    let newQuantity := clampQuantity (num_add (quantity_of found) quantityToAdd) in
    <[productId := spread_with_quantity found newQuantity]> currentCart
  else
    <[productId := with_quantity product quantityToAdd]> currentCart.

Definition increaseQuantity (productId : string) (currentCart : cart) : cart :=
  let found := get_property currentCart productId in
  if found_truthy found then
    let newQuantity := clampQuantity (num_add (quantity_of found) (num_of_Z 1)) in
    <[productId := spread_with_quantity found newQuantity]> currentCart
  else currentCart.

Definition decreaseQuantity (productId : string) (currentCart : cart) : cart :=
  let found := get_property currentCart productId in
  if found_truthy found && num_gt (quantity_of found) MIN_QUANTITY then
    <[productId := spread_with_quantity found
                     (num_sub (quantity_of found) (num_of_Z 1))]> currentCart
  else currentCart.

Definition setQuantity (productId : string) (quantity_ : number)
    (currentCart : cart) : cart :=
  let found := get_property currentCart productId in
  if found_truthy found then
    let validQuantity := clampQuantity quantity_ in
    <[productId := spread_with_quantity found validQuantity]> currentCart
  else currentCart.

(** [$cart.setKey(productId, undefined)]. *)
Definition removeFromCart (productId : string) (currentCart : cart) : cart :=
  delete productId currentCart.

Definition clearCart (_ : cart) : cart := ∅.

(** The exported mutators of the store. *)
Inductive cart_op : Type :=
| AddToCart (product : CartItemData) (quantity_ : option number)
| IncreaseQuantity (productId : string)
| DecreaseQuantity (productId : string)
| SetQuantity (productId : string) (quantity_ : number)
| RemoveFromCart (productId : string)
| ClearCart.

Definition apply_op (op : cart_op) : cart -> cart :=
  match op with
  | AddToCart product q => addToCart product q
  | IncreaseQuantity productId => increaseQuantity productId
  | DecreaseQuantity productId => decreaseQuantity productId
  | SetQuantity productId q => setQuantity productId q
  | RemoveFromCart productId => removeFromCart productId
  | ClearCart => clearCart
  end.

(** Every stored quantity is an integer between 1 and 99. *)
Definition quantities_ok (c : cart) : Prop :=
  forall k item, c !! k = Some item -> int_between 1 99 (quantity item).

End Cart.

(** ** JavaScript strings *)

Definition code (c : ascii) : N := N_of_ascii c.

Definition in_range (lo hi : N) (c : ascii) : bool :=
  (lo <=? code c)%N && (code c <=? hi)%N.

Definition is_digit (c : ascii) : bool := in_range 48 57 c.
Definition is_lower (c : ascii) : bool := in_range 97 122 c.
Definition is_upper (c : ascii) : bool := in_range 65 90 c.

(** White space and line terminators, as [trim], [parseInt] and
    [parseFloat] see them. *)
Definition is_space (c : ascii) : bool :=
  in_range 9 13 c || (code c =? 32)%N || (code c =? 160)%N.

Fixpoint trimStart (s : string) : string :=
  match s with
  | String c rest => if is_space c then trimStart rest else s
  | EmptyString => EmptyString
  end.

Fixpoint trimEnd (s : string) : string :=
  match s with
  | String c rest =>
      match trimEnd rest with
      | EmptyString => if is_space c then EmptyString else String c EmptyString
      | kept => String c kept
      end
  | EmptyString => EmptyString
  end.

(** [s.trim()]. *)
Definition trim (s : string) : string := trimEnd (trimStart s).

Fixpoint map_string (f : ascii -> ascii) (s : string) : string :=
  match s with
  | String c rest => String (f c) (map_string f rest)
  | EmptyString => EmptyString
  end.

Definition lower_char (c : ascii) : ascii :=
  if is_upper c || (in_range 192 222 c && negb (code c =? 215)%N)
  then ascii_of_N (code c + 32)
  else c.

(** [s.toLowerCase()]. *)
Definition toLowerCase (s : string) : string := map_string lower_char s.

(** The code units of a literal written with accented letters: each
    two-byte sequence of the source text is one code unit. *)
Fixpoint text (literal : string) : string :=
  match literal with
  | String b1 (String b2 rest as tail) =>
      if in_range 194 195 b1 && in_range 128 191 b2
      then String (ascii_of_N ((code b1 - 192) * 64 + (code b2 - 128))) (text rest)
      else String b1 (text tail)
  | other => other
  end.

Fixpoint all_chars (p : ascii -> bool) (s : string) : bool :=
  match s with
  | String c rest => p c && all_chars p rest
  | EmptyString => true
  end.

(** The character class [[a-zA-Z0-9.-]]. *)
Definition filename_char (c : ascii) : bool :=
  is_lower c || is_upper c || is_digit c || (code c =? 46)%N || (code c =? 45)%N.

(** [name.replace(/[^a-zA-Z0-9.-]/g, "_")]. *)
Definition sanitize_filename (s : string) : string :=
  map_string (fun c => if filename_char c then c else "_"%char) s.

(** The character class [[a-z0-9-]]. *)
Definition slug_char (c : ascii) : bool :=
  is_lower c || is_digit c || (code c =? 45)%N.

(** [/^[a-z0-9-]+$/.test(s)]. *)
Definition slug_regex_test (s : string) : bool :=
  negb (String.eqb s "") && all_chars slug_char s.

Fixpoint take_while (p : ascii -> bool) (s : string) : string :=
  match s with
  | String c rest => if p c then String c (take_while p rest) else EmptyString
  | EmptyString => EmptyString
  end.

Fixpoint drop_while (p : ascii -> bool) (s : string) : string :=
  match s with
  | String c rest => if p c then drop_while p rest else s
  | EmptyString => EmptyString
  end.

(** [/^\d+-\d+$/.test(s)]. *)
Definition range_regex_test (s : string) : bool :=
  let lo := take_while is_digit s in
  match drop_while is_digit s with
  | String "-" hi =>
      negb (String.eqb lo "") && negb (String.eqb hi "") && all_chars is_digit hi
  | _ => false
  end.

(** [s.split("-")] of a string that passed [range_regex_test]. *)
Definition split_range (s : string) : string * string :=
  (take_while is_digit s,
   match drop_while is_digit s with String _ hi => hi | EmptyString => "" end).

Definition digit_value (c : ascii) : option Z :=
  if is_digit c then Some (Z.of_N (code c) - 48)
  else if in_range 97 102 c then Some (Z.of_N (code c) - 87)
  else if in_range 65 70 c then Some (Z.of_N (code c) - 55)
  else None.

Definition is_radix_digit (radix : Z) (c : ascii) : bool :=
  match digit_value c with Some d => (d <? radix)%Z | None => false end.

Fixpoint digits_value (radix acc : Z) (s : string) : Z :=
  match s with
  | String c rest => digits_value radix (acc * radix + default 0 (digit_value c)) rest
  | EmptyString => acc
  end.

Definition strip_sign (s : string) : bool * string :=
  match s with
  | String "-" rest => (true, rest)
  | String "+" rest => (false, rest)
  | _ => (false, s)
  end.

Definition signed (negative : bool) (z : Z) : Z := if negative then - z else z.

(** [parseInt(s, radix)]; [radix = None] is the one-argument call, which
    reads a [0x] prefix as hexadecimal. *)
Definition parseInt (s : string) (radix : option Z) : number :=
  let (negative, body) := strip_sign (trimStart s) in
  let (radix, body) :=
    match radix, body with
    | None, String "0" (String x rest) =>
        if (code x =? 120)%N || (code x =? 88)%N then (16, rest) else (10, body)
    | None, _ => (10, body)
    | Some r, _ => (r, body)
    end in
  match take_while (is_radix_digit radix) body with
  | EmptyString => NaN
  | digits => num_of_Z (signed negative (digits_value radix 0 digits))
  end.

(** The exponent part of a decimal literal: [e], an optional sign and at
    least one digit; zero when there is none. *)
Definition exponent_part (s : string) : Z :=
  match s with
  | String e rest =>
      if (code e =? 101)%N || (code e =? 69)%N then
        let (negative, ds) := strip_sign rest in
        match take_while is_digit ds with
        | EmptyString => 0
        | ds => signed negative (digits_value 10 0 ds)
        end
      else 0
  | EmptyString => 0
  end.

Definition is_prefix_of (p s : string) : bool :=
  String.eqb p (String.substring 0 (String.length p) s).

(** [parseFloat(s)]: the longest prefix that is a decimal literal. *)
Definition parseFloat (s : string) : number :=
  let (negative, body) := strip_sign (trimStart s) in
  if is_prefix_of "Infinity" body then Infinity negative else
  let int_digits := take_while is_digit body in
  let after_int := drop_while is_digit body in
  let frac_digits :=
    match after_int with
    | String "." rest => take_while is_digit rest
    | _ => ""
    end in
  let after_frac :=
    match after_int with
    | String "." rest => drop_while is_digit rest
    | _ => after_int
    end in
  if String.eqb int_digits "" && String.eqb frac_digits "" then NaN else
  let mantissa := digits_value 10 0 (String.append int_digits frac_digits) in
  let exponent := exponent_part after_frac - Z.of_nat (String.length frac_digits) in
  Num (Qred (inject_Z (signed negative mantissa) * Qpower (inject_Z 10) exponent)).

(** ** JSON values, rows and request fields *)

Inductive value : Type :=
| VNull
| VBool (b : bool)
| VNum (n : number)
| VStr (s : string)
| VArr (items : list value)
| VObj (fields : list (string * value)).

(** A row of a table, and any JSON object: its fields in order. *)
Abbreviation row := (list (string * value)).

(** [o[k]]; an absent field reads as null. *)
Fixpoint get (k : string) (o : row) : value :=
  match o with
  | [] => VNull
  | (k', v) :: rest => if String.eqb k k' then v else get k rest
  end.

(** [o[k] = v]. *)
Fixpoint set (k : string) (v : value) (o : row) : row :=
  match o with
  | [] => [(k, v)]
  | (k', v') :: rest =>
      if String.eqb k k' then (k, v) :: rest else (k', v') :: set k v rest
  end.

(** [{ ...o, ...p }]. *)
Definition patch (p o : row) : row :=
  fold_left (fun acc kv => set (fst kv) (snd kv) acc) p o.

Definition truthy (v : value) : bool :=
  match v with
  | VNull => false
  | VBool b => b
  | VNum n => num_truthy n
  | VStr s => negb (String.eqb s "")
  | VArr _ | VObj _ => true
  end.

Definition as_number (v : value) : number :=
  match v with VNum n => n | _ => NaN end.

Definition as_string (v : value) : string :=
  match v with VStr s => s | _ => "" end.

(** A field of a request body: absent, [null], or a value of its
    declared type. *)
Inductive maybe (A : Type) : Type :=
| undefined
| null
| just (a : A).
Arguments undefined {A}.
Arguments null {A}.
Arguments just {A} a.

Definition maybe_value {A} (inj : A -> value) (m : maybe A) : value :=
  match m with just a => inj a | _ => VNull end.

(** [!!s] for a string field. *)
Definition str_truthy (m : maybe string) : bool :=
  match m with just s => negb (String.eqb s "") | _ => false end.

(** [!!n] for a number field. *)
Definition number_truthy (m : maybe number) : bool :=
  match m with just n => num_truthy n | _ => false end.

(** [!!b] for a boolean field. *)
Definition bool_truthy (m : maybe bool) : bool :=
  match m with just b => b | _ => false end.

Definition is_undefined {A} (m : maybe A) : bool :=
  match m with undefined => true | _ => false end.

(** [s || null] for a string field. *)
Definition str_or_null (m : maybe string) : value :=
  match m with
  | just s => if String.eqb s "" then VNull else VStr s
  | _ => VNull
  end.

(** ** Thrown values and the monad of asynchronous code *)

Inductive thrown : Type :=
| JsError (message : string)      (* an instance of [Error] *)
| Thrown (what : string).         (* any other thrown value *)

(** [error instanceof Error ? error.message : "Error desconocido"]. *)
Definition message_of (e : thrown) : string :=
  match e with
  | JsError message => message
  | Thrown _ => "Error desconocido"
  end.

Inductive outcome (A : Type) : Type :=
| Ret (a : A)
| Throw (e : thrown).
Arguments Ret {A} a.
Arguments Throw {A} e.

(** ** The hosted platform: tables, object storage, sessions *)

Inductive filter : Type :=
| Eq (column : string) (v : value)
| Neq (column : string) (v : value)
| Gt (column : string) (v : value)
| Gte (column : string) (v : value)
| Lte (column : string) (v : value)
| In_ (column : string) (vs : list value)
| Contains (column : string) (pattern : row)
| Or (alternatives : list filter).

(** One entry of a [select] list: a column ([*] for all of them) or an
    embedded relation [table(columns)]. *)
Inductive column_spec : Type :=
| Col (name : string)
| Embed (table : string) (columns : list string).

Inductive verb : Type :=
| Select (columns : list column_spec) (count_exact head : bool)
| Insert (r : row)
| Update (p : row)
| Delete.

Record ordering : Type := {
  order_column : string;
  ascending : bool;
  nullsFirst : option bool;
}.

Record query : Type := {
  q_table : string;
  q_verb : verb;
  q_filters : list filter;
  q_orders : list ordering;
  q_range : option (number * number);
  q_limit : option nat;
  q_returning : bool;
  q_single : bool;
}.

(** The query builder of the client library. *)
Module Pg.

Definition from (table : string) (v : verb) : query :=
  {| q_table := table; q_verb := v; q_filters := []; q_orders := [];
     q_range := None; q_limit := None; q_returning := false; q_single := false |}.

Definition select (columns : list column_spec) : verb := Select columns false false.
Definition count_head : verb := Select [Col "*"] true true.

Definition where_ (f : filter) (q : query) : query :=
  {| q_table := q_table q; q_verb := q_verb q;
     q_filters := q_filters q ++ [f]; q_orders := q_orders q;
     q_range := q_range q; q_limit := q_limit q;
     q_returning := q_returning q; q_single := q_single q |}.

Definition eq (column : string) (v : value) : query -> query := where_ (Eq column v).
Definition neq (column : string) (v : value) : query -> query := where_ (Neq column v).
Definition gt (column : string) (v : value) : query -> query := where_ (Gt column v).
Definition gte (column : string) (v : value) : query -> query := where_ (Gte column v).
Definition lte (column : string) (v : value) : query -> query := where_ (Lte column v).
Definition in_ (column : string) (vs : list value) : query -> query :=
  where_ (In_ column vs).
Definition contains (column : string) (pattern : row) : query -> query :=
  where_ (Contains column pattern).
Definition or (alternatives : list filter) : query -> query :=
  where_ (Or alternatives).

Definition order (column : string) (asc : bool) (nulls_first : option bool)
    (q : query) : query :=
  {| q_table := q_table q; q_verb := q_verb q; q_filters := q_filters q;
     q_orders := q_orders q ++ [{| order_column := column; ascending := asc;
                                   nullsFirst := nulls_first |}];
     q_range := q_range q; q_limit := q_limit q;
     q_returning := q_returning q; q_single := q_single q |}.

Definition range (from_ to_ : number) (q : query) : query :=
  {| q_table := q_table q; q_verb := q_verb q; q_filters := q_filters q;
     q_orders := q_orders q; q_range := Some (from_, to_); q_limit := q_limit q;
     q_returning := q_returning q; q_single := q_single q |}.

Definition limit (n : nat) (q : query) : query :=
  {| q_table := q_table q; q_verb := q_verb q; q_filters := q_filters q;
     q_orders := q_orders q; q_range := q_range q; q_limit := Some n;
     q_returning := q_returning q; q_single := q_single q |}.

(** [.select()] after an insert or an update: return the written rows. *)
Definition returning (q : query) : query :=
  {| q_table := q_table q; q_verb := q_verb q; q_filters := q_filters q;
     q_orders := q_orders q; q_range := q_range q; q_limit := q_limit q;
     q_returning := true; q_single := q_single q |}.

Definition single (q : query) : query :=
  {| q_table := q_table q; q_verb := q_verb q; q_filters := q_filters q;
     q_orders := q_orders q; q_range := q_range q; q_limit := q_limit q;
     q_returning := q_returning q; q_single := true |}.

End Pg.

Notation "x |> f" := (f x) (at level 68, left associativity, only parsing).

(** What a query resolves to: rows, one row, or nothing. *)
Inductive answer : Type :=
| DNull
| DRow (r : row)
| DRows (rs : list row).

Record result : Type := {
  res_data : answer;
  res_error : option string;
  res_count : option Z;
}.

Definition failed (message : string) : result :=
  {| res_data := DNull; res_error := Some message; res_count := None |}.

Definition data_truthy (d : answer) : bool :=
  match d with DNull => false | _ => true end.

(** [data || []]. *)
Definition rows_of (d : answer) : list row :=
  match d with DRows rs => rs | DRow r => [r] | DNull => [] end.

Definition data_value (d : answer) : value :=
  match d with
  | DNull => VNull
  | DRow r => VObj r
  | DRows rs => VArr (map VObj rs)
  end.

(** *** Evaluation of queries over the tables *)

(** Splits [a->b] into [a] and [b]. *)
Fixpoint split_arrow (s : string) : option (string * string) :=
  match s with
  | String "-" (String ">" rest) => Some ("", rest)
  | String c rest =>
      match split_arrow rest with
      | Some (a, b) => Some (String c a, b)
      | None => None
      end
  | EmptyString => None
  end.

(** The value a filter or an ordering reads: a column, or a key of a JSON
    column ([attributes->key]). *)
Definition column_value (column : string) (r : row) : value :=
  match split_arrow column with
  | Some (base, key) =>
      match get base r with VObj fields => get key fields | _ => VNull end
  | None => get column r
  end.

Definition number_eqb (a b : number) : bool :=
  match a, b with
  | Num p, Num q => Qeq_bool p q
  | Infinity s, Infinity t => Bool.eqb s t
  | _, _ => false
  end.

(** SQL equality of scalars; null equals nothing. *)
Definition value_eqb (a b : value) : bool :=
  match a, b with
  | VBool x, VBool y => Bool.eqb x y
  | VNum x, VNum y => number_eqb x y
  | VStr x, VStr y => String.eqb x y
  | _, _ => false
  end.

Definition is_null (v : value) : bool :=
  match v with VNull => true | _ => false end.

Definition number_leb (a b : number) : bool := num_lt a b || number_eqb a b.

Fixpoint matches (f : filter) (r : row) : bool :=
  match f with
  | Eq c v => value_eqb (column_value c r) v
  | Neq c v => negb (is_null (column_value c r)) && negb (is_null v)
               && negb (value_eqb (column_value c r) v)
  | Gt c v => num_lt (as_number v) (as_number (column_value c r))
  | Gte c v => number_leb (as_number v) (as_number (column_value c r))
  | Lte c v => number_leb (as_number (column_value c r)) (as_number v)
  | In_ c vs => existsb (value_eqb (column_value c r)) vs
  | Contains c pattern =>
      match column_value c r with
      | VObj fields =>
          forallb (fun kv => value_eqb (get (fst kv) fields) (snd kv)) pattern
      | _ => false
      end
  | Or alternatives => existsb (fun g => matches g r) alternatives
  end.

Definition matches_all (fs : list filter) (r : row) : bool :=
  forallb (fun f => matches f r) fs.

Definition value_compare (a b : value) : comparison :=
  match a, b with
  | VNum (Num p), VNum (Num q) => Qcompare p q
  | VStr x, VStr y => String.compare x y
  | VBool x, VBool y => Bool.compare x y
  | _, _ => Datatypes.Eq
  end.

(** Ascending keeps nulls last and descending puts them first, unless
    [nullsFirst] says otherwise. *)
Definition compare_by (o : ordering) (r1 r2 : row) : comparison :=
  let a := column_value (order_column o) r1 in
  let b := column_value (order_column o) r2 in
  let nulls_first := default (negb (ascending o)) (nullsFirst o) in
  match is_null a, is_null b with
  | true, true => Datatypes.Eq
  | true, false => if nulls_first then Lt else Datatypes.Gt
  | false, true => if nulls_first then Datatypes.Gt else Lt
  | false, false =>
      if ascending o then value_compare a b else CompOpp (value_compare a b)
  end.

Fixpoint compare_rows (os : list ordering) (r1 r2 : row) : comparison :=
  match os with
  | [] => Datatypes.Eq
  | o :: rest =>
      match compare_by o r1 r2 with
      | Datatypes.Eq => compare_rows rest r1 r2
      | c => c
      end
  end.

Fixpoint insert_sorted (os : list ordering) (r : row) (sorted : list row) : list row :=
  match sorted with
  | [] => [r]
  | x :: rest =>
      match compare_rows os r x with
      | Datatypes.Gt => x :: insert_sorted os r rest
      | _ => r :: sorted
      end
  end.

(** A stable sort by the orderings, first one most significant. *)
Definition sort_rows (os : list ordering) (rs : list row) : list row :=
  fold_right (insert_sorted os) [] rs.

Definition integer_of (n : number) : option Z :=
  match n with
  | Num q => if Qeq_bool q (inject_Z (Qfloor q)) then Some (Qfloor q) else None
  | _ => None
  end.

(** [.range(from, to)]: the rows at offsets [from] to [to]. *)
Definition slice (window : option (number * number)) (rs : list row) : list row :=
  match window with
  | None => rs
  | Some (from_, to_) =>
      match integer_of from_, integer_of to_ with
      | Some a, Some b => take (Z.to_nat (b - a + 1)) (drop (Z.to_nat a) rs)
      | _, _ => []
      end
  end.

Definition limit_rows (n : option nat) (rs : list row) : list row :=
  match n with Some k => take k rs | None => rs end.

(** The foreign keys of the schema: table, column, referenced table. *)
Definition foreign_keys : list (string * string * string) :=
  [ ("subcategories", "category_id", "categories");
    ("products", "category_id", "categories");
    ("products", "subcategory_id", "subcategories");
    ("product_assets", "product_id", "products") ].

Definition project (columns : list string) (r : row) : row :=
  if existsb (String.eqb "*") columns then r
  else List.filter (fun kv => existsb (String.eqb (fst kv)) columns) r.

Record database : Type := {
  tables : gmap string (list row);
  next_id : Z;
}.

Definition table_rows (db : database) (table : string) : list row :=
  default [] (tables db !! table).

Definition set_table (table : string) (rs : list row) (db : database) : database :=
  {| tables := <[table := rs]> (tables db); next_id := next_id db |}.

Definition fk_column (from_ to_ : string) : option string :=
  match List.filter (fun fk => String.eqb (fst (fst fk)) from_ && String.eqb (snd fk) to_)
          foreign_keys with
  | fk :: _ => Some (snd (fst fk))
  | [] => None
  end.

(** The embedded relation [target(columns)] of a row of [table]: the
    referenced row, or the list of the rows that reference this one. *)
Definition embed (db : database) (table target : string) (columns : list string)
    (r : row) : value :=
  match fk_column table target with
  | Some c =>
      match List.filter (fun t => value_eqb (get "id" t) (get c r)) (table_rows db target) with
      | t :: _ => VObj (project columns t)
      | [] => VNull
      end
  | None =>
      match fk_column target table with
      | Some c =>
          VArr (map (fun t => VObj (project columns t))
                  (List.filter (fun t => value_eqb (get c t) (get "id" r))
                     (table_rows db target)))
      | None => VNull
      end
  end.

Definition plain_columns (specs : list column_spec) : list string :=
  flat_map (fun s => match s with Col n => [n] | Embed _ _ => [] end) specs.

Definition embedded (db : database) (table : string) (specs : list column_spec)
    (r : row) : row :=
  flat_map (fun s => match s with
                     | Col _ => []
                     | Embed target columns => [(target, embed db table target columns r)]
                     end) specs.

Definition shape (db : database) (table : string) (specs : list column_spec)
    (r : row) : row :=
  project (plain_columns specs) r ++ embedded db table specs r.

(** [.single()]: exactly one row, or an error. *)
Definition finish (single : bool) (count : option Z) (rs : list row) : result :=
  if single then
    match rs with
    | [r] => {| res_data := DRow r; res_error := None; res_count := count |}
    | _ => {| res_data := DNull;
              res_error := Some "JSON object requested, multiple (or no) rows returned";
              res_count := count |}
    end
  else {| res_data := DRows rs; res_error := None; res_count := count |}.

Definition someif {A} (b : bool) (a : A) : option A := if b then Some a else None.

(** What the store does with a query it accepts. Deleting a product
    deletes its assets (the foreign key cascades). *)
Definition run_query (q : query) (db : database) : result * database :=
  let selected := List.filter (matches_all (q_filters q)) (table_rows db (q_table q)) in
  match q_verb q with
  | Select columns count_exact head =>
      let count := someif count_exact (Z.of_nat (length selected)) in
      if head then
        ({| res_data := DNull; res_error := None; res_count := count |}, db)
      else
        let page := limit_rows (q_limit q)
                      (slice (q_range q) (sort_rows (q_orders q) selected)) in
        (finish (q_single q) count (map (shape db (q_table q) columns) page), db)
  | Insert r =>
      let stored := set "id" (VNum (num_of_Z (next_id db))) r in
      let db' := {| tables := <[q_table q := table_rows db (q_table q) ++ [stored]]> (tables db);
                    next_id := next_id db + 1 |} in
      (if q_returning q then finish (q_single q) None [stored]
       else {| res_data := DNull; res_error := None; res_count := None |}, db')
  | Update p =>
      let rs := map (fun r => if matches_all (q_filters q) r then patch p r else r)
                  (table_rows db (q_table q)) in
      (if q_returning q then finish (q_single q) None (map (patch p) selected)
       else {| res_data := DNull; res_error := None; res_count := None |},
       set_table (q_table q) rs db)
  | Delete =>
      let kept := List.filter (fun r => negb (matches_all (q_filters q) r))
                    (table_rows db (q_table q)) in
      let db' := set_table (q_table q) kept db in
      ({| res_data := DNull; res_error := None; res_count := None |},
       if String.eqb (q_table q) "products" then
         set_table "product_assets"
           (List.filter (fun a => negb (existsb (fun p => value_eqb (get "id" p) (get "product_id" a))
                                          selected))
              (table_rows db' "product_assets")) db'
       else db')
  end.

(** *** The world a handler runs in *)

Record user : Type := {
  user_id : string;
  user_email : string;
}.

(** What the platform does with the next call: serve it, answer with an
    error, or let the awaited promise reject. *)
Inductive fault : Type :=
| Healthy
| Fails (message : string)
| Rejects (e : thrown).

Inductive call : Type :=
| AuthGetUser
| AuthSignInWithPassword (email password : string)
| DbQuery (q : query)
| StorageMove (bucket from_ to_ : string)
| StorageDownload (bucket path : string)
| StorageUpload (bucket path : string) (upsert : bool)
| StorageRemove (bucket : string) (paths : list string)
| StorageList (bucket folder : string)
| StorageCreateSignedUploadUrl (bucket path : string).

Record world : Type := {
  db : database;
  files : gmap (string * string) string;   (* bucket and path to content *)
  session : option user;                   (* whom the request's cookies identify *)
  accounts : list (string * string);       (* email and password *)
  faults : list fault;                     (* one per call; none left means healthy *)
  calls : list call;                       (* the calls issued so far, oldest first *)
  console : list string;                   (* what [console.error] printed *)
  clock : Z;                               (* [Date.now()] *)
  supabase_url : string;
  upload_token : string -> string;
}.

Definition with_db (d : database) (w : world) : world :=
  {| db := d; files := files w; session := session w; accounts := accounts w;
     faults := faults w; calls := calls w; console := console w; clock := clock w;
     supabase_url := supabase_url w; upload_token := upload_token w |}.

Definition with_files (fs : gmap (string * string) string) (w : world) : world :=
  {| db := db w; files := fs; session := session w; accounts := accounts w;
     faults := faults w; calls := calls w; console := console w; clock := clock w;
     supabase_url := supabase_url w; upload_token := upload_token w |}.

(** Records the call and uses up the fault that decides it. *)
Definition issue (c : call) (w : world) : world :=
  {| db := db w; files := files w; session := session w; accounts := accounts w;
     faults := tail (faults w); calls := calls w ++ [c]; console := console w;
     clock := clock w; supabase_url := supabase_url w;
     upload_token := upload_token w |}.

Definition print (line : string) (w : world) : world :=
  {| db := db w; files := files w; session := session w; accounts := accounts w;
     faults := faults w; calls := calls w; console := console w ++ [line];
     clock := clock w; supabase_url := supabase_url w;
     upload_token := upload_token w |}.

Definition next_fault (w : world) : fault :=
  match faults w with
  | f :: _ => f
  | [] => Healthy
  end.

Definition M (A : Type) : Type := world -> outcome A * world.

Definition ret {A} (a : A) : M A := fun w => (Ret a, w).

Definition bind {A B} (m : M A) (k : A -> M B) : M B :=
  fun w =>
    match m w with
    | (Ret a, w') => k a w'
    | (Throw e, w') => (Throw e, w')
    end.

Definition throw {A} (e : thrown) : M A := fun w => (Throw e, w).

(** [try { body } catch (e) { handler }]. *)
Definition try_catch {A} (body : M A) (handler : thrown -> M A) : M A :=
  fun w =>
    match body w with
    | (Ret a, w') => (Ret a, w')
    | (Throw e, w') => handler e w'
    end.

Notation "x <- m ;; k" := (bind m (fun x => k))
  (at level 100, m at next level, right associativity).
Notation "m ;;; k" := (bind m (fun _ => k))
  (at level 100, right associativity).

(** [for (const x of xs) { body }]. *)
Fixpoint for_each {A} (xs : list A) (body : A -> M unit) : M unit :=
  match xs with
  | [] => ret tt
  | x :: rest => body x ;;; for_each rest body
  end.

(** [if (c) { body }]. *)
Definition when (c : bool) (body : M unit) : M unit :=
  if c then body else ret tt.

(** [console.error(line, ...)]. *)
Definition console_error (line : string) : M unit :=
  fun w => (Ret tt, print line w).

(** [Date.now()]. *)
Definition Date_now : M Z := fun w => (Ret (clock w), w).

(** A call to the platform: [serve] is what a healthy platform does,
    [refuse] the answer that carries an error. *)
Definition platform {A} (c : call) (serve : world -> A * world)
    (refuse : string -> A) : M A :=
  fun w =>
    let w1 := issue c w in
    match next_fault w with
    | Healthy => let (a, w2) := serve w1 in (Ret a, w2)
    | Fails message => (Ret (refuse message), w1)
    | Rejects e => (Throw e, w1)
    end.

(** [await query]. *)
Definition await (q : query) : M result :=
  platform (DbQuery q)
    (fun w => let (r, d) := run_query q (db w) in (r, with_db d w))
    failed.

(** [Promise.all] over queries: all of them are issued, in order; the
    first rejection is the rejection of the whole. *)
Fixpoint Promise_all {A} (ps : list (M A)) : M (list A) :=
  match ps with
  | [] => ret []
  | p :: rest =>
      fun w =>
        let (o, w1) := p w in
        let (os, w2) := Promise_all rest w1 in
        (match o, os with
         | Ret a, Ret l => Ret (a :: l)
         | Throw e, _ => Throw e
         | Ret _, Throw e => Throw e
         end, w2)
  end.

(** *** Sessions *)

Record user_reply : Type := {
  reply_user : option user;
  auth_error : option string;
}.

(** [supabase.auth.getUser()]. *)
Definition auth_getUser : M user_reply :=
  platform AuthGetUser
    (fun w => ({| reply_user := session w;
                  auth_error := match session w with
                                | Some _ => None
                                | None => Some "Auth session missing!"
                                end |}, w))
    (fun message => {| reply_user := None; auth_error := Some message |}).

(** [supabase.auth.signInWithPassword({ email, password })]: the error,
    if any. *)
Definition auth_signInWithPassword (email password : string) : M (option string) :=
  platform (AuthSignInWithPassword email password)
    (fun w => (if existsb (fun a => String.eqb (fst a) email && String.eqb (snd a) password)
                    (accounts w)
               then None else Some "Invalid login credentials", w))
    Some.

(** *** Object storage *)

Record reply (A : Type) : Type := {
  rep_data : option A;
  rep_error : option string;
}.
Arguments rep_data {A} r.
Arguments rep_error {A} r.

Definition ok {A} (a : A) : reply A := {| rep_data := Some a; rep_error := None |}.
Definition refused {A} (message : string) : reply A :=
  {| rep_data := None; rep_error := Some message |}.

Module Storage.

Definition move (bucket from_ to_ : string) : M (reply unit) :=
  platform (StorageMove bucket from_ to_)
    (fun w =>
       match files w !! (bucket, from_), files w !! (bucket, to_) with
       | Some content, None =>
           (ok tt, with_files (<[(bucket, to_) := content]> (delete (bucket, from_) (files w))) w)
       | None, _ => (refused "Object not found", w)
       | Some _, Some _ => (refused "The resource already exists", w)
       end)
    refused.

Definition download (bucket path : string) : M (reply string) :=
  platform (StorageDownload bucket path)
    (fun w =>
       (match files w !! (bucket, path) with
        | Some content => ok content
        | None => refused "Object not found"
        end, w))
    refused.

Definition upload (bucket path content : string) (upsert : bool) : M (reply string) :=
  platform (StorageUpload bucket path upsert)
    (fun w =>
       match files w !! (bucket, path) with
       | Some _ =>
           if upsert then (ok path, with_files (<[(bucket, path) := content]> (files w)) w)
           else (refused "The resource already exists", w)
       | None => (ok path, with_files (<[(bucket, path) := content]> (files w)) w)
       end)
    refused.

Definition remove (bucket : string) (paths : list string) : M (reply (list string)) :=
  platform (StorageRemove bucket paths)
    (fun w =>
       (ok (List.filter (fun p => bool_decide (is_Some (files w !! (bucket, p)))) paths),
        with_files (fold_right (fun p fs => delete (bucket, p) fs) (files w) paths) w))
    refused.

(** The names directly under [folder]. *)
Definition children (bucket folder : string) (fs : gmap (string * string) string)
    : list string :=
  let prefix := String.append folder "/" in
  remove_dups
    (flat_map (fun entry =>
                 let '(b, p, _) := entry in
                 if String.eqb b bucket && is_prefix_of prefix p
                 then [take_while (fun c => negb (Ascii.eqb c "/"))
                         (String.substring (String.length prefix) (String.length p) p)]
                 else [])
       (map_to_list fs)).

Definition list (bucket folder : string) : M (reply (list string)) :=
  platform (StorageList bucket folder)
    (fun w => (ok (children bucket folder (files w)), w))
    refused.

Record signed_upload : Type := {
  signedUrl : string;
  token : string;
  path : string;
}.

Definition createSignedUploadUrl (bucket path_ : string) : M (reply signed_upload) :=
  platform (StorageCreateSignedUploadUrl bucket path_)
    (fun w =>
       (match files w !! (bucket, path_) with
        | Some _ => refused "The resource already exists"
        | None =>
            ok {| signedUrl :=
                    String.append (supabase_url w)
                      (String.append "/storage/v1/object/upload/sign/"
                         (String.append bucket
                            (String.append "/"
                               (String.append path_
                                  (String.append "?token=" (upload_token w path_))))));
                  token := upload_token w path_;
                  path := path_ |}
        end, w))
    refused.

(** [getPublicUrl(path)]: no request is made. *)
Definition getPublicUrl (w : world) (bucket path_ : string) : string :=
  String.append (supabase_url w)
    (String.append "/storage/v1/object/public/"
       (String.append bucket (String.append "/" path_))).

End Storage.

(** *** Responses *)

Record response : Type := {
  status : Z;
  body : value;                       (* the value given to [JSON.stringify] *)
  headers : list (string * string);
}.

Definition json (st : Z) (b : value) : response :=
  {| status := st; body := b; headers := [("Content-Type", "application/json")] |}.

(** [{ success: false, error: message }]. *)
Definition failure (message : string) : value :=
  VObj [("success", VBool false); ("error", VStr message)].

(** [{ error: message }]. *)
Definition error_only (message : string) : value :=
  VObj [("error", VStr message)].

(** [`${n}`] for a number. Only whole numbers are interpolated by the
    code (identifiers and time stamps); a fraction is shown as a quotient. *)
Definition number_to_string (n : number) : string :=
  match n with
  | NaN => "NaN"
  | Infinity negative => if negative then "-Infinity" else "Infinity"
  | Num q =>
      match integer_of n with
      | Some z => pretty z
      | None => String.append (pretty (Qnum q)) (String.append "/" (pretty (Z.pos (Qden q))))
      end
  end.

(** The [TypeError] of reading a property of [undefined] or [null]. *)
Definition type_error (of_ property : string) : thrown :=
  JsError (String.append "Cannot read properties of "
             (String.append of_
                (String.append " (reading '" (String.append property "')")))).

(** The [TypeError] of iterating over something that is no array. *)
Definition not_iterable (what : string) : thrown :=
  JsError (String.append what " is not iterable").

(** [m.property], which throws when [m] is [undefined] or [null]. *)
Definition need {A} (property : string) (m : maybe A) : M A :=
  match m with
  | just a => ret a
  | undefined => throw (type_error "undefined" property)
  | null => throw (type_error "null" property)
  end.

(** [for (const x of m)], which throws when [m] is no array. *)
Definition need_iterable {A} (what : string) (m : maybe (list A)) : M (list A) :=
  match m with
  | just xs => ret xs
  | _ => throw (not_iterable what)
  end.

(** [row.property], which throws when the row is [null]; an array has
    no such property. *)
Definition need_row (property : string) (d : answer) : M row :=
  match d with
  | DRow r => ret r
  | DRows rs => ret []
  | DNull => throw (type_error "null" property)
  end.

(** ** [src/lib/data/admin.ts] *)

Module Admin.

Record ProductFormData : Type := {
  name : maybe string;
  slug : maybe string;
  description : maybe string;
  price : maybe number;
  stock : maybe number;
  brand : maybe string;
  category_id : maybe number;
  subcategory_id : maybe number;
  attributes : maybe row;
}.

Record File : Type := {
  file_name : string;
  file_type : string;
  file_size : number;
  file_content : string;
}.

Record upload_options : Type := {
  opt_kind : string;
  opt_section : string;
  opt_title : maybe string;
  opt_alt : maybe string;
  opt_is_primary : maybe bool;
}.

(** Lower-case Latin letters without their accents: what
    [normalize("NFD")] followed by the removal of the combining marks
    leaves of a lower-case code unit. *)
Definition strip_accent (c : ascii) : ascii :=
  if in_range 224 229 c then "a"%char
  else if (code c =? 231)%N then "c"%char
  else if in_range 232 235 c then "e"%char
  else if in_range 236 239 c then "i"%char
  else if (code c =? 241)%N then "n"%char
  else if in_range 242 246 c then "o"%char
  else if in_range 249 252 c then "u"%char
  else if (code c =? 253)%N || (code c =? 255)%N then "y"%char
  else c.

Definition is_alnum (c : ascii) : bool := is_lower c || is_digit c.

(** [s.replace(/[^a-z0-9]+/g, "-")]. *)
Fixpoint dash_runs (in_run : bool) (s : string) : string :=
  match s with
  | String c rest =>
      if is_alnum c then String c (dash_runs false rest)
      else if in_run then dash_runs true rest
      else String "-" (dash_runs true rest)
  | EmptyString => EmptyString
  end.

Definition is_dash (c : ascii) : bool := (code c =? 45)%N.

(** [s.replace(/^-+|-+$/g, "")]. *)
Fixpoint strip_trailing_dashes (s : string) : string :=
  match s with
  | String c rest =>
      match strip_trailing_dashes rest with
      | EmptyString => if is_dash c then EmptyString else String c EmptyString
      | kept => String c kept
      end
  | EmptyString => EmptyString
  end.

Definition generateSlug (name_ : string) : string :=
  String.substring 0 100
    (strip_trailing_dashes
       (drop_while is_dash
          (dash_runs false (map_string strip_accent (toLowerCase name_))))).

(** [!m?.trim()]. *)
Definition blank (m : maybe string) : bool :=
  match m with
  | just s => String.eqb (trim s) ""
  | _ => true
  end.

Definition validateProductData (data : ProductFormData) : list string :=
  (if blank (name data) then ["El nombre es requerido"]
   else match name data with
        | just s => if (200 <? Z.of_nat (String.length s))%Z
                    then ["El nombre no puede exceder 200 caracteres"] else []
        | _ => []
        end)
  ++ (if blank (slug data) then ["El slug es requerido"]
      else match slug data with
           | just s => if negb (slug_regex_test s)
                       then [text "El slug solo puede contener letras minúsculas, números y guiones"]
                       else []
           | _ => []
           end)
  ++ (match price data with
      | just p => if num_lt p (num_of_Z 0) then ["El precio no puede ser negativo"] else []
      | _ => []
      end)
  ++ (match stock data with
      | just s => if num_lt s (num_of_Z 0) then ["El stock no puede ser negativo"] else []
      | _ => []
      end)
  ++ (if negb (number_truthy (category_id data)) then [text "La categoría es requerida"] else [])
  ++ (if negb (number_truthy (subcategory_id data)) then [text "La subcategoría es requerida"] else []).

(** [m?.trim() || null]. *)
Definition trimmed_or_null (m : maybe string) : value :=
  match m with
  | just s => if String.eqb (trim s) "" then VNull else VStr (trim s)
  | _ => VNull
  end.

Definition createProduct (data : ProductFormData) : M answer :=
  existing <- await (Pg.from "products" (Pg.select [Col "id"])
                     |> Pg.eq "slug" (maybe_value VStr (slug data))
                     |> Pg.single) ;;
  if data_truthy (res_data existing) then
    throw (JsError "Ya existe un producto con ese slug")
  else
    name_ <- need "trim" (name data) ;;
    slug_ <- need "toLowerCase" (slug data) ;;
    inserted <- await (Pg.from "products"
                         (Insert [ ("name", VStr (trim name_));
                                   ("slug", VStr (trim (toLowerCase slug_)));
                                   ("description", trimmed_or_null (description data));
                                   ("price", maybe_value VNum (price data));
                                   ("stock", maybe_value VNum (stock data));
                                   ("brand", trimmed_or_null (brand data));
                                   ("category_id", maybe_value VNum (category_id data));
                                   ("subcategory_id", maybe_value VNum (subcategory_id data));
                                   ("attributes", maybe_value VObj (attributes data)) ])
                       |> Pg.returning |> Pg.single) ;;
    match res_error inserted with
    | Some message => throw (JsError (String.append "Error creating product: " message))
    | None => ret (res_data inserted)
    end.

(** [if (data.f !== undefined) updateData.f = ...]. *)
Definition assign {A} (key : string) (m : maybe A) (v : value) : row :=
  if is_undefined m then [] else [(key, v)].

Definition updateProduct (productId : number) (data : ProductFormData) : M answer :=
  (if str_truthy (slug data) then
     existing <- await (Pg.from "products" (Pg.select [Col "id"])
                        |> Pg.eq "slug" (maybe_value VStr (slug data))
                        |> Pg.neq "id" (VNum productId)
                        |> Pg.single) ;;
     if data_truthy (res_data existing) then
       throw (JsError "Ya existe otro producto con ese slug")
     else ret tt
   else ret tt) ;;;
  name_ <- (if is_undefined (name data) then ret "" else need "trim" (name data)) ;;
  slug_ <- (if is_undefined (slug data) then ret "" else need "toLowerCase" (slug data)) ;;
  let updateData :=
    assign "name" (name data) (VStr (trim name_))
    ++ assign "slug" (slug data) (VStr (trim (toLowerCase slug_)))
    ++ assign "description" (description data) (trimmed_or_null (description data))
    ++ assign "price" (price data) (maybe_value VNum (price data))
    ++ assign "stock" (stock data) (maybe_value VNum (stock data))
    ++ assign "brand" (brand data) (trimmed_or_null (brand data))
    ++ assign "category_id" (category_id data) (maybe_value VNum (category_id data))
    ++ assign "subcategory_id" (subcategory_id data) (maybe_value VNum (subcategory_id data))
    ++ assign "attributes" (attributes data) (maybe_value VObj (attributes data)) in
  updated <- await (Pg.from "products" (Update updateData)
                    |> Pg.eq "id" (VNum productId)
                    |> Pg.returning |> Pg.single) ;;
  match res_error updated with
  | Some message => throw (JsError (String.append "Error updating product: " message))
  | None => ret (res_data updated)
  end.

(** The [Map] from bucket to paths that [deleteProduct] fills, in
    insertion order. *)
Fixpoint group_add (bucket path_ : string) (groups : list (string * list string))
    : list (string * list string) :=
  match groups with
  | [] => [(bucket, [path_])]
  | (b, paths) :: rest =>
      if String.eqb b bucket then (b, paths ++ [path_]) :: rest
      else (b, paths) :: group_add bucket path_ rest
  end.

Definition bucketGroups (assets : list row) : list (string * list string) :=
  fold_left (fun groups asset =>
               group_add (as_string (get "storage_bucket" asset))
                 (as_string (get "storage_path" asset)) groups)
    assets [].

Definition deleteProduct (productId : number) : M unit :=
  assets <- await (Pg.from "product_assets"
                     (Pg.select [Col "storage_bucket"; Col "storage_path"])
                   |> Pg.eq "product_id" (VNum productId)) ;;
  (match res_data assets with
   | DRows (a :: more) =>
       for_each (bucketGroups (a :: more))
         (fun group => Storage.remove (fst group) (snd group) ;;; ret tt)
   | _ => ret tt
   end) ;;;
  deleted <- await (Pg.from "products" Delete |> Pg.eq "id" (VNum productId)) ;;
  match res_error deleted with
  | Some message => throw (JsError (String.append "Error deleting product: " message))
  | None => ret tt
  end.

(** [(lastAsset?.sort_order || 0) + 1]. *)
Definition nextSortOrder (lastAsset : answer) : number :=
  let last := match lastAsset with
              | DRow r => get "sort_order" r
              | _ => VNull
              end in
  num_add (if truthy last then as_number last else num_of_Z 0) (num_of_Z 1).

Definition asset_path (owner : number) (section : string) (timestamp : Z)
    (sanitizedName : string) : string :=
  String.append (number_to_string owner)
    (String.append "/"
       (String.append section
          (String.append "/"
             (String.append (pretty timestamp) (String.append "-" sanitizedName))))).

Definition last_sort_order (productId : number) (section : string) : query :=
  Pg.from "product_assets" (Pg.select [Col "sort_order"])
  |> Pg.eq "product_id" (VNum productId)
  |> Pg.eq "section" (VStr section)
  |> Pg.order "sort_order" false None
  |> Pg.limit 1
  |> Pg.single.

(** [update({ flag: false })] on the gallery assets of a product. *)
Definition clear_gallery_flag (flag : string) (productId : value) : query :=
  Pg.from "product_assets" (Update [(flag, VBool false)])
  |> Pg.eq "product_id" productId
  |> Pg.eq "section" (VStr "gallery").

Definition uploadProductAsset (productId : number) (file : File)
    (options : upload_options) : M answer :=
  let bucket := "products" in
  timestamp <- Date_now ;;
  let sanitizedName := sanitize_filename (file_name file) in
  let path_ := asset_path productId (opt_section options) timestamp sanitizedName in
  uploaded <- Storage.upload bucket path_ (file_content file) false ;;
  match rep_error uploaded with
  | Some message => throw (JsError (String.append "Error uploading file: " message))
  | None =>
      when (bool_truthy (opt_is_primary options) && String.eqb (opt_section options) "gallery")
        (await (clear_gallery_flag "is_primary" (VNum productId)) ;;; ret tt) ;;;
      lastAsset <- await (last_sort_order productId (opt_section options)) ;;
      inserted <- await (Pg.from "product_assets"
                           (Insert [ ("product_id", VNum productId);
                                     ("kind", VStr (opt_kind options));
                                     ("section", VStr (opt_section options));
                                     ("storage_bucket", VStr bucket);
                                     ("storage_path", VStr path_);
                                     ("title", str_or_null (opt_title options));
                                     ("alt", str_or_null (opt_alt options));
                                     ("is_primary", VBool (bool_truthy (opt_is_primary options)));
                                     ("sort_order", VNum (nextSortOrder (res_data lastAsset)));
                                     ("filename", VStr (file_name file));
                                     ("mime_type", VStr (file_type file));
                                     ("file_size_bytes", VNum (file_size file));
                                     ("is_public", VBool true) ])
                         |> Pg.returning |> Pg.single) ;;
      match res_error inserted with
      | Some message =>
          Storage.remove bucket [path_] ;;;
          throw (JsError (String.append "Error saving asset: " message))
      | None => ret (res_data inserted)
      end
  end.

Definition deleteProductAsset (assetId : number) : M unit :=
  fetched <- await (Pg.from "product_assets"
                      (Pg.select [Col "storage_bucket"; Col "storage_path"])
                    |> Pg.eq "id" (VNum assetId)
                    |> Pg.single) ;;
  match res_error fetched, res_data fetched with
  | None, DRow asset =>
      removed <- Storage.remove (as_string (get "storage_bucket" asset))
                   [as_string (get "storage_path" asset)] ;;
      when (bool_decide (is_Some (rep_error removed)))
        (console_error "Error removing from storage:") ;;;
      deleted <- await (Pg.from "product_assets" Delete |> Pg.eq "id" (VNum assetId)) ;;
      match res_error deleted with
      | Some message => throw (JsError (String.append "Error deleting asset: " message))
      | None => ret tt
      end
  | _, _ => throw (JsError "Asset not found")
  end.

(** The loop of [updateAssetOrder], from index [i]. *)
Fixpoint updateAssetOrder_from (i : Z) (productId : number) (section : string)
    (assetIds : list number) : M unit :=
  match assetIds with
  | [] => ret tt
  | assetId :: rest =>
      updated <- await (Pg.from "product_assets" (Update [("sort_order", VNum (num_of_Z i))])
                        |> Pg.eq "id" (VNum assetId)
                        |> Pg.eq "product_id" (VNum productId)
                        |> Pg.eq "section" (VStr section)) ;;
      match res_error updated with
      | Some message => throw (JsError (String.append "Error updating asset order: " message))
      | None => updateAssetOrder_from (i + 1) productId section rest
      end
  end.

Definition updateAssetOrder (productId : number) (section : string)
    (assetIds : list number) : M unit :=
  updateAssetOrder_from 0 productId section assetIds.

Definition setAssetAsPrimary (assetId : number) : M unit :=
  fetched <- await (Pg.from "product_assets" (Pg.select [Col "product_id"; Col "section"])
                    |> Pg.eq "id" (VNum assetId)
                    |> Pg.single) ;;
  match res_error fetched, res_data fetched with
  | None, DRow asset =>
      if negb (value_eqb (get "section" asset) (VStr "gallery")) then
        throw (JsError "Only gallery assets can be primary")
      else
        await (clear_gallery_flag "is_primary" (get "product_id" asset)) ;;;
        updated <- await (Pg.from "product_assets" (Update [("is_primary", VBool true)])
                          |> Pg.eq "id" (VNum assetId)) ;;
        match res_error updated with
        | Some message => throw (JsError (String.append "Error setting primary: " message))
        | None => ret tt
        end
  | _, _ => throw (JsError "Asset not found")
  end.

Definition setAssetAsSecondary (assetId : maybe number) (productId : number) : M unit :=
  await (clear_gallery_flag "is_secondary" (VNum productId)) ;;;
  if number_truthy assetId then
    updated <- await (Pg.from "product_assets" (Update [("is_secondary", VBool true)])
                      |> Pg.eq "id" (maybe_value VNum assetId)) ;;
    match res_error updated with
    | Some message => throw (JsError (String.append "Error setting secondary: " message))
    | None => ret tt
    end
  else ret tt.

(** [v || []] for an embedded list of rows. *)
Definition rows_in (v : value) : list row :=
  match v with
  | VArr items => flat_map (fun i => match i with VObj r => [r] | _ => [] end) items
  | _ => []
  end.

(** [v?.name || fallback] for an embedded row. *)
Definition name_or (v : value) (fallback : value) : value :=
  match v with
  | VObj r => if truthy (get "name" r) then get "name" r else fallback
  | _ => fallback
  end.

(** [categoryCountMap.set(k, (categoryCountMap.get(k) || 0) + 1)]. *)
Fixpoint count_up (k : string) (counts : list (string * Z)) : list (string * Z) :=
  match counts with
  | [] => [(k, 1)]
  | (k', n) :: rest =>
      if String.eqb k' k then (k', n + 1) :: rest else (k', n) :: count_up k rest
  end.

(** The thumbnail of a product row that carries its assets: the primary
    gallery asset, or else the first gallery asset. *)
Definition thumbnail_of (w : world) (p : row) : value :=
  let assets := rows_in (get "product_assets" p) in
  let in_gallery a := value_eqb (get "section" a) (VStr "gallery") in
  let primaryAsset :=
    match List.find (fun a => in_gallery a && truthy (get "is_primary" a)) assets with
    | Some a => Some a
    | None => List.find in_gallery assets
    end in
  match primaryAsset with
  | Some a =>
      if truthy (get "storage_bucket" a) && truthy (get "storage_path" a) then
        VStr (Storage.getPublicUrl w (as_string (get "storage_bucket" a))
                (as_string (get "storage_path" a)))
      else VNull
  | None => VNull
  end.

Record DashboardStats : Type := {
  totalProducts : number;
  totalCategories : number;
  totalSubcategories : number;
  totalAssets : number;
  recentProducts : list row;
  productsByCategory : list row;
}.

(** The six queries handed to [Promise.all], in the order of the array. *)
Definition dashboardQueries : list query :=
  [ Pg.from "products" Pg.count_head;
    Pg.from "categories" Pg.count_head;
    Pg.from "subcategories" Pg.count_head;
    Pg.from "product_assets" Pg.count_head;
    Pg.from "products"
      (Pg.select [ Col "id"; Col "name"; Col "slug"; Col "created_at";
                   Embed "categories" ["name"]; Embed "subcategories" ["name"];
                   Embed "product_assets"
                     ["storage_bucket"; "storage_path"; "is_primary"; "section"] ])
    |> Pg.order "created_at" false None
    |> Pg.limit 5;
    Pg.from "products" (Pg.select [Col "category_id"; Embed "categories" ["name"]])
    |> Pg.order "category_id" true None ].

Definition count_of (r : option result) : number :=
  match r with
  | Some r => match res_count r with Some n => num_of_Z n | None => num_of_Z 0 end
  | None => num_of_Z 0
  end.

Definition data_of (r : option result) : list row :=
  match r with
  | Some r => rows_of (res_data r)
  | None => []
  end.

Definition getDashboardStats : M DashboardStats :=
  results <- Promise_all (map await dashboardQueries) ;;
  let productsResult := results !! 0%nat in
  let categoriesResult := results !! 1%nat in
  let subcategoriesResult := results !! 2%nat in
  let assetsResult := results !! 3%nat in
  let recentProductsResult := results !! 4%nat in
  let productsByCategoryResult := results !! 5%nat in
  let categoryCountMap :=
    fold_left (fun counts item =>
                 count_up (as_string (name_or (get "categories" item)
                                        (VStr (text "Sin categoría")))) counts)
      (data_of productsByCategoryResult) [] in
  let productsByCategory_ :=
    map (fun entry => [("category", VStr (fst entry)); ("count", VNum (num_of_Z (snd entry)))])
      categoryCountMap in
  fun w =>
    let recentProducts_ :=
      map (fun p => [ ("id", get "id" p);
                      ("name", get "name" p);
                      ("slug", get "slug" p);
                      ("thumbnail_url", thumbnail_of w p);
                      ("category_name",
                       name_or (get "categories" p) (VStr (text "Sin categoría")));
                      ("subcategory_name", name_or (get "subcategories" p) VNull);
                      ("created_at", get "created_at" p) ])
        (data_of recentProductsResult) in
    (Ret {| totalProducts := count_of productsResult;
            totalCategories := count_of categoriesResult;
            totalSubcategories := count_of subcategoriesResult;
            totalAssets := count_of assetsResult;
            recentProducts := recentProducts_;
            productsByCategory := productsByCategory_ |}, w).

End Admin.

(** ** [src/lib/data/categories.ts] *)

Module Categories.

Record CategoryWithSubcategories : Type := {
  category : row;
  subcategories : list row;
}.

Record SubcategoryWithCategory : Type := {
  sc_category : row;
  sc_subcategory : row;
  allSubcategories : list row;
}.

Definition getCategoryAndSubcategories (categorySlug : string)
    : M (option CategoryWithSubcategories) :=
  found <- await (Pg.from "categories" (Pg.select [Col "*"])
                  |> Pg.eq "slug" (VStr categorySlug)
                  |> Pg.single) ;;
  match res_error found, res_data found with
  | None, DRow category_ =>
      subs <- await (Pg.from "subcategories" (Pg.select [Col "*"])
                     |> Pg.eq "category_id" (get "id" category_)
                     |> Pg.order "display_order" true None
                     |> Pg.order "name" true None) ;;
      match res_error subs with
      | Some _ =>
          console_error "Error fetching subcategories:" ;;;
          throw (JsError "Failed to fetch subcategories")
      | None =>
          ret (Some {| category := category_; subcategories := rows_of (res_data subs) |})
      end
  | _, _ => ret None
  end.

Definition getSubcategoryBySlugWithinCategory (categorySlug subcategorySlug : string)
    : M (option SubcategoryWithCategory) :=
  result_ <- getCategoryAndSubcategories categorySlug ;;
  match result_ with
  | None => ret None
  | Some found =>
      match List.find (fun sub => value_eqb (get "slug" sub) (VStr subcategorySlug))
              (subcategories found) with
      | None => ret None
      | Some subcategory =>
          ret (Some {| sc_category := category found;
                       sc_subcategory := subcategory;
                       allSubcategories := subcategories found |})
      end
  end.

End Categories.

(** ** [src/lib/data/products.ts] *)

Module Products.

Definition MAX_PAGE_SIZE : number := num_of_Z 50.
Definition DEFAULT_PAGE_SIZE : number := num_of_Z 2.

(** [Partial<Pagination>]. *)
Record PartialPagination : Type := {
  p_page : maybe number;
  p_pageSize : maybe number;
}.

Record Pagination : Type := {
  page : number;
  pageSize : number;
}.

(** [m || fallback] for a number field. *)
Definition number_or (m : maybe number) (fallback : number) : number :=
  match m with
  | just n => if num_truthy n then n else fallback
  | _ => fallback
  end.

Definition normalizePagination (pagination : PartialPagination) : Pagination :=
  let page0 := number_or (p_page pagination) (num_of_Z 1) in
  let pageSize0 := number_or (p_pageSize pagination) DEFAULT_PAGE_SIZE in
  let page1 := if num_lt page0 (num_of_Z 1) then num_of_Z 1 else page0 in
  let pageSize1 := if num_lt pageSize0 (num_of_Z 1) then DEFAULT_PAGE_SIZE else pageSize0 in
  let pageSize2 := if num_gt pageSize1 MAX_PAGE_SIZE then MAX_PAGE_SIZE else pageSize1 in
  {| page := page1; pageSize := pageSize2 |}.

(** A value of [AttributeFilters]: a string or an array of strings. *)
Inductive attribute_filter : Type :=
| One (v : string)
| Many (vs : list string).

Record ProductFilters : Type := {
  attributeFilters : maybe (list (string * attribute_filter));
  minPrice : maybe number;
  maxPrice : maybe number;
  inStock : maybe bool;
  sort : maybe string;
}.

(** The default value of the [filters] argument. *)
Definition no_filters : ProductFilters :=
  {| attributeFilters := just []; minPrice := undefined; maxPrice := undefined;
     inStock := undefined; sort := undefined |}.

Definition includes_dash (s : string) : bool :=
  negb (all_chars (fun c => negb (Ascii.eqb c "-")) s).

(** The body of the [forEach] over the attribute filters. *)
Definition applyAttributeFilter (query_ : query) (entry : string * attribute_filter)
    : query :=
  let (key, v) := entry in
  match v with
  | Many (v1 :: more) =>
      query_ |> Pg.or (map (fun v => Contains "attributes" [(key, VStr v)]) (v1 :: more))
  | Many [] => query_
  | One "" => query_
  | One s =>
      if includes_dash s && range_regex_test s then
        let (minStr, maxStr) := split_range s in
        let min_ := parseInt minStr None in
        let max_ := parseInt maxStr None in
        query_
        |> Pg.gte (String.append "attributes->" key) (VNum min_)
        |> Pg.lte (String.append "attributes->" key) (VNum max_)
      else if String.eqb s "true" || String.eqb s "false" then
        let spanishValue := if String.eqb s "true" then text "Sí" else "No" in
        query_ |> Pg.contains "attributes" [(key, VStr spanishValue)]
      else
        query_ |> Pg.contains "attributes" [(key, VStr s)]
  end.

Definition applySort (sort_ : maybe string) (query_ : query) : query :=
  match sort_ with
  | just "price_asc" =>
      query_ |> Pg.order "price" true (Some false) |> Pg.order "id" true None
  | just "price_desc" =>
      query_ |> Pg.order "price" false (Some false) |> Pg.order "id" true None
  | just "name_asc" =>
      query_ |> Pg.order "name" true None |> Pg.order "id" true None
  | just "name_desc" =>
      query_ |> Pg.order "name" false None |> Pg.order "id" true None
  | _ =>
      query_ |> Pg.order "created_at" false None |> Pg.order "id" false None
  end.

Definition applyFilters (query_ : query) (filters : ProductFilters) : query :=
  let q1 := if is_undefined (minPrice filters) then query_
            else query_ |> Pg.gte "price" (maybe_value VNum (minPrice filters)) in
  let q2 := if is_undefined (maxPrice filters) then q1
            else q1 |> Pg.lte "price" (maybe_value VNum (maxPrice filters)) in
  let q3 := if bool_truthy (inStock filters) then q2 |> Pg.gt "stock" (VNum (num_of_Z 0))
            else q2 in
  let q4 := match attributeFilters filters with
            | just entries => fold_left applyAttributeFilter entries q3
            | _ => q3
            end in
  applySort (sort filters) q4.

Record PaginatedProductsResponse : Type := {
  items : list row;
  r_page : number;
  r_pageSize : number;
  total : number;
  totalPages : number;
}.

(** [count || 0]. *)
Definition count_or_zero (count : option Z) : number :=
  match count with
  | Some n => num_of_Z n
  | None => num_of_Z 0
  end.

Definition page_count (total_ pageSize_ : number) : number :=
  if num_gt total_ (num_of_Z 0) then Math_ceil (num_div total_ pageSize_)
  else num_of_Z 0.

(** The query that counts the products of a category or subcategory
    under the filters. *)
Definition countQuery (column : string) (id_ : number) (filters : ProductFilters)
    : query :=
  applyFilters (Pg.from "products" Pg.count_head |> Pg.eq column (VNum id_)) filters.

(** The body shared, word for word, by [getProductsByCategory] and
    [getProductsBySubcategory]; [column] is the column filtered on and
    [what] the word in the logged line. *)
Definition getProductsBy (column what : string) (id_ : number)
    (filters : ProductFilters) (pagination : PartialPagination)
    : M PaginatedProductsResponse :=
  let normalized := normalizePagination pagination in
  counted <- await (countQuery column id_ filters) ;;
  let total_ := count_or_zero (res_count counted) in
  let totalPages_ := page_count total_ (pageSize normalized) in
  if num_gt (page normalized) totalPages_ && num_gt totalPages_ (num_of_Z 0) then
    ret {| items := []; r_page := page normalized; r_pageSize := pageSize normalized;
           total := total_; totalPages := totalPages_ |}
  else
    let offset := num_mul (num_sub (page normalized) (num_of_Z 1)) (pageSize normalized) in
    let query_ := applyFilters (Pg.from "products" (Pg.select [Col "*"])
                                |> Pg.eq column (VNum id_)) filters
                  |> Pg.range offset
                       (num_sub (num_add offset (pageSize normalized)) (num_of_Z 1)) in
    fetched <- await query_ ;;
    match res_error fetched with
    | Some _ =>
        console_error (String.append "Error fetching products by "
                         (String.append what ":")) ;;;
        throw (JsError "Failed to fetch products")
    | None =>
        ret {| items := rows_of (res_data fetched); r_page := page normalized;
               r_pageSize := pageSize normalized; total := total_;
               totalPages := totalPages_ |}
    end.

Definition getProductsByCategory (categoryId : number) (filters : ProductFilters)
    (pagination : PartialPagination) : M PaginatedProductsResponse :=
  getProductsBy "category_id" "category" categoryId filters pagination.

Definition getProductsBySubcategory (subcategoryId : number) (filters : ProductFilters)
    (pagination : PartialPagination) : M PaginatedProductsResponse :=
  getProductsBy "subcategory_id" "subcategory" subcategoryId filters pagination.

Definition getProductById (productId : number) : M (option row) :=
  found <- await (Pg.from "products" (Pg.select [Col "*"])
                  |> Pg.eq "id" (VNum productId)
                  |> Pg.single) ;;
  match res_error found, res_data found with
  | None, DRow product => ret (Some product)
  | _, _ => ret None
  end.

Definition getProductAssets (productId : number) : M (list row) :=
  found <- await (Pg.from "product_assets" (Pg.select [Col "*"])
                  |> Pg.eq "product_id" (VNum productId)
                  |> Pg.order "is_primary" false None
                  |> Pg.order "sort_order" true None) ;;
  match res_error found, res_data found with
  | None, DRows assets => ret assets
  | _, _ => ret []
  end.

Record ProductAssetsGrouped : Type := {
  gallery : list row;
  additional : list row;
  download : list row;
}.

Definition in_section (section : string) (a : row) : bool :=
  value_eqb (get "section" a) (VStr section).

Definition getProductAssetsGrouped (productId : number) : M ProductAssetsGrouped :=
  assets <- getProductAssets productId ;;
  ret {| gallery := List.filter (in_section "gallery") assets;
         additional := List.filter (in_section "additional") assets;
         download := List.filter (in_section "download") assets |}.

Record ProductFullDetails : Type := {
  fd_product : row;
  fd_category : row;
  fd_subcategory : row;
  fd_assets : ProductAssetsGrouped;
}.

(** One of the three promises [getProductFullDetailsById] hands to
    [Promise.all]. *)
Inductive detail : Type :=
| Looked (r : result)
| Grouped (g : ProductAssetsGrouped).

Definition getProductFullDetailsById (productId : number) : M (option ProductFullDetails) :=
  found <- getProductById productId ;;
  match found with
  | None => ret None
  | Some product =>
      results <- Promise_all
        [ r <- await (Pg.from "categories" (Pg.select [Col "*"])
                      |> Pg.eq "id" (get "category_id" product)
                      |> Pg.single) ;; ret (Looked r);
          r <- await (Pg.from "subcategories" (Pg.select [Col "*"])
                      |> Pg.eq "id" (get "subcategory_id" product)
                      |> Pg.single) ;; ret (Looked r);
          g <- getProductAssetsGrouped productId ;; ret (Grouped g) ] ;;
      match results with
      | [Looked categoryResult; Looked subcategoryResult; Grouped assets] =>
          match res_error categoryResult, res_data categoryResult,
                res_error subcategoryResult, res_data subcategoryResult with
          | None, DRow category, None, DRow subcategory =>
              ret (Some {| fd_product := product; fd_category := category;
                           fd_subcategory := subcategory; fd_assets := assets |})
          | _, _, _, _ => ret None
          end
      | _ => ret None
      end
  end.

(** [assetsByProduct.get(product.id) || []]: the assets of one product,
    in the order the query returned them. *)
Definition assets_of (product : row) (assets : list row) : list row :=
  List.filter (fun a => value_eqb (get "product_id" a) (get "id" product)) assets.

Definition public_url_of (w : world) (asset : option row) : value :=
  match asset with
  | Some a => VStr (Storage.getPublicUrl w (as_string (get "storage_bucket" a))
                      (as_string (get "storage_path" a)))
  | None => VNull
  end.

Definition enrichProductsWithImages (products : list row) : M (list row) :=
  match products with
  | [] => ret []
  | _ =>
      let productIds := map (get "id") products in
      found <- await (Pg.from "product_assets"
                        (Pg.select [Col "product_id"; Col "storage_bucket";
                                    Col "storage_path"; Col "is_primary"; Col "sort_order"])
                      |> Pg.in_ "product_id" productIds
                      |> Pg.eq "section" (VStr "gallery")
                      |> Pg.eq "kind" (VStr "image")
                      |> Pg.order "is_primary" false None
                      |> Pg.order "sort_order" true None) ;;
      match res_error found, res_data found with
      | None, DRows assets =>
          fun w =>
            (Ret (map (fun product =>
                         let productAssets := assets_of product assets in
                         patch [ ("primaryImageUrl",
                                  public_url_of w (productAssets !! 0%nat));
                                 ("secondaryImageUrl",
                                  public_url_of w (productAssets !! 1%nat)) ] product)
                    products), w)
      | _, _ =>
          ret (map (fun product =>
                      patch [("primaryImageUrl", VNull); ("secondaryImageUrl", VNull)] product)
                 products)
      end
  end.

End Products.

(** ** The route handlers *)

(** The JSON body of a request, as [request.json()] finds it. *)
Inductive parsed (B : Type) : Type :=
| Body (b : B)
| Malformed (e : thrown).
Arguments Body {B} b.
Arguments Malformed {B} e.

(** [await request.json()]. *)
Definition request_json {B} (payload : parsed B) : M B :=
  match payload with
  | Body b => ret b
  | Malformed e => throw e
  end.

(** The [catch] block of the category and subcategory handlers. *)
Definition catch_with_message (error : thrown) : M response :=
  ret (json 500 (failure (message_of error))).

(** The [catch] block that logs first and answers with the message. *)
Definition catch_logged_with_message (line : string) (error : thrown) : M response :=
  console_error line ;;;
  ret (json 500 (failure (message_of error))).

Definition unauthorized : response := json 401 (failure "No autorizado").

(** [src/pages/api/admin/categories/index.ts] *)
Module CategoriesIndex.

Record body : Type := {
  name : maybe string;
  slug : maybe string;
  image_url : maybe string;
}.

Definition GET_try : M response :=
  listed <- await (Pg.from "categories" (Pg.select [Col "*"])
                   |> Pg.order "name" true None) ;;
  match res_error listed with
  | Some message => throw (JsError message)
  | None =>
      ret (json 200 (VObj [ ("success", VBool true);
                            ("categories", data_value (res_data listed)) ]))
  end.

Definition GET : M response := try_catch GET_try catch_with_message.

Definition duplicate_slug : string := text "Ya existe una categoría con ese slug".

Definition POST_try (payload : parsed body) : M response :=
  auth <- auth_getUser ;;
  match reply_user auth with
  | None => ret unauthorized
  | Some _ =>
      b <- request_json payload ;;
      if Admin.blank (name b) then
        ret (json 400 (failure "El nombre es requerido"))
      else
        existing <- await (Pg.from "categories" (Pg.select [Col "id"])
                           |> Pg.eq "slug" (maybe_value VStr (slug b))
                           |> Pg.single) ;;
        if data_truthy (res_data existing) then
          ret (json 400 (failure duplicate_slug))
        else
          name_ <- need "trim" (name b) ;;
          slug_ <- need "toLowerCase" (slug b) ;;
          inserted <- await (Pg.from "categories"
                               (Insert [ ("name", VStr (trim name_));
                                         ("slug", VStr (trim (toLowerCase slug_)));
                                         ("image_url", str_or_null (image_url b)) ])
                             |> Pg.returning |> Pg.single) ;;
          match res_error inserted with
          | Some message => throw (JsError message)
          | None =>
              ret (json 201 (VObj [ ("success", VBool true);
                                    ("category", data_value (res_data inserted)) ]))
          end
  end.

Definition POST (payload : parsed body) : M response :=
  try_catch (POST_try payload) catch_with_message.

End CategoriesIndex.

(** The category route with an [id] parameter. *)
Module CategoryById.

Definition PUT_try (params_id : string) (payload : parsed CategoriesIndex.body)
    : M response :=
  let id := parseInt params_id None in
  auth <- auth_getUser ;;
  match reply_user auth with
  | None => ret unauthorized
  | Some _ =>
      b <- request_json payload ;;
      if Admin.blank (CategoriesIndex.name b) then
        ret (json 400 (failure "El nombre es requerido"))
      else
        existing <- await (Pg.from "categories" (Pg.select [Col "id"])
                           |> Pg.eq "slug" (maybe_value VStr (CategoriesIndex.slug b))
                           |> Pg.neq "id" (VNum id)
                           |> Pg.single) ;;
        if data_truthy (res_data existing) then
          ret (json 400 (failure (text "Ya existe otra categoría con ese slug")))
        else
          name_ <- need "trim" (CategoriesIndex.name b) ;;
          slug_ <- need "toLowerCase" (CategoriesIndex.slug b) ;;
          updated <- await (Pg.from "categories"
                              (Update [ ("name", VStr (trim name_));
                                        ("slug", VStr (trim (toLowerCase slug_)));
                                        ("image_url", str_or_null (CategoriesIndex.image_url b)) ])
                            |> Pg.eq "id" (VNum id)
                            |> Pg.returning |> Pg.single) ;;
          match res_error updated with
          | Some message => throw (JsError message)
          | None =>
              ret (json 200 (VObj [ ("success", VBool true);
                                    ("category", data_value (res_data updated)) ]))
          end
  end.

Definition PUT (params_id : string) (payload : parsed CategoriesIndex.body) : M response :=
  try_catch (PUT_try params_id payload) catch_with_message.

Definition has_children : string := text "No se puede eliminar: hay subcategorías asociadas".

Definition DELETE_try (params_id : string) : M response :=
  let id := parseInt params_id None in
  auth <- auth_getUser ;;
  match reply_user auth with
  | None => ret unauthorized
  | Some _ =>
      subcats <- await (Pg.from "subcategories" (Pg.select [Col "id"])
                        |> Pg.eq "category_id" (VNum id)
                        |> Pg.limit 1) ;;
      match res_data subcats with
      | DRows (_ :: _) => ret (json 400 (failure has_children))
      | _ =>
          deleted <- await (Pg.from "categories" Delete |> Pg.eq "id" (VNum id)) ;;
          match res_error deleted with
          | Some message => throw (JsError message)
          | None => ret (json 200 (VObj [("success", VBool true)]))
          end
      end
  end.

Definition DELETE (params_id : string) : M response :=
  try_catch (DELETE_try params_id) catch_with_message.

End CategoryById.

(** The subcategory collection route. *)
Module SubcategoriesIndex.

Record body : Type := {
  name : maybe string;
  slug : maybe string;
  category_id : maybe number;
  display_order : maybe number;
  filter_config : maybe (list value);
}.

(** [display_order || 0]. *)
Definition order_or_zero (m : maybe number) : value :=
  match m with
  | just n => if num_truthy n then VNum n else VNum (num_of_Z 0)
  | _ => VNum (num_of_Z 0)
  end.

(** [filter_config || []]. *)
Definition config_or_empty (m : maybe (list value)) : value :=
  match m with
  | just config => VArr config
  | _ => VArr []
  end.

Definition GET_try : M response :=
  listed <- await (Pg.from "subcategories"
                     (Pg.select [Col "*"; Embed "categories" ["name"]])
                   |> Pg.order "display_order" true None
                   |> Pg.order "name" true None) ;;
  match res_error listed with
  | Some message => throw (JsError message)
  | None =>
      ret (json 200 (VObj [ ("success", VBool true);
                            ("subcategories", data_value (res_data listed)) ]))
  end.

Definition GET : M response := try_catch GET_try catch_with_message.

Definition POST_try (payload : parsed body) : M response :=
  auth <- auth_getUser ;;
  match reply_user auth with
  | None => ret unauthorized
  | Some _ =>
      b <- request_json payload ;;
      if Admin.blank (name b) then
        ret (json 400 (failure "El nombre es requerido"))
      else if negb (number_truthy (category_id b)) then
        ret (json 400 (failure (text "La categoría es requerida")))
      else
        existing <- await (Pg.from "subcategories" (Pg.select [Col "id"])
                           |> Pg.eq "slug" (maybe_value VStr (slug b))
                           |> Pg.single) ;;
        if data_truthy (res_data existing) then
          ret (json 400 (failure (text "Ya existe una subcategoría con ese slug")))
        else
          name_ <- need "trim" (name b) ;;
          slug_ <- need "toLowerCase" (slug b) ;;
          inserted <- await (Pg.from "subcategories"
                               (Insert [ ("name", VStr (trim name_));
                                         ("slug", VStr (trim (toLowerCase slug_)));
                                         ("category_id", maybe_value VNum (category_id b));
                                         ("display_order", order_or_zero (display_order b));
                                         ("filter_config", config_or_empty (filter_config b)) ])
                             |> Pg.returning |> Pg.single) ;;
          match res_error inserted with
          | Some message => throw (JsError message)
          | None =>
              ret (json 201 (VObj [ ("success", VBool true);
                                    ("subcategory", data_value (res_data inserted)) ]))
          end
  end.

Definition POST (payload : parsed body) : M response :=
  try_catch (POST_try payload) catch_with_message.

End SubcategoriesIndex.

(** The subcategory route with an [id] parameter. *)
Module SubcategoryById.

Definition PUT_try (params_id : string) (payload : parsed SubcategoriesIndex.body)
    : M response :=
  let id := parseInt params_id None in
  auth <- auth_getUser ;;
  match reply_user auth with
  | None => ret unauthorized
  | Some _ =>
      b <- request_json payload ;;
      if Admin.blank (SubcategoriesIndex.name b) then
        ret (json 400 (failure "El nombre es requerido"))
      else
        existing <- await (Pg.from "subcategories" (Pg.select [Col "id"])
                           |> Pg.eq "slug" (maybe_value VStr (SubcategoriesIndex.slug b))
                           |> Pg.neq "id" (VNum id)
                           |> Pg.single) ;;
        if data_truthy (res_data existing) then
          ret (json 400 (failure (text "Ya existe otra subcategoría con ese slug")))
        else
          name_ <- need "trim" (SubcategoriesIndex.name b) ;;
          slug_ <- need "toLowerCase" (SubcategoriesIndex.slug b) ;;
          updated <- await (Pg.from "subcategories"
                              (Update ([ ("name", VStr (trim name_));
                                         ("slug", VStr (trim (toLowerCase slug_))) ]
                                       ++ Admin.assign "category_id"
                                            (SubcategoriesIndex.category_id b)
                                            (maybe_value VNum (SubcategoriesIndex.category_id b))
                                       ++ [ ("display_order",
                                             SubcategoriesIndex.order_or_zero
                                               (SubcategoriesIndex.display_order b));
                                            ("filter_config",
                                             SubcategoriesIndex.config_or_empty
                                               (SubcategoriesIndex.filter_config b)) ]))
                            |> Pg.eq "id" (VNum id)
                            |> Pg.returning |> Pg.single) ;;
          match res_error updated with
          | Some message => throw (JsError message)
          | None =>
              ret (json 200 (VObj [ ("success", VBool true);
                                    ("subcategory", data_value (res_data updated)) ]))
          end
  end.

Definition PUT (params_id : string) (payload : parsed SubcategoriesIndex.body)
    : M response :=
  try_catch (PUT_try params_id payload) catch_with_message.

Definition has_children : string :=
  text "No se puede eliminar: hay productos asociados. Muévelos a otra subcategoría primero.".

Definition DELETE_try (params_id : string) : M response :=
  let id := parseInt params_id None in
  auth <- auth_getUser ;;
  match reply_user auth with
  | None => ret unauthorized
  | Some _ =>
      products <- await (Pg.from "products" (Pg.select [Col "id"])
                         |> Pg.eq "subcategory_id" (VNum id)
                         |> Pg.limit 1) ;;
      match res_data products with
      | DRows (_ :: _) => ret (json 400 (failure has_children))
      | _ =>
          deleted <- await (Pg.from "subcategories" Delete |> Pg.eq "id" (VNum id)) ;;
          match res_error deleted with
          | Some message => throw (JsError message)
          | None => ret (json 200 (VObj [("success", VBool true)]))
          end
      end
  end.

Definition DELETE (params_id : string) : M response :=
  try_catch (DELETE_try params_id) catch_with_message.

End SubcategoryById.

(** The signed-upload-URL route. *)
Module UploadUrl.

(** [UploadUrlRequest]. *)
Record body : Type := {
  filename : maybe string;
  contentType : maybe string;
  section : maybe string;
  tempUploadId : maybe string;
}.

Definition validSections : list string := ["gallery"; "additional"; "download"].

Definition imageTypes : list string :=
  ["image/jpeg"; "image/png"; "image/webp"; "image/gif"].
Definition videoTypes : list string := ["video/mp4"; "video/webm"].
Definition documentTypes : list string :=
  [ "application/pdf";
    "application/zip";
    "application/msword";
    "application/vnd.openxmlformats-officedocument.wordprocessingml.document";
    "application/vnd.ms-excel";
    "application/vnd.openxmlformats-officedocument.spreadsheetml.sheet" ].

Definition allowedTypes : list (string * list string) :=
  [ ("gallery", imageTypes ++ videoTypes);
    ("additional", imageTypes ++ videoTypes);
    ("download", imageTypes ++ videoTypes ++ documentTypes) ].

(** [xs.includes(x)]. *)
Definition includes (xs : list string) (x : string) : bool :=
  existsb (String.eqb x) xs.

(** [allowedTypes[section]]. *)
Definition allowed_for (section_ : string) : option (list string) :=
  match List.find (fun entry => String.eqb (fst entry) section_) allowedTypes with
  | Some entry => Some (snd entry)
  | None => None
  end.

Definition storagePath (tempUploadId_ section_ : string) (timestamp : Z)
    (sanitizedFilename : string) : string :=
  String.append "temp/"
    (String.append tempUploadId_
       (String.append "/"
          (String.append section_
             (String.append "/"
                (String.append (pretty timestamp)
                   (String.append "-" sanitizedFilename)))))).

Definition POST_try (payload : parsed body) : M response :=
  auth <- auth_getUser ;;
  match auth_error auth, reply_user auth with
  | None, Some _ =>
      b <- request_json payload ;;
      match filename b, contentType b, section b, tempUploadId b with
      | just filename_, just contentType_, just section_, just tempUploadId_ =>
          if String.eqb filename_ "" || String.eqb contentType_ ""
             || String.eqb section_ "" || String.eqb tempUploadId_ "" then
            ret (json 400 (error_only "Faltan campos requeridos"))
          else if negb (includes validSections section_) then
            ret (json 400 (error_only (text "Sección inválida")))
          else
            allowed <- match allowed_for section_ with
                       | Some types => ret types
                       | None => throw (type_error "undefined" "includes")
                       end ;;
            if negb (includes allowed contentType_) then
              ret (json 400 (error_only
                               (String.append "Tipo de archivo no permitido para "
                                  (String.append section_
                                     (String.append ": " contentType_)))))
            else
              timestamp <- Date_now ;;
              let sanitizedFilename := sanitize_filename filename_ in
              let storagePath_ :=
                storagePath tempUploadId_ section_ timestamp sanitizedFilename in
              signed <- Storage.createSignedUploadUrl "products" storagePath_ ;;
              match rep_error signed, rep_data signed with
              | Some _, _ =>
                  console_error "Error creating signed URL:" ;;;
                  ret (json 500 (error_only "Error al crear URL de subida"))
              | None, Some d =>
                  ret (json 200 (VObj [ ("signedUrl", VStr (Storage.signedUrl d));
                                        ("token", VStr (Storage.token d));
                                        ("path", VStr storagePath_) ]))
              | None, None => throw (type_error "null" "signedUrl")
              end
      | _, _, _, _ => ret (json 400 (error_only "Faltan campos requeridos"))
      end
  | _, _ => ret (json 401 (error_only "No autorizado"))
  end.

Definition POST_catch (error : thrown) : M response :=
  console_error "Upload URL error:" ;;;
  ret (json 500 (error_only "Error interno del servidor")).

Definition POST (payload : parsed body) : M response :=
  try_catch (POST_try payload) POST_catch.

End UploadUrl.

(** The product routes: the collection ([POST]) and one product
    ([GET], [PUT], [DELETE]). *)
Module ProductRoutes.

Record UploadedFile : Type := {
  storage_path : string;
  kind : string;
  filename : string;
  mime_type : string;
  file_size_bytes : number;
  is_primary : maybe bool;
  is_secondary : maybe bool;
}.

Record uploaded_files_t : Type := {
  gallery : maybe (list UploadedFile);
  additional : maybe (list UploadedFile);
  download : maybe (list UploadedFile);
}.

Record RequestBody : Type := {
  name : maybe string;
  slug : maybe string;
  description : maybe string;
  brand : maybe string;
  price : maybe number;
  stock : maybe number;
  category_id : maybe number;
  subcategory_id : maybe number;
  attributes : maybe row;
  temp_upload_id : maybe string;
  uploaded_files : maybe uploaded_files_t;
  delete_assets : maybe (list number);
  set_primary_asset : maybe number;
  set_secondary_asset : maybe number;
}.

Definition move_failed (filename_ : string) : thrown :=
  JsError (String.append "Failed to move file: " filename_).

(** [`Error moving file ${oldPath} to ${newPath}:`]. *)
Definition move_error_line (oldPath newPath : string) : string :=
  String.append "Error moving file "
    (String.append oldPath (String.append " to " (String.append newPath ":"))).

(** The closure [moveFileAndCreateAsset] of the two handlers; it captures
    the identifier of the product ([productId] in [PUT], [product.id] in
    [POST]) and the [product] row, here its first two arguments. *)
Definition moveFileAndCreateAsset (productId : number) (product : answer)
    (file : UploadedFile) (section : string) (isPrimary isSecondary : bool) : M unit :=
  let oldPath := storage_path file in
  timestamp <- Date_now ;;
  let sanitizedName := sanitize_filename (filename file) in
  let newPath := Admin.asset_path productId section timestamp sanitizedName in
  moved <- Storage.move "products" oldPath newPath ;;
  (match rep_error moved with
   | Some _ =>
       console_error (move_error_line oldPath newPath) ;;;
       fileData <- Storage.download "products" oldPath ;;
       match rep_data fileData with
       | Some content =>
           Storage.upload "products" newPath content true ;;;
           Storage.remove "products" [oldPath] ;;;
           ret tt
       | None => throw (move_failed (filename file))
       end
   | None => ret tt
   end) ;;;
  lastAsset <- await (Admin.last_sort_order productId section) ;;
  let nextSortOrder := Admin.nextSortOrder (res_data lastAsset) in
  when isPrimary
    (await (Admin.clear_gallery_flag "is_primary" (VNum productId)) ;;; ret tt) ;;;
  when isSecondary
    (await (Admin.clear_gallery_flag "is_secondary" (VNum productId)) ;;; ret tt) ;;;
  alt <- (if String.eqb section "download" then ret VNull
          else product_ <- need_row "name" product ;; ret (get "name" product_)) ;;
  inserted <- await (Pg.from "product_assets"
                       (Insert [ ("product_id", VNum productId);
                                 ("kind", VStr (kind file));
                                 ("section", VStr section);
                                 ("storage_bucket", VStr "products");
                                 ("storage_path", VStr newPath);
                                 ("title", if String.eqb section "download"
                                           then VStr (filename file) else VNull);
                                 ("alt", alt);
                                 ("is_primary", VBool isPrimary);
                                 ("is_secondary", VBool isSecondary);
                                 ("sort_order", VNum nextSortOrder);
                                 ("filename", VStr (filename file));
                                 ("mime_type", VStr (mime_type file));
                                 ("file_size_bytes", VNum (file_size_bytes file));
                                 ("is_public", VBool true) ])) ;;
  match res_error inserted with
  | Some message =>
      console_error "Error creating asset record:" ;;;
      throw (JsError (String.append "Error saving asset: " message))
  | None => ret tt
  end.

(** [try { await moveFileAndCreateAsset(...) } catch (error) { console.error(...) }]
    for each file of one section. *)
Definition process_files (move : UploadedFile -> M unit) (line : string)
    (files_ : list UploadedFile) : M unit :=
  for_each files_ (fun file => try_catch (move file) (fun _ => console_error line)).

(** The clean-up of the temporary folder, errors ignored. *)
Definition clean_temp (temp_upload_id_ : string) : M unit :=
  try_catch
    (tempFiles <- Storage.list "products" (String.append "temp/" temp_upload_id_) ;;
     match rep_data tempFiles with
     | Some (f :: more) =>
         Storage.remove "products"
           (map (fun fname => String.append "temp/"
                                (String.append temp_upload_id_ (String.append "/" fname)))
              (f :: more)) ;;;
         ret tt
     | _ => ret tt
     end)
    (fun _ => ret tt).

Definition invalid_id : string := text "ID de producto inválido".

Definition GET_try (params_id : option string) : M response :=
  let productId := parseInt (default "" params_id) None in
  if negb (num_truthy productId) || isNaN productId then
    ret (json 400 (failure invalid_id))
  else
    found <- await (Pg.from "products"
                      (Pg.select [ Col "*"; Embed "categories" ["id"; "name"];
                                   Embed "subcategories" ["id"; "name"];
                                   Embed "product_assets" ["*"] ])
                    |> Pg.eq "id" (VNum productId)
                    |> Pg.single) ;;
    match res_error found, res_data found with
    | None, DRow product =>
        fun w =>
          let assets :=
            map (fun asset =>
                   VObj (patch [("public_url",
                                 VStr (Storage.getPublicUrl w
                                         (as_string (get "storage_bucket" asset))
                                         (as_string (get "storage_path" asset))))] asset))
              (Admin.rows_in (get "product_assets" product)) in
          (Ret (json 200 (VObj [ ("success", VBool true);
                                 ("product", VObj (patch [("product_assets", VArr assets)]
                                                     product)) ])), w)
    | _, _ => ret (json 404 (failure "Producto no encontrado"))
    end.

Definition GET_catch (error : thrown) : M response :=
  console_error "Error getting product:" ;;;
  ret (json 500 (failure "Error al obtener producto")).

Definition GET (params_id : option string) : M response :=
  try_catch (GET_try params_id) GET_catch.

(** [updateData], as the [PUT] handler fills it. *)
Definition updateData_of (b : RequestBody) : Admin.ProductFormData :=
  {| Admin.name := if str_truthy (name b) then name b else undefined;
     Admin.slug := if str_truthy (slug b) then slug b else undefined;
     Admin.description :=
       if is_undefined (description b) then undefined
       else if str_truthy (description b) then description b else null;
     Admin.price := price b;
     Admin.stock :=
       if is_undefined (stock b) then undefined
       else just (Products.number_or (stock b) (num_of_Z 0));
     Admin.brand :=
       if is_undefined (brand b) then undefined
       else if str_truthy (brand b) then brand b else null;
     Admin.category_id := if number_truthy (category_id b) then category_id b else undefined;
     Admin.subcategory_id :=
       if number_truthy (subcategory_id b) then subcategory_id b else undefined;
     Admin.attributes := match attributes b with just a => just a | _ => undefined end |}.

(** [xs] when the optional list is there, nothing otherwise. *)
Definition files_or_none {A} (m : maybe (list A)) : list A :=
  match m with just xs => xs | _ => [] end.

(** [uploaded_files?.section]. *)
Definition section_files (m : maybe uploaded_files_t)
    (pick : uploaded_files_t -> maybe (list UploadedFile)) : list UploadedFile :=
  match m with
  | just u => files_or_none (pick u)
  | _ => []
  end.

Definition PUT_try (params_id : option string) (payload : parsed RequestBody)
    : M response :=
  auth <- auth_getUser ;;
  match reply_user auth with
  | None => ret unauthorized
  | Some _ =>
      let productId := parseInt (default "" params_id) None in
      if negb (num_truthy productId) || isNaN productId then
        ret (json 400 (failure invalid_id))
      else
        b <- request_json payload ;;
        let updateData := updateData_of b in
        match Admin.validateProductData updateData with
        | e :: errors =>
            ret (json 400 (failure (String.concat ", " (e :: errors))))
        | [] =>
            product <- Admin.updateProduct productId updateData ;;
            let move := moveFileAndCreateAsset productId product in
            process_files (fun file => move file "gallery" (bool_truthy (is_primary file))
                                         (bool_truthy (is_secondary file)))
              "Error processing gallery file:"
              (section_files (uploaded_files b) gallery) ;;;
            process_files (fun file => move file "additional" false false)
              "Error processing additional file:"
              (section_files (uploaded_files b) additional) ;;;
            process_files (fun file => move file "download" false false)
              "Error processing download file:"
              (section_files (uploaded_files b) download) ;;;
            for_each (files_or_none (delete_assets b))
              (fun assetId =>
                 try_catch (Admin.deleteProductAsset assetId)
                   (fun _ => console_error "Error deleting asset:")) ;;;
            when (number_truthy (set_primary_asset b))
              (try_catch (Admin.setAssetAsPrimary
                            (match set_primary_asset b with just n => n | _ => NaN end))
                 (fun _ => console_error "Error setting primary asset:")) ;;;
            when (negb (is_undefined (set_secondary_asset b)))
              (try_catch (Admin.setAssetAsSecondary (set_secondary_asset b) productId)
                 (fun _ => console_error "Error setting secondary asset:")) ;;;
            when (str_truthy (temp_upload_id b))
              (clean_temp (match temp_upload_id b with just s => s | _ => "" end)) ;;;
            ret (json 200 (VObj [ ("success", VBool true);
                                  ("product", data_value product) ]))
        end
  end.

Definition PUT_catch : thrown -> M response :=
  catch_logged_with_message "Error updating product:".

Definition PUT (params_id : option string) (payload : parsed RequestBody) : M response :=
  try_catch (PUT_try params_id payload) PUT_catch.

Definition DELETE_try (params_id : option string) : M response :=
  auth <- auth_getUser ;;
  match reply_user auth with
  | None => ret unauthorized
  | Some _ =>
      let productId := parseInt (default "" params_id) None in
      if negb (num_truthy productId) || isNaN productId then
        ret (json 400 (failure invalid_id))
      else
        Admin.deleteProduct productId ;;;
        ret (json 200 (VObj [("success", VBool true)]))
  end.

Definition DELETE_catch : thrown -> M response :=
  catch_logged_with_message "Error deleting product:".

Definition DELETE (params_id : option string) : M response :=
  try_catch (DELETE_try params_id) DELETE_catch.

(** [productData], as the [POST] handler builds it. *)
Definition productData_of (b : RequestBody) (slug_ : string) : Admin.ProductFormData :=
  {| Admin.name := name b;
     Admin.slug := just slug_;
     Admin.description := if str_truthy (description b) then description b else null;
     Admin.price := price b;
     Admin.stock := just (Products.number_or (stock b) (num_of_Z 0));
     Admin.brand := if str_truthy (brand b) then brand b else null;
     Admin.category_id := category_id b;
     Admin.subcategory_id := subcategory_id b;
     Admin.attributes := match attributes b with just a => just a | _ => just [] end |}.

(** [slug || generateSlug(name)]. *)
Definition effective_slug (b : RequestBody) : M string :=
  match slug b with
  | just (String c rest) => ret (String c rest)
  | _ => name_ <- need "toLowerCase" (name b) ;; ret (Admin.generateSlug name_)
  end.

Definition duplicate_slug : string := "Ya existe un producto con ese slug".

Definition POST_try (payload : parsed RequestBody) : M response :=
  auth <- auth_getUser ;;
  match reply_user auth with
  | None => ret unauthorized
  | Some _ =>
      b <- request_json payload ;;
      slug_ <- effective_slug b ;;
      let productData := productData_of b slug_ in
      match Admin.validateProductData productData with
      | e :: errors =>
          ret (json 400 (failure (String.concat ", " (e :: errors))))
      | [] =>
          product <- Admin.createProduct productData ;;
          let move file section_ isPrimary isSecondary :=
            product_ <- need_row "id" product ;;
            moveFileAndCreateAsset (as_number (get "id" product_)) product
              file section_ isPrimary isSecondary in
          files_ <- need "gallery" (uploaded_files b) ;;
          gallery_ <- need_iterable "uploaded_files.gallery" (gallery files_) ;;
          process_files (fun file => move file "gallery" (bool_truthy (is_primary file))
                                       (bool_truthy (is_secondary file)))
            "Error processing gallery file:" gallery_ ;;;
          additional_ <- need_iterable "uploaded_files.additional" (additional files_) ;;
          process_files (fun file => move file "additional" false false)
            "Error processing additional file:" additional_ ;;;
          download_ <- need_iterable "uploaded_files.download" (download files_) ;;
          process_files (fun file => move file "download" false false)
            "Error processing download file:" download_ ;;;
          clean_temp (match temp_upload_id b with
                      | just s => s
                      | null => "null"
                      | undefined => "undefined"
                      end) ;;;
          ret (json 201 (VObj [ ("success", VBool true);
                                ("product", data_value product) ]))
      end
  end.

Definition POST_catch : thrown -> M response :=
  catch_logged_with_message "Error creating product:".

Definition POST (payload : parsed RequestBody) : M response :=
  try_catch (POST_try payload) POST_catch.

End ProductRoutes.

(** The public listing route ([GET] with query parameters). *)
Module ProductsListing.

Section Config.

(** [PAGE_SIZE], imported from [@/config]. *)
Variable PAGE_SIZE : number.

Definition VALID_SORT_OPTIONS : list string :=
  ["price_asc"; "price_desc"; "name_asc"; "name_desc"; "oldest"].

Definition reservedParams : list string :=
  ["categorySlug"; "subcategoria"; "page"; "pageSize"; "sort"; "minPrice"; "maxPrice";
   "inStock"].

(** [url.searchParams.get(key)]. *)
Definition searchParams_get (params : list (string * string)) (key : string)
    : option string :=
  match List.find (fun kv => String.eqb (fst kv) key) params with
  | Some kv => Some (snd kv)
  | None => None
  end.

(** A parameter that is there and not empty. *)
Definition present (raw : option string) : option string :=
  match raw with
  | Some "" => None
  | other => other
  end.

Definition sanitize_page (rawPage : option string) : number :=
  let parsedPage := match present rawPage with
                    | Some raw => parseInt raw (Some 10)
                    | None => num_of_Z 1
                    end in
  if isNaN parsedPage || num_lt parsedPage (num_of_Z 1) then num_of_Z 1 else parsedPage.

Definition sanitize_pageSize (rawPageSize : option string) : number :=
  let parsedPageSize := match present rawPageSize with
                        | Some raw => parseInt raw (Some 10)
                        | None => PAGE_SIZE
                        end in
  if isNaN parsedPageSize || num_lt parsedPageSize (num_of_Z 1)
     || num_gt parsedPageSize (num_of_Z 50)
  then PAGE_SIZE else parsedPageSize.

Definition sanitize_sort (rawSort : option string) : maybe string :=
  match present rawSort with
  | Some raw => if UploadUrl.includes VALID_SORT_OPTIONS raw then just raw else undefined
  | None => undefined
  end.

Definition sanitize_price (raw : option string) : maybe number :=
  match present raw with
  | Some raw =>
      let parsed := parseFloat raw in
      if negb (isNaN parsed) && number_leb (num_of_Z 0) parsed then just parsed
      else undefined
  | None => undefined
  end.

(** One step of the [forEach] that collects the attribute filters. *)
Fixpoint add_attribute (key v : string)
    (collected : list (string * Products.attribute_filter))
    : list (string * Products.attribute_filter) :=
  match collected with
  | [] => [(key, Products.One v)]
  | (k, old) :: rest =>
      if String.eqb k key then
        (k, match old with
            | Products.Many vs => Products.Many (vs ++ [v])
            | Products.One first => Products.Many [first; v]
            end) :: rest
      else (k, old) :: add_attribute key v rest
  end.

Definition collect_attributes (params : list (string * string))
    : list (string * Products.attribute_filter) :=
  fold_left (fun collected kv =>
               if negb (UploadUrl.includes reservedParams (fst kv))
                  && negb (String.eqb (snd kv) "")
               then add_attribute (fst kv) (snd kv) collected
               else collected)
    params [].

Definition attribute_value (f : Products.attribute_filter) : value :=
  match f with
  | Products.One v => VStr v
  | Products.Many vs => VArr (map VStr vs)
  end.

(** [n || null] for a number that may be absent. *)
Definition number_or_null (m : maybe number) : value :=
  match m with
  | just n => if num_truthy n then VNum n else VNull
  | _ => VNull
  end.

Definition listing (productsResponse : Products.PaginatedProductsResponse)
    (enrichedProducts : list row) (category : row) (currentSubcategory : option row)
    (subcategorySlug : option string) (page_ pageSize_ : number)
    (filters : Products.ProductFilters) : value :=
  VObj [ ("items", VArr (map VObj enrichedProducts));
         ("page", VNum (Products.r_page productsResponse));
         ("pageSize", VNum (Products.r_pageSize productsResponse));
         ("total", VNum (Products.total productsResponse));
         ("totalPages", VNum (Products.totalPages productsResponse));
         ("category", VObj [ ("id", get "id" category);
                             ("name", get "name" category);
                             ("slug", get "slug" category) ]);
         ("subcategory",
          match currentSubcategory with
          | Some sub => VObj [ ("id", get "id" sub);
                               ("name", get "name" sub);
                               ("slug", get "slug" sub);
                               ("filter_config", get "filter_config" sub) ]
          | None => VNull
          end);
         ("appliedFilters",
          VObj [ ("subcategorySlug",
                  match present subcategorySlug with Some s => VStr s | None => VNull end);
                 ("page", VNum page_);
                 ("pageSize", VNum pageSize_);
                 ("sort", str_or_null (Products.sort filters));
                 ("attributeFilters",
                  VObj (map (fun kv => (fst kv, attribute_value (snd kv)))
                          (match Products.attributeFilters filters with
                           | just entries => entries
                           | _ => []
                           end)));
                 ("minPrice", number_or_null (Products.minPrice filters));
                 ("maxPrice", number_or_null (Products.maxPrice filters));
                 ("inStock", VBool (bool_truthy (Products.inStock filters))) ]) ].

Definition GET_try (params : list (string * string)) : M response :=
  let categorySlug := searchParams_get params "categorySlug" in
  let subcategorySlug := searchParams_get params "subcategoria" in
  let page_ := sanitize_page (searchParams_get params "page") in
  let pageSize_ := sanitize_pageSize (searchParams_get params "pageSize") in
  let sort_ := sanitize_sort (searchParams_get params "sort") in
  let minPrice_ := sanitize_price (searchParams_get params "minPrice") in
  let maxPrice_ := sanitize_price (searchParams_get params "maxPrice") in
  let inStock_ := match searchParams_get params "inStock" with
                  | Some "true" => true
                  | _ => false
                  end in
  match present categorySlug with
  | None => ret (json 400 (error_only "categorySlug is required"))
  | Some categorySlug_ =>
      categoryData <- Categories.getCategoryAndSubcategories categorySlug_ ;;
      match categoryData with
      | None => ret (json 404 (error_only "Category not found"))
      | Some found =>
          let category := Categories.category found in
          let filters :=
            {| Products.attributeFilters := just (collect_attributes params);
               Products.minPrice := minPrice_;
               Products.maxPrice := maxPrice_;
               Products.inStock := if inStock_ then just true else undefined;
               Products.sort := sort_ |} in
          let pagination := {| Products.p_page := just page_;
                               Products.p_pageSize := just pageSize_ |} in
          let respond productsResponse currentSubcategory :=
            enrichedProducts <- Products.enrichProductsWithImages
                                  (Products.items productsResponse) ;;
            ret (json 200 (listing productsResponse enrichedProducts category
                             currentSubcategory subcategorySlug page_ pageSize_ filters)) in
          match present subcategorySlug with
          | Some subcategorySlug_ =>
              subcategoryData <- Categories.getSubcategoryBySlugWithinCategory
                                   categorySlug_ subcategorySlug_ ;;
              match subcategoryData with
              | None =>
                  ret (json 404
                         (error_only "Subcategory not found or does not belong to this category"))
              | Some within =>
                  let currentSubcategory := Categories.sc_subcategory within in
                  productsResponse <- Products.getProductsBySubcategory
                                        (as_number (get "id" currentSubcategory))
                                        filters pagination ;;
                  respond productsResponse (Some currentSubcategory)
              end
          | None =>
              productsResponse <- Products.getProductsByCategory
                                    (as_number (get "id" category)) filters pagination ;;
              respond productsResponse None
          end
      end
  end.

Definition GET_catch (error : thrown) : M response :=
  console_error "API error:" ;;;
  ret (json 500 (error_only "Internal server error")).

Definition GET (params : list (string * string)) : M response :=
  try_catch (GET_try params) GET_catch.

End Config.

End ProductsListing.

(** [src/pages/api/auth/signin.ts] *)
Module Signin.

(** [{ success, message }], sent without headers. *)
Definition answer_with (st : Z) (success : bool) (message : string) : response :=
  {| status := st;
     body := VObj [("success", VBool success); ("message", VStr message)];
     headers := [] |}.

(** [formData.get(key)?.toString()]. *)
Definition form_get (form : list (string * string)) (key : string) : option string :=
  match List.find (fun kv => String.eqb (fst kv) key) form with
  | Some kv => Some (snd kv)
  | None => None
  end.

Definition POST_try (payload : parsed (list (string * string))) : M response :=
  formData <- request_json payload ;;
  match ProductsListing.present (form_get formData "email"),
        ProductsListing.present (form_get formData "password") with
  | Some email, Some password =>
      error <- auth_signInWithPassword email password ;;
      match error with
      | Some message => ret (answer_with 400 false message)
      | None =>
          ret {| status := 200;
                 body := VObj [ ("success", VBool true);
                                ("message", VStr (text "Sesión iniciada correctamente"));
                                ("redirect", VStr "/admin") ];
                 headers := [] |}
      end
  | _, _ => ret (answer_with 400 false (text "Email y contraseña son requeridos"))
  end.

Definition POST_catch (error : thrown) : M response :=
  console_error "Error en login:" ;;;
  ret (answer_with 500 false "Error inesperado").

Definition POST (payload : parsed (list (string * string))) : M response :=
  try_catch (POST_try payload) POST_catch.

End Signin.

(** ** The category page ([CategoryPageShell], [src/stores/productsStore.ts]) *)

Module CategoryPage.

(** A value that is thrown, or that a promise rejects with: whether it is
    an instance of [Error], its name and its message. *)
Record exception : Type := {
  instanceof_Error : bool;
  e_name : string;
  e_message : string;
}.

(** [new Error(message)]. *)
Definition Error_ (message : string) : exception :=
  {| instanceof_Error := true; e_name := "Error"; e_message := message |}.

(** The [TypeError] of reading a property of [null]. *)
Definition TypeError_null (property : string) : exception :=
  {| instanceof_Error := true; e_name := "TypeError";
     e_message := String.append "Cannot read properties of null (reading '"
                    (String.append property "')") |}.

(** [ProductsState]: the fields that come from the answer of the API
    hold what the answer has under their name, [None] when it has
    nothing; [error] is a message or [null]. *)
Record ProductsState : Type := {
  items : option value;
  page : option value;
  pageSize : option value;
  total : option value;
  totalPages : option value;
  isLoading : bool;
  error : option string;
}.

Definition initialProductsState : ProductsState :=
  {| items := Some (VArr []);
     page := Some (VNum (num_of_Z 1));
     pageSize := Some (VNum (num_of_Z 24));
     total := Some VNull;
     totalPages := Some VNull;
     isLoading := false;
     error := None |}.

(** [FiltersState]; [attributeFilters] is given by its entries, in the
    order of [Object.entries]. *)
Record FiltersState : Type := {
  categorySlug : string;
  subcategorySlug : option string;
  f_page : number;
  f_pageSize : number;
  sort : option string;
  attributeFilters : list (string * (string + list string));
  minPrice : option number;
  maxPrice : option number;
  inStock : bool;
}.

(** A value of a search parameter: a string, or the decimal form of a
    number ([n.toString()]). *)
Inductive param : Type :=
| Text (s : string)
| Decimal (n : number).

(** [URLSearchParams]: the pairs, in order. *)
Abbreviation URLSearchParams := (list (string * param)).

(** [params.append(name, value)]. *)
Definition append_param (name : string) (v : param) (params : URLSearchParams)
    : URLSearchParams :=
  params ++ [(name, v)].

(** [params.set(name, value)]: the first pair of that name takes the
    value and the others of that name go; without one, the pair is
    appended. *)
Fixpoint set_param (name : string) (v : param) (params : URLSearchParams)
    : URLSearchParams :=
  match params with
  | [] => [(name, v)]
  | (name', v') :: rest =>
      if String.eqb name' name
      then (name, v) :: List.filter (fun p => negb (String.eqb (fst p) name)) rest
      else (name', v') :: set_param name v rest
  end.

(** The parameters that [fetchProducts] builds for [/api/products]. *)
Definition apiParams (category_slug : string) (filters : FiltersState) : URLSearchParams :=
  let params := set_param "categorySlug" (Text category_slug) [] in
  let params := match subcategorySlug filters with
                | Some (String c s) => set_param "subcategoria" (Text (String c s)) params
                | _ => params
                end in
  let params := set_param "page" (Decimal (f_page filters)) params in
  let params := set_param "pageSize" (Decimal (f_pageSize filters)) params in
  let params := match sort filters with
                | Some (String c s) => set_param "sort" (Text (String c s)) params
                | _ => params
                end in
  let params := fold_left
                  (fun params entry =>
                     match snd entry with
                     | inr values =>
                         fold_left (fun params v => append_param (fst entry) (Text v) params)
                           values params
                     | inl v => set_param (fst entry) (Text v) params
                     end)
                  (attributeFilters filters) params in
  let params := match minPrice filters with
                | Some n => set_param "minPrice" (Decimal n) params
                | None => params
                end in
  let params := match maxPrice filters with
                | Some n => set_param "maxPrice" (Decimal n) params
                | None => params
                end in
  if inStock filters then set_param "inStock" (Text "true") params else params.

(** A request sent with [fetch]: its parameters and the controller whose
    signal it carries. *)
Record request : Type := {
  r_params : URLSearchParams;
  r_signal : nat;
}.

(** What the component holds across its renders and the calls of
    [fetchProducts]: the two refs, the products store, and, of the
    browser, the controllers created and aborted so far and the requests
    sent. *)
Record shell : Type := {
  requestIdRef : Z;
  abortControllerRef : option nat;
  productsStore : ProductsState;
  controllers : nat;
  aborted : list nat;
  sent : list request;
}.

(** [controller.abort()]; a second call does nothing. *)
Definition abort (controller : nat) (s : shell) : shell :=
  {| requestIdRef := requestIdRef s;
     abortControllerRef := abortControllerRef s;
     productsStore := productsStore s;
     controllers := controllers s;
     aborted := if existsb (Nat.eqb controller) (aborted s) then aborted s
                else aborted s ++ [controller];
     sent := sent s |}.

(** [productsStore.set(state)]. *)
Definition set_store (state : ProductsState) (s : shell) : shell :=
  {| requestIdRef := requestIdRef s;
     abortControllerRef := abortControllerRef s;
     productsStore := state;
     controllers := controllers s;
     aborted := aborted s;
     sent := sent s |}.

(** What a call of [fetchProducts] keeps in its own variables. *)
Record call_ : Type := {
  currentRequestId : Z;
  controller : nat;
}.

(** [fetchProducts], up to its first [await]: the controller of the call
    before is aborted, a new one is made and kept in the ref, the request
    counter is advanced, the store is set to loading and the request is
    sent. *)
Definition fetchProducts (category_slug : string) (filters : FiltersState) (s : shell)
    : call_ * shell :=
  let s := match abortControllerRef s with
           | Some previous => abort previous s
           | None => s
           end in
  let controller_ := controllers s in
  let currentRequestId_ := requestIdRef s + 1 in
  let previous_ := productsStore s in
  ({| currentRequestId := currentRequestId_; controller := controller_ |},
   {| requestIdRef := currentRequestId_;
      abortControllerRef := Some controller_;
      productsStore := {| items := items previous_; page := page previous_;
                          pageSize := pageSize previous_; total := total previous_;
                          totalPages := totalPages previous_;
                          isLoading := true; error := None |};
      controllers := S controller_;
      aborted := aborted s;
      sent := sent s ++ [{| r_params := apiParams category_slug filters;
                            r_signal := controller_ |}] |}).

(** The [catch] block. *)
Definition fetchProducts_catch (c : call_) (e : exception) (s : shell) : shell :=
  if instanceof_Error e && String.eqb (e_name e) "AbortError" then s
  else if negb (currentRequestId c =? requestIdRef s)%Z then s
  else
    let previous_ := productsStore s in
    set_store {| items := items previous_; page := page previous_;
                 pageSize := pageSize previous_; total := total previous_;
                 totalPages := totalPages previous_;
                 isLoading := false;
                 error := Some (if instanceof_Error e then e_message e
                                else "Error desconocido") |} s.

(** The answer of [fetch]: [response.ok], [response.status] and
    [response.statusText]. *)
Record Response : Type := {
  ok : bool;
  status_ : number;
  statusText : string;
}.

(** What a promise settles with. *)
Inductive settled (A : Type) : Type :=
| Fulfilled (a : A)
| Rejected (e : exception).
Arguments Fulfilled {A} a.
Arguments Rejected {A} e.

(** [fetchProducts] from the moment its [fetch] settles to its next
    [await], or to its end: [true] when it goes on to await
    [response.json()]. *)
Definition fetchProducts_fetched (c : call_) (response : settled Response) (s : shell)
    : bool * shell :=
  match response with
  | Rejected e => (false, fetchProducts_catch c e s)
  | Fulfilled response =>
      if negb (currentRequestId c =? requestIdRef s)%Z then (false, s)
      else if negb (ok response) then
        (false,
         fetchProducts_catch c
           (Error_ (String.append "Error "
                      (String.append (number_to_string (status_ response))
                         (String.append ": " (statusText response))))) s)
      else (true, s)
  end.

(** [data.name] for a parsed answer that is not [null]: an object has
    the field or not, and any other value has no such property. *)
Definition property_of (data : value) (name : string) : option value :=
  match data with
  | VObj fields_ =>
      match List.find (fun kv => String.eqb (fst kv) name) fields_ with
      | Some kv => Some (snd kv)
      | None => None
      end
  | _ => None
  end.

(** [fetchProducts] from the moment [response.json()] settles to its
    end; reading [data.items] throws when the answer is [null]. *)
Definition fetchProducts_parsed (c : call_) (data : settled value) (s : shell) : shell :=
  match data with
  | Rejected e => fetchProducts_catch c e s
  | Fulfilled data =>
      if negb (currentRequestId c =? requestIdRef s)%Z then s
      else
        match data with
        | VNull => fetchProducts_catch c (TypeError_null "items") s
        | _ =>
            set_store {| items := property_of data "items";
                         page := property_of data "page";
                         pageSize := property_of data "pageSize";
                         total := property_of data "total";
                         totalPages := property_of data "totalPages";
                         isLoading := false; error := None |} s
        end
  end.

(** Where a call of [fetchProducts] stands. *)
Inductive stage : Type :=
| AwaitsFetch
| AwaitsJson
| Returned.

(** What happens to the page: the effect calls [fetchProducts], or the
    promise that the call started [k]-th (from 0) awaits settles. *)
Inductive event : Type :=
| Calls (filters : FiltersState)
| FetchSettles (k : nat) (response : settled Response)
| JsonSettles (k : nat) (data : settled value).

(** The page and the calls of [fetchProducts] made so far, in the order
    they started. *)
Definition page_state : Type := shell * list (call_ * stage).

(** One event; a promise that no call awaits settles for nobody. *)
Definition step (category_slug : string) (ev : event) (st : page_state) : page_state :=
  let (s, calls_) := st in
  match ev with
  | Calls filters =>
      let (c, s') := fetchProducts category_slug filters s in
      (s', calls_ ++ [(c, AwaitsFetch)])
  | FetchSettles k response =>
      match calls_ !! k with
      | Some (c, AwaitsFetch) =>
          let (goes_on, s') := fetchProducts_fetched c response s in
          (s', <[k := (c, if goes_on then AwaitsJson else Returned)]> calls_)
      | _ => st
      end
  | JsonSettles k data =>
      match calls_ !! k with
      | Some (c, AwaitsJson) =>
          (fetchProducts_parsed c data s, <[k := (c, Returned)]> calls_)
      | _ => st
      end
  end.

(** The events, one after the other. *)
Definition run (category_slug : string) (evs : list event) (st : page_state) : page_state :=
  fold_left (fun st ev => step category_slug ev st) evs st.

End CategoryPage.

(** ** A small store, used to run the handlers on concrete requests *)

Module Sample.

Definition int (z : Z) : value := VNum (num_of_Z z).

Definition admin : user := {| user_id := "u-1"; user_email := "admin@galur.test" |}.

Definition categories : list row :=
  [ [("id", int 1); ("name", VStr "Camas"); ("slug", VStr "camas"); ("image_url", VNull)] ].

Definition subcategories : list row :=
  [ [("id", int 2); ("category_id", int 1); ("name", VStr "Literas");
     ("slug", VStr "literas"); ("filter_config", VArr []); ("display_order", int 0)] ].

Definition products : list row :=
  [ [("id", int 3); ("subcategory_id", int 2); ("category_id", int 1);
     ("name", VStr "Litera Roble"); ("slug", VStr "litera-roble");
     ("description", VNull); ("price", int 100); ("stock", int 5);
     ("brand", VNull); ("attributes", VObj [])] ].

Definition assets : list row :=
  [ [("id", int 4); ("product_id", int 3); ("kind", VStr "image");
     ("section", VStr "gallery"); ("storage_bucket", VStr "products");
     ("storage_path", VStr "3/gallery/1-frente.jpg");
     ("is_primary", VBool true); ("is_secondary", VBool false); ("sort_order", int 1)];
    [("id", int 5); ("product_id", int 3); ("kind", VStr "image");
     ("section", VStr "gallery"); ("storage_bucket", VStr "products");
     ("storage_path", VStr "3/gallery/2-lado.jpg");
     ("is_primary", VBool false); ("is_secondary", VBool true); ("sort_order", int 2)] ].

Definition store : database :=
  {| tables := <["categories" := categories]>
                 (<["subcategories" := subcategories]>
                    (<["products" := products]>
                       (<["product_assets" := assets]> ∅)));
     next_id := 6 |}.

Definition signed_in : world :=
  {| db := store;
     files := <[("products", "3/gallery/1-frente.jpg") := "jpeg-1"]>
                (<[("products", "3/gallery/2-lado.jpg") := "jpeg-2"]> ∅);
     session := Some admin;
     accounts := [("admin@galur.test", "secret")];
     faults := [];
     calls := [];
     console := [];
     clock := 1700000000000;
     supabase_url := "https://galur.supabase.co";
     upload_token := fun path_ => "token" |}.

Definition with_session (s : option user) (w : world) : world :=
  {| db := db w; files := files w; session := s; accounts := accounts w;
     faults := faults w; calls := calls w; console := console w; clock := clock w;
     supabase_url := supabase_url w; upload_token := upload_token w |}.

Definition with_faults (fs : list fault) (w : world) : world :=
  {| db := db w; files := files w; session := session w; accounts := accounts w;
     faults := fs; calls := calls w; console := console w; clock := clock w;
     supabase_url := supabase_url w; upload_token := upload_token w |}.

Definition anonymous : world := with_session None signed_in.

(** A category whose slug is taken. *)
Definition category_body : CategoriesIndex.body :=
  {| CategoriesIndex.name := just "Camas de roble";
     CategoriesIndex.slug := just "camas";
     CategoriesIndex.image_url := undefined |}.

(** A product whose slug is taken. *)
Definition product_body : ProductRoutes.RequestBody :=
  {| ProductRoutes.name := just "Litera Roble";
     ProductRoutes.slug := just "litera-roble";
     ProductRoutes.description := undefined;
     ProductRoutes.brand := undefined;
     ProductRoutes.price := just (num_of_Z 120);
     ProductRoutes.stock := just (num_of_Z 2);
     ProductRoutes.category_id := just (num_of_Z 1);
     ProductRoutes.subcategory_id := just (num_of_Z 2);
     ProductRoutes.attributes := undefined;
     ProductRoutes.temp_upload_id := undefined;
     ProductRoutes.uploaded_files := undefined;
     ProductRoutes.delete_assets := undefined;
     ProductRoutes.set_primary_asset := undefined;
     ProductRoutes.set_secondary_asset := undefined |}.

Definition upload_body : UploadUrl.body :=
  {| UploadUrl.filename := just "frente 1.jpg";
     UploadUrl.contentType := just "image/jpeg";
     UploadUrl.section := just "gallery";
     UploadUrl.tempUploadId := just "t1" |}.

(** A file that was never uploaded to its temporary path. *)
Definition temp_file : ProductRoutes.UploadedFile :=
  {| ProductRoutes.storage_path := "temp/t1/gallery/1-frente.jpg";
     ProductRoutes.kind := "image";
     ProductRoutes.filename := "frente.jpg";
     ProductRoutes.mime_type := "image/jpeg";
     ProductRoutes.file_size_bytes := num_of_Z 1024;
     ProductRoutes.is_primary := just true;
     ProductRoutes.is_secondary := undefined |}.

(** The product as the cart holds it. *)
Definition litera : Cart.CartItemData :=
  {| Cart.d_id := 3; Cart.d_name := "Litera Roble"; Cart.d_slug := "litera-roble";
     Cart.d_brand := None; Cart.d_description := None; Cart.d_image_url := None |}.

Definition far_page : Products.PartialPagination :=
  {| Products.p_page := just (num_of_Z 7); Products.p_pageSize := just (num_of_Z 500) |}.

End Sample.

(** ** Vocabulary of the properties *)

(** The platform serves every call: no fault is scheduled. *)
Definition healthy (w : world) : Prop := faults w = [].

(** A query that only reads. *)
Definition is_read (q : query) : bool :=
  match q_verb q with
  | Select _ _ _ => true
  | _ => false
  end.

(** The rows with a given slug. *)
Definition with_slug (s : string) (rows : list row) : list row :=
  List.filter (fun r => value_eqb (get "slug" r) (VStr s)) rows.

(** The rows whose [column] refers to [id]. *)
Definition referring (column : string) (id : number) (rows : list row) : list row :=
  List.filter (fun r => value_eqb (get column r) (VNum id)) rows.

Definition is_delete (c : call) : bool :=
  match c with
  | DbQuery q => match q_verb q with Delete => true | _ => false end
  | _ => false
  end.

Definition is_insert (c : call) : bool :=
  match c with
  | DbQuery q => match q_verb q with Insert _ => true | _ => false end
  | _ => false
  end.

Definition is_storage (c : call) : bool :=
  match c with
  | StorageMove _ _ _ | StorageDownload _ _ | StorageUpload _ _ _
  | StorageRemove _ _ | StorageList _ _ | StorageCreateSignedUploadUrl _ _ => true
  | _ => false
  end.

(** The calls issued between two worlds of one run. *)
Definition issued (w w' : world) (cs : list call) : Prop :=
  calls w' = calls w ++ cs.

(** A field of a request that is absent, [null] or empty. *)
Definition missing (m : maybe string) : Prop :=
  m = undefined \/ m = null \/ m = just "".

(** The routes of the API, each with what the framework hands to it. *)
Inductive route : Type :=
| GetCategories
| PostCategory (payload : parsed CategoriesIndex.body)
| PutCategory (params_id : string) (payload : parsed CategoriesIndex.body)
| DeleteCategory (params_id : string)
| GetSubcategories
| PostSubcategory (payload : parsed SubcategoriesIndex.body)
| PutSubcategory (params_id : string) (payload : parsed SubcategoriesIndex.body)
| DeleteSubcategory (params_id : string)
| PostUploadUrl (payload : parsed UploadUrl.body)
| GetProduct (params_id : option string)
| PutProduct (params_id : option string) (payload : parsed ProductRoutes.RequestBody)
| DeleteProduct (params_id : option string)
| PostProduct (payload : parsed ProductRoutes.RequestBody)
| ListProducts (PAGE_SIZE : number) (params : list (string * string))
| PostSignin (payload : parsed (list (string * string))).

(** The exported handler of a route. *)
Definition handler (r : route) : M response :=
  match r with
  | GetCategories => CategoriesIndex.GET
  | PostCategory payload => CategoriesIndex.POST payload
  | PutCategory params_id payload => CategoryById.PUT params_id payload
  | DeleteCategory params_id => CategoryById.DELETE params_id
  | GetSubcategories => SubcategoriesIndex.GET
  | PostSubcategory payload => SubcategoriesIndex.POST payload
  | PutSubcategory params_id payload => SubcategoryById.PUT params_id payload
  | DeleteSubcategory params_id => SubcategoryById.DELETE params_id
  | PostUploadUrl payload => UploadUrl.POST payload
  | GetProduct params_id => ProductRoutes.GET params_id
  | PutProduct params_id payload => ProductRoutes.PUT params_id payload
  | DeleteProduct params_id => ProductRoutes.DELETE params_id
  | PostProduct payload => ProductRoutes.POST payload
  | ListProducts PAGE_SIZE params => ProductsListing.GET PAGE_SIZE params
  | PostSignin payload => Signin.POST payload
  end.

(** The [try] block of the handler of a route. *)
Definition try_block (r : route) : M response :=
  match r with
  | GetCategories => CategoriesIndex.GET_try
  | PostCategory payload => CategoriesIndex.POST_try payload
  | PutCategory params_id payload => CategoryById.PUT_try params_id payload
  | DeleteCategory params_id => CategoryById.DELETE_try params_id
  | GetSubcategories => SubcategoriesIndex.GET_try
  | PostSubcategory payload => SubcategoriesIndex.POST_try payload
  | PutSubcategory params_id payload => SubcategoryById.PUT_try params_id payload
  | DeleteSubcategory params_id => SubcategoryById.DELETE_try params_id
  | PostUploadUrl payload => UploadUrl.POST_try payload
  | GetProduct params_id => ProductRoutes.GET_try params_id
  | PutProduct params_id payload => ProductRoutes.PUT_try params_id payload
  | DeleteProduct params_id => ProductRoutes.DELETE_try params_id
  | PostProduct payload => ProductRoutes.POST_try payload
  | ListProducts PAGE_SIZE params => ProductsListing.GET_try PAGE_SIZE params
  | PostSignin payload => Signin.POST_try payload
  end.

(** The line a handler prints when its [catch] block runs, if any. *)
Definition logged_line (r : route) : option string :=
  match r with
  | PostUploadUrl _ => Some "Upload URL error:"
  | GetProduct _ => Some "Error getting product:"
  | PutProduct _ _ => Some "Error updating product:"
  | DeleteProduct _ => Some "Error deleting product:"
  | PostProduct _ => Some "Error creating product:"
  | ListProducts _ _ => Some "API error:"
  | PostSignin _ => Some "Error en login:"
  | _ => None
  end.

(** The body a handler answers with when its [catch] block runs: a fixed
    message, or the message of what was thrown. *)
Definition caught_body (r : route) (e : thrown) : value :=
  match r with
  | PostUploadUrl _ => error_only "Error interno del servidor"
  | GetProduct _ => failure "Error al obtener producto"
  | ListProducts _ _ => error_only "Internal server error"
  | PostSignin _ => VObj [("success", VBool false); ("message", VStr "Error inesperado")]
  | _ => failure (message_of e)
  end.

(** What the [catch] block of a route leaves behind when it runs on [e]
    from the world [w1]: a 500 with the body of the route, the store and
    the calls untouched, and the line of the route, if it has one, on the
    console. *)
Definition caught (r : route) (e : thrown) (w1 : world) (resp : response) (w' : world)
    : Prop :=
  status resp = 500
  /\ body resp = caught_body r e
  /\ headers resp = match r with
                    | PostSignin _ => []
                    | _ => [("Content-Type", "application/json")]
                    end
  /\ db w' = db w1
  /\ calls w' = calls w1
  /\ console w' = console w1 ++ match logged_line r with
                                | Some line => [line]
                                | None => []
                                end.

(** A call that only reads the tables. *)
Definition is_read_call (c : call) : bool :=
  match c with
  | DbQuery q => is_read q
  | _ => false
  end.

(** A call that writes to the tables. *)
Definition is_write_call (c : call) : bool :=
  match c with
  | DbQuery q => negb (is_read q)
  | _ => false
  end.

(** The rows of the assets. *)
Definition assets (d : database) : list row := table_rows d "product_assets".

(** An asset is a primary gallery asset of product [pid]. *)
Definition is_primary_of (pid : value) (a : row) : bool :=
  value_eqb (get "product_id" a) pid
  && value_eqb (get "section" a) (VStr "gallery")
  && value_eqb (get "is_primary" a) (VBool true).

(** At most one of the rows is a primary gallery asset of each product. *)
Definition unique_primary (rows : list row) : Prop :=
  forall pid : value, (length (List.filter (is_primary_of pid) rows) <= 1)%nat.

(** At most one gallery asset of each product is primary. *)
Definition one_primary (d : database) : Prop := unique_primary (assets d).

(** The operations on assets: those of [admin.ts] and the closure of the
    product handlers. *)
Inductive asset_op : Type :=
| UploadProductAsset (productId : number) (file : Admin.File)
    (options : Admin.upload_options)
| DeleteProductAsset (assetId : number)
| UpdateAssetOrder (productId : number) (section : string) (assetIds : list number)
| SetAssetAsPrimary (assetId : number)
| SetAssetAsSecondary (assetId : maybe number) (productId : number)
| MoveFileAndCreateAsset (productId : number) (product : answer)
    (file : ProductRoutes.UploadedFile) (section : string) (isPrimary isSecondary : bool).

Definition run_asset_op (op : asset_op) : M unit :=
  match op with
  | UploadProductAsset productId file options =>
      Admin.uploadProductAsset productId file options ;;; ret tt
  | DeleteProductAsset assetId => Admin.deleteProductAsset assetId
  | UpdateAssetOrder productId section assetIds =>
      Admin.updateAssetOrder productId section assetIds
  | SetAssetAsPrimary assetId => Admin.setAssetAsPrimary assetId
  | SetAssetAsSecondary assetId productId => Admin.setAssetAsSecondary assetId productId
  | MoveFileAndCreateAsset productId product file section isPrimary isSecondary =>
      ProductRoutes.moveFileAndCreateAsset productId product file section
        isPrimary isSecondary
  end.

(** [l1] is an initial segment of [l2]. *)
Definition initial_segment {A} (l1 l2 : list A) : Prop :=
  exists rest, l2 = l1 ++ rest.

(** The fetch, the clearing and the flagging of [setAssetAsPrimary]. *)
Definition fetch_asset (assetId : number) : query :=
  Pg.from "product_assets" (Pg.select [Col "product_id"; Col "section"])
  |> Pg.eq "id" (VNum assetId) |> Pg.single.

Definition flag_primary (assetId : number) : query :=
  Pg.from "product_assets" (Update [("is_primary", VBool true)])
  |> Pg.eq "id" (VNum assetId).

Definition primary_calls (assetId : number) (pv : value) : list call :=
  [ DbQuery (fetch_asset assetId);
    DbQuery (Admin.clear_gallery_flag "is_primary" pv);
    DbQuery (flag_primary assetId) ].

(** The writes of [moveFileAndCreateAsset]: the clearings, then the
    insertion of [new]. *)
Definition asset_writes (productId : number) (isPrimary isSecondary : bool) (new : row)
    : list call :=
  (if isPrimary then [DbQuery (Admin.clear_gallery_flag "is_primary" (VNum productId))] else [])
  ++ (if isSecondary then [DbQuery (Admin.clear_gallery_flag "is_secondary" (VNum productId))]
      else [])
  ++ [DbQuery (Pg.from "product_assets" (Insert new))].

(** ** Reasoning about runs *)

(** A computation that issues no call to the object storage. *)
Definition off_storage {A} (m : M A) : Prop :=
  forall w o w', m w = (o, w') ->
    exists cs, calls w' = calls w ++ cs /\ List.filter is_storage cs = [].

(** From a world in [P], the computation ends in [Q] when it returns and
    in [E] when it throws. *)
Definition hoare {A} (P : world -> Prop) (m : M A) (Q : A -> world -> Prop)
    (E : world -> Prop) : Prop :=
  forall w, P w ->
    match m w with
    | (Ret a, w') => Q a w'
    | (Throw _, w') => E w'
    end.

(** The platform is healthy and the assets satisfy [I]. *)
Definition serving (I : list row -> Prop) (w : world) : Prop :=
  healthy w /\ I (assets (db w)).

(** No gallery asset of product [p] is primary. *)
Definition cleared (p : value) (rows : list row) : Prop :=
  forall pid : value, value_eqb p pid = true -> List.filter (is_primary_of pid) rows = [].

(** The assets are unique, and cleared for [p] when [b] holds. *)
Definition ready (b : bool) (p : value) (rows : list row) : Prop :=
  unique_primary rows /\ (b = true -> cleared p rows).

(** The rows of the assets after a query on that table. *)
Definition assets_after (q : query) (d : database) : list row :=
  match q_verb q with
  | Select _ _ _ => assets d
  | Insert r => assets d ++ [set "id" (VNum (num_of_Z (next_id d))) r]
  | Update p => map (fun r => if matches_all (q_filters q) r then patch p r else r) (assets d)
  | Delete => List.filter (fun r => negb (matches_all (q_filters q) r)) (assets d)
  end.

Definition has_id (aid : number) (r : row) : bool := value_eqb (get "id" r) (VNum aid).

(** The filters of [clear_gallery_flag]. *)
Definition in_gallery_of (p : value) (r : row) : bool :=
  value_eqb (get "product_id" r) p && value_eqb (get "section" r) (VStr "gallery").

Definition clear_primary (p : value) (rows : list row) : list row :=
  map (fun r => if in_gallery_of p r then patch [("is_primary", VBool false)] r else r) rows.

Definition set_primary (aid : number) (rows : list row) : list row :=
  map (fun r => if has_id aid r then patch [("is_primary", VBool true)] r else r) rows.

(** Every run of [m] issues calls whose selection by [sel] is [L] when
    [m] returns, and an initial segment of [L] when it throws. *)
Definition emits (sel : call -> bool) (L : list call) {A} (m : M A) : Prop :=
  forall w o w', m w = (o, w') ->
    exists cs, calls w' = calls w ++ cs
               /\ match o with
                  | Ret _ => List.filter sel cs = L
                  | Throw _ => initial_segment (List.filter sel cs) L
                  end.

(** Every run of [m] issues calls whose selection satisfies [G]. *)
Definition calls_in (sel : call -> bool) (G : list call -> Prop) {A} (m : M A) : Prop :=
  forall w o w', m w = (o, w') ->
    exists cs, calls w' = calls w ++ cs /\ G (List.filter sel cs).

(** Every run of [m] leaves the tables and the stored objects as they
    were, and issues only reading queries. *)
Definition reads_only {A} (m : M A) : Prop :=
  forall w o w', m w = (o, w') ->
    db w' = db w /\ files w' = files w
    /\ exists cs, calls w' = calls w ++ cs /\ Forall (fun c => is_read_call c = true) cs.

(** ** Further vocabulary *)

(** [$cartCount]: the sum of the quantities.  The sum of whole
    quantities does not depend on the order of [Object.values]. *)
Definition cartCount (c : Cart.cart) : number :=
  foldr (fun item total => num_add total (Cart.quantity item)) (num_of_Z 0)
    (map snd (map_to_list c)).

(** [Math.min(99, Math.max(1, n))] on whole numbers: what [clampQuantity]
    makes of them. *)
Definition clampZ (n : Z) : Z := Z.min 99 (Z.max 1 n).

(** The characters of a sanitized file name. *)
Definition safe_char (c : ascii) : bool := filename_char c || Ascii.eqb c "_".

(** A string that does not begin with a dash. *)
Definition no_leading_dash (s : string) : bool :=
  match s with
  | String c _ => negb (Admin.is_dash c)
  | EmptyString => true
  end.

(** The routes that change the store or the storage. *)
Definition guarded (r : route) : bool :=
  match r with
  | PostCategory _ | PutCategory _ _ | DeleteCategory _
  | PostSubcategory _ | PutSubcategory _ _ | DeleteSubcategory _
  | PostUploadUrl _ | PutProduct _ _ | DeleteProduct _ | PostProduct _ => true
  | _ => false
  end.

(** The row that an insertion stores. *)
Definition stored (d : database) (r : row) : row :=
  set "id" (VNum (num_of_Z (next_id d))) r.

Definition after_insert (t : string) (r : row) (d : database) : database :=
  {| tables := <[t := table_rows d t ++ [stored d r]]> (tables d);
     next_id := next_id d + 1 |}.

(** The row that [createProduct] inserts. *)
Definition product_row (data : Admin.ProductFormData) (name_ slug_ : string) : row :=
  [ ("name", VStr (trim name_));
    ("slug", VStr (trim (toLowerCase slug_)));
    ("description", Admin.trimmed_or_null (Admin.description data));
    ("price", maybe_value VNum (Admin.price data));
    ("stock", maybe_value VNum (Admin.stock data));
    ("brand", Admin.trimmed_or_null (Admin.brand data));
    ("category_id", maybe_value VNum (Admin.category_id data));
    ("subcategory_id", maybe_value VNum (Admin.subcategory_id data));
    ("attributes", maybe_value VObj (Admin.attributes data)) ].

(** A computation that never throws. *)
Definition returns {A} (m : M A) : Prop :=
  forall w, exists a w', m w = (Ret a, w').

(** The row that [POST /api/admin/categories] inserts. *)
Definition category_row (b : CategoriesIndex.body) (n s : string) : row :=
  [ ("name", VStr (trim n));
    ("slug", VStr (trim (toLowerCase s)));
    ("image_url", str_or_null (CategoriesIndex.image_url b)) ].

(** The rows with a given slug and another identifier. *)
Definition others_with_slug (s : string) (id : number) (rows : list row) : list row :=
  List.filter (fun r => value_eqb (get "slug" r) (VStr s)
                        && negb (is_null (get "id" r))
                        && negb (value_eqb (get "id" r) (VNum id))) rows.

(** The subcategories of a category, as [getCategoryAndSubcategories]
    reads them. *)
Definition subcategories_of (c : row) (d : database) : list row :=
  sort_rows [ {| order_column := "display_order"; ascending := true; nullsFirst := None |};
              {| order_column := "name"; ascending := true; nullsFirst := None |} ]
    (List.filter (fun r => value_eqb (get "category_id" r) (get "id" c))
       (table_rows d "subcategories")).

(** The asset [aid] of the product, in the section. *)
Definition in_place (productId : number) (section : string) (aid : number) (r : row)
    : bool :=
  value_eqb (get "id" r) (VNum aid)
  && value_eqb (get "product_id" r) (VNum productId)
  && value_eqb (get "section" r) (VStr section).

(** What the updates of [updateAssetOrder], from index [i], make of a
    row. *)
Fixpoint reordered (productId : number) (section : string) (i : Z) (assetIds : list number)
    (r : row) : row :=
  match assetIds with
  | [] => r
  | aid :: rest =>
      reordered productId section (i + 1) rest
        (if in_place productId section aid r
         then patch [("sort_order", VNum (num_of_Z i))] r else r)
  end.

Definition order_update (productId : number) (section : string) (i : Z) (aid : number)
    : query :=
  Pg.from "product_assets" (Update [("sort_order", VNum (num_of_Z i))])
  |> Pg.eq "id" (VNum aid)
  |> Pg.eq "product_id" (VNum productId)
  |> Pg.eq "section" (VStr section).

Fixpoint order_updates (productId : number) (section : string) (i : Z)
    (assetIds : list number) : list call :=
  match assetIds with
  | [] => []
  | aid :: rest =>
      DbQuery (order_update productId section i aid)
      :: order_updates productId section (i + 1) rest
  end.

(** The files that one [remove] call per group deletes. *)
Definition without_groups (groups : list (string * list string))
    (fs : gmap (string * string) string) : gmap (string * string) string :=
  fold_left (fun fs g => fold_right (fun p fs => delete (fst g, p) fs) fs (snd g)) groups fs.

(** The asset is stored as the file [path_] of [bucket]. *)
Definition stored_at (bucket path_ : string) (a : row) : Prop :=
  get "storage_bucket" a = VStr bucket /\ get "storage_path" a = VStr path_.

(** More requests on the sample store. *)
Module Requests.

(** A product that is not in the store yet, sent without its files. *)
Definition new_product : ProductRoutes.RequestBody :=
  {| ProductRoutes.name := just "Cama Nido";
     ProductRoutes.slug := just "cama-nido";
     ProductRoutes.description := undefined;
     ProductRoutes.brand := undefined;
     ProductRoutes.price := just (num_of_Z 80);
     ProductRoutes.stock := just (num_of_Z 1);
     ProductRoutes.category_id := just (num_of_Z 1);
     ProductRoutes.subcategory_id := just (num_of_Z 2);
     ProductRoutes.attributes := undefined;
     ProductRoutes.temp_upload_id := undefined;
     ProductRoutes.uploaded_files := undefined;
     ProductRoutes.delete_assets := undefined;
     ProductRoutes.set_primary_asset := undefined;
     ProductRoutes.set_secondary_asset := undefined |}.

(** The same product, sent with three empty lists of files. *)
Definition new_product_with_files : ProductRoutes.RequestBody :=
  {| ProductRoutes.name := just "Cama Nido";
     ProductRoutes.slug := just "cama-nido";
     ProductRoutes.description := undefined;
     ProductRoutes.brand := undefined;
     ProductRoutes.price := just (num_of_Z 80);
     ProductRoutes.stock := just (num_of_Z 1);
     ProductRoutes.category_id := just (num_of_Z 1);
     ProductRoutes.subcategory_id := just (num_of_Z 2);
     ProductRoutes.attributes := undefined;
     ProductRoutes.temp_upload_id := undefined;
     ProductRoutes.uploaded_files :=
       just {| ProductRoutes.gallery := just [];
               ProductRoutes.additional := just [];
               ProductRoutes.download := just [] |};
     ProductRoutes.delete_assets := undefined;
     ProductRoutes.set_primary_asset := undefined;
     ProductRoutes.set_secondary_asset := undefined |}.

(** A product with a negative price. *)
Definition negative_price : ProductRoutes.RequestBody :=
  {| ProductRoutes.name := just "Cama Nido";
     ProductRoutes.slug := just "cama-nido";
     ProductRoutes.description := undefined;
     ProductRoutes.brand := undefined;
     ProductRoutes.price := just (num_of_Z (-5));
     ProductRoutes.stock := just (num_of_Z 1);
     ProductRoutes.category_id := just (num_of_Z 1);
     ProductRoutes.subcategory_id := just (num_of_Z 2);
     ProductRoutes.attributes := undefined;
     ProductRoutes.temp_upload_id := undefined;
     ProductRoutes.uploaded_files := undefined;
     ProductRoutes.delete_assets := undefined;
     ProductRoutes.set_primary_asset := undefined;
     ProductRoutes.set_secondary_asset := undefined |}.

(** A category whose slug differs from a stored one by its case only. *)
Definition shouted_category : CategoriesIndex.body :=
  {| CategoriesIndex.name := just "Camas de roble";
     CategoriesIndex.slug := just "CAMAS";
     CategoriesIndex.image_url := undefined |}.

(** A category without a name. *)
Definition nameless_category : CategoriesIndex.body :=
  {| CategoriesIndex.name := just "  ";
     CategoriesIndex.slug := just "camas";
     CategoriesIndex.image_url := undefined |}.

(** The sample store with a second, empty category and a second, empty
    subcategory. *)
Definition with_empty_places : world :=
  with_db
    (set_table "categories"
       (Sample.categories
        ++ [[("id", Sample.int 7); ("name", VStr "Mesas"); ("slug", VStr "mesas");
             ("image_url", VNull)]])
       (set_table "subcategories"
          (Sample.subcategories
           ++ [[("id", Sample.int 8); ("category_id", Sample.int 7); ("name", VStr "Altas");
                ("slug", VStr "altas"); ("filter_config", VArr []);
                ("display_order", Sample.int 0)]])
          Sample.store))
    Sample.signed_in.

(** A new picture for the sample product. *)
Definition picture : Admin.File :=
  {| Admin.file_name := "detalle 3.jpg";
     Admin.file_type := "image/jpeg";
     Admin.file_size := num_of_Z 2048;
     Admin.file_content := "jpeg-3" |}.

Definition as_primary : Admin.upload_options :=
  {| Admin.opt_kind := "image";
     Admin.opt_section := "gallery";
     Admin.opt_title := undefined;
     Admin.opt_alt := undefined;
     Admin.opt_is_primary := just true |}.

(** The product of the sample store, sent again with three empty lists
    of files. *)
Definition taken_product : ProductRoutes.RequestBody :=
  {| ProductRoutes.name := just "Litera Roble";
     ProductRoutes.slug := just "litera-roble";
     ProductRoutes.description := undefined;
     ProductRoutes.brand := undefined;
     ProductRoutes.price := just (num_of_Z 120);
     ProductRoutes.stock := just (num_of_Z 2);
     ProductRoutes.category_id := just (num_of_Z 1);
     ProductRoutes.subcategory_id := just (num_of_Z 2);
     ProductRoutes.attributes := undefined;
     ProductRoutes.temp_upload_id := undefined;
     ProductRoutes.uploaded_files :=
       just {| ProductRoutes.gallery := just [];
               ProductRoutes.additional := just [];
               ProductRoutes.download := just [] |};
     ProductRoutes.delete_assets := undefined;
     ProductRoutes.set_primary_asset := undefined;
     ProductRoutes.set_secondary_asset := undefined |}.

(** The sample store on a day when the platform answers the second call
    it gets with an error and serves the others. *)
Definition second_call_refused : world :=
  Sample.with_faults [Healthy; Fails "connection reset"] Sample.signed_in.

(** The filters of a page that shows a category, unfiltered. *)
Definition plain_filters : CategoryPage.FiltersState :=
  {| CategoryPage.categorySlug := "camas";
     CategoryPage.subcategorySlug := None;
     CategoryPage.f_page := num_of_Z 1;
     CategoryPage.f_pageSize := num_of_Z 2;
     CategoryPage.sort := None;
     CategoryPage.attributeFilters := [];
     CategoryPage.minPrice := None;
     CategoryPage.maxPrice := None;
     CategoryPage.inStock := false |}.

(** The page when it has just been shown. *)
Definition fresh_page : CategoryPage.page_state :=
  ({| CategoryPage.requestIdRef := 0;
      CategoryPage.abortControllerRef := None;
      CategoryPage.productsStore := CategoryPage.initialProductsState;
      CategoryPage.controllers := 0;
      CategoryPage.aborted := [];
      CategoryPage.sent := [] |}, []).

(** An answer of the listing: the product of the sample store. *)
Definition listing_answer : value :=
  VObj [ ("items", VArr (map VObj Sample.products));
         ("page", VNum (num_of_Z 1)); ("pageSize", VNum (num_of_Z 2));
         ("total", VNum (num_of_Z 1)); ("totalPages", VNum (num_of_Z 1)) ].

(** The response that carries it. *)
Definition listing_response : CategoryPage.Response :=
  {| CategoryPage.ok := true; CategoryPage.status_ := num_of_Z 200;
     CategoryPage.statusText := "OK" |}.

End Requests.

(** The numbers that [fetchProducts] gives to [n] calls in a row, the
    counter standing at [from]. *)
Definition request_ids (from : Z) (n : nat) : list Z :=
  map (fun i : nat => from + Z.of_nat (S i)) (seq 0 n).

(** The calls of [fetchProducts] made so far are numbered in the order
    they started, the counter holds the last number, the ref holds the
    controller of the last call, and the controllers of the calls before
    it are aborted. *)
Definition in_order (from : Z) (st : CategoryPage.page_state) : Prop :=
  let cs := map fst (snd st) in
  map CategoryPage.currentRequestId cs = request_ids from (length cs)
  /\ CategoryPage.requestIdRef (fst st) = from + Z.of_nat (length cs)
  /\ (forall c, last cs = Some c ->
                CategoryPage.abortControllerRef (fst st) = Some (CategoryPage.controller c))
  /\ (forall k c, cs !! k = Some c -> (S k < length cs)%nat ->
                  In (CategoryPage.controller c) (CategoryPage.aborted (fst st))).

(** * Properties *)

(** ** The cart *)

(** *** Numbers *)

(** The quotient is the rounded one: 17 over the binary64 nearest to 1.7
    is 10, where the exact quotient lies above 10. *)
Lemma rounded_quotient :
  binary64 (17 # 10) = Num (7656119366529843 # 4503599627370496)
  /\ num_div (num_of_Z 17) (binary64 (17 # 10)) = num_of_Z 10
  /\ (10 < 17 / (7656119366529843 # 4503599627370496))%Q
  /\ num_div (num_of_Z 1) (num_of_Z 3) = Num (6004799503160661 # 18014398509481984)
  /\ num_div (num_of_Z 6) (num_of_Z 3) = num_of_Z 2.
Proof. repeat split; vm_compute; reflexivity. Qed.

Lemma Qred_inject_Z (z : Z) : Qred (inject_Z z) = inject_Z z.
Proof.
  unfold Qred, inject_Z.
  pose proof (Z.ggcd_gcd z 1) as Hg. pose proof (Z.ggcd_correct_divisors z 1) as Hd.
  destruct (Z.ggcd z 1) as [g [a b]]. simpl in *. rewrite Z.gcd_1_r in Hg. subst g.
  destruct Hd as [Ha Hb]. rewrite Z.mul_1_l in Ha, Hb. subst. reflexivity.
Qed.

Lemma num_add_int (a b : Z) : num_add (num_of_Z a) (num_of_Z b) = num_of_Z (a + b).
Proof.
  unfold num_add, num_of_Z. f_equal.
  rewrite <- (Qred_inject_Z (a + b)). apply Qred_complete.
  rewrite inject_Z_plus. reflexivity.
Qed.

Lemma num_sub_int (a b : Z) : num_sub (num_of_Z a) (num_of_Z b) = num_of_Z (a - b).
Proof.
  unfold num_sub, num_of_Z. f_equal.
  rewrite <- (Qred_inject_Z (a - b)). apply Qred_complete.
  unfold Z.sub. rewrite inject_Z_plus, inject_Z_opp. reflexivity.
Qed.

Lemma num_lt_int (a b : Z) : num_lt (num_of_Z a) (num_of_Z b) = (a <? b)%Z.
Proof.
  unfold num_lt, num_of_Z.
  destruct (Z.ltb_spec a b) as [H|H].
  - apply negb_true_iff. apply not_true_iff_false. rewrite Qle_bool_iff, <- Zle_Qle. lia.
  - apply negb_false_iff. rewrite Qle_bool_iff, <- Zle_Qle. lia.
Qed.

Lemma num_lt_Num (p q : Q) : num_lt (Num p) (Num q) = true <-> (p < q)%Q.
Proof.
  unfold num_lt. rewrite negb_true_iff, <- not_true_iff_false, Qle_bool_iff.
  split; [apply Qnot_le_lt | apply Qlt_not_le].
Qed.

Lemma num_lt_Num_false (p q : Q) : num_lt (Num p) (Num q) = false <-> (q <= p)%Q.
Proof. unfold num_lt. rewrite negb_false_iff. apply Qle_bool_iff. Qed.

Lemma clampQuantity_range (value : number) : int_between 1 99 (Cart.clampQuantity value).
Proof.
  unfold Cart.clampQuantity, Cart.MIN_QUANTITY, Cart.MAX_QUANTITY.
  destruct value as [|[]|q]; simpl isNaN; cbn [orb].
  - exists 1. split; [reflexivity | lia].
  - exists 1. split; [reflexivity | lia].
  - exists 99. split; [reflexivity | lia].
  - destruct (num_lt (Num q) (num_of_Z 1)) eqn:Hlo.
    + exists 1. split; [reflexivity | lia].
    + unfold num_gt. destruct (num_lt (num_of_Z 99) (Num q)) eqn:Hhi.
      * exists 99. split; [reflexivity | lia].
      * exists (Qfloor q). split; [reflexivity|].
        apply num_lt_Num_false in Hlo, Hhi.
        apply Qfloor_resp_le in Hlo, Hhi. rewrite Qfloor_Z in Hlo, Hhi. lia.
Qed.

Lemma quantities_ok_insert (c : gmap string Cart.CartItem) k item :
  Cart.quantities_ok c -> int_between 1 99 (Cart.quantity item) ->
  Cart.quantities_ok (<[k := item]> c).
Proof.
  intros Hc Hitem k' item' Hlook.
  apply lookup_insert_Some in Hlook as [[_ <-] | [_ Hold]]; [assumption | eauto].
Qed.

Lemma get_property_own (c : gmap string Cart.CartItem) (k : string) (item : Cart.CartItem) :
  c !! k = Some item -> Cart.get_property c k = Cart.Own item.
Proof. intros H. unfold Cart.get_property. rewrite H. reflexivity. Qed.

Lemma get_property_Own (c : gmap string Cart.CartItem) (k : string) (item : Cart.CartItem) :
  Cart.get_property c k = Cart.Own item -> c !! k = Some item.
Proof.
  unfold Cart.get_property. destruct (c !! k) as [item'|]; [congruence|].
  destruct (existsb _ _); discriminate.
Qed.

Lemma quantity_spread (found : Cart.property) (q : number) :
  Cart.quantity (Cart.spread_with_quantity found q) = q.
Proof. destruct found; reflexivity. Qed.

Lemma apply_op_keeps_quantities (op : Cart.cart_op) (c : gmap string Cart.CartItem) :
  Cart.quantities_ok c -> Cart.quantities_ok (Cart.apply_op op c).
Proof.
  intros Hc. destruct op as [product q | productId | productId | productId q | productId |];
    simpl.
  - unfold Cart.addToCart. cbv zeta.
    destruct (Cart.found_truthy _);
      apply quantities_ok_insert; auto; rewrite ?quantity_spread; apply clampQuantity_range.
  - unfold Cart.increaseQuantity. cbv zeta.
    destruct (Cart.found_truthy _); [|assumption].
    apply quantities_ok_insert; auto; rewrite quantity_spread; apply clampQuantity_range.
  - unfold Cart.decreaseQuantity. cbv zeta.
    destruct (Cart.get_property c productId) as [item| |] eqn:Hfound;
      cbn [Cart.found_truthy Cart.quantity_of andb]; try assumption.
    apply get_property_Own in Hfound.
    destruct (num_gt (Cart.quantity item) Cart.MIN_QUANTITY) eqn:Hgt; [|assumption].
    apply quantities_ok_insert; auto; simpl.
    destruct (Hc _ _ Hfound) as (n & Hn & Hrange).
    rewrite Hn in Hgt |- *. unfold num_gt, Cart.MIN_QUANTITY in Hgt.
    rewrite num_lt_int in Hgt. apply Z.ltb_lt in Hgt.
    rewrite num_sub_int. exists (n - 1). split; [reflexivity | lia].
  - unfold Cart.setQuantity. cbv zeta.
    destruct (Cart.found_truthy _); [|assumption].
    apply quantities_ok_insert; auto; rewrite quantity_spread; apply clampQuantity_range.
  - unfold Cart.removeFromCart. intros k item Hlook.
    apply lookup_delete_Some in Hlook as [_ Hold]. eauto.
  - unfold Cart.clearCart. intros k item Hlook. rewrite lookup_empty in Hlook. discriminate.
Qed.

(** C7: [clampQuantity] returns an integer between 1 and 99 for every
    number, [NaN] and the infinities included, and each of the six cart
    operations keeps every stored quantity an integer between 1 and 99. *)
Theorem cart_quantities_stay_in_range :
  (forall value : number, int_between 1 99 (Cart.clampQuantity value)) /\
  (forall (op : Cart.cart_op) (c : gmap string Cart.CartItem),
      Cart.quantities_ok c -> Cart.quantities_ok (Cart.apply_op op c)).
Proof. split; [exact clampQuantity_range | exact apply_op_keeps_quantities]. Qed.

(** ** The category and subcategory handlers *)

(** *** The monad *)

Lemma bind_ret {A B} (m : M A) (k : A -> M B) w a w' :
  m w = (Ret a, w') -> bind m k w = k a w'.
Proof. intros H. unfold bind. rewrite H. reflexivity. Qed.

Lemma bind_throw {A B} (m : M A) (k : A -> M B) w e w' :
  m w = (Throw e, w') -> bind m k w = (Throw e, w').
Proof. intros H. unfold bind. rewrite H. reflexivity. Qed.

Lemma try_catch_ret {A} (body_ : M A) h w a w' :
  body_ w = (Ret a, w') -> try_catch body_ h w = (Ret a, w').
Proof. intros H. unfold try_catch. rewrite H. reflexivity. Qed.

Lemma try_catch_throw {A} (body_ : M A) h w e w' :
  body_ w = (Throw e, w') -> try_catch body_ h w = h e w'.
Proof. intros H. unfold try_catch. rewrite H. reflexivity. Qed.

(** *** A healthy platform *)

Lemma healthy_next w : healthy w -> next_fault w = Healthy.
Proof. unfold healthy, next_fault. intros ->. reflexivity. Qed.

Lemma healthy_issue c w : healthy w -> healthy (issue c w).
Proof. unfold healthy. intros H. simpl. rewrite H. reflexivity. Qed.

Lemma run_query_read q d : is_read q = true -> snd (run_query q d) = d.
Proof.
  unfold is_read, run_query. destruct (q_verb q) as [cols ce hd| | |]; try discriminate.
  intros _. destruct hd; reflexivity.
Qed.

Lemma with_db_same w : with_db (db w) w = w.
Proof. destruct w. reflexivity. Qed.

Lemma await_read q w :
  next_fault w = Healthy -> is_read q = true ->
  await q w = (Ret (fst (run_query q (db w))), issue (DbQuery q) w).
Proof.
  intros Hn Hr. unfold await, platform. rewrite Hn. cbv beta.
  change (db (issue (DbQuery q) w)) with (db w).
  pose proof (run_query_read q (db w) Hr) as Hs.
  destruct (run_query q (db w)) as [r d]. simpl in Hs. subst d.
  destruct w. reflexivity.
Qed.

Lemma getUser_healthy w :
  next_fault w = Healthy ->
  auth_getUser w =
    (Ret {| reply_user := session w;
            auth_error := match session w with
                          | Some _ => None
                          | None => Some "Auth session missing!"
                          end |}, issue AuthGetUser w).
Proof. intros Hn. unfold auth_getUser, platform. rewrite Hn. reflexivity. Qed.

Lemma filter_ext_eq {A} (f g : A -> bool) l :
  (forall x, f x = g x) -> List.filter f l = List.filter g l.
Proof. intros H. induction l as [|x l IH]; simpl; [reflexivity|]. rewrite H, IH. reflexivity. Qed.

Lemma select_by_slug (s : string) (c : row) (d : database) (t : string) :
  with_slug s (table_rows d t) = [c] ->
  res_data (fst (run_query (Pg.from t (Pg.select [Col "id"]) |> Pg.eq "slug" (VStr s) |> Pg.single) d))
  = DRow (shape d t [Col "id"] c).
Proof.
  intros H. unfold run_query. cbn.
  rewrite (filter_ext_eq _ (fun r => value_eqb (get "slug" r) (VStr s))).
  2:{ intros r. unfold matches_all. simpl. rewrite andb_true_r. reflexivity. }
  fold (with_slug s (table_rows d t)). rewrite H. reflexivity.
Qed.

(** On a platform that serves the calls, a POST of a
    category by a signed-in user, with a name that is not blank and a slug
    that exactly one category already has, is answered with 400 and
    [{success: false, error: "Ya existe una categoría con ese slug"}]; the
    tables are left as they were and the only calls are the session check
    and the lookup of the slug, so nothing is inserted. *)
Theorem duplicate_category_slug_is_refused
    (b : CategoriesIndex.body) (s : string) (c : row) (u : user) (w : world) :
  healthy w ->
  session w = Some u ->
  Admin.blank (CategoriesIndex.name b) = false ->
  CategoriesIndex.slug b = just s ->
  with_slug s (table_rows (db w) "categories") = [c] ->
  exists w',
    CategoriesIndex.POST (Body b) w
    = (Ret (json 400 (failure CategoriesIndex.duplicate_slug)), w')
    /\ db w' = db w
    /\ calls w' = calls w ++
         [ AuthGetUser;
           DbQuery (Pg.from "categories" (Pg.select [Col "id"])
                    |> Pg.eq "slug" (VStr s) |> Pg.single) ].
Proof.
  intros Hw Hs Hname Hslug Hone.
  eexists. split; [|split].
  - unfold CategoriesIndex.POST. apply try_catch_ret.
    unfold CategoriesIndex.POST_try.
    erewrite bind_ret by (apply getUser_healthy, healthy_next, Hw).
    cbn [reply_user]. rewrite Hs.
    erewrite bind_ret by reflexivity.
    rewrite Hname, Hslug. cbn [maybe_value].
    erewrite bind_ret by (apply await_read; [apply healthy_next, healthy_issue, Hw | reflexivity]).
    rewrite (select_by_slug s c) by exact Hone.
    reflexivity.
  - reflexivity.
  - simpl. rewrite <- app_assoc. reflexivity.
Qed.

(** The name is looked at before the slug: a blank name with a slug that
    is taken is answered with "El nombre es requerido". *)
Lemma blank_name_is_refused_first :
  let b := {| CategoriesIndex.name := just " ";
              CategoriesIndex.slug := just "camas";
              CategoriesIndex.image_url := undefined |} in
  session Sample.signed_in = Some Sample.admin
  /\ with_slug "camas" (table_rows (db Sample.signed_in) "categories") <> []
  /\ exists w',
       CategoriesIndex.POST (Body b) Sample.signed_in
       = (Ret (json 400 (failure "El nombre es requerido")), w')
       /\ failure "El nombre es requerido" <> failure CategoriesIndex.duplicate_slug.
Proof.
  cbv zeta. split; [reflexivity|]. split; [vm_compute; discriminate|].
  eexists. split; [vm_compute; reflexivity|]. vm_compute. discriminate.
Qed.

(** C1: the claim fails on the code.  The handler looks the slug up with
    [.single()] and reads the data of the answer alone, never its error
    (the error of the insertion that follows is read).  When the store
    answers the lookup with an error, a POST by the signed-in admin with a
    slug that a category has is answered 201 and a second category with
    that slug is stored.  The same happens on a healthy platform once two
    categories have the slug, since a lookup for a single row fails on
    two: after a POST with the slug "CAMAS", stored in lower case beside
    "camas", a POST with the slug "camas" is answered 201 and stored as
    the third. *)
Theorem taken_category_slug_is_stored_again :
  let slugs := fun w : world => map (get "slug") (table_rows (db w) "categories") in
  (* the lookup is answered with an error *)
  (exists r w',
     CategoriesIndex.POST (Body Sample.category_body) Requests.second_call_refused
     = (Ret r, w')
     /\ CategoriesIndex.slug Sample.category_body = just "camas"
     /\ slugs Requests.second_call_refused = [VStr "camas"]
     /\ status r = 201
     /\ slugs w' = [VStr "camas"; VStr "camas"])
  (* two categories have the slug *)
  /\ (exists r1 w1 r2 w2,
        CategoriesIndex.POST (Body Requests.shouted_category) Sample.signed_in = (Ret r1, w1)
        /\ slugs w1 = [VStr "camas"; VStr "camas"]
        /\ CategoriesIndex.POST (Body Sample.category_body) w1 = (Ret r2, w2)
        /\ status r2 = 201
        /\ slugs w2 = [VStr "camas"; VStr "camas"; VStr "camas"]).
Proof.
  cbv zeta. split.
  - eexists _, _. split; [vm_compute; reflexivity|]. repeat split.
  - eexists _, _, _, _. split; [vm_compute; reflexivity|].
    split; [reflexivity|]. split; [vm_compute; reflexivity|]. split; reflexivity.
Qed.

(** *** Delete guards *)

Lemma sort_rows_unordered (rs : list row) : sort_rows [] rs = rs.
Proof.
  induction rs as [|r rs IH]; [reflexivity|].
  unfold sort_rows in *. simpl. rewrite IH. destruct rs; reflexivity.
Qed.

Lemma matches_all_one (f : filter) (r : row) : matches_all [f] r = matches f r.
Proof. unfold matches_all. simpl. apply andb_true_r. Qed.

Lemma select_limit_referring (column table : string) (id : number) (d : database) (r : row) rest :
  referring column id (table_rows d table) = r :: rest ->
  split_arrow column = None ->
  res_data (fst (run_query (Pg.from table (Pg.select [Col "id"])
                            |> Pg.eq column (VNum id) |> Pg.limit 1) d))
  = DRows [shape d table [Col "id"] r].
Proof.
  intros H Hcol. unfold run_query.
  cbn -[sort_rows shape List.filter matches_all].
  rewrite (filter_ext_eq _ (fun r => value_eqb (get column r) (VNum id))).
  2:{ intros x. rewrite matches_all_one. simpl. unfold column_value. rewrite Hcol.
      reflexivity. }
  fold (referring column id (table_rows d table)). rewrite H.
  rewrite sort_rows_unordered. reflexivity.
Qed.

Lemma guarded_delete (column table target : string) (refusal : string) (id : number) (w : world)
    (handler_try : M response) :
  handler_try =
    (auth <- auth_getUser ;;
     match reply_user auth with
     | None => ret unauthorized
     | Some _ =>
         children <- await (Pg.from table (Pg.select [Col "id"])
                            |> Pg.eq column (VNum id) |> Pg.limit 1) ;;
         match res_data children with
         | DRows (_ :: _) => ret (json 400 (failure refusal))
         | _ =>
             deleted <- await (Pg.from target Delete |> Pg.eq "id" (VNum id)) ;;
             match res_error deleted with
             | Some message => throw (JsError message)
             | None => ret (json 200 (VObj [("success", VBool true)]))
             end
         end
     end) ->
  split_arrow column = None ->
  healthy w ->
  referring column id (table_rows (db w) table) <> [] ->
  exists w' cs,
    try_catch handler_try catch_with_message w
    = (Ret (match session w with
            | Some _ => json 400 (failure refusal)
            | None => unauthorized
            end), w')
    /\ db w' = db w
    /\ issued w w' cs
    /\ Forall (fun c => is_delete c = false) cs.
Proof.
  intros -> Hcol Hw Hsome.
  destruct (referring column id (table_rows (db w) table)) as [|r rest] eqn:Hrows;
    [contradiction|].
  destruct (session w) as [u|] eqn:Hsession.
  - eexists _, _. split; [|split; [|split]].
    + apply try_catch_ret.
      erewrite bind_ret by (apply getUser_healthy, healthy_next, Hw).
      cbn [reply_user]. rewrite Hsession.
      erewrite bind_ret by (apply await_read; [apply healthy_next, healthy_issue, Hw | reflexivity]).
      rewrite (select_limit_referring column table id _ r rest) by assumption.
      reflexivity.
    + reflexivity.
    + unfold issued. simpl. rewrite <- app_assoc. reflexivity.
    + repeat constructor.
  - eexists _, _. split; [|split; [|split]].
    + apply try_catch_ret.
      erewrite bind_ret by (apply getUser_healthy, healthy_next, Hw).
      cbn [reply_user]. rewrite Hsession. reflexivity.
    + reflexivity.
    + unfold issued. simpl. reflexivity.
    + repeat constructor.
Qed.

(** On a platform that serves the calls, a DELETE of a
    category that still has a subcategory, or of a subcategory that still
    has a product, is answered with 400 and [success: false] when the
    request carries a session, and with 401 when it carries none; either
    way the tables are left as they were and no delete is issued. *)
Theorem delete_guards_refuse_and_delete_nothing (params_id : string) (w : world) :
  healthy w ->
  (referring "category_id" (parseInt params_id None) (table_rows (db w) "subcategories") <> [] ->
   exists w' cs,
     CategoryById.DELETE params_id w
     = (Ret (match session w with
             | Some _ => json 400 (failure CategoryById.has_children)
             | None => unauthorized
             end), w')
     /\ db w' = db w /\ issued w w' cs /\ Forall (fun c => is_delete c = false) cs)
  /\ (referring "subcategory_id" (parseInt params_id None) (table_rows (db w) "products") <> [] ->
      exists w' cs,
        SubcategoryById.DELETE params_id w
        = (Ret (match session w with
                | Some _ => json 400 (failure SubcategoryById.has_children)
                | None => unauthorized
                end), w')
        /\ db w' = db w /\ issued w w' cs /\ Forall (fun c => is_delete c = false) cs).
Proof.
  intros Hw. split; intros Hsome.
  - apply (guarded_delete "category_id" "subcategories" "categories"
             CategoryById.has_children (parseInt params_id None) w
             (CategoryById.DELETE_try params_id)); auto.
  - apply (guarded_delete "subcategory_id" "products" "subcategories"
             SubcategoryById.has_children (parseInt params_id None) w
             (SubcategoryById.DELETE_try params_id)); auto.
Qed.

(** Without a session the guard is not reached: the answer is 401. *)
Lemma anonymous_delete_is_answered_401 :
  referring "category_id" (parseInt "1" None)
    (table_rows (db Sample.anonymous) "subcategories") <> []
  /\ exists r w',
       CategoryById.DELETE "1" Sample.anonymous = (Ret r, w')
       /\ status r = 401 /\ status r <> 400.
Proof.
  split; [vm_compute; discriminate|].
  eexists _, _. split; [vm_compute; reflexivity|]. split; [reflexivity | discriminate].
Qed.

(** C5: the claim fails on the code.  The handler of the categories takes
    the error of the guard query out of its answer ([subcatsError]) and
    never reads it; the handler of the subcategories takes the data of its
    guard query alone.  When the store answers the guard query with an error,
    the DELETE of a category that has a subcategory, by the signed-in
    admin, goes on to the delete and is answered 200: the category is gone
    and its subcategory is still there.  The DELETE of a subcategory that
    has a product does the same. *)
Theorem refused_guard_query_lets_the_delete_through :
  let w := Requests.second_call_refused in
  (referring "category_id" (num_of_Z 1) (table_rows (db w) "subcategories")
   = Sample.subcategories
   /\ exists w',
        CategoryById.DELETE "1" w = (Ret (json 200 (VObj [("success", VBool true)])), w')
        /\ calls w'
           = [ AuthGetUser;
               DbQuery (Pg.from "subcategories" (Pg.select [Col "id"])
                        |> Pg.eq "category_id" (Sample.int 1) |> Pg.limit 1);
               DbQuery (Pg.from "categories" Delete |> Pg.eq "id" (Sample.int 1)) ]
        /\ table_rows (db w') "categories" = []
        /\ table_rows (db w') "subcategories" = Sample.subcategories)
  /\ (referring "subcategory_id" (num_of_Z 2) (table_rows (db w) "products")
      = Sample.products
      /\ exists w',
           SubcategoryById.DELETE "2" w
           = (Ret (json 200 (VObj [("success", VBool true)])), w')
           /\ calls w'
              = [ AuthGetUser;
                  DbQuery (Pg.from "products" (Pg.select [Col "id"])
                           |> Pg.eq "subcategory_id" (Sample.int 2) |> Pg.limit 1);
                  DbQuery (Pg.from "subcategories" Delete |> Pg.eq "id" (Sample.int 2)) ]
           /\ table_rows (db w') "subcategories" = []
           /\ table_rows (db w') "products" = Sample.products).
Proof.
  cbv zeta. split; (split; [reflexivity|]);
    eexists; (split; [vm_compute; reflexivity|]); repeat split.
Qed.

(** ** Creating a product *)

(** X30: When the platform serves the calls, a product POST of a signed-in
    user whose fields pass validateProductData and whose slug (the one of
    the request, or the one generated from the name when the request has
    none) is the slug of exactly one product is answered 500, not 400, with
    {success: false, error: "Ya existe un producto con ese slug"}:
    createProduct throws, the try block of the handler throws the same
    error, and the catch block logs a line and answers; the tables are
    unchanged. *)
Theorem duplicate_product_slug_is_answered_500
    (b : ProductRoutes.RequestBody) (s : string) (p : row) (u : user) (w : world) :
  healthy w ->
  session w = Some u ->
  (ProductRoutes.slug b = just s /\ String.eqb s "" = false
   \/ str_truthy (ProductRoutes.slug b) = false
      /\ exists n, ProductRoutes.name b = just n /\ s = Admin.generateSlug n) ->
  Admin.validateProductData (ProductRoutes.productData_of b s) = [] ->
  with_slug s (table_rows (db w) "products") = [p] ->
  exists w1 w2 w',
    Admin.createProduct (ProductRoutes.productData_of b s) w1
    = (Throw (JsError ProductRoutes.duplicate_slug), w2)
    /\ ProductRoutes.POST_try (Body b) w = (Throw (JsError ProductRoutes.duplicate_slug), w2)
    /\ ProductRoutes.POST (Body b) w
       = (Ret (json 500 (failure ProductRoutes.duplicate_slug)), w')
    /\ db w' = db w
    /\ console w' = console w ++ ["Error creating product:"].
Proof.
  intros Hw Hs Hslug Hvalid Hone.
  assert (Heff : forall w0, ProductRoutes.effective_slug b w0 = (Ret s, w0)).
  { intros w0. unfold ProductRoutes.effective_slug.
    destruct Hslug as [[-> Hne] | [Hfalsy (n & Hn & ->)]].
    - destruct s; [discriminate | reflexivity].
    - rewrite Hn. destruct (ProductRoutes.slug b) as [| |[|c rest]]; try reflexivity.
      discriminate. }
  assert (Hcreate : Admin.createProduct (ProductRoutes.productData_of b s) (issue AuthGetUser w)
                    = (Throw (JsError ProductRoutes.duplicate_slug),
                       issue (DbQuery (Pg.from "products" (Pg.select [Col "id"])
                                       |> Pg.eq "slug" (VStr s) |> Pg.single))
                         (issue AuthGetUser w))).
  { unfold Admin.createProduct. cbn [Admin.slug ProductRoutes.productData_of maybe_value].
    erewrite bind_ret by (apply await_read; [apply healthy_next, healthy_issue, Hw | reflexivity]).
    rewrite (select_by_slug s p) by exact Hone. reflexivity. }
  assert (Htry : ProductRoutes.POST_try (Body b) w
                 = (Throw (JsError ProductRoutes.duplicate_slug),
                    issue (DbQuery (Pg.from "products" (Pg.select [Col "id"])
                                    |> Pg.eq "slug" (VStr s) |> Pg.single))
                      (issue AuthGetUser w))).
  { unfold ProductRoutes.POST_try.
    erewrite bind_ret by (apply getUser_healthy, healthy_next, Hw).
    cbn [reply_user]. rewrite Hs.
    erewrite bind_ret by reflexivity.
    erewrite bind_ret by apply Heff.
    rewrite Hvalid.
    erewrite bind_throw by exact Hcreate. reflexivity. }
  eexists _, _, _. split; [exact Hcreate|]. split; [exact Htry|]. split; [|split].
  - unfold ProductRoutes.POST. erewrite try_catch_throw by exact Htry. reflexivity.
  - reflexivity.
  - reflexivity.
Qed.

(** C9: the claim fails on the code.  [createProduct] looks the slug up
    with [.single()] and reads the data of the answer alone, never its
    error (the error of the insertion that follows is read).  When the
    store answers the lookup with an error, a POST by the signed-in admin
    of a product whose fields pass the validation and whose slug a product
    has is answered 201, not 500, and a second product with that slug is
    stored. *)
Theorem taken_product_slug_is_stored_again :
  let slugs := fun w : world => map (get "slug") (table_rows (db w) "products") in
  exists r w',
    ProductRoutes.POST (Body Requests.taken_product) Requests.second_call_refused
    = (Ret r, w')
    /\ ProductRoutes.slug Requests.taken_product = just "litera-roble"
    /\ Admin.validateProductData
         (ProductRoutes.productData_of Requests.taken_product "litera-roble") = []
    /\ slugs Requests.second_call_refused = [VStr "litera-roble"]
    /\ status r = 201
    /\ slugs w' = [VStr "litera-roble"; VStr "litera-roble"].
Proof.
  cbv zeta. eexists _, _. split; [vm_compute; reflexivity|]. repeat split.
Qed.

(** *** The upload-url route *)

Lemma sanitize_length (f : string) :
  String.length (sanitize_filename f) = String.length f.
Proof. unfold sanitize_filename. induction f as [|c f IH]; simpl; congruence. Qed.

Lemma sanitize_get (f : string) (n : nat) (c : ascii) :
  String.get n f = Some c ->
  String.get n (sanitize_filename f) = Some (if filename_char c then c else "_"%char).
Proof.
  unfold sanitize_filename. revert n. induction f as [|x f IH]; intros n H; simpl in *.
  - discriminate.
  - destruct n as [|n]; [injection H as ->; reflexivity | apply IH, H].
Qed.

Lemma includes_In (xs : list string) (x : string) :
  UploadUrl.includes xs x = true <-> In x xs.
Proof.
  unfold UploadUrl.includes. rewrite existsb_exists. split.
  - intros (y & Hy & Heq). apply String.eqb_eq in Heq. subst. exact Hy.
  - intros H. exists x. split; [exact H | apply String.eqb_refl].
Qed.

Lemma includes_not_In (xs : list string) (x : string) :
  UploadUrl.includes xs x = false <-> ~ In x xs.
Proof. rewrite <- includes_In. destruct (UploadUrl.includes xs x); split; congruence. Qed.

Lemma allowed_for_valid (s : string) :
  In s UploadUrl.validSections -> exists ts, UploadUrl.allowed_for s = Some ts.
Proof. intros [<- | [<- | [<- | []]]]; eexists; reflexivity. Qed.

(** A request that the handler refuses after the session check and the
    parsing of the body: [look] rewrites with what is known of the
    fields. *)
Ltac refused_once Hauth Herr Huser look :=
  eexists; split;
  [ apply try_catch_ret; erewrite bind_ret by exact Hauth;
    rewrite Herr, Huser; erewrite bind_ret by reflexivity;
    look; reflexivity
  | reflexivity ].

(** C6: for a POST of the upload-url route by a signed-in user.  The
    content types allowed are the images and videos for the gallery and
    the additional section, and the images, videos and documents for the
    downloads.  When one of [filename], [contentType], [section],
    [tempUploadId] is absent, [null] or empty, or the section is none of
    the three, or the content type is not allowed for the section, the
    answer is 400.  Otherwise, when the storage signs the upload, the
    answer is 200 with [signedUrl], [token] and the path
    [temp/{tempUploadId}/{section}/{timestamp}-{sanitized}], where the
    sanitized name has the length of the file name, with an underscore in
    place of each character that is not a letter, a digit, a dot or a
    dash. *)
Theorem upload_url_is_validated_then_signed
    (b : UploadUrl.body) (w w1 : world) (auth : user_reply) (u : user) :
  auth_getUser w = (Ret auth, w1) ->
  auth_error auth = None ->
  reply_user auth = Some u ->
  (* the three lists of content types *)
  (UploadUrl.allowed_for "gallery" = Some (UploadUrl.imageTypes ++ UploadUrl.videoTypes)
   /\ UploadUrl.allowed_for "additional" = Some (UploadUrl.imageTypes ++ UploadUrl.videoTypes)
   /\ UploadUrl.allowed_for "download"
      = Some (UploadUrl.imageTypes ++ UploadUrl.videoTypes ++ UploadUrl.documentTypes))
  (* what is refused *)
  /\ (missing (UploadUrl.filename b) \/ missing (UploadUrl.contentType b)
      \/ missing (UploadUrl.section b) \/ missing (UploadUrl.tempUploadId b)
      \/ (exists s, UploadUrl.section b = just s
                    /\ ~ In s ["gallery"; "additional"; "download"])
      \/ (exists s t ts, UploadUrl.section b = just s /\ UploadUrl.contentType b = just t
                         /\ UploadUrl.allowed_for s = Some ts /\ ~ In t ts) ->
      exists r, UploadUrl.POST (Body b) w = (Ret r, w1) /\ status r = 400)
  (* what is signed *)
  /\ (forall f t s i ts d w2,
        UploadUrl.filename b = just f -> UploadUrl.contentType b = just t ->
        UploadUrl.section b = just s -> UploadUrl.tempUploadId b = just i ->
        f <> "" -> t <> "" -> s <> "" -> i <> "" ->
        In s ["gallery"; "additional"; "download"] ->
        UploadUrl.allowed_for s = Some ts -> In t ts ->
        Storage.createSignedUploadUrl "products"
          (UploadUrl.storagePath i s (clock w1) (sanitize_filename f)) w1 = (Ret (ok d), w2) ->
        UploadUrl.POST (Body b) w
        = (Ret (json 200
                  (VObj [ ("signedUrl", VStr (Storage.signedUrl d));
                          ("token", VStr (Storage.token d));
                          ("path", VStr (String.append "temp/"
                                           (String.append i
                                              (String.append "/"
                                                 (String.append s
                                                    (String.append "/"
                                                       (String.append (pretty (clock w1))
                                                          (String.append "-"
                                                             (sanitize_filename f))))))))) ])),
           w2))
  (* the sanitized file name *)
  /\ (forall f, String.length (sanitize_filename f) = String.length f
                /\ forall n c, String.get n f = Some c ->
                     String.get n (sanitize_filename f)
                     = Some (if filename_char c then c else "_"%char)).
Proof.
  intros Hauth Herr Huser.
  split; [repeat split|]. split; [|split].
  - intros Hbad.
    unfold UploadUrl.POST, UploadUrl.POST_try.
    destruct (UploadUrl.filename b) as [| |f] eqn:Hf;
      [refused_once Hauth Herr Huser ltac:(rewrite Hf) ..|].
    destruct (UploadUrl.contentType b) as [| |t] eqn:Ht;
      [refused_once Hauth Herr Huser ltac:(rewrite Hf, Ht) ..|].
    destruct (UploadUrl.section b) as [| |s] eqn:Hsec;
      [refused_once Hauth Herr Huser ltac:(rewrite Hf, Ht, Hsec) ..|].
    destruct (UploadUrl.tempUploadId b) as [| |i] eqn:Hi;
      [refused_once Hauth Herr Huser ltac:(rewrite Hf, Ht, Hsec, Hi) ..|].
    destruct (String.eqb f "" || String.eqb t "" || String.eqb s "" || String.eqb i "")
      eqn:Hempty;
      [refused_once Hauth Herr Huser ltac:(rewrite Hf, Ht, Hsec, Hi, Hempty) |].
    destruct (UploadUrl.includes UploadUrl.validSections s) eqn:Hvalid;
      [|refused_once Hauth Herr Huser ltac:(rewrite Hf, Ht, Hsec, Hi, Hempty, Hvalid)].
    apply includes_In in Hvalid.
    destruct (allowed_for_valid s Hvalid) as [ts Hts].
    destruct (UploadUrl.includes ts t) eqn:Hallowed;
      [|refused_once Hauth Herr Huser
          ltac:(rewrite Hf, Ht, Hsec, Hi, Hempty;
                rewrite (proj2 (includes_In _ _) Hvalid); cbn [negb];
                rewrite Hts; erewrite bind_ret by reflexivity;
                rewrite Hallowed)].
    exfalso. apply includes_In in Hallowed.
    apply orb_false_iff in Hempty as [Hempty Hi0].
    apply orb_false_iff in Hempty as [Hempty Hs0].
    apply orb_false_iff in Hempty as [Hf0 Ht0].
    destruct Hbad as [[H|[H|H]] | [[H|[H|H]] | [[H|[H|H]] | [[H|[H|H]] | [H | H]]]]];
      try discriminate H;
      try (injection H as ->; discriminate).
    + destruct H as (s' & [= <-] & Hnot). exact (Hnot Hvalid).
    + destruct H as (s' & t' & ts' & [= <-] & [= <-] & Hts' & Hnot).
      rewrite Hts in Hts'. injection Hts' as <-. exact (Hnot Hallowed).
  - intros f t s i ts d w2 Hf Ht Hsec Hi Hf0 Ht0 Hs0 Hi0 Hvalid Hts Hallowed Hsign.
    unfold UploadUrl.POST. apply try_catch_ret. unfold UploadUrl.POST_try.
    erewrite bind_ret by exact Hauth. rewrite Herr, Huser.
    erewrite bind_ret by reflexivity. rewrite Hf, Ht, Hsec, Hi.
    apply String.eqb_neq in Hf0, Ht0, Hs0, Hi0. rewrite Hf0, Ht0, Hs0, Hi0. cbn [orb].
    rewrite (proj2 (includes_In UploadUrl.validSections s) Hvalid). cbn [negb].
    rewrite Hts. erewrite bind_ret by reflexivity.
    rewrite (proj2 (includes_In ts t) Hallowed). cbn [negb].
    erewrite bind_ret by reflexivity.
    erewrite bind_ret by exact Hsign. reflexivity.
  - intros f. split; [apply sanitize_length | apply sanitize_get].
Qed.

(** ** Pagination *)

Lemma number_leb_Num (p q : Q) : number_leb (Num p) (Num q) = true <-> (p <= q)%Q.
Proof.
  unfold number_leb. rewrite orb_true_iff, num_lt_Num. unfold number_eqb.
  rewrite Qeq_bool_iff. split.
  - intros [H|H]; [apply Qlt_le_weak, H | rewrite H; apply Qle_refl].
  - intros H. destruct (Qlt_le_dec p q) as [Hlt|Hge]; [left; exact Hlt|].
    right. apply Qle_antisym; assumption.
Qed.

(** The normalized page size is a rational between 1 and 50. *)
Lemma normalized_pageSize (pagination : Products.PartialPagination) :
  exists q, Products.pageSize (Products.normalizePagination pagination) = Num q
            /\ (1 <= q)%Q /\ (q <= 50)%Q.
Proof.
  unfold Products.normalizePagination. cbn [Products.pageSize].
  set (ps0 := Products.number_or _ Products.DEFAULT_PAGE_SIZE).
  assert (Hps0 : ps0 <> NaN).
  { unfold ps0, Products.number_or. destruct (Products.p_pageSize pagination) as [| |[|s|q]];
      try discriminate. simpl. destruct (Qeq_bool q 0); discriminate. }
  unfold Products.DEFAULT_PAGE_SIZE, Products.MAX_PAGE_SIZE, num_gt in *.
  destruct ps0 as [|[]|q]; [congruence| | |]; simpl.
  - exists (inject_Z 2). repeat split; discriminate.
  - exists (inject_Z 50). repeat split; discriminate.
  - destruct (Qle_bool (inject_Z 1) q) eqn:H1; simpl.
    + apply Qle_bool_iff in H1.
      destruct (Qle_bool q (inject_Z 50)) eqn:H50; simpl.
      * apply Qle_bool_iff in H50. exists q. auto.
      * exists (inject_Z 50). repeat split; discriminate.
    + exists (inject_Z 2). repeat split; discriminate.
Qed.

Lemma normalized_page (pagination : Products.PartialPagination) :
  number_leb (num_of_Z 1) (Products.page (Products.normalizePagination pagination)) = true.
Proof.
  unfold Products.normalizePagination. cbn [Products.page].
  set (p0 := Products.number_or _ (num_of_Z 1)).
  assert (Hp0 : p0 <> NaN).
  { unfold p0, Products.number_or. destruct (Products.p_page pagination) as [| |[|s|q]];
      try discriminate. simpl. destruct (Qeq_bool q 0); discriminate. }
  destruct p0 as [|[]|q]; [congruence| | |]; try reflexivity.
  destruct (num_lt (Num q) (num_of_Z 1)) eqn:H; [reflexivity|].
  apply num_lt_Num_false in H. apply number_leb_Num. exact H.
Qed.

(** A page beyond a positive page count is the page that was asked for. *)
Lemma page_beyond_is_requested (pagination : Products.PartialPagination) (k : Z) :
  num_gt (Products.page (Products.normalizePagination pagination)) (num_of_Z k) = true ->
  1 <= k ->
  Products.p_page pagination
  = just (Products.page (Products.normalizePagination pagination)).
Proof.
  unfold Products.normalizePagination. cbn [Products.page]. unfold num_gt.
  intros Hgt Hk.
  assert (Hone : num_lt (num_of_Z k) (num_of_Z 1) = false)
    by (rewrite num_lt_int; apply Z.ltb_ge; lia).
  unfold Products.number_or in *.
  destruct (Products.p_page pagination) as [| |x].
  - destruct (num_lt (num_of_Z 1) (num_of_Z 1)); congruence.
  - destruct (num_lt (num_of_Z 1) (num_of_Z 1)); congruence.
  - destruct (num_truthy x);
      [|destruct (num_lt (num_of_Z 1) (num_of_Z 1)); congruence].
    destruct (num_lt x (num_of_Z 1)); [congruence | reflexivity].
Qed.

(** A positive number of pages that a page exceeds is a whole number
    from 1 on: the ceiling of a quotient is a whole number, an infinity or
    [NaN], and no page exceeds the last two. *)
Lemma page_count_positive (total_ pageSize_ page_ : number) :
  num_gt (Products.page_count total_ pageSize_) (num_of_Z 0) = true ->
  num_gt page_ (Products.page_count total_ pageSize_) = true ->
  exists k, Products.page_count total_ pageSize_ = num_of_Z k /\ 1 <= k.
Proof.
  unfold Products.page_count.
  destruct (num_gt total_ (num_of_Z 0)); [|discriminate].
  destruct (num_div total_ pageSize_) as [|s|r]; cbn [Math_ceil].
  - discriminate.
  - destruct s; [discriminate|]. intros _ Hpage.
    unfold num_gt in Hpage. destruct page_ as [|[]|]; discriminate.
  - intros Hpos _. eexists. split; [reflexivity|].
    unfold num_gt in Hpos. rewrite num_lt_int in Hpos. apply Z.ltb_lt in Hpos. lia.
Qed.

Lemma applySort_verb sort_ q : q_verb (Products.applySort sort_ q) = q_verb q.
Proof.
  unfold Products.applySort.
  destruct sort_ as [| |s]; try reflexivity.
  repeat (match goal with |- context [match ?x with _ => _ end] => destruct x end;
          try reflexivity).
Qed.

Lemma applyAttributeFilter_verb q e : q_verb (Products.applyAttributeFilter q e) = q_verb q.
Proof.
  unfold Products.applyAttributeFilter. destruct e as [key [s|[|v vs]]]; try reflexivity.
  destruct s; [reflexivity|].
  destruct (_ && _); [destruct (split_range _); reflexivity|].
  destruct (_ || _); reflexivity.
Qed.

Lemma fold_attribute_verb es q :
  q_verb (fold_left Products.applyAttributeFilter es q) = q_verb q.
Proof.
  revert q. induction es as [|e es IH]; intros q; simpl; [reflexivity|].
  rewrite IH. apply applyAttributeFilter_verb.
Qed.

Lemma applyFilters_verb q filters : q_verb (Products.applyFilters q filters) = q_verb q.
Proof.
  unfold Products.applyFilters. rewrite applySort_verb.
  destruct (Products.attributeFilters filters); rewrite ?fold_attribute_verb;
    destruct (bool_truthy _), (is_undefined (Products.maxPrice filters)),
      (is_undefined (Products.minPrice filters)); reflexivity.
Qed.

Lemma applySort_table sort_ q : q_table (Products.applySort sort_ q) = q_table q.
Proof.
  unfold Products.applySort.
  destruct sort_ as [| |s]; try reflexivity.
  repeat (match goal with |- context [match ?x with _ => _ end] => destruct x end;
          try reflexivity).
Qed.

Lemma applyAttributeFilter_table q e : q_table (Products.applyAttributeFilter q e) = q_table q.
Proof.
  unfold Products.applyAttributeFilter. destruct e as [key [s|[|v vs]]]; try reflexivity.
  destruct s; [reflexivity|].
  destruct (_ && _); [destruct (split_range _); reflexivity|].
  destruct (_ || _); reflexivity.
Qed.

Lemma fold_attribute_table es q :
  q_table (fold_left Products.applyAttributeFilter es q) = q_table q.
Proof.
  revert q. induction es as [|e es IH]; intros q; simpl; [reflexivity|].
  rewrite IH. apply applyAttributeFilter_table.
Qed.

Lemma applyFilters_table q filters : q_table (Products.applyFilters q filters) = q_table q.
Proof.
  unfold Products.applyFilters. rewrite applySort_table.
  destruct (Products.attributeFilters filters); rewrite ?fold_attribute_table;
    destruct (bool_truthy _), (is_undefined (Products.maxPrice filters)),
      (is_undefined (Products.minPrice filters)); reflexivity.
Qed.

(** What the store answers to the counting query. *)
Lemma count_served (column : string) (id : number) (filters : Products.ProductFilters)
    (w : world) :
  next_fault w = Healthy ->
  await (Products.countQuery column id filters) w
  = (Ret {| res_data := DNull; res_error := None;
            res_count :=
              Some (Z.of_nat (length (List.filter
                                        (matches_all (q_filters (Products.countQuery column id filters)))
                                        (table_rows (db w) "products")))) |},
     issue (DbQuery (Products.countQuery column id filters)) w).
Proof.
  intros Hn.
  assert (Hverb : q_verb (Products.countQuery column id filters) = Select [Col "*"] true true)
    by (unfold Products.countQuery; rewrite applyFilters_verb; reflexivity).
  assert (Htable : q_table (Products.countQuery column id filters) = "products")
    by (unfold Products.countQuery; rewrite applyFilters_table; reflexivity).
  rewrite await_read by (try assumption; unfold is_read; rewrite Hverb; reflexivity).
  unfold run_query. rewrite Hverb, Htable. reflexivity.
Qed.

(** What a call that returns has computed. *)
Lemma getProductsBy_returns (column what : string) (id : number)
    (filters : Products.ProductFilters) (pagination : Products.PartialPagination)
    (w w' : world) (r : Products.PaginatedProductsResponse) :
  Products.getProductsBy column what id filters pagination w = (Ret r, w') ->
  let n := Products.normalizePagination pagination in
  exists counted w1,
    await (Products.countQuery column id filters) w = (Ret counted, w1)
    /\ Products.r_page r = Products.page n
    /\ Products.r_pageSize r = Products.pageSize n
    /\ Products.total r = Products.count_or_zero (res_count counted)
    /\ Products.totalPages r = Products.page_count (Products.total r) (Products.pageSize n)
    /\ (num_gt (Products.page n) (Products.totalPages r) = true ->
        num_gt (Products.totalPages r) (num_of_Z 0) = true ->
        Products.items r = [] /\ w' = w1).
Proof.
  intros Hrun n. unfold Products.getProductsBy in Hrun. fold n in Hrun.
  unfold bind at 1 in Hrun.
  destruct (await (Products.countQuery column id filters) w) as [[counted|e] w1] eqn:Hcount;
    [|discriminate].
  exists counted, w1. split; [reflexivity|].
  set (total_ := Products.count_or_zero (res_count counted)) in *.
  set (tp := Products.page_count total_ (Products.pageSize n)) in *.
  destruct (num_gt (Products.page n) tp && num_gt tp (num_of_Z 0)) eqn:Hout.
  - injection Hrun as <- <-.
    cbn [Products.r_page Products.r_pageSize Products.total Products.totalPages
         Products.items].
    split; [reflexivity|]. split; [reflexivity|]. split; [reflexivity|].
    split; [reflexivity|]. intros _ _. split; reflexivity.
  - unfold bind at 1 in Hrun.
    match type of Hrun with
    | (match ?m with _ => _ end) = _ => destruct m as [[fetched|e] w2]; [|discriminate]
    end.
    destruct (res_error fetched).
    + unfold bind, console_error, throw in Hrun. discriminate.
    + injection Hrun as <- <-.
    cbn [Products.r_page Products.r_pageSize Products.total Products.totalPages
         Products.items].
      split; [reflexivity|]. split; [reflexivity|]. split; [reflexivity|].
      split; [reflexivity|]. intros H1 H2.
      fold total_ tp in H1, H2. rewrite H1, H2 in Hout. discriminate.
Qed.

(** C3: for [getProductsByCategory] and [getProductsBySubcategory].  The
    normalized page is at least 1 and the normalized page size lies
    between 1 and 50.  A result that is returned reports the normalized
    page and page size, a number of pages that is the ceiling of the total
    over the page size when the total is positive and 0 otherwise, and,
    when the platform serves the count, the number of products that match
    as the total; when the page exceeds a positive number of pages, the
    items are empty and the page reported is the one requested.  Such a
    call does return, after the count query alone. *)
Theorem pagination_is_normalized_and_reported
    (getProducts : number -> Products.ProductFilters -> Products.PartialPagination ->
                   M Products.PaginatedProductsResponse)
    (column : string) :
  getProducts = Products.getProductsByCategory /\ column = "category_id"
  \/ getProducts = Products.getProductsBySubcategory /\ column = "subcategory_id" ->
  forall (id : number) (filters : Products.ProductFilters)
         (pagination : Products.PartialPagination) (w : world),
    let n := Products.normalizePagination pagination in
    (* the normalized pagination *)
    (number_leb (num_of_Z 1) (Products.page n) = true
     /\ number_leb (num_of_Z 1) (Products.pageSize n) = true
     /\ number_leb (Products.pageSize n) Products.MAX_PAGE_SIZE = true)
    (* what a result reports *)
    /\ (forall r w',
          getProducts id filters pagination w = (Ret r, w') ->
          Products.r_page r = Products.page n
          /\ Products.r_pageSize r = Products.pageSize n
          /\ Products.totalPages r
             = (if num_gt (Products.total r) (num_of_Z 0)
                then Math_ceil (num_div (Products.total r) (Products.pageSize n))
                else num_of_Z 0)
          /\ (next_fault w = Healthy ->
              Products.total r
              = num_of_Z (Z.of_nat (length (List.filter
                                              (matches_all (q_filters (Products.countQuery column id filters)))
                                              (table_rows (db w) "products")))))
          /\ (num_gt (Products.page n) (Products.totalPages r) = true ->
              num_gt (Products.totalPages r) (num_of_Z 0) = true ->
              Products.items r = []
              /\ Products.p_page pagination = just (Products.r_page r)))
    (* a page out of range is answered, and without a second query *)
    /\ (forall total_, 
          next_fault w = Healthy ->
          total_ = num_of_Z (Z.of_nat (length (List.filter
                                                 (matches_all (q_filters (Products.countQuery column id filters)))
                                                 (table_rows (db w) "products")))) ->
          let totalPages_ := Products.page_count total_ (Products.pageSize n) in
          num_gt (Products.page n) totalPages_ = true ->
          num_gt totalPages_ (num_of_Z 0) = true ->
          getProducts id filters pagination w
          = (Ret {| Products.items := [];
                    Products.r_page := Products.page n;
                    Products.r_pageSize := Products.pageSize n;
                    Products.total := total_;
                    Products.totalPages := totalPages_ |},
             issue (DbQuery (Products.countQuery column id filters)) w)).
Proof.
  intros Hwhich id filters pagination w n.
  assert (Hf : exists what, getProducts = Products.getProductsBy column what).
  { destruct Hwhich as [[-> ->] | [-> ->]]; eexists; reflexivity. }
  destruct Hf as [what ->]. clear Hwhich.
  destruct (normalized_pageSize pagination) as (q & Hps & Hq1 & Hq50). fold n in Hps.
  split; [|split].
  - split; [apply normalized_page|]. rewrite Hps.
    split; apply number_leb_Num; assumption.
  - intros r w' Hrun.
    destruct (getProductsBy_returns _ _ _ _ _ _ _ _ Hrun)
      as (counted & w1 & Hcount & Hpage & Hsize & Htotal & Hpages & Hout).
    fold n in Hpage, Hsize, Hpages, Hout.
    split; [exact Hpage|]. split; [exact Hsize|]. split; [exact Hpages|]. split.
    + intros Hn. rewrite count_served in Hcount by exact Hn.
      injection Hcount as <- _. exact Htotal.
    + intros H1 H2. split; [apply Hout; assumption|].
      rewrite Hpage. 
      assert (Hz : exists c, Products.total r = num_of_Z c).
      { rewrite Htotal. unfold Products.count_or_zero.
        destruct (res_count counted); eexists; reflexivity. }
      destruct Hz as [c Hc]. rewrite Hpages in H1, H2.
      destruct (page_count_positive _ _ _ H2 H1) as (k & Hk & Hk1).
      rewrite Hk in H1. exact (page_beyond_is_requested pagination k H1 Hk1).
  - intros total_ Hn Htotal totalPages_ H1 H2.
    unfold Products.getProductsBy. fold n.
    erewrite bind_ret by (apply count_served, Hn).
    cbn [res_count Products.count_or_zero]. rewrite <- Htotal. fold totalPages_.
    rewrite H1, H2. reflexivity.
Qed.

(** ** Moving an uploaded file *)

(** *** What one call leaves behind *)

Lemma bind_inv {A B} (m : M A) (k : A -> M B) w o w' :
  bind m k w = (o, w') ->
  (exists a w1, m w = (Ret a, w1) /\ k a w1 = (o, w'))
  \/ (exists e, m w = (Throw e, w') /\ o = Throw e).
Proof.
  unfold bind. destruct (m w) as [[a|e] w1]; intros H.
  - left. eauto.
  - right. injection H as <- <-. eauto.
Qed.

Lemma off_storage_ret {A} (a : A) : off_storage (ret a).
Proof. intros w o w' [= <- <-]. exists []. rewrite app_nil_r. auto. Qed.

Lemma off_storage_throw {A} e : off_storage (@throw A e).
Proof. intros w o w' [= <- <-]. exists []. rewrite app_nil_r. auto. Qed.

Lemma off_storage_bind {A B} (m : M A) (k : A -> M B) :
  off_storage m -> (forall a, off_storage (k a)) -> off_storage (bind m k).
Proof.
  intros Hm Hk w o w' H. apply bind_inv in H as [(a & w1 & H1 & H2) | (e & H1 & _)].
  - destruct (Hm _ _ _ H1) as (cs1 & Hc1 & Hf1).
    destruct (Hk a _ _ _ H2) as (cs2 & Hc2 & Hf2).
    exists (cs1 ++ cs2). rewrite Hc2, Hc1, <- app_assoc. split; [reflexivity|].
    rewrite List.filter_app, Hf1, Hf2. reflexivity.
  - exact (Hm _ _ _ H1).
Qed.

Lemma platform_calls {A} (c : call) (serve : world -> A * world) refuse w o w' :
  (forall w0, calls (snd (serve w0)) = calls w0) ->
  platform c serve refuse w = (o, w') -> calls w' = calls w ++ [c].
Proof.
  intros Hserve. unfold platform. destruct (next_fault w).
  - specialize (Hserve (issue c w)). destruct (serve (issue c w)) as [a w2].
    intros [= <- <-]. exact Hserve.
  - intros [= <- <-]. reflexivity.
  - intros [= <- <-]. reflexivity.
Qed.

Lemma platform_db {A} (c : call) (serve : world -> A * world) refuse w o w' :
  (forall w0, db (snd (serve w0)) = db w0) ->
  platform c serve refuse w = (o, w') -> db w' = db w.
Proof.
  intros Hserve. unfold platform. destruct (next_fault w).
  - specialize (Hserve (issue c w)). destruct (serve (issue c w)) as [a w2].
    intros [= <- <-]. exact Hserve.
  - intros [= <- <-]. reflexivity.
  - intros [= <- <-]. reflexivity.
Qed.

Lemma await_calls q w o w' : await q w = (o, w') -> calls w' = calls w ++ [DbQuery q].
Proof.
  apply platform_calls. intros w0. destruct (run_query q (db w0)). reflexivity.
Qed.

Lemma off_storage_await q : off_storage (await q).
Proof. intros w o w' H. exists [DbQuery q]. split; [exact (await_calls _ _ _ _ H) | reflexivity]. Qed.

Lemma off_storage_console line : off_storage (console_error line).
Proof. intros w o w' [= <- <-]. exists []. rewrite app_nil_r. auto. Qed.

Lemma off_storage_when c (m : M unit) : off_storage m -> off_storage (when c m).
Proof. intros H. destruct c; [exact H | apply off_storage_ret]. Qed.

Lemma off_storage_need_row property d : off_storage (need_row property d).
Proof. destruct d; [apply off_storage_throw | apply off_storage_ret ..]. Qed.

Lemma move_calls b f t w o w' :
  Storage.move b f t w = (o, w') ->
  calls w' = calls w ++ [StorageMove b f t] /\ db w' = db w.
Proof.
  intros H. split.
  - revert H. apply platform_calls. intros w0.
    destruct (files w0 !! (b, f)), (files w0 !! (b, t)); reflexivity.
  - revert H. apply platform_db. intros w0.
    destruct (files w0 !! (b, f)), (files w0 !! (b, t)); reflexivity.
Qed.

Lemma download_calls b p w o w' :
  Storage.download b p w = (o, w') ->
  calls w' = calls w ++ [StorageDownload b p] /\ db w' = db w.
Proof.
  intros H. split.
  - revert H. apply platform_calls. reflexivity.
  - revert H. apply platform_db. reflexivity.
Qed.

Lemma upload_calls b p c u w o w' :
  Storage.upload b p c u w = (o, w') ->
  calls w' = calls w ++ [StorageUpload b p u] /\ db w' = db w.
Proof.
  intros H. split.
  - revert H. apply platform_calls. intros w0.
    destruct (files w0 !! (b, p)), u; reflexivity.
  - revert H. apply platform_db. intros w0.
    destruct (files w0 !! (b, p)), u; reflexivity.
Qed.

Lemma remove_calls b ps w o w' :
  Storage.remove b ps w = (o, w') ->
  calls w' = calls w ++ [StorageRemove b ps] /\ db w' = db w.
Proof.
  intros H. split.
  - revert H. apply platform_calls. reflexivity.
  - revert H. apply platform_db. reflexivity.
Qed.


(** ** What the handlers catch *)

Lemma try_catch_answers (r : route) (block : M response) (h : thrown -> M response) :
  (forall e w1, exists resp w', h e w1 = (Ret resp, w') /\ caught r e w1 resp w') ->
  forall w, exists resp w',
    try_catch block h w = (Ret resp, w')
    /\ forall e w1, block w = (Throw e, w1) -> caught r e w1 resp w'.
Proof.
  intros Hh w. unfold try_catch. destruct (block w) as [[resp|e] w1].
  - exists resp, w1. split; [reflexivity|]. intros e w2 [=].
  - destruct (Hh e w1) as (resp & w' & Hrun & Hcaught).
    exists resp, w'. split; [exact Hrun|]. intros e' w2 [= <- <-]. exact Hcaught.
Qed.

Ltac answer_caught :=
  apply try_catch_answers; intros ? ?; eexists _, _; split; [reflexivity|];
  unfold caught; cbn [logged_line caught_body];
  rewrite ?app_nil_r; repeat split; reflexivity.

(** C4: every handler returns a response, and when the body of its [try]
    throws, the response is a 500 whose JSON body reports an error (a
    fixed message for the upload, product-detail, listing and sign-in
    routes, the message of the thrown error for the others), nothing is
    written to the tables by the [catch] block, and a line is logged on
    the console by the product, upload, listing and sign-in routes only:
    the eight category and subcategory handlers log nothing. *)
Theorem every_handler_answers_500_when_its_try_block_throws (r : route) (w : world) :
  exists resp w',
    handler r w = (Ret resp, w')
    /\ forall e w1,
         try_block r w = (Throw e, w1) ->
         status resp = 500
         /\ body resp = caught_body r e
         /\ headers resp = match r with
                           | PostSignin _ => []
                           | _ => [("Content-Type", "application/json")]
                           end
         /\ db w' = db w1
         /\ calls w' = calls w1
         /\ console w' = console w1 ++ match logged_line r with
                                       | Some line => [line]
                                       | None => []
                                       end.
Proof.
  change (exists resp w', handler r w = (Ret resp, w')
            /\ forall e w1, try_block r w = (Throw e, w1) -> caught r e w1 resp w').
  destruct r; cbn [handler try_block]; answer_caught.
Qed.

(** A listing of the categories that fails at the platform is answered
    with a 500 and leaves the console as it was. *)
Lemma category_listing_fails_without_a_log :
  let w := Sample.with_faults [Fails "connection reset"] Sample.signed_in in
  exists w1 resp w',
    CategoriesIndex.GET_try w = (Throw (JsError "connection reset"), w1)
    /\ CategoriesIndex.GET w = (Ret resp, w')
    /\ status resp = 500
    /\ console w' = console w.
Proof.
  cbv zeta. eexists _, _, _. split; [vm_compute; reflexivity|].
  split; [vm_compute; reflexivity|]. split; reflexivity.
Qed.

(** ** Queries run together *)

(** *** Reads *)

Lemma await_read_db q w o w' :
  is_read q = true -> await q w = (o, w') -> db w' = db w.
Proof.
  intros Hr. apply platform_db. intros w0.
  pose proof (run_query_read q (db w0) Hr) as Hs.
  destruct (run_query q (db w0)) as [r d]. simpl in *. exact Hs.
Qed.

Lemma await_files q w o w' : await q w = (o, w') -> files w' = files w.
Proof.
  unfold await, platform. destruct (next_fault w).
  - destruct (run_query q (db (issue (DbQuery q) w))). intros [= <- <-]. reflexivity.
  - intros [= <- <-]. reflexivity.
  - intros [= <- <-]. reflexivity.
Qed.

(** [Promise.all] over queries issues each of them once, in order,
    whatever the platform answers. *)
Lemma Promise_all_issues (qs : list query) (w : world) :
  exists o w',
    Promise_all (map await qs) w = (o, w')
    /\ issued w w' (map DbQuery qs)
    /\ files w' = files w
    /\ (Forall (fun q => is_read q = true) qs -> db w' = db w).
Proof.
  revert w. induction qs as [|q qs IH]; intros w.
  - exists (Ret []), w. unfold issued. simpl. rewrite app_nil_r. auto.
  - simpl. destruct (await q w) as [o1 w1] eqn:H1.
    destruct (IH w1) as (os & w2 & H2 & Hc2 & Hf2 & Hd2). rewrite H2.
    eexists _, w2. split; [reflexivity|]. split; [|split].
    + unfold issued in *. rewrite Hc2, (await_calls _ _ _ _ H1), <- app_assoc. reflexivity.
    + rewrite Hf2. exact (await_files _ _ _ _ H1).
    + intros Hall. inversion Hall as [|? ? Hq Hqs]; subst.
      rewrite (Hd2 Hqs). exact (await_read_db _ _ _ _ Hq H1).
Qed.

(** On a healthy platform every read is answered from the store as it
    was when [Promise.all] was called. *)
Lemma Promise_all_reads (qs : list query) (w : world) :
  healthy w -> Forall (fun q => is_read q = true) qs ->
  exists w',
    Promise_all (map await qs) w = (Ret (map (fun q => fst (run_query q (db w))) qs), w')
    /\ db w' = db w /\ healthy w'.
Proof.
  revert w. induction qs as [|q qs IH]; intros w Hw Hall.
  - exists w. auto.
  - inversion Hall as [|? ? Hq Hqs]; subst. simpl.
    rewrite (await_read q w (healthy_next w Hw) Hq).
    destruct (IH (issue (DbQuery q) w) (healthy_issue _ _ Hw) Hqs) as (w' & Hrun & Hd & Hh).
    rewrite Hrun. exists w'. auto.
Qed.

Lemma dashboardQueries_read : Forall (fun q => is_read q = true) Admin.dashboardQueries.
Proof. repeat constructor. Qed.

(** *** Computations that only read *)

Lemma reads_only_ret {A} (a : A) : reads_only (ret a).
Proof.
  intros w o w' [= <- <-]. split; [reflexivity|]. split; [reflexivity|].
  exists []. rewrite app_nil_r. auto.
Qed.

Lemma reads_only_bind {A B} (m : M A) (k : A -> M B) :
  reads_only m -> (forall a, reads_only (k a)) -> reads_only (bind m k).
Proof.
  intros Hm Hk w o w' H.
  destruct (bind_inv _ _ _ _ _ H) as [(a & w1 & H1 & H2) | (e & H1 & _)].
  - destruct (Hm _ _ _ H1) as (Hd1 & Hf1 & cs1 & Hc1 & Hr1).
    destruct (Hk a _ _ _ H2) as (Hd2 & Hf2 & cs2 & Hc2 & Hr2).
    split; [congruence|]. split; [congruence|].
    exists (cs1 ++ cs2). split.
    + rewrite Hc2, Hc1, app_assoc. reflexivity.
    + apply Forall_app; auto.
  - exact (Hm _ _ _ H1).
Qed.

Lemma reads_only_await (q : query) : is_read q = true -> reads_only (await q).
Proof.
  intros Hq w o w' H.
  split; [exact (await_read_db _ _ _ _ Hq H)|]. split; [exact (await_files _ _ _ _ H)|].
  exists [DbQuery q]. split; [exact (await_calls _ _ _ _ H)|].
  constructor; [exact Hq | constructor].
Qed.

Lemma reads_only_Promise_all {A} (ps : list (M A)) :
  Forall reads_only ps -> reads_only (Promise_all ps).
Proof.
  induction 1 as [|p ps Hp _ IH].
  - apply reads_only_ret.
  - intros w o w' H. cbn [Promise_all] in H.
    destruct (p w) as [o1 w1] eqn:H1.
    destruct (Promise_all ps w1) as [o2 w2] eqn:H2.
    injection H as _ <-.
    destruct (Hp _ _ _ H1) as (Hd1 & Hf1 & cs1 & Hc1 & Hr1).
    destruct (IH _ _ _ H2) as (Hd2 & Hf2 & cs2 & Hc2 & Hr2).
    split; [congruence|]. split; [congruence|].
    exists (cs1 ++ cs2). split.
    + rewrite Hc2, Hc1, app_assoc. reflexivity.
    + apply Forall_app; auto.
Qed.

Ltac reads :=
  repeat first
    [ apply reads_only_ret
    | apply reads_only_await; reflexivity
    | apply reads_only_Promise_all;
      repeat first [apply List.Forall_nil | apply List.Forall_cons]
    | apply reads_only_bind; [|intros ?]
    | match goal with |- reads_only (match ?x with _ => _ end) => destruct x end ].

Lemma getProductFullDetailsById_reads (productId : number) :
  reads_only (Products.getProductFullDetailsById productId).
Proof.
  unfold Products.getProductFullDetailsById, Products.getProductById,
    Products.getProductAssetsGrouped, Products.getProductAssets.
  reads.
Qed.

(** The two uses of [Promise.all] run reading queries only.  The six
    queries of [getDashboardStats] are selections and counts, fixed before
    any of them is answered; they are all issued whatever the answers, and
    leave the tables and the stored objects as they were; on a platform
    that serves them, each is answered as if it ran alone on the tables of
    the start, in whatever order they are run.  The promises of
    [getProductFullDetailsById] read only as well. *)
Lemma dashboard_queries_are_independent_reads :
  length Admin.dashboardQueries = 6%nat
  /\ Forall (fun q => is_read q = true) Admin.dashboardQueries
  (* the six queries are issued whatever the answers, and write nothing *)
  /\ (forall w : world,
        exists o w',
          Admin.getDashboardStats w = (o, w')
          /\ issued w w' (map DbQuery Admin.dashboardQueries)
          /\ db w' = db w /\ files w' = files w)
  (* in any order, each is answered as if it ran alone *)
  /\ (forall (w : world) (order : list query),
        healthy w ->
        Permutation order Admin.dashboardQueries ->
        exists w',
          Promise_all (map await order) w
          = (Ret (map (fun q => fst (run_query q (db w))) order), w')
          /\ db w' = db w)
  (* the other use of [Promise.all] *)
  /\ (forall productId : number,
        reads_only (Products.getProductFullDetailsById productId)).
Proof.
  split; [reflexivity|]. split; [exact dashboardQueries_read|]. split; [|split].
  - intros w.
    destruct (Promise_all_issues Admin.dashboardQueries w) as (o & w' & Hrun & Hc & Hf & Hd).
    unfold Admin.getDashboardStats, bind. rewrite Hrun.
    destruct o as [results|e]; eexists _, w'; (split; [reflexivity|]);
      (split; [exact Hc|]); (split; [exact (Hd dashboardQueries_read) | exact Hf]).
  - intros w order Hw Hperm.
    destruct (Promise_all_reads order w Hw) as (w' & Hrun & Hd & _).
    + eapply Permutation_Forall; [symmetry; exact Hperm | exact dashboardQueries_read].
    + exists w'. auto.
  - exact getProductFullDetailsById_reads.
Qed.

(** *** Calls that overlap *)

Lemma request_ids_snoc (from : Z) (n : nat) :
  request_ids from (S n) = request_ids from n ++ [from + Z.of_nat (S n)].
Proof. unfold request_ids. rewrite seq_S, map_app. reflexivity. Qed.

Lemma request_ids_lookup (from : Z) (n k : nat) (i : Z) :
  request_ids from n !! k = Some i -> i = from + Z.of_nat (S k) /\ (k < n)%nat.
Proof.
  unfold request_ids. intros H.
  change (map ?f ?l) with (f <$> l) in H.
  apply list_lookup_fmap_Some in H as (j & -> & Hj).
  apply lookup_seq in Hj as [-> Hlt]. split; [reflexivity | exact Hlt].
Qed.

(** A call that is no longer the last one leaves everything as it is,
    whatever its promises settle with. *)
Lemma superseded_catch (c : CategoryPage.call_) (e : CategoryPage.exception)
    (s : CategoryPage.shell) :
  CategoryPage.currentRequestId c <> CategoryPage.requestIdRef s ->
  CategoryPage.fetchProducts_catch c e s = s.
Proof.
  intros Hne. unfold CategoryPage.fetchProducts_catch.
  destruct (_ && _); [reflexivity|].
  apply Z.eqb_neq in Hne. rewrite Hne. reflexivity.
Qed.

Lemma superseded_fetched (c : CategoryPage.call_)
    (response : CategoryPage.settled CategoryPage.Response) (s : CategoryPage.shell) :
  CategoryPage.currentRequestId c <> CategoryPage.requestIdRef s ->
  CategoryPage.fetchProducts_fetched c response s = (false, s).
Proof.
  intros Hne. unfold CategoryPage.fetchProducts_fetched.
  destruct response as [response|e]; [|rewrite superseded_catch by exact Hne; reflexivity].
  apply Z.eqb_neq in Hne. rewrite Hne. reflexivity.
Qed.

Lemma superseded_parsed (c : CategoryPage.call_) (data : CategoryPage.settled value)
    (s : CategoryPage.shell) :
  CategoryPage.currentRequestId c <> CategoryPage.requestIdRef s ->
  CategoryPage.fetchProducts_parsed c data s = s.
Proof.
  intros Hne. unfold CategoryPage.fetchProducts_parsed.
  destruct data as [data|e]; [|apply superseded_catch, Hne].
  apply Z.eqb_neq in Hne. rewrite Hne. reflexivity.
Qed.

(** What a step of a call leaves of the refs and of the browser. *)
Lemma catch_keeps (c : CategoryPage.call_) (e : CategoryPage.exception)
    (s : CategoryPage.shell) :
  let s' := CategoryPage.fetchProducts_catch c e s in
  CategoryPage.requestIdRef s' = CategoryPage.requestIdRef s
  /\ CategoryPage.abortControllerRef s' = CategoryPage.abortControllerRef s
  /\ CategoryPage.aborted s' = CategoryPage.aborted s
  /\ CategoryPage.sent s' = CategoryPage.sent s.
Proof.
  unfold CategoryPage.fetchProducts_catch.
  destruct (_ && _); [repeat split|]. destruct (negb _); repeat split.
Qed.

Lemma fetched_keeps (c : CategoryPage.call_)
    (response : CategoryPage.settled CategoryPage.Response) (s : CategoryPage.shell) :
  let s' := snd (CategoryPage.fetchProducts_fetched c response s) in
  CategoryPage.requestIdRef s' = CategoryPage.requestIdRef s
  /\ CategoryPage.abortControllerRef s' = CategoryPage.abortControllerRef s
  /\ CategoryPage.aborted s' = CategoryPage.aborted s
  /\ CategoryPage.sent s' = CategoryPage.sent s.
Proof.
  unfold CategoryPage.fetchProducts_fetched.
  destruct response as [response|e]; [|apply catch_keeps].
  destruct (negb (_ =? _)%Z); [repeat split|].
  destruct (negb (CategoryPage.ok response)); [apply catch_keeps | repeat split].
Qed.

Lemma parsed_keeps (c : CategoryPage.call_) (data : CategoryPage.settled value)
    (s : CategoryPage.shell) :
  let s' := CategoryPage.fetchProducts_parsed c data s in
  CategoryPage.requestIdRef s' = CategoryPage.requestIdRef s
  /\ CategoryPage.abortControllerRef s' = CategoryPage.abortControllerRef s
  /\ CategoryPage.aborted s' = CategoryPage.aborted s
  /\ CategoryPage.sent s' = CategoryPage.sent s.
Proof.
  unfold CategoryPage.fetchProducts_parsed.
  destruct data as [data|e]; [|apply catch_keeps].
  destruct (negb (_ =? _)%Z); [repeat split|].
  destruct data; [apply catch_keeps | repeat split ..].
Qed.

Lemma map_fst_insert {A B} (l : list (A * B)) (k : nat) (a : A) (b b' : B) :
  l !! k = Some (a, b) -> map fst (<[k := (a, b')]> l) = map fst l.
Proof.
  revert k. induction l as [|x l IH]; intros [|k] H; simpl in *; try discriminate.
  - injection H as ->. reflexivity.
  - f_equal. apply IH, H.
Qed.

Lemma in_order_keeps (from : Z) (s s' : CategoryPage.shell)
    (calls_ calls' : list (CategoryPage.call_ * CategoryPage.stage)) :
  map fst calls' = map fst calls_ ->
  CategoryPage.requestIdRef s' = CategoryPage.requestIdRef s ->
  CategoryPage.abortControllerRef s' = CategoryPage.abortControllerRef s ->
  CategoryPage.aborted s' = CategoryPage.aborted s ->
  in_order from (s, calls_) -> in_order from (s', calls').
Proof.
  unfold in_order. cbn [fst snd]. intros -> -> -> ->. tauto.
Qed.

Lemma In_aborted (x previous : nat) (s : CategoryPage.shell) :
  In x (CategoryPage.aborted s) \/ x = previous ->
  In x (CategoryPage.aborted (CategoryPage.abort previous s)).
Proof.
  unfold CategoryPage.abort. cbn [CategoryPage.aborted].
  destruct (existsb (Nat.eqb previous) (CategoryPage.aborted s)) eqn:Hex.
  - intros [H| ->]; [exact H|].
    apply existsb_exists in Hex as (y & Hy & Heq). apply Nat.eqb_eq in Heq. subst y. exact Hy.
  - intros [H| ->]; apply in_or_app; [left; exact H | right; left; reflexivity].
Qed.

Lemma step_in_order (category_slug : string) (from : Z) (ev : CategoryPage.event)
    (st : CategoryPage.page_state) :
  in_order from st -> in_order from (CategoryPage.step category_slug ev st).
Proof.
  destruct st as [s calls_]. intros Hin.
  destruct ev as [filters | k response | k data]; cbn [CategoryPage.step].
  - destruct Hin as (Hids & Href & Hlast & Haborted). cbn [fst snd] in *.
    unfold CategoryPage.fetchProducts, in_order. cbn [fst snd].
    rewrite map_app, length_app, map_app. cbn [map length CategoryPage.currentRequestId].
    rewrite Nat.add_1_r, request_ids_snoc.
    assert (Hsame : CategoryPage.requestIdRef
                      (match CategoryPage.abortControllerRef s with
                       | Some previous => CategoryPage.abort previous s
                       | None => s
                       end) = CategoryPage.requestIdRef s)
      by (destruct (CategoryPage.abortControllerRef s); reflexivity).
    rewrite Hsame. cbn [CategoryPage.requestIdRef CategoryPage.abortControllerRef
                          CategoryPage.aborted fst CategoryPage.controller].
    split; [|split; [|split]].
    + rewrite Hids. f_equal. f_equal. cbn [CategoryPage.currentRequestId]. rewrite Href. lia.
    + rewrite Href. lia.
    + intros c Hc. rewrite last_snoc in Hc. injection Hc as <-. reflexivity.
    + intros k c Hk Hlt.
      assert (Hk' : (k < length (map fst calls_))%nat) by lia.
      rewrite lookup_app_l in Hk by exact Hk'.
      destruct (decide (S k < length (map fst calls_))%nat) as [Hearlier|Hlast'].
      * specialize (Haborted k c Hk Hearlier).
        destruct (CategoryPage.abortControllerRef s); [apply In_aborted; left|]; exact Haborted.
      * assert (Hl : last (map fst calls_) = Some c).
        { rewrite last_lookup. rewrite <- Hk. f_equal. lia. }
        rewrite (Hlast c Hl). apply In_aborted. right. reflexivity.
  - destruct (calls_ !! k) as [[c [| |]]|] eqn:Hk; try exact Hin.
    pose proof (fetched_keeps c response s) as (H1 & H2 & H3 & _).
    destruct (CategoryPage.fetchProducts_fetched c response s) as [goes_on s'].
    cbn [snd] in *.
    eapply in_order_keeps; [| exact H1 | exact H2 | exact H3 | exact Hin].
    eapply map_fst_insert, Hk.
  - destruct (calls_ !! k) as [[c [| |]]|] eqn:Hk; try exact Hin.
    pose proof (parsed_keeps c data s) as (H1 & H2 & H3 & _).
    eapply in_order_keeps; [| exact H1 | exact H2 | exact H3 | exact Hin].
    eapply map_fst_insert, Hk.
Qed.

Lemma run_in_order (category_slug : string) (from : Z) (evs : list CategoryPage.event)
    (st : CategoryPage.page_state) :
  in_order from st -> in_order from (CategoryPage.run category_slug evs st).
Proof.
  unfold CategoryPage.run. revert st. induction evs as [|ev evs IH]; intros st Hin.
  - exact Hin.
  - cbn [fold_left]. apply IH, step_in_order, Hin.
Qed.

Lemma in_order_start (s : CategoryPage.shell) :
  in_order (CategoryPage.requestIdRef s) (s, []).
Proof.
  unfold in_order. cbn. split; [reflexivity|]. split; [lia|].
  split; [discriminate|]. intros k c H. discriminate.
Qed.

(** The calls of [fetchProducts] that overlap: whatever happens to the
    page, and in whatever order, the calls made are numbered in the order
    they started and the counter holds the number of the last; the
    controller of every call but the last has been aborted; and whatever
    the promises of a call that is not the last settle with, and
    whenever, the call leaves the store, the refs and the rest of the
    page as they are and returns. *)
Lemma overlapping_fetches_keep_the_last (category_slug : string)
    (evs : list CategoryPage.event) (s0 : CategoryPage.shell) :
  let st := CategoryPage.run category_slug evs (s0, []) in
  let s := fst st in
  let cs := map fst (snd st) in
  map CategoryPage.currentRequestId cs
  = request_ids (CategoryPage.requestIdRef s0) (length cs)
  /\ CategoryPage.requestIdRef s = CategoryPage.requestIdRef s0 + Z.of_nat (length cs)
  /\ forall k c,
       cs !! k = Some c -> (S k < length cs)%nat ->
       In (CategoryPage.controller c) (CategoryPage.aborted s)
       /\ (forall response, CategoryPage.fetchProducts_fetched c response s = (false, s))
       /\ (forall data, CategoryPage.fetchProducts_parsed c data s = s).
Proof.
  intros st s cs.
  destruct (run_in_order category_slug _ evs _ (in_order_start s0))
    as (Hids & Href & _ & Haborted).
  fold st in Hids, Href, Haborted. fold s in Href, Haborted. fold cs in Hids, Href, Haborted.
  split; [exact Hids|]. split; [exact Href|].
  intros k c Hk Hlt.
  assert (Hstale : CategoryPage.currentRequestId c <> CategoryPage.requestIdRef s).
  { assert (Hid : map CategoryPage.currentRequestId cs !! k
                  = Some (CategoryPage.currentRequestId c)).
    { change (map CategoryPage.currentRequestId cs) with (CategoryPage.currentRequestId <$> cs).
      rewrite list_lookup_fmap, Hk. reflexivity. }
    rewrite Hids in Hid. apply request_ids_lookup in Hid as [-> _]. rewrite Href. lia. }
  split; [exact (Haborted k c Hk Hlt)|].
  split; intros ?; [apply superseded_fetched | apply superseded_parsed]; exact Hstale.
Qed.



(** ** Primary assets *)

(** *** Rows *)

Lemma get_set_eq (k : string) (v : value) (r : row) : get k (set k v r) = v.
Proof.
  induction r as [|[k' v'] r IH]; simpl.
  - rewrite String.eqb_refl. reflexivity.
  - destruct (String.eqb k k') eqn:H; simpl; rewrite ?String.eqb_refl, ?H; auto.
Qed.

Lemma get_set_ne (k k' : string) (v : value) (r : row) :
  k <> k' -> get k (set k' v r) = get k r.
Proof.
  intros Hne. apply String.eqb_neq in Hne.
  induction r as [|[k0 v0] r IH]; simpl.
  - rewrite Hne. reflexivity.
  - destruct (String.eqb k' k0) eqn:H; simpl.
    + apply String.eqb_eq in H. subst k0. rewrite Hne. reflexivity.
    + destruct (String.eqb k k0); auto.
Qed.

Lemma get_project (k : string) (columns : list string) (r : row) :
  In k columns -> get k (project columns r) = get k r.
Proof.
  intros Hin. unfold project.
  destruct (existsb (String.eqb "*") columns); [reflexivity|].
  induction r as [|[k0 v0] r IH]; simpl; [reflexivity|].
  destruct (existsb (String.eqb k0) columns) eqn:Hk0; simpl.
  - destruct (String.eqb k k0); auto.
  - destruct (String.eqb k k0) eqn:Hk; [|exact IH].
    apply String.eqb_eq in Hk. subst k0.
    assert (existsb (String.eqb k) columns = true)
      by (apply existsb_exists; exists k; split; [exact Hin | apply String.eqb_refl]).
    congruence.
Qed.

Lemma get_app_l (k : string) (r r' : row) :
  (exists v, In (k, v) r) -> get k (r ++ r') = get k r.
Proof.
  intros [v Hin]. induction r as [|[k0 v0] r IH]; simpl; [destruct Hin|].
  destruct (String.eqb k k0) eqn:Hk; [reflexivity|].
  apply IH. destruct Hin as [[= -> ->]|Hin]; [|exact Hin].
  rewrite String.eqb_refl in Hk. discriminate.
Qed.

(** *** Equality of stored values is symmetric and transitive *)

Lemma number_eqb_sym (a b : number) : number_eqb a b = number_eqb b a.
Proof.
  destruct a as [|s|p], b as [|t|q]; simpl; try reflexivity.
  - destruct s, t; reflexivity.
  - destruct (Qeq_bool p q) eqn:H1, (Qeq_bool q p) eqn:H2; try reflexivity.
    + apply Qeq_bool_iff in H1. symmetry in H1. apply Qeq_bool_iff in H1. congruence.
    + apply Qeq_bool_iff in H2. symmetry in H2. apply Qeq_bool_iff in H2. congruence.
Qed.

Lemma number_eqb_trans (a b c : number) :
  number_eqb a b = true -> number_eqb b c = true -> number_eqb a c = true.
Proof.
  destruct a as [|s|p], b as [|t|q], c as [|u|r]; simpl; try discriminate.
  - destruct s, t, u; auto.
  - rewrite !Qeq_bool_iff. intros H1 H2. rewrite H1. exact H2.
Qed.

Lemma value_eqb_sym (a b : value) : value_eqb a b = value_eqb b a.
Proof.
  destruct a, b; simpl; try reflexivity.
  - destruct b0, b; reflexivity.
  - apply number_eqb_sym.
  - apply String.eqb_sym.
Qed.

Lemma value_eqb_trans (a b c : value) :
  value_eqb a b = true -> value_eqb b c = true -> value_eqb a c = true.
Proof.
  destruct a, b, c; simpl; try discriminate.
  - destruct b0, b, b1; auto.
  - apply number_eqb_trans.
  - rewrite !String.eqb_eq. congruence.
Qed.

(** *** Counting the primary assets *)

Lemma filter_length_le {A} (p : A -> bool) (l : list A) :
  (length (List.filter p l) <= length l)%nat.
Proof. induction l as [|x l IH]; simpl; [lia|]. destruct (p x); simpl; lia. Qed.

Lemma filter_filter_length {A} (p q : A -> bool) (l : list A) :
  (length (List.filter p (List.filter q l)) <= length (List.filter p l))%nat.
Proof.
  induction l as [|x l IH]; simpl; [lia|].
  destruct (q x); simpl; destruct (p x); simpl; lia.
Qed.

(** Rewriting rows can only add the rows that are rewritten. *)
Lemma filter_map_length {A} (p changed : A -> bool) (g : A -> A) (l : list A) :
  (forall x, changed x = false -> g x = x) ->
  (length (List.filter p (map g l))
   <= length (List.filter (fun x => negb (changed x) && p x) l)
      + length (List.filter (fun x => changed x && p (g x)) l))%nat.
Proof.
  intros Hg. induction l as [|x l IH]; simpl; [lia|].
  destruct (changed x) eqn:Hc; simpl.
  - destruct (p (g x)); simpl; lia.
  - rewrite (Hg x Hc). destruct (p x); simpl; lia.
Qed.

Lemma filter_none {A} (p : A -> bool) (l : list A) :
  (forall x, In x l -> p x = false) -> List.filter p l = [].
Proof.
  induction l as [|x l IH]; intros H; simpl; [reflexivity|].
  rewrite (H x (or_introl eq_refl)). apply IH. intros y Hy. apply H. right. exact Hy.
Qed.

Lemma filter_and_le {A} (p q : A -> bool) (l : list A) :
  (length (List.filter (fun x => q x && p x) l) <= length (List.filter p l))%nat.
Proof.
  induction l as [|x l IH]; simpl; [lia|].
  destruct (q x), (p x); simpl; lia.
Qed.

(** *** The store under the writes of the asset operations *)

Lemma table_rows_set_same (t : string) (rs : list row) (d : database) :
  table_rows (set_table t rs d) t = rs.
Proof. unfold table_rows, set_table. simpl. rewrite lookup_insert_eq. reflexivity. Qed.

Lemma run_query_assets (q : query) (d : database) :
  q_table q = "product_assets" ->
  assets (snd (run_query q d)) = assets_after q d.
Proof.
  intros Ht. unfold run_query, assets_after, assets. rewrite Ht.
  destruct (q_verb q) as [cols ce hd|r|p|].
  - destruct hd; reflexivity.
  - simpl. unfold table_rows at 1. simpl. rewrite lookup_insert_eq. reflexivity.
  - simpl. apply table_rows_set_same.
  - simpl. apply table_rows_set_same.
Qed.

Lemma await_healthy (q : query) (w : world) :
  healthy w ->
  await q w = (Ret (fst (run_query q (db w))),
               with_db (snd (run_query q (db w))) (issue (DbQuery q) w)).
Proof.
  intros Hw. unfold await, platform. rewrite (healthy_next w Hw). cbv beta.
  change (db (issue (DbQuery q) w)) with (db w).
  destruct (run_query q (db w)) as [r d]. reflexivity.
Qed.

(** *** Triples *)

Lemma hoare_ret {A} (P : world -> Prop) (a : A) (Q : A -> world -> Prop) E :
  (forall w, P w -> Q a w) -> hoare P (ret a) Q E.
Proof. intros H w Hw. exact (H w Hw). Qed.

Lemma hoare_throw {A} (P : world -> Prop) e (Q : A -> world -> Prop) (E : world -> Prop) :
  (forall w, P w -> E w) -> hoare P (throw e) Q E.
Proof. intros H w Hw. exact (H w Hw). Qed.

Lemma hoare_bind {A B} (P : world -> Prop) (m : M A) (R : A -> world -> Prop)
    (k : A -> M B) (Q : B -> world -> Prop) E :
  hoare P m R E -> (forall a, hoare (R a) (k a) Q E) -> hoare P (bind m k) Q E.
Proof.
  intros Hm Hk w Hw. specialize (Hm w Hw). unfold bind.
  destruct (m w) as [[a|e] w1]; [exact (Hk a w1 Hm) | exact Hm].
Qed.

Lemma hoare_pre {A} (P P' : world -> Prop) (m : M A) Q E :
  (forall w, P' w -> P w) -> hoare P m Q E -> hoare P' m Q E.
Proof. intros HP H w Hw. exact (H w (HP w Hw)). Qed.

Lemma hoare_post {A} (P : world -> Prop) (m : M A) (Q Q' : A -> world -> Prop) E :
  (forall a w, Q a w -> Q' a w) -> hoare P m Q E -> hoare P m Q' E.
Proof.
  intros HQ H w Hw. specialize (H w Hw).
  destruct (m w) as [[a|e] w1]; [exact (HQ a w1 H) | exact H].
Qed.

Lemma hoare_run {A} (P : world -> Prop) (m : M A) Q E w o w' :
  hoare P m Q E -> P w -> m w = (o, w') ->
  match o with Ret a => Q a w' | Throw _ => E w' end.
Proof. intros H Hw Hrun. specialize (H w Hw). rewrite Hrun in H. exact H. Qed.

(** *** The state that the asset operations keep *)

Lemma platform_healthy {A} (c : call) (serve : world -> A * world) refuse w o w' :
  (forall w0, faults (snd (serve w0)) = faults w0) ->
  healthy w -> platform c serve refuse w = (o, w') -> healthy w' /\ exists a, o = Ret a.
Proof.
  intros Hserve Hw. unfold platform. rewrite (healthy_next w Hw).
  specialize (Hserve (issue c w)). destruct (serve (issue c w)) as [a w2].
  intros [= <- <-]. split; [|eauto].
  unfold healthy in *. simpl in Hserve. rewrite Hserve. simpl. rewrite Hw. reflexivity.
Qed.

(** A call to the object storage keeps the assets, and returns. *)
Lemma hoare_storage {A} (I : list row -> Prop) (c : call) (serve : world -> A * world)
    refuse (E : world -> Prop) :
  (forall w0, faults (snd (serve w0)) = faults w0) ->
  (forall w0, db (snd (serve w0)) = db w0) ->
  hoare (serving I) (platform c serve refuse) (fun _ => serving I) E.
Proof.
  intros Hf Hd w [Hw HI].
  destruct (platform c serve refuse w) as [o w'] eqn:Hrun.
  destruct (platform_healthy _ _ _ _ _ _ Hf Hw Hrun) as [Hw' [a ->]].
  split; [exact Hw'|]. unfold assets. rewrite (platform_db _ _ _ _ _ _ Hd Hrun). exact HI.
Qed.

Lemma hoare_move I b f t E : hoare (serving I) (Storage.move b f t) (fun _ => serving I) E.
Proof.
  apply hoare_storage; intros w0;
    destruct (files w0 !! (b, f)), (files w0 !! (b, t)); reflexivity.
Qed.

Lemma hoare_download I b p E : hoare (serving I) (Storage.download b p) (fun _ => serving I) E.
Proof. apply hoare_storage; reflexivity. Qed.

Lemma hoare_upload I b p c u E : hoare (serving I) (Storage.upload b p c u) (fun _ => serving I) E.
Proof.
  apply hoare_storage; intros w0; destruct (files w0 !! (b, p)), u; reflexivity.
Qed.

Lemma hoare_remove I b ps E : hoare (serving I) (Storage.remove b ps) (fun _ => serving I) E.
Proof. apply hoare_storage; reflexivity. Qed.

Lemma hoare_console I line E : hoare (serving I) (console_error line) (fun _ => serving I) E.
Proof. intros w Hw. exact Hw. Qed.

Lemma hoare_now I E : hoare (serving I) Date_now (fun _ => serving I) E.
Proof. intros w Hw. exact Hw. Qed.

(** A query on the assets takes them to [assets_after]. *)
Lemma hoare_await (I I' : list row -> Prop) (q : query) (E : world -> Prop) :
  q_table q = "product_assets" ->
  (forall d, I (assets d) -> I' (assets_after q d)) ->
  hoare (serving I) (await q)
    (fun r w' => serving I' w' /\ exists d, I (assets d) /\ r = fst (run_query q d)) E.
Proof.
  intros Ht HI w [Hw Hrows]. rewrite (await_healthy q w Hw).
  split; [split|].
  - apply healthy_issue with (c := DbQuery q) in Hw. exact Hw.
  - change (I' (assets (snd (run_query q (db w))))).
    rewrite (run_query_assets q (db w) Ht). apply HI, Hrows.
  - exists (db w). auto.
Qed.

Lemma hoare_await_plain (I I' : list row -> Prop) (q : query) (E : world -> Prop) :
  q_table q = "product_assets" ->
  (forall d, I (assets d) -> I' (assets_after q d)) ->
  hoare (serving I) (await q) (fun _ => serving I') E.
Proof.
  intros Ht HI. eapply hoare_post; [|apply hoare_await; eassumption].
  intros r w' [H _]. exact H.
Qed.

(** *** The effect of the writes on the primary flags *)

Lemma patch_one (k : string) (v : value) (r : row) : patch [(k, v)] r = set k v r.
Proof. reflexivity. Qed.

Lemma is_primary_of_other_key (pid : value) (k : string) (v : value) (r : row) :
  k <> "product_id" -> k <> "section" -> k <> "is_primary" ->
  is_primary_of pid (set k v r) = is_primary_of pid r.
Proof.
  intros H1 H2 H3. unfold is_primary_of.
  rewrite !get_set_ne by congruence. reflexivity.
Qed.

Lemma is_primary_of_cleared (pid : value) (r : row) :
  is_primary_of pid (set "is_primary" (VBool false) r) = false.
Proof. unfold is_primary_of. rewrite get_set_eq. simpl. apply andb_false_r. Qed.

Lemma filter_map_same {A} (p : A -> bool) (g : A -> A) (l : list A) :
  (forall x, p (g x) = p x) -> List.filter p (map g l) = map g (List.filter p l).
Proof.
  intros H. induction l as [|x l IH]; simpl; [reflexivity|].
  rewrite H. destruct (p x); simpl; rewrite IH; reflexivity.
Qed.

Lemma filter_map_le {A} (p : A -> bool) (g : A -> A) (l : list A) :
  (forall x, p (g x) = true -> p x = true) ->
  (length (List.filter p (map g l)) <= length (List.filter p l))%nat.
Proof.
  intros H. induction l as [|x l IH]; simpl; [lia|].
  destruct (p (g x)) eqn:Hg.
  - rewrite (H x Hg). simpl. lia.
  - destruct (p x); simpl; lia.
Qed.

(** Rewriting a field other than the three that decide primacy. *)
Lemma other_key_unique (k : string) (v : value) (c : row -> bool) (rows : list row) :
  k <> "product_id" -> k <> "section" -> k <> "is_primary" ->
  unique_primary rows ->
  unique_primary (map (fun r => if c r then patch [(k, v)] r else r) rows).
Proof.
  intros H1 H2 H3 Hu pid. etransitivity; [|exact (Hu pid)].
  apply filter_map_le. intros r. destruct (c r); [|auto].
  rewrite patch_one, is_primary_of_other_key by assumption. auto.
Qed.

Lemma other_key_cleared (p : value) (k : string) (v : value) (c : row -> bool)
    (rows : list row) :
  k <> "product_id" -> k <> "section" -> k <> "is_primary" ->
  cleared p rows ->
  cleared p (map (fun r => if c r then patch [(k, v)] r else r) rows).
Proof.
  intros H1 H2 H3 Hc pid Hpid.
  rewrite filter_map_same.
  - rewrite (Hc pid Hpid). reflexivity.
  - intros r. destruct (c r); [|reflexivity].
    rewrite patch_one. apply is_primary_of_other_key; assumption.
Qed.

Lemma clear_filters (flag : string) (p : value) (r : row) :
  matches_all (q_filters (Admin.clear_gallery_flag flag p)) r = in_gallery_of p r.
Proof.
  unfold matches_all, in_gallery_of. simpl. unfold column_value. simpl.
  rewrite andb_true_r. reflexivity.
Qed.

Lemma clear_primary_after (p : value) (d : database) :
  assets_after (Admin.clear_gallery_flag "is_primary" p) d = clear_primary p (assets d).
Proof.
  unfold assets_after, clear_primary. simpl q_verb. cbv iota.
  apply map_ext. intros r. rewrite clear_filters. reflexivity.
Qed.

Lemma clear_primary_unique (p : value) (rows : list row) :
  unique_primary rows -> unique_primary (clear_primary p rows).
Proof.
  intros Hu pid. etransitivity; [|exact (Hu pid)].
  apply filter_map_le. intros r. destruct (in_gallery_of p r); [|auto].
  rewrite patch_one, is_primary_of_cleared. discriminate.
Qed.

Lemma clear_primary_cleared (p : value) (rows : list row) : cleared p (clear_primary p rows).
Proof.
  intros pid Hpid. apply filter_none. intros r' Hin.
  apply in_map_iff in Hin as (r & <- & _).
  destruct (in_gallery_of p r) eqn:Hg.
  - rewrite patch_one. apply is_primary_of_cleared.
  - unfold is_primary_of. unfold in_gallery_of in Hg.
    destruct (value_eqb (get "product_id" r) pid) eqn:H1; [|reflexivity].
    destruct (value_eqb (get "section" r) (VStr "gallery")) eqn:H2; [|reflexivity].
    rewrite value_eqb_sym in Hpid.
    rewrite (value_eqb_trans _ _ _ H1 Hpid) in Hg. discriminate.
Qed.

(** Adding an asset of a product whose primary flags were just cleared
    (or one that is not primary). *)
Lemma insert_unique (p : value) (new : row) (rows : list row) :
  unique_primary rows ->
  get "product_id" new = p ->
  (value_eqb (get "section" new) (VStr "gallery") && value_eqb (get "is_primary" new) (VBool true)
   = true -> cleared p rows) ->
  unique_primary (rows ++ [new]).
Proof.
  intros Hu Hp Hc pid. rewrite List.filter_app, length_app. simpl.
  destruct (is_primary_of pid new) eqn:Hnew; simpl; [|specialize (Hu pid); lia].
  unfold is_primary_of in Hnew. rewrite Hp in Hnew.
  apply andb_true_iff in Hnew as [Hnew H3]. apply andb_true_iff in Hnew as [H1 H2].
  rewrite (Hc (proj2 (andb_true_iff _ _) (conj H2 H3)) pid H1). simpl. lia.
Qed.

Lemma delete_unique (c : row -> bool) (rows : list row) :
  unique_primary rows -> unique_primary (List.filter c rows).
Proof.
  intros Hu pid. etransitivity; [apply filter_filter_length | exact (Hu pid)].
Qed.

(** One query on the assets, served. *)
Lemma await_step (q : query) (w : world) :
  healthy w -> q_table q = "product_assets" ->
  exists w1,
    await q w = (Ret (fst (run_query q (db w))), w1)
    /\ healthy w1 /\ assets (db w1) = assets_after q (db w).
Proof.
  intros Hw Ht. eexists. split; [apply await_healthy, Hw|]. split.
  - apply healthy_issue with (c := DbQuery q) in Hw. exact Hw.
  - apply (run_query_assets q (db w) Ht).
Qed.

Lemma fetch_by_id (columns : list column_spec) (aid : number) (d : database) :
  fst (run_query (Pg.from "product_assets" (Pg.select columns)
                  |> Pg.eq "id" (VNum aid) |> Pg.single) d)
  = finish true None (map (shape d "product_assets" columns)
                        (List.filter (has_id aid) (assets d))).
Proof.
  unfold run_query. cbn -[sort_rows shape List.filter matches_all finish].
  rewrite (filter_ext_eq _ (has_id aid)) by (intros r; apply matches_all_one).
  rewrite sort_rows_unordered. reflexivity.
Qed.

Lemma set_primary_after (aid : number) (d : database) :
  assets_after (Pg.from "product_assets" (Update [("is_primary", VBool true)])
                |> Pg.eq "id" (VNum aid)) d
  = set_primary aid (assets d).
Proof.
  unfold assets_after, set_primary. simpl q_verb. cbv iota.
  apply map_ext. intros r. simpl q_filters. rewrite matches_all_one. reflexivity.
Qed.

Lemma filter_and_le_l {A} (c q : A -> bool) (l : list A) :
  (length (List.filter (fun x => c x && q x) l) <= length (List.filter c l))%nat.
Proof.
  induction l as [|x l IH]; simpl; [lia|].
  destruct (c x), (q x); simpl; lia.
Qed.

Lemma filter_In_one {A} (c : A -> bool) (l : list A) (x0 x : A) :
  List.filter c l = [x0] -> In x l -> c x = true -> x = x0.
Proof.
  intros Hf Hin Hc.
  assert (Hx : In x (List.filter c l)) by (apply filter_In; auto).
  rewrite Hf in Hx. destruct Hx as [<-|[]]. reflexivity.
Qed.

(** Flagging the one asset with a given identifier, after the flags of
    its product were cleared. *)
Lemma set_primary_unique (aid : number) (pv : value) (r0 : row) (rows : list row) :
  unique_primary rows -> cleared pv rows ->
  List.filter (has_id aid) rows = [r0] -> get "product_id" r0 = pv ->
  unique_primary (set_primary aid rows).
Proof.
  intros Hu Hc Hone Hpv pid. unfold set_primary.
  etransitivity; [apply (filter_map_length _ (has_id aid))|].
  { intros r Hr. rewrite Hr. reflexivity. }
  destruct (value_eqb pv pid) eqn:Hpid.
  - etransitivity.
    + apply Nat.add_le_mono.
      * apply (filter_and_le (is_primary_of pid) (fun r => negb (has_id aid r))).
      * apply (filter_and_le_l (has_id aid)).
    + rewrite (Hc pid Hpid), Hone. simpl. lia.
  - etransitivity.
    + apply Nat.add_le_mono.
      * apply (filter_and_le (is_primary_of pid) (fun r => negb (has_id aid r))).
      * apply Nat.le_refl.
    + rewrite (filter_none (fun r => has_id aid r && _) rows).
      * specialize (Hu pid). simpl. lia.
      * intros r Hin. cbv beta. destruct (has_id aid r) eqn:Hid; [|reflexivity].
        cbn [andb].
        rewrite (filter_In_one _ _ _ _ Hone Hin Hid).
        unfold is_primary_of. rewrite patch_one, get_set_ne by discriminate.
        rewrite Hpv, Hpid. reflexivity.
Qed.

Lemma clear_primary_has_id (aid : number) (pv : value) (r0 : row) (rows : list row) :
  List.filter (has_id aid) rows = [r0] ->
  exists r1, List.filter (has_id aid) (clear_primary pv rows) = [r1]
             /\ get "product_id" r1 = get "product_id" r0.
Proof.
  intros Hone. unfold clear_primary. rewrite filter_map_same.
  - rewrite Hone. cbn [map]. eexists. split; [reflexivity|].
    destruct (in_gallery_of pv r0); [|reflexivity].
    rewrite patch_one. apply get_set_ne. discriminate.
  - intros r. destruct (in_gallery_of pv r); [|reflexivity].
    unfold has_id. rewrite patch_one, get_set_ne by discriminate. reflexivity.
Qed.

Lemma setAssetAsPrimary_keeps (assetId : number) (w : world) :
  healthy w -> unique_primary (assets (db w)) ->
  healthy (snd (Admin.setAssetAsPrimary assetId w))
  /\ unique_primary (assets (db (snd (Admin.setAssetAsPrimary assetId w)))).
Proof.
  intros Hw Hu. unfold Admin.setAssetAsPrimary.
  destruct (await_step (Pg.from "product_assets" (Pg.select [Col "product_id"; Col "section"])
                        |> Pg.eq "id" (VNum assetId) |> Pg.single) w Hw eq_refl)
    as (w1 & Hrun1 & Hw1 & Ha1).
  erewrite bind_ret by exact Hrun1. rewrite fetch_by_id.
  change (assets_after _ (db w)) with (assets (db w)) in Ha1.
  destruct (List.filter (has_id assetId) (assets (db w))) as [|r0 [|r1 more]] eqn:Hone;
    cbn [map finish res_error res_data snd throw];
    [rewrite Ha1; auto | | rewrite Ha1; auto].
  set (asset := shape (db w) "product_assets" [Col "product_id"; Col "section"] r0).
  assert (Hpid : get "product_id" asset = get "product_id" r0).
  { unfold asset, shape. simpl plain_columns. simpl embedded. rewrite app_nil_r.
    apply get_project. simpl. auto. }
  destruct (negb (value_eqb (get "section" asset) (VStr "gallery")));
    [cbn [snd throw]; rewrite Ha1; auto|].
  destruct (await_step (Admin.clear_gallery_flag "is_primary" (get "product_id" asset))
              w1 Hw1 eq_refl) as (w2 & Hrun2 & Hw2 & Ha2).
  erewrite bind_ret by exact Hrun2.
  destruct (await_step (Pg.from "product_assets" (Update [("is_primary", VBool true)])
                        |> Pg.eq "id" (VNum assetId)) w2 Hw2 eq_refl)
    as (w3 & Hrun3 & Hw3 & Ha3).
  erewrite bind_ret by exact Hrun3.
  assert (Hfinal : unique_primary (assets (db w3))).
  { rewrite Ha3, set_primary_after, Ha2, clear_primary_after, Ha1.
    destruct (clear_primary_has_id assetId (get "product_id" asset) r0 _ Hone)
      as (r1 & Hone' & Hr1).
    apply (set_primary_unique assetId (get "product_id" asset) r1).
    - apply clear_primary_unique, Hu.
    - apply clear_primary_cleared.
    - exact Hone'.
    - congruence. }
  destruct (res_error _); cbn [snd throw ret]; auto.
Qed.

Lemma serving_weaken (I I' : list row -> Prop) (w : world) :
  (forall rows, I rows -> I' rows) -> serving I w -> serving I' w.
Proof. intros H [Hw HI]. split; auto. Qed.

Lemma hoare_read (I : list row -> Prop) (q : query) (E : world -> Prop) :
  q_table q = "product_assets" -> is_read q = true ->
  hoare (serving I) (await q) (fun _ => serving I) E.
Proof.
  intros Ht Hr. apply hoare_await_plain; [exact Ht|].
  intros d Hd. unfold assets_after. unfold is_read in Hr.
  destruct (q_verb q); try discriminate. exact Hd.
Qed.

(** Clearing a flag of the gallery assets of a product, when [c] holds. *)
Lemma hoare_clear_primary (c : bool) (p : value) (E : world -> Prop) :
  hoare (serving unique_primary)
    (when c (await (Admin.clear_gallery_flag "is_primary" p) ;;; ret tt))
    (fun _ => serving (ready c p)) E.
Proof.
  destruct c; simpl when.
  - eapply hoare_bind; [|intros; apply hoare_ret; intros w H; exact H].
    apply hoare_await_plain; [reflexivity|].
    intros d Hu. rewrite clear_primary_after. split.
    + apply clear_primary_unique, Hu.
    + intros ?. apply clear_primary_cleared.
  - apply hoare_ret. intros w [Hw Hu]. split; [exact Hw|]. split; [exact Hu | discriminate].
Qed.

Lemma hoare_clear_secondary (c b : bool) (p p' : value) (E : world -> Prop) :
  hoare (serving (ready b p))
    (when c (await (Admin.clear_gallery_flag "is_secondary" p') ;;; ret tt))
    (fun _ => serving (ready b p)) E.
Proof.
  destruct c; simpl when; [|apply hoare_ret; auto].
  eapply hoare_bind; [|intros; apply hoare_ret; intros w H; exact H].
  apply hoare_await_plain; [reflexivity|].
  intros d [Hu Hc]. unfold assets_after. simpl q_verb. cbv iota. split.
  - apply other_key_unique; try discriminate. exact Hu.
  - intros Hb. apply other_key_cleared; try discriminate. exact (Hc Hb).
Qed.

(** Inserting a row whose fields are given in full. *)
Lemma hoare_insert (b : bool) (p : value) (new : row) (q : query) (E : world -> Prop) :
  q_table q = "product_assets" -> q_verb q = Insert new ->
  get "product_id" new = p ->
  (value_eqb (get "section" new) (VStr "gallery")
   && value_eqb (get "is_primary" new) (VBool true) = true -> b = true) ->
  hoare (serving (ready b p)) (await q) (fun _ => serving unique_primary) E.
Proof.
  intros Ht Hv Hp Hb. apply hoare_await_plain; [exact Ht|].
  intros d [Hu Hc]. unfold assets_after. rewrite Hv.
  apply (insert_unique p).
  - exact Hu.
  - rewrite get_set_ne by discriminate. exact Hp.
  - rewrite !get_set_ne by discriminate. intros H. exact (Hc (Hb H)).
Qed.

Lemma uploadProductAsset_keeps productId file options :
  hoare (serving unique_primary) (Admin.uploadProductAsset productId file options)
    (fun _ => serving unique_primary) (serving unique_primary).
Proof.
  unfold Admin.uploadProductAsset.
  eapply hoare_bind; [apply hoare_now|]. intros timestamp.
  eapply hoare_bind; [apply hoare_upload|]. intros uploaded.
  destruct (rep_error uploaded); [apply hoare_throw; auto|].
  eapply hoare_bind; [apply hoare_clear_primary|]. intros ?.
  eapply hoare_bind; [apply hoare_read; reflexivity|]. intros lastAsset.
  eapply hoare_bind.
  { eapply (hoare_insert _ (VNum productId)); try reflexivity.
    simpl get. intros H. apply andb_true_iff in H as [H1 H2].
    simpl in H1, H2. destruct (bool_truthy (Admin.opt_is_primary options)); [|discriminate].
    rewrite H1. reflexivity. }
  intros inserted. destruct (res_error inserted).
  - eapply hoare_bind; [apply hoare_remove|]. intros ?. apply hoare_throw. auto.
  - apply hoare_ret. auto.
Qed.

Lemma deleteProductAsset_keeps assetId :
  hoare (serving unique_primary) (Admin.deleteProductAsset assetId)
    (fun _ => serving unique_primary) (serving unique_primary).
Proof.
  unfold Admin.deleteProductAsset.
  eapply hoare_bind; [apply hoare_read; reflexivity|]. intros fetched.
  destruct (res_error fetched); [apply hoare_throw; auto|].
  destruct (res_data fetched) as [|asset|]; try (apply hoare_throw; auto).
  eapply hoare_bind; [apply hoare_remove|]. intros removed.
  eapply hoare_bind.
  { destruct (bool_decide _); simpl when; [apply hoare_console | apply hoare_ret; auto]. }
  intros ?.
  eapply hoare_bind.
  { apply hoare_await_plain with (I' := unique_primary); [reflexivity|].
    intros d Hu. unfold assets_after. simpl q_verb. cbv iota. apply delete_unique, Hu. }
  intros deleted. destruct (res_error deleted); [apply hoare_throw | apply hoare_ret]; auto.
Qed.

Lemma updateAssetOrder_keeps productId section assetIds :
  hoare (serving unique_primary) (Admin.updateAssetOrder productId section assetIds)
    (fun _ => serving unique_primary) (serving unique_primary).
Proof.
  unfold Admin.updateAssetOrder. generalize 0.
  induction assetIds as [|assetId rest IH]; intros i; simpl.
  - apply hoare_ret. auto.
  - eapply hoare_bind.
    { apply hoare_await_plain with (I' := unique_primary); [reflexivity|].
      intros d Hu. unfold assets_after. simpl q_verb. cbv iota.
      apply other_key_unique; try discriminate. exact Hu. }
    intros updated. destruct (res_error updated); [apply hoare_throw; auto | apply IH].
Qed.

Lemma setAssetAsSecondary_keeps assetId productId :
  hoare (serving unique_primary) (Admin.setAssetAsSecondary assetId productId)
    (fun _ => serving unique_primary) (serving unique_primary).
Proof.
  unfold Admin.setAssetAsSecondary.
  eapply hoare_bind.
  { apply hoare_await_plain with (I' := unique_primary); [reflexivity|].
    intros d Hu. unfold assets_after. simpl q_verb. cbv iota.
    apply other_key_unique; try discriminate. exact Hu. }
  intros ?. destruct (number_truthy assetId); [|apply hoare_ret; auto].
  eapply hoare_bind.
  { apply hoare_await_plain with (I' := unique_primary); [reflexivity|].
    intros d Hu. unfold assets_after. simpl q_verb. cbv iota.
    apply other_key_unique; try discriminate. exact Hu. }
  intros updated. destruct (res_error updated); [apply hoare_throw | apply hoare_ret]; auto.
Qed.

Lemma ready_unique b p w : serving (ready b p) w -> serving unique_primary w.
Proof. apply serving_weaken. intros rows [H _]. exact H. Qed.

Lemma moveFileAndCreateAsset_keeps productId product file section isPrimary isSecondary :
  hoare (serving unique_primary)
    (ProductRoutes.moveFileAndCreateAsset productId product file section
       isPrimary isSecondary)
    (fun _ => serving unique_primary) (serving unique_primary).
Proof.
  unfold ProductRoutes.moveFileAndCreateAsset.
  eapply hoare_bind; [apply hoare_now|]. intros timestamp.
  eapply hoare_bind; [apply hoare_move|]. intros moved.
  eapply hoare_bind with (R := fun _ => serving unique_primary).
  { destruct (rep_error moved); [|apply hoare_ret; auto].
    eapply hoare_bind; [apply hoare_console|]. intros ?.
    eapply hoare_bind; [apply hoare_download|]. intros fileData.
    destruct (rep_data fileData); [|apply hoare_throw; auto].
    eapply hoare_bind; [apply hoare_upload|]. intros ?.
    eapply hoare_bind; [apply hoare_remove|]. intros ?. apply hoare_ret. auto. }
  intros ?.
  eapply hoare_bind; [apply hoare_read; reflexivity|]. intros lastAsset.
  eapply hoare_bind; [apply hoare_clear_primary|]. intros ?.
  eapply hoare_bind; [apply hoare_clear_secondary|]. intros ?.
  eapply hoare_bind with (R := fun _ => serving (ready isPrimary (VNum productId))).
  { destruct (String.eqb section "download"); [apply hoare_ret; auto|].
    eapply hoare_bind with (R := fun _ => serving (ready isPrimary (VNum productId))).
    - destruct product; [apply hoare_throw; apply ready_unique | apply hoare_ret; auto ..].
    - intros r. apply hoare_ret. auto. }
  intros alt.
  eapply hoare_bind.
  { eapply (hoare_insert _ (VNum productId)); try reflexivity.
    simpl get. intros H. apply andb_true_iff in H as [_ H].
    destruct isPrimary; [reflexivity | discriminate]. }
  intros inserted. destruct (res_error inserted).
  - eapply hoare_bind; [apply hoare_console|]. intros ?. apply hoare_throw. auto.
  - apply hoare_ret. auto.
Qed.

Lemma asset_op_keeps (op : asset_op) :
  hoare (serving unique_primary) (run_asset_op op) (fun _ => serving unique_primary)
    (serving unique_primary).
Proof.
  destruct op; simpl run_asset_op.
  - eapply hoare_bind; [apply uploadProductAsset_keeps|]. intros ?. apply hoare_ret. auto.
  - apply deleteProductAsset_keeps.
  - apply updateAssetOrder_keeps.
  - intros w [Hw Hu]. destruct (setAssetAsPrimary_keeps assetId w Hw Hu) as [H1 H2].
    destruct (Admin.setAssetAsPrimary assetId w) as [[[]|e] w']; split; assumption.
  - apply setAssetAsSecondary_keeps.
  - apply moveFileAndCreateAsset_keeps.
Qed.

(** *** The order of the calls *)

Lemma initial_segment_nil {A} (l : list A) : initial_segment [] l.
Proof. exists l. reflexivity. Qed.

Lemma initial_segment_refl {A} (l : list A) : initial_segment l l.
Proof. exists []. rewrite app_nil_r. reflexivity. Qed.

Lemma initial_segment_app {A} (s l l' : list A) :
  initial_segment l l' -> initial_segment (s ++ l) (s ++ l').
Proof. intros [rest ->]. exists rest. rewrite app_assoc. reflexivity. Qed.

Lemma initial_segment_grow {A} (l l' r : list A) :
  initial_segment l l' -> initial_segment l (l' ++ r).
Proof. intros [rest ->]. exists (rest ++ r). rewrite app_assoc. reflexivity. Qed.

Lemma emits_ret sel {A} (a : A) : emits sel [] (ret a).
Proof. intros w o w' [= <- <-]. exists []. rewrite app_nil_r. auto. Qed.

Lemma emits_throw sel {A} e : emits sel [] (@throw A e).
Proof.
  intros w o w' [= <- <-]. exists []. rewrite app_nil_r. split; [reflexivity|].
  apply initial_segment_nil.
Qed.

Lemma emits_pure sel {A} (m : M A) :
  (forall w o w', m w = (o, w') -> calls w' = calls w) -> emits sel [] m.
Proof.
  intros Hm w o w' H. exists []. rewrite (Hm _ _ _ H), app_nil_r. split; [reflexivity|].
  destruct o; [reflexivity | apply initial_segment_nil].
Qed.

(** A call that is not selected. *)
Lemma emits_other sel {A} (m : M A) (c : call) :
  (forall w o w', m w = (o, w') -> calls w' = calls w ++ [c]) -> sel c = false ->
  emits sel [] m.
Proof.
  intros Hm Hsel w o w' H. exists [c]. split; [exact (Hm _ _ _ H)|]. simpl. rewrite Hsel.
  destruct o; [reflexivity | apply initial_segment_nil].
Qed.

(** A call that is selected. *)
Lemma emits_one sel {A} (m : M A) (c : call) :
  (forall w o w', m w = (o, w') -> calls w' = calls w ++ [c]) -> sel c = true ->
  emits sel [c] m.
Proof.
  intros Hm Hsel w o w' H. exists [c]. split; [exact (Hm _ _ _ H)|]. simpl. rewrite Hsel.
  destruct o; [reflexivity | apply initial_segment_refl].
Qed.

Lemma emits_bind sel (L1 L2 : list call) {A B} (m : M A) (k : A -> M B) :
  emits sel L1 m -> (forall a, emits sel L2 (k a)) -> emits sel (L1 ++ L2) (bind m k).
Proof.
  intros Hm Hk w o w' H. apply bind_inv in H as [(a & w1 & H1 & H2) | (e & H1 & ->)].
  - destruct (Hm _ _ _ H1) as (cs1 & Hc1 & Hf1).
    destruct (Hk a _ _ _ H2) as (cs2 & Hc2 & Hf2).
    exists (cs1 ++ cs2). rewrite Hc2, Hc1, <- app_assoc. split; [reflexivity|].
    rewrite List.filter_app, Hf1.
    destruct o; [rewrite Hf2; reflexivity | apply initial_segment_app, Hf2].
  - destruct (Hm _ _ _ H1) as (cs1 & Hc1 & Hf1). exists cs1. split; [exact Hc1|].
    apply initial_segment_grow, Hf1.
Qed.

Lemma emits_await sel (q : query) : sel (DbQuery q) = true -> emits sel [DbQuery q] (await q).
Proof. apply emits_one, await_calls. Qed.

Lemma emits_await_other sel (q : query) : sel (DbQuery q) = false -> emits sel [] (await q).
Proof. apply emits_other, await_calls. Qed.

(** [if (c) await query]. *)
Lemma emits_when_await sel (c : bool) (q : query) :
  sel (DbQuery q) = true ->
  emits sel (if c then [DbQuery q] else []) (when c (await q ;;; ret tt)).
Proof.
  intros Hsel. destruct c; simpl when; [|apply emits_ret].
  change [DbQuery q] with ([DbQuery q] ++ []).
  apply emits_bind; [apply emits_await, Hsel | intros; apply emits_ret].
Qed.

Lemma calls_in_end sel (G : list call -> Prop) {A} (m : M A) :
  emits sel [] m -> G [] -> calls_in sel G m.
Proof.
  intros Hm HG w o w' H. destruct (Hm _ _ _ H) as (cs & Hc & Hf). exists cs.
  split; [exact Hc|]. destruct o; [rewrite Hf; exact HG|].
  destruct Hf as [rest Hrest]. symmetry in Hrest. apply app_eq_nil in Hrest as [-> _].
  exact HG.
Qed.

Lemma calls_in_seq sel (G : list call -> Prop) (L : list call) {A B}
    (m : M A) (k : A -> M B) :
  emits sel L m ->
  (forall pre, initial_segment pre L -> G pre) ->
  (forall a, calls_in sel (fun cs => G (L ++ cs)) (k a)) ->
  calls_in sel G (bind m k).
Proof.
  intros Hm HG Hk w o w' H. apply bind_inv in H as [(a & w1 & H1 & H2) | (e & H1 & ->)].
  - destruct (Hm _ _ _ H1) as (cs1 & Hc1 & Hf1).
    destruct (Hk a _ _ _ H2) as (cs2 & Hc2 & Hf2).
    exists (cs1 ++ cs2). rewrite Hc2, Hc1, <- app_assoc. split; [reflexivity|].
    rewrite List.filter_app, Hf1. exact Hf2.
  - destruct (Hm _ _ _ H1) as (cs1 & Hc1 & Hf1). exists cs1. split; [exact Hc1|].
    apply HG, Hf1.
Qed.

Lemma filter_all {A} (l : list A) : List.filter (fun _ => true) l = l.
Proof. induction l as [|x l IH]; simpl; congruence. Qed.

Lemma setAssetAsPrimary_order (assetId : number) (w : world) o w' cs :
  Admin.setAssetAsPrimary assetId w = (o, w') -> issued w w' cs ->
  exists pv, initial_segment cs (primary_calls assetId pv).
Proof.
  intros Hrun Hissued.
  set (G := fun cs : list call => exists pv, initial_segment cs (primary_calls assetId pv)).
  assert (H : calls_in (fun _ => true) G (Admin.setAssetAsPrimary assetId)).
  { unfold Admin.setAssetAsPrimary.
    apply (calls_in_seq _ _ [DbQuery (fetch_asset assetId)]);
      [apply emits_await; reflexivity | |].
    { intros pre Hpre. exists VNull.
      exact (initial_segment_grow pre [DbQuery (fetch_asset assetId)]
               [DbQuery (Admin.clear_gallery_flag "is_primary" VNull);
                DbQuery (flag_primary assetId)] Hpre). }
    intros fetched.
    assert (Hstop : forall A (e : thrown),
               calls_in (fun _ => true)
                 (fun cs0 => G ([DbQuery (fetch_asset assetId)] ++ cs0)) (@throw A e)).
    { intros A e. apply calls_in_end; [apply emits_throw|].
      exists VNull. eexists. reflexivity. }
    destruct (res_error fetched); [apply Hstop|].
    destruct (res_data fetched) as [|asset|]; try apply Hstop.
    destruct (negb _); [apply Hstop|].
    apply (calls_in_seq _ _
             [DbQuery (Admin.clear_gallery_flag "is_primary" (get "product_id" asset))]);
      [apply emits_await; reflexivity | |].
    { intros pre Hpre. exists (get "product_id" asset).
      apply (initial_segment_app [DbQuery (fetch_asset assetId)]).
      exact (initial_segment_grow pre _ [DbQuery (flag_primary assetId)] Hpre). }
    intros cleared_.
    apply (calls_in_seq _ _ [DbQuery (flag_primary assetId)]);
      [apply emits_await; reflexivity | |].
    { intros pre Hpre. exists (get "product_id" asset).
      apply (initial_segment_app [DbQuery (fetch_asset assetId)]).
      apply (initial_segment_app
               [DbQuery (Admin.clear_gallery_flag "is_primary" (get "product_id" asset))]).
      exact Hpre. }
    intros updated.
    destruct (res_error updated);
      (apply calls_in_end; [first [apply emits_throw | apply emits_ret]|]);
      exists (get "product_id" asset); apply initial_segment_refl. }
  destruct (H _ _ _ Hrun) as (cs' & Hcs' & pv & Hseg).
  unfold issued in Hissued. rewrite Hcs' in Hissued. apply app_inv_head in Hissued.
  subst cs'. rewrite filter_all in Hseg. eauto.
Qed.

Lemma setAssetAsPrimary_not_gallery (assetId : number) (w w1 : world)
    (fetched : result) (asset : row) :
  await (Pg.from "product_assets" (Pg.select [Col "product_id"; Col "section"])
         |> Pg.eq "id" (VNum assetId) |> Pg.single) w = (Ret fetched, w1) ->
  res_error fetched = None -> res_data fetched = DRow asset ->
  value_eqb (get "section" asset) (VStr "gallery") = false ->
  Admin.setAssetAsPrimary assetId w
  = (Throw (JsError "Only gallery assets can be primary"), w1)
  /\ db w1 = db w.
Proof.
  intros Hfetch Herr Hdata Hsection. split.
  - unfold Admin.setAssetAsPrimary. erewrite bind_ret by exact Hfetch.
    rewrite Herr, Hdata, Hsection. reflexivity.
  - eapply await_read_db; [|exact Hfetch]. reflexivity.
Qed.

Lemma emits_storage {A} (m : M A) (c : call) :
  (forall w o w', m w = (o, w') -> calls w' = calls w ++ [c] /\ db w' = db w) ->
  is_write_call c = false ->
  emits is_write_call [] m.
Proof.
  intros Hm Hc. apply (emits_other _ _ c); [|exact Hc].
  intros w o w' H. exact (proj1 (Hm _ _ _ H)).
Qed.

Lemma moveFileAndCreateAsset_order productId product file section isPrimary isSecondary
    (w : world) o w' cs :
  ProductRoutes.moveFileAndCreateAsset productId product file section
    isPrimary isSecondary w = (o, w') ->
  issued w w' cs ->
  exists new,
    initial_segment (List.filter is_write_call cs)
      (asset_writes productId isPrimary isSecondary new)
    /\ get "product_id" new = VNum productId
    /\ get "is_primary" new = VBool isPrimary
    /\ get "is_secondary" new = VBool isSecondary.
Proof.
  intros Hrun Hissued.
  set (LP := if isPrimary
             then [DbQuery (Admin.clear_gallery_flag "is_primary" (VNum productId))] else []).
  set (LS := if isSecondary
             then [DbQuery (Admin.clear_gallery_flag "is_secondary" (VNum productId))] else []).
  set (G := fun ws : list call =>
              exists new,
                initial_segment ws (asset_writes productId isPrimary isSecondary new)
                /\ get "product_id" new = VNum productId
                /\ get "is_primary" new = VBool isPrimary
                /\ get "is_secondary" new = VBool isSecondary).
  assert (Hearly : forall pre, initial_segment pre (LP ++ LS) -> G pre).
  { intros pre Hpre.
    exists [("product_id", VNum productId); ("is_primary", VBool isPrimary);
            ("is_secondary", VBool isSecondary)].
    split; [|auto]. unfold asset_writes. fold LP LS. rewrite app_assoc.
    apply initial_segment_grow, Hpre. }
  assert (G0 : G []) by apply Hearly, initial_segment_nil.
  assert (H : calls_in is_write_call G
                (ProductRoutes.moveFileAndCreateAsset productId product file section
                   isPrimary isSecondary)).
  { unfold ProductRoutes.moveFileAndCreateAsset.
    eapply (calls_in_seq _ _ []);
      [apply emits_pure; intros ? ? ? [= _ <-]; reflexivity
      | intros pre [rest Hrest]; symmetry in Hrest; apply app_eq_nil in Hrest as [-> _];
        exact G0 |].
    intros timestamp.
    eapply (calls_in_seq _ _ []);
      [eapply emits_storage; [apply move_calls | reflexivity]
      | intros pre [rest Hrest]; symmetry in Hrest; apply app_eq_nil in Hrest as [-> _];
        exact G0 |].
    intros moved.
    eapply (calls_in_seq _ _ []);
      [| intros pre [rest Hrest]; symmetry in Hrest; apply app_eq_nil in Hrest as [-> _];
         exact G0 |].
    { destruct (rep_error moved); [|apply emits_ret].
      change (@nil call) with (@nil call ++ []).
      apply emits_bind; [apply emits_pure; intros ? ? ? [= _ <-]; reflexivity|]. intros ?.
      change (@nil call) with (@nil call ++ []).
      apply emits_bind; [eapply emits_storage; [apply download_calls | reflexivity]|].
      intros fileData.
      destruct (rep_data fileData); [|apply emits_throw].
      change (@nil call) with (@nil call ++ []).
      apply emits_bind; [eapply emits_storage; [apply upload_calls | reflexivity]|].
      intros ?.
      change (@nil call) with (@nil call ++ []).
      apply emits_bind; [eapply emits_storage; [apply remove_calls | reflexivity]|].
      intros ?. apply emits_ret. }
    intros ?.
    eapply (calls_in_seq _ _ []);
      [apply emits_await_other; reflexivity
      | intros pre [rest Hrest]; symmetry in Hrest; apply app_eq_nil in Hrest as [-> _];
        exact G0 |].
    intros lastAsset.
    eapply (calls_in_seq _ _ LP); [apply emits_when_await; reflexivity | |].
    { intros pre Hpre. cbn [app]. apply Hearly, initial_segment_grow, Hpre. }
    intros ?.
    eapply (calls_in_seq _ _ LS); [apply emits_when_await; reflexivity | |].
    { intros pre Hpre. cbn [app]. apply Hearly, initial_segment_app, Hpre. }
    intros ?.
    eapply (calls_in_seq _ _ []).
    { destruct (String.eqb section "download"); [apply emits_ret|].
      change (@nil call) with (@nil call ++ []).
      apply emits_bind; [|intros; apply emits_ret].
      destruct product; [apply emits_throw | apply emits_ret ..]. }
    { intros pre [rest Hrest]. symmetry in Hrest. apply app_eq_nil in Hrest as [-> _].
      cbn [app]. apply Hearly. rewrite app_nil_r. apply initial_segment_refl. }
    intros alt.
    eapply calls_in_seq; [apply emits_await; reflexivity | |].
    { intros pre [rest Hrest]. cbn [app]. eexists.
      split; [unfold asset_writes; fold LP LS; exists rest; rewrite <- !app_assoc;
              rewrite <- Hrest; reflexivity | cbn; auto]. }
    intros inserted.
    assert (Gend : forall new,
               get "product_id" new = VNum productId ->
               get "is_primary" new = VBool isPrimary ->
               get "is_secondary" new = VBool isSecondary ->
               G (LP ++ LS ++ [DbQuery (Pg.from "product_assets" (Insert new))])).
    { intros new H1 H2 H3. exists new. split; [apply initial_segment_refl | auto]. }
    destruct (res_error inserted).
    - eapply (calls_in_seq _ _ []);
        [apply emits_pure; intros ? ? ? [= _ <-]; reflexivity
        | intros pre [rest Hrest]; symmetry in Hrest; apply app_eq_nil in Hrest as [-> _];
          cbn [app]; apply Gend; reflexivity |].
      intros ?. apply calls_in_end; [apply emits_throw | cbn [app]; apply Gend; reflexivity].
    - apply calls_in_end; [apply emits_ret | cbn [app]; apply Gend; reflexivity]. }
  destruct (H _ _ _ Hrun) as (cs' & Hcs' & HG).
  unfold issued in Hissued. rewrite Hcs' in Hissued. apply app_inv_head in Hissued.
  subst cs'. exact HG.
Qed.

(** When the asset is found in the gallery, the clearing is the one of
    its product. *)
Lemma setAssetAsPrimary_gallery (assetId : number) (w w1 : world)
    (fetched : result) (asset : row) o w' cs :
  await (fetch_asset assetId) w = (Ret fetched, w1) ->
  res_error fetched = None -> res_data fetched = DRow asset ->
  value_eqb (get "section" asset) (VStr "gallery") = true ->
  Admin.setAssetAsPrimary assetId w = (o, w') -> issued w w' cs ->
  initial_segment [ DbQuery (fetch_asset assetId);
                    DbQuery (Admin.clear_gallery_flag "is_primary" (get "product_id" asset)) ]
    cs
  /\ (o = Ret tt -> cs = primary_calls assetId (get "product_id" asset)).
Proof.
  intros Hfetch Herr Hdata Hsection Hrun Hissued.
  unfold Admin.setAssetAsPrimary in Hrun.
  change (Pg.from "product_assets" (Pg.select [Col "product_id"; Col "section"])
          |> Pg.eq "id" (VNum assetId) |> Pg.single) with (fetch_asset assetId) in Hrun.
  erewrite bind_ret in Hrun by exact Hfetch.
  rewrite Herr, Hdata, Hsection in Hrun. cbn [negb] in Hrun.
  pose proof (await_calls _ _ _ _ Hfetch) as Hc1.
  apply bind_inv in Hrun as [(a & w2 & H2 & Hrun) | (e & H2 & ->)].
  - pose proof (await_calls _ _ _ _ H2) as Hc2.
    apply bind_inv in Hrun as [(updated & w3 & H3 & Hrun) | (e & H3 & ->)].
    + pose proof (await_calls _ _ _ _ H3) as Hc3.
      assert (Hw : w' = w3) by (destruct (res_error updated); injection Hrun; auto).
      subst w3. unfold issued in Hissued.
      rewrite Hc3, Hc2, Hc1, <- !app_assoc in Hissued. apply app_inv_head in Hissued.
      subst cs. split; [eexists; reflexivity | reflexivity].
    + pose proof (await_calls _ _ _ _ H3) as Hc3. unfold issued in Hissued.
      rewrite Hc3, Hc2, Hc1, <- !app_assoc in Hissued. apply app_inv_head in Hissued.
      subst cs. split; [eexists; reflexivity | discriminate].
  - pose proof (await_calls _ _ _ _ H2) as Hc2. unfold issued in Hissued.
    rewrite Hc2, Hc1, <- !app_assoc in Hissued. apply app_inv_head in Hissued.
    subst cs. split; [exists []; reflexivity | discriminate].
Qed.

(** X29: When the platform serves the calls, every operation on assets
    (upload, deletion, reordering, setAssetAsPrimary, setAssetAsSecondary
    and moveFileAndCreateAsset) that starts with at most one primary
    gallery asset per product ends with at most one, whether it returns or
    throws. Whatever the platform answers, setAssetAsPrimary issues the
    fetch of the asset, the clearing of is_primary on the gallery assets of
    its product and the flagging of the asset, in that order and all three
    when it returns, and it throws "Only gallery assets can be primary"
    straight after the fetch, the tables unchanged, when the section of the
    asset is not the gallery. *)
Theorem served_asset_operations_keep_one_primary :
  (* every operation on assets keeps the invariant *)
  (forall (op : asset_op) (w : world),
      healthy w -> one_primary (db w) ->
      one_primary (db (snd (run_asset_op op w))))
  (* setAssetAsPrimary: fetch, clear, flag, in this order *)
  /\ (forall (assetId : number) (w : world) o w' cs,
        Admin.setAssetAsPrimary assetId w = (o, w') -> issued w w' cs ->
        (exists pv, initial_segment cs (primary_calls assetId pv))
        /\ forall fetched w1 asset,
             await (fetch_asset assetId) w = (Ret fetched, w1) ->
             res_error fetched = None -> res_data fetched = DRow asset ->
             if value_eqb (get "section" asset) (VStr "gallery")
             then initial_segment
                    [ DbQuery (fetch_asset assetId);
                      DbQuery (Admin.clear_gallery_flag "is_primary"
                                 (get "product_id" asset)) ] cs
                  /\ (o = Ret tt -> cs = primary_calls assetId (get "product_id" asset))
             else o = Throw (JsError "Only gallery assets can be primary")
                  /\ cs = [DbQuery (fetch_asset assetId)]
                  /\ db w' = db w).
Proof.
  split.
  - intros op w Hw Hone.
    pose proof (asset_op_keeps op w (conj Hw Hone)) as H.
    destruct (run_asset_op op w) as [[a|e] w']; exact (proj2 H).
  - intros assetId w o w' cs Hrun Hissued.
    split; [exact (setAssetAsPrimary_order _ _ _ _ _ Hrun Hissued)|].
    intros fetched w1 asset Hfetch Herr Hdata.
    destruct (value_eqb (get "section" asset) (VStr "gallery")) eqn:Hsection.
    + exact (setAssetAsPrimary_gallery _ _ _ _ _ _ _ _ Hfetch Herr Hdata Hsection Hrun Hissued).
    + destruct (setAssetAsPrimary_not_gallery _ _ _ _ _ Hfetch Herr Hdata Hsection)
        as [Hthrow Hdb].
      rewrite Hthrow in Hrun. injection Hrun as <- <-.
      split; [reflexivity|]. split; [|exact Hdb].
      pose proof (await_calls _ _ _ _ Hfetch) as Hc. unfold issued in Hissued.
      rewrite Hc in Hissued. apply app_inv_head in Hissued. auto.
Qed.

(** ** More on the cart *)

Lemma clampQuantity_int (n : Z) : Cart.clampQuantity (num_of_Z n) = num_of_Z (clampZ n).
Proof.
  unfold Cart.clampQuantity, Cart.MIN_QUANTITY, Cart.MAX_QUANTITY, num_gt, clampZ.
  change (isNaN (num_of_Z n)) with false. cbn [orb].
  rewrite !num_lt_int.
  destruct (Z.ltb_spec n 1); [f_equal; lia|].
  destruct (Z.ltb_spec 99 n); [f_equal; lia|].
  unfold Math_floor, num_of_Z. rewrite Qfloor_Z. f_equal. f_equal. lia.
Qed.

Lemma set_item_quantity_same (item : Cart.CartItem) :
  Cart.set_item_quantity item (Cart.quantity item) = item.
Proof. destruct item. reflexivity. Qed.

Lemma set_item_quantity_twice (item : Cart.CartItem) (a b : number) :
  Cart.set_item_quantity (Cart.set_item_quantity item a) b = Cart.set_item_quantity item b.
Proof. reflexivity. Qed.

(** The decimal form of a number is made of digits and a sign, and no
    property of [Object.prototype] is. *)
Lemma pretty_N_go_numeral (x : N) (s : string) :
  all_chars (fun c => is_digit c || Ascii.eqb c "-") s = true ->
  all_chars (fun c => is_digit c || Ascii.eqb c "-") (pretty_N_go x s) = true.
Proof.
  revert s. induction (N.lt_wf_0 x) as [x _ IH]. intros s Hs.
  destruct (N.eq_dec x 0%N) as [->|Hx]; [exact Hs|].
  rewrite pretty_N_go_step by lia. apply IH; [apply N.div_lt; lia|].
  cbn [all_chars]. rewrite Hs, andb_true_r.
  unfold pretty_N_char. repeat case_match; reflexivity.
Qed.

Lemma pretty_Z_numeral (z : Z) :
  all_chars (fun c => is_digit c || Ascii.eqb c "-") (pretty z) = true.
Proof.
  destruct z as [|x|x]; [reflexivity| |].
  - apply (pretty_N_go_numeral (N.pos x) ""). reflexivity.
  - change (pretty (Z.neg x)) with (String "-" (pretty_N_go (N.pos x) "")).
    cbn [all_chars]. rewrite (pretty_N_go_numeral (N.pos x) "") by reflexivity. reflexivity.
Qed.

Lemma numeric_key_is_not_inherited (z : Z) :
  existsb (String.eqb (pretty z)) Cart.Object_prototype = false.
Proof.
  apply not_true_iff_false. intros H. apply existsb_exists in H as (k & Hin & Hk).
  apply String.eqb_eq in Hk. pose proof (pretty_Z_numeral z) as Hz. rewrite Hk in Hz.
  simpl in Hin. repeat (destruct Hin as [<-|Hin]; [vm_compute in Hz; discriminate|]).
  exact Hin.
Qed.

Lemma get_property_new (c : gmap string Cart.CartItem) (z : Z) :
  c !! pretty z = None -> Cart.get_property c (pretty z) = Cart.Missing.
Proof.
  intros H. unfold Cart.get_property. rewrite H, numeric_key_is_not_inherited. reflexivity.
Qed.

Lemma get_property_missing (c : gmap string Cart.CartItem) (k : string) :
  c !! k = None -> ~ In k Cart.Object_prototype -> Cart.get_property c k = Cart.Missing.
Proof.
  intros H Hk. unfold Cart.get_property. rewrite H.
  destruct (existsb (String.eqb k) Cart.Object_prototype) eqn:He; [|reflexivity].
  apply existsb_exists in He as (k' & Hin & Heq). apply String.eqb_eq in Heq. subst k'.
  contradiction.
Qed.

Lemma get_property_inherited (c : gmap string Cart.CartItem) (k : string) :
  c !! k = None -> In k Cart.Object_prototype -> Cart.get_property c k = Cart.Inherited.
Proof.
  intros H Hk. unfold Cart.get_property. rewrite H.
  replace (existsb (String.eqb k) Cart.Object_prototype) with true; [reflexivity|].
  symmetry. apply existsb_exists. exists k. split; [exact Hk | apply String.eqb_refl].
Qed.

(** X1: For an item of the cart whose quantity is a whole number n between 1
    and 99: when n is below 99, decreaseQuantity undoes increaseQuantity and
    gives the same cart back; at 99 increaseQuantity leaves the cart as it
    is; at 1 decreaseQuantity leaves the cart as it is (the item is kept,
    not removed). *)
Theorem increase_then_decrease (productId : string) (item : Cart.CartItem) (n : Z)
    (c : Cart.cart) :
  c !! productId = Some item ->
  Cart.quantity item = num_of_Z n ->
  1 <= n <= 99 ->
  (* below the maximum, decreasing undoes increasing *)
  (n < 99 -> Cart.decreaseQuantity productId (Cart.increaseQuantity productId c) = c)
  (* at the maximum, increasing changes nothing *)
  /\ (n = 99 -> Cart.increaseQuantity productId c = c)
  (* at the minimum, decreasing changes nothing *)
  /\ (n = 1 -> Cart.decreaseQuantity productId c = c).
Proof.
  intros Hitem Hq Hn.
  assert (Hinc : Cart.increaseQuantity productId c
                 = <[productId := Cart.set_item_quantity item (num_of_Z (clampZ (n + 1)))]> c).
  { unfold Cart.increaseQuantity. cbv zeta. rewrite (get_property_own _ _ _ Hitem).
    cbn [Cart.found_truthy Cart.quantity_of Cart.spread_with_quantity].
    rewrite Hq, num_add_int, clampQuantity_int. reflexivity. }
  split; [|split].
  - intros Hlt. rewrite Hinc. unfold Cart.decreaseQuantity. cbv zeta.
    rewrite (get_property_own _ _ _ (lookup_insert_eq c productId _)).
    cbn [Cart.found_truthy Cart.quantity_of Cart.spread_with_quantity andb
         Cart.quantity Cart.set_item_quantity].
    unfold num_gt, Cart.MIN_QUANTITY. rewrite num_lt_int.
    replace (clampZ (n + 1)) with (n + 1) by (unfold clampZ; lia).
    destruct (Z.ltb_spec 1 (n + 1)); [|lia].
    rewrite insert_insert_eq, num_sub_int.
    replace (n + 1 - 1) with n by lia. rewrite <- Hq.
    rewrite set_item_quantity_twice, set_item_quantity_same.
    apply insert_id, Hitem.
  - intros ->. rewrite Hinc. change (clampZ (99 + 1)) with 99. rewrite <- Hq.
    rewrite set_item_quantity_same. apply insert_id, Hitem.
  - intros ->. unfold Cart.decreaseQuantity. cbv zeta.
    rewrite (get_property_own _ _ _ Hitem).
    cbn [Cart.found_truthy Cart.quantity_of andb]. rewrite Hq.
    unfold num_gt, Cart.MIN_QUANTITY. rewrite num_lt_int. reflexivity.
Qed.

(** X2: Adding a product that is not in the cart with the whole quantity a,
    and then again with the whole quantity b, leaves one item for it whose
    quantity is min(99, clamp(a) + clamp(b)), where clamp brings a number
    into 1..99: the second call adds to the stored quantity and clamps the
    sum. *)
Theorem adding_twice_accumulates (product : Cart.CartItemData) (a b : Z) (c : Cart.cart) :
  c !! pretty (Cart.d_id product) = None ->
  Cart.addToCart product (Some (num_of_Z b)) (Cart.addToCart product (Some (num_of_Z a)) c)
  = <[pretty (Cart.d_id product) :=
        Cart.with_quantity product (num_of_Z (Z.min 99 (clampZ a + clampZ b)))]> c.
Proof.
  intros Hnone. unfold Cart.addToCart at 2. cbv zeta. simpl default.
  rewrite (get_property_new _ _ Hnone). cbn [Cart.found_truthy].
  unfold Cart.addToCart. cbv zeta. simpl default.
  rewrite (get_property_own _ _ _ (lookup_insert_eq c _ _)).
  cbn [Cart.found_truthy Cart.quantity_of Cart.spread_with_quantity].
  rewrite !clampQuantity_int. cbn [Cart.quantity Cart.with_quantity Cart.set_item_quantity
                                      Cart.fields].
  rewrite num_add_int, clampQuantity_int, insert_insert_eq.
  replace (clampZ (clampZ a + clampZ b)) with (Z.min 99 (clampZ a + clampZ b))
    by (unfold clampZ; lia).
  reflexivity.
Qed.

(** X3: removeFromCart right after addToCart, on a cart that did not hold
    the product, gives the cart back. On a key that the cart neither holds
    nor inherits from Object.prototype, increaseQuantity, decreaseQuantity,
    setQuantity and removeFromCart change nothing. On a key that the cart
    does not hold but inherits (toString, constructor, ...),
    decreaseQuantity and removeFromCart change nothing, while
    increaseQuantity stores an object with the quantity 1 alone and
    setQuantity one with the clamped quantity alone. After removeFromCart
    the cart holds nothing under the key. *)
Theorem removing_undoes_adding (product : Cart.CartItemData) (q : option number)
    (productId : string) (c : Cart.cart) :
  (c !! pretty (Cart.d_id product) = None ->
   Cart.removeFromCart (pretty (Cart.d_id product)) (Cart.addToCart product q c) = c)
  /\ (c !! productId = None -> ~ In productId Cart.Object_prototype ->
      Cart.increaseQuantity productId c = c
      /\ Cart.decreaseQuantity productId c = c
      /\ (forall n, Cart.setQuantity productId n c = c)
      /\ Cart.removeFromCart productId c = c)
  /\ (c !! productId = None -> In productId Cart.Object_prototype ->
      Cart.increaseQuantity productId c
      = <[productId := {| Cart.fields := None; Cart.quantity := num_of_Z 1 |}]> c
      /\ Cart.decreaseQuantity productId c = c
      /\ (forall n, Cart.setQuantity productId n c
                    = <[productId := {| Cart.fields := None;
                                        Cart.quantity := Cart.clampQuantity n |}]> c)
      /\ Cart.removeFromCart productId c = c)
  /\ Cart.removeFromCart productId c !! productId = None.
Proof.
  split; [|split; [|split]].
  - intros Hnone. unfold Cart.addToCart, Cart.removeFromCart. cbv zeta.
    rewrite (get_property_new _ _ Hnone). cbn [Cart.found_truthy].
    rewrite delete_insert_eq. apply delete_id, Hnone.
  - intros Hnone Hown. unfold Cart.increaseQuantity, Cart.decreaseQuantity,
      Cart.setQuantity, Cart.removeFromCart. cbv zeta.
    rewrite (get_property_missing _ _ Hnone Hown). repeat split; try reflexivity.
    apply delete_id, Hnone.
  - intros Hnone Hin. unfold Cart.increaseQuantity, Cart.decreaseQuantity,
      Cart.setQuantity, Cart.removeFromCart. cbv zeta.
    rewrite (get_property_inherited _ _ Hnone Hin). repeat split; try reflexivity.
    apply delete_id, Hnone.
  - apply lookup_delete_eq.
Qed.

Lemma sum_of_quantities (items : list Cart.CartItem) :
  Forall (fun item => int_between 1 99 (Cart.quantity item)) items ->
  exists n : Z,
    foldr (fun item total => num_add total (Cart.quantity item)) (num_of_Z 0) items
    = num_of_Z n
    /\ Z.of_nat (length items) <= n <= 99 * Z.of_nat (length items).
Proof.
  induction 1 as [|item items (m & Hm & Hrange) _ (n & Hn & IH)].
  - exists 0. split; [reflexivity | simpl; lia].
  - exists (n + m). cbn [foldr]. rewrite Hn, Hm, num_add_int.
    split; [reflexivity|]. cbn [length]. lia.
Qed.

(** X4: For a cart whose quantities are whole numbers between 1 and 99,
    $cartCount is a whole number that is at least the number of items and at
    most 99 times it. *)
Theorem cart_count_is_bounded (c : Cart.cart) :
  Cart.quantities_ok c ->
  exists n : Z,
    cartCount c = num_of_Z n
    /\ Z.of_nat (size c) <= n <= 99 * Z.of_nat (size c).
Proof.
  intros Hc. unfold cartCount.
  replace (size c) with (length (map snd (map_to_list c)))
    by (rewrite length_map; apply length_map_to_list).
  apply sum_of_quantities.
  apply List.Forall_forall. intros item Hin. apply in_map_iff in Hin as ([k i] & <- & Hin).
  apply (Hc k). apply elem_of_map_to_list. apply list_elem_of_In. exact Hin.
Qed.

(** ** File names and slugs *)

Lemma all_chars_map_string (p : ascii -> bool) (f : ascii -> ascii) (s : string) :
  (forall c, p (f c) = true) -> all_chars p (map_string f s) = true.
Proof. intros H. induction s as [|c s IH]; simpl; [reflexivity|]. rewrite H, IH. reflexivity. Qed.

Lemma map_string_id (f : ascii -> ascii) (p : ascii -> bool) (s : string) :
  (forall c, p c = true -> f c = c) -> all_chars p s = true -> map_string f s = s.
Proof.
  intros H. induction s as [|c s IH]; simpl; [reflexivity|].
  intros Hs. apply andb_true_iff in Hs as [Hc Hs]. rewrite (H c Hc), (IH Hs). reflexivity.
Qed.

Lemma all_chars_weaken (p q : ascii -> bool) (s : string) :
  (forall c, p c = true -> q c = true) -> all_chars p s = true -> all_chars q s = true.
Proof.
  intros H. induction s as [|c s IH]; simpl; [reflexivity|].
  intros Hs. apply andb_true_iff in Hs as [Hc Hs]. rewrite (H c Hc), (IH Hs). reflexivity.
Qed.

Lemma filename_char_not_slash (c : ascii) :
  safe_char c = true -> Ascii.eqb c "/" = false.
Proof.
  intros H. destruct (Ascii.eqb_spec c "/") as [->|]; [|reflexivity].
  vm_compute in H. discriminate.
Qed.

(** X5: The sanitized file name, filename.replace(/[^a-zA-Z0-9.-]/g, "_"),
    holds letters, digits, dots, dashes and underscores only, so it holds no
    slash; sanitizing twice is sanitizing once, and a name of allowed
    characters is left as it is. *)
Theorem sanitized_filename_is_safe (f : string) :
  all_chars safe_char (sanitize_filename f) = true
  /\ all_chars (fun c => negb (Ascii.eqb c "/")) (sanitize_filename f) = true
  /\ sanitize_filename (sanitize_filename f) = sanitize_filename f
  /\ (all_chars filename_char f = true -> sanitize_filename f = f).
Proof.
  assert (Hsafe : all_chars safe_char (sanitize_filename f) = true).
  { apply all_chars_map_string. intros c. unfold safe_char.
    destruct (filename_char c) eqn:Hc; [rewrite Hc|]; reflexivity. }
  split; [exact Hsafe|]. split; [|split].
  - revert Hsafe. apply all_chars_weaken. intros c Hc.
    rewrite (filename_char_not_slash c Hc). reflexivity.
  - revert Hsafe. apply map_string_id. intros c Hc. unfold safe_char in Hc.
    destruct (filename_char c); [reflexivity|].
    apply Ascii.eqb_eq in Hc. subst c. reflexivity.
  - apply map_string_id. intros c Hc. rewrite Hc. reflexivity.
Qed.

(** slugs *)
Lemma slug_char_lower (c : ascii) : slug_char c = true -> lower_char c = c.
Proof.
  intros H. unfold lower_char.
  destruct (is_upper c || (in_range 192 222 c && negb (code c =? 215)%N)) eqn:Hup;
    [|reflexivity].
  exfalso. unfold slug_char, is_lower, is_digit, is_upper, in_range in *.
  remember (code c) as n.
  rewrite !orb_true_iff, !andb_true_iff, !N.leb_le in Hup.
  rewrite !orb_true_iff, !andb_true_iff, !N.leb_le, N.eqb_eq in H.
  lia.
Qed.

Lemma slug_char_not_space (c : ascii) : slug_char c = true -> is_space c = false.
Proof.
  intros H. unfold slug_char, is_space, is_lower, is_digit, in_range in *.
  remember (code c) as n.
  apply not_true_iff_false. intros Hs.
  rewrite !orb_true_iff, !andb_true_iff, !N.leb_le, !N.eqb_eq in Hs.
  rewrite !orb_true_iff, !andb_true_iff, !N.leb_le, N.eqb_eq in H.
  lia.
Qed.

Lemma trimEnd_no_space (s : string) :
  all_chars (fun c => negb (is_space c)) s = true -> trimEnd s = s.
Proof.
  induction s as [|c s IH]; simpl; [reflexivity|].
  intros H. apply andb_true_iff in H as [Hc Hs]. rewrite (IH Hs).
  apply negb_true_iff in Hc. rewrite Hc. destruct s; reflexivity.
Qed.

Lemma trimStart_no_space (s : string) :
  all_chars (fun c => negb (is_space c)) s = true -> trimStart s = s.
Proof.
  destruct s as [|c s]; simpl; [reflexivity|].
  intros H. apply andb_true_iff in H as [Hc Hs].
  apply negb_true_iff in Hc. rewrite Hc. reflexivity.
Qed.

Lemma slug_is_normal (s : string) :
  all_chars slug_char s = true -> trim (toLowerCase s) = s.
Proof.
  intros H. unfold toLowerCase. rewrite (map_string_id lower_char slug_char s slug_char_lower H).
  assert (Hs : all_chars (fun c => negb (is_space c)) s = true).
  { revert H. apply all_chars_weaken. intros c Hc. rewrite (slug_char_not_space c Hc).
    reflexivity. }
  unfold trim. rewrite (trimStart_no_space s Hs). apply trimEnd_no_space, Hs.
Qed.

Lemma all_chars_drop_while (p q : ascii -> bool) (s : string) :
  all_chars p s = true -> all_chars p (drop_while q s) = true.
Proof.
  induction s as [|c s IH]; simpl; [reflexivity|].
  intros H. destruct (q c); [apply IH; apply andb_true_iff in H; tauto | exact H].
Qed.

Lemma all_chars_strip_trailing (p : ascii -> bool) (s : string) :
  all_chars p s = true -> all_chars p (Admin.strip_trailing_dashes s) = true.
Proof.
  induction s as [|c s IH]; simpl; [reflexivity|].
  intros H. apply andb_true_iff in H as [Hc Hs]. specialize (IH Hs).
  destruct (Admin.strip_trailing_dashes s) as [|c' s'].
  - destruct (Admin.is_dash c); simpl; [reflexivity | rewrite Hc; reflexivity].
  - simpl in *. rewrite Hc. exact IH.
Qed.

Lemma all_chars_substring (p : ascii -> bool) (s : string) (n m : nat) :
  all_chars p s = true -> all_chars p (String.substring n m s) = true.
Proof.
  revert n m. induction s as [|c s IH]; intros n m H.
  - destruct n, m; reflexivity.
  - simpl in H. apply andb_true_iff in H as [Hc Hs].
    destruct n as [|n]; simpl.
    + destruct m as [|m]; simpl; [reflexivity|]. rewrite Hc. apply IH, Hs.
    + apply IH, Hs.
Qed.

Lemma length_substring_le (s : string) (m : nat) :
  (String.length (String.substring 0 m s) <= m)%nat.
Proof.
  revert m. induction s as [|c s IH]; intros [|m]; simpl; try lia.
  specialize (IH m). lia.
Qed.

Lemma all_chars_dash_runs (b : bool) (s : string) :
  all_chars slug_char (Admin.dash_runs b s) = true.
Proof.
  revert b. induction s as [|c s IH]; intros b; simpl; [reflexivity|].
  destruct (Admin.is_alnum c) eqn:Hc.
  - simpl. rewrite IH, andb_true_r. unfold slug_char. unfold Admin.is_alnum in Hc.
    rewrite Hc. reflexivity.
  - destruct b; [apply IH|]. simpl. rewrite IH. reflexivity.
Qed.

Lemma no_leading_dash_drop_while (s : string) : no_leading_dash (drop_while Admin.is_dash s) = true.
Proof.
  induction s as [|c s IH]; simpl; [reflexivity|].
  destruct (Admin.is_dash c) eqn:Hc; [exact IH | simpl; rewrite Hc; reflexivity].
Qed.

Lemma no_leading_dash_strip (s : string) :
  no_leading_dash s = true -> no_leading_dash (Admin.strip_trailing_dashes s) = true.
Proof.
  destruct s as [|c s]; simpl; [reflexivity|]. intros Hc.
  destruct (Admin.strip_trailing_dashes s); [|exact Hc].
  apply negb_true_iff in Hc. rewrite Hc. simpl. rewrite Hc. reflexivity.
Qed.

Lemma no_leading_dash_substring (s : string) (m : nat) :
  no_leading_dash s = true -> no_leading_dash (String.substring 0 m s) = true.
Proof. destruct s as [|c s], m; simpl; auto. Qed.

(** X6: For every name, generateSlug gives a string of lower-case letters,
    digits and dashes of at most 100 characters that does not begin with a
    dash; unless it is empty it passes the slug test of validateProductData
    (/^[a-z0-9-]+$/), and the normalization of createProduct
    (toLowerCase().trim()) leaves it unchanged. *)
Theorem generated_slug_passes_the_slug_test (name_ : string) :
  all_chars slug_char (Admin.generateSlug name_) = true
  /\ (String.length (Admin.generateSlug name_) <= 100)%nat
  /\ no_leading_dash (Admin.generateSlug name_) = true
  /\ (Admin.generateSlug name_ = "" \/ slug_regex_test (Admin.generateSlug name_) = true)
  /\ trim (toLowerCase (Admin.generateSlug name_)) = Admin.generateSlug name_.
Proof.
  assert (Hall : all_chars slug_char (Admin.generateSlug name_) = true).
  { unfold Admin.generateSlug.
    apply all_chars_substring, all_chars_strip_trailing, all_chars_drop_while,
      all_chars_dash_runs. }
  split; [exact Hall|]. split; [apply length_substring_le|]. split; [|split].
  - unfold Admin.generateSlug.
    apply no_leading_dash_substring, no_leading_dash_strip, no_leading_dash_drop_while.
  - unfold slug_regex_test. rewrite Hall, andb_true_r.
    destruct (Admin.generateSlug name_); [left; reflexivity | right; reflexivity].
  - apply slug_is_normal, Hall.
Qed.

(** ** What the handlers refuse *)

(** Opens the [try] block of a handler. *)
Ltac open_try :=
  cbv beta zeta delta [CategoriesIndex.GET_try CategoriesIndex.POST_try CategoryById.PUT_try
                  CategoryById.DELETE_try SubcategoriesIndex.GET_try
                  SubcategoriesIndex.POST_try SubcategoryById.PUT_try
                  SubcategoryById.DELETE_try UploadUrl.POST_try ProductRoutes.GET_try
                  ProductRoutes.PUT_try ProductRoutes.DELETE_try ProductRoutes.POST_try
                  Signin.POST_try].

Ltac run_unauthorized Hauth Huser :=
  apply try_catch_ret; open_try; erewrite bind_ret by exact Hauth;
  rewrite ?Huser; try reflexivity;
  destruct (auth_error _); reflexivity.

(** X7: Every handler that changes the store or the storage (POST, PUT and
    DELETE of categories, subcategories and products, and the upload-url
    POST) answers 401 "No autorizado" when the session check reports no
    user, whatever the request holds; the session check is its only call and
    the tables and files are unchanged. *)
Theorem guarded_routes_need_a_session (r : route) (w w1 : world) (auth : user_reply) :
  guarded r = true ->
  auth_getUser w = (Ret auth, w1) ->
  reply_user auth = None ->
  handler r w
  = (Ret (json 401 (match r with
                    | PostUploadUrl _ => error_only "No autorizado"
                    | _ => failure "No autorizado"
                    end)), w1)
  /\ db w1 = db w /\ files w1 = files w /\ calls w1 = calls w ++ [AuthGetUser].
Proof.
  intros Hr Hauth Huser. split.
  - destruct r; try discriminate Hr; cbn [handler];
      run_unauthorized Hauth Huser.
  - unfold auth_getUser, platform in Hauth.
    destruct (next_fault w); injection Hauth as _ <-; auto.
Qed.

(** X8: When parseInt reads no non-zero number from the id of the route (a
    missing id, "abc", "0"), the product GET answers 400 "ID de producto
    inválido" without calling the platform, and the product PUT and DELETE
    of a signed-in user answer the same 400 after the session check alone. *)
Theorem invalid_product_id_is_refused (params_id : option string) (w : world) :
  num_truthy (parseInt (default "" params_id) None) = false ->
  ProductRoutes.GET params_id w = (Ret (json 400 (failure ProductRoutes.invalid_id)), w)
  /\ forall auth w1 u payload,
       auth_getUser w = (Ret auth, w1) -> reply_user auth = Some u ->
       ProductRoutes.PUT params_id payload w
       = (Ret (json 400 (failure ProductRoutes.invalid_id)), w1)
       /\ ProductRoutes.DELETE params_id w
          = (Ret (json 400 (failure ProductRoutes.invalid_id)), w1).
Proof.
  intros Hid. split.
  - apply try_catch_ret. open_try. cbv zeta. rewrite Hid. reflexivity.
  - intros auth w1 u payload Hauth Huser. split.
    + apply try_catch_ret. open_try. erewrite bind_ret by exact Hauth.
      rewrite Huser. cbv zeta. rewrite Hid. reflexivity.
    + apply try_catch_ret. open_try. erewrite bind_ret by exact Hauth.
      rewrite Huser. cbv zeta. rewrite Hid. reflexivity.
Qed.

(** X9: For a signed-in user, a product POST whose data validateProductData
    rejects is answered 400 with the errors joined by ", " and nothing is
    called after the session check. A product PUT whose body has no truthy
    name, slug, category_id or subcategory_id is answered 400 in the same
    way: the update is validated like a creation, so these four fields must
    be sent with every update. *)
Theorem invalid_product_data_is_refused
    (b : ProductRoutes.RequestBody) (w w1 : world) (auth : user_reply) (u : user) :
  auth_getUser w = (Ret auth, w1) ->
  reply_user auth = Some u ->
  (* creation *)
  (forall s w2 e errors,
      ProductRoutes.effective_slug b w1 = (Ret s, w2) ->
      Admin.validateProductData (ProductRoutes.productData_of b s) = e :: errors ->
      ProductRoutes.POST (Body b) w
      = (Ret (json 400 (failure (String.concat ", " (e :: errors)))), w2)
      /\ w2 = w1)
  (* update: the four required fields must all be sent again *)
  /\ (forall params_id,
        num_truthy (parseInt (default "" params_id) None) = true ->
        str_truthy (ProductRoutes.name b) = false
        \/ str_truthy (ProductRoutes.slug b) = false
        \/ number_truthy (ProductRoutes.category_id b) = false
        \/ number_truthy (ProductRoutes.subcategory_id b) = false ->
        exists e errors,
          Admin.validateProductData (ProductRoutes.updateData_of b) = e :: errors
          /\ ProductRoutes.PUT params_id (Body b) w
             = (Ret (json 400 (failure (String.concat ", " (e :: errors)))), w1)).
Proof.
  intros Hauth Huser. split.
  - intros s w2 e errors Hslug Hbad. split.
    + apply try_catch_ret. open_try. erewrite bind_ret by exact Hauth.
      rewrite Huser. erewrite bind_ret by reflexivity.
      erewrite bind_ret by exact Hslug. rewrite Hbad. reflexivity.
    + unfold ProductRoutes.effective_slug in Hslug.
      destruct (ProductRoutes.slug b) as [| |[|c rest]];
        try (injection Hslug as _ <-; reflexivity);
        destruct (ProductRoutes.name b); cbv [bind need ret throw] in Hslug;
        first [discriminate Hslug | injection Hslug as _ <-; reflexivity].
  - intros params_id Hid Hmissing.
    assert (Hbad : Admin.validateProductData (ProductRoutes.updateData_of b) <> []).
    { unfold Admin.validateProductData, ProductRoutes.updateData_of.
      cbn [Admin.name Admin.slug Admin.category_id Admin.subcategory_id].
      intros Hnil.
      apply app_eq_nil in Hnil as [Hname Hnil]. apply app_eq_nil in Hnil as [Hslug Hnil].
      apply app_eq_nil in Hnil as [_ Hnil]. apply app_eq_nil in Hnil as [_ Hnil].
      apply app_eq_nil in Hnil as [Hcat Hsub].
      destruct Hmissing as [Hm|[Hm|[Hm|Hm]]]; rewrite Hm in *; discriminate. }
    destruct (Admin.validateProductData (ProductRoutes.updateData_of b)) as [|e errors] eqn:Hv;
      [contradiction|].
    exists e, errors. split; [reflexivity|].
    apply try_catch_ret. open_try. erewrite bind_ret by exact Hauth.
    rewrite Huser. cbv zeta.
    destruct (isNaN _) eqn:Hnan.
    { destruct (parseInt (default "" params_id) None); discriminate. }
    rewrite Hid. cbn [negb orb].
    erewrite bind_ret by reflexivity. rewrite Hv. reflexivity.
Qed.

(** ** Products that are stored *)

(** *** Queries on a platform that serves them *)

Lemma healthy_with_db (d : database) (w : world) : healthy w -> healthy (with_db d w).
Proof. intros H. exact H. Qed.

(** One query, served: the answer, the tables and the calls. *)
Lemma await_served (q : query) (w : world) :
  healthy w ->
  exists w1,
    await q w = (Ret (fst (run_query q (db w))), w1)
    /\ healthy w1
    /\ db w1 = snd (run_query q (db w))
    /\ files w1 = files w
    /\ calls w1 = calls w ++ [DbQuery q]
    /\ console w1 = console w
    /\ session w1 = session w
    /\ clock w1 = clock w.
Proof.
  intros Hw. eexists. split; [apply await_healthy, Hw|].
  split; [apply healthy_issue with (c := DbQuery q) in Hw; exact Hw|].
  repeat split.
Qed.

Lemma lookup_by_slug_none (s : string) (d : database) (t : string) :
  with_slug s (table_rows d t) = [] ->
  fst (run_query (Pg.from t (Pg.select [Col "id"]) |> Pg.eq "slug" (VStr s) |> Pg.single) d)
  = {| res_data := DNull;
       res_error := Some "JSON object requested, multiple (or no) rows returned";
       res_count := None |}.
Proof.
  intros H. unfold run_query. cbn.
  rewrite (filter_ext_eq _ (fun r => value_eqb (get "slug" r) (VStr s))).
  2:{ intros r. unfold matches_all. simpl. rewrite andb_true_r. reflexivity. }
  fold (with_slug s (table_rows d t)). rewrite H. reflexivity.
Qed.

Lemma insert_returning (t : string) (r : row) (d : database) :
  run_query (Pg.from t (Insert r) |> Pg.returning |> Pg.single) d
  = ({| res_data := DRow (stored d r); res_error := None; res_count := None |},
     after_insert t r d).
Proof. reflexivity. Qed.

Lemma table_rows_after_insert (t : string) (r : row) (d : database) :
  table_rows (after_insert t r d) t = table_rows d t ++ [stored d r].
Proof. unfold table_rows at 1, after_insert. simpl. rewrite lookup_insert_eq. reflexivity. Qed.

Lemma table_rows_after_insert_other (t t' : string) (r : row) (d : database) :
  t <> t' -> table_rows (after_insert t r d) t' = table_rows d t'.
Proof.
  intros Hne. unfold table_rows, after_insert. simpl.
  rewrite lookup_insert_ne by exact Hne. reflexivity.
Qed.

Lemma createProduct_creates (data : Admin.ProductFormData) (n s : string) (w : world) :
  healthy w ->
  Admin.name data = just n -> Admin.slug data = just s ->
  with_slug s (table_rows (db w) "products") = [] ->
  exists w',
    Admin.createProduct data w = (Ret (DRow (stored (db w) (product_row data n s))), w')
    /\ healthy w'
    /\ db w' = after_insert "products" (product_row data n s) (db w)
    /\ files w' = files w
    /\ console w' = console w
    /\ calls w' = calls w ++
         [ DbQuery (Pg.from "products" (Pg.select [Col "id"])
                    |> Pg.eq "slug" (VStr s) |> Pg.single);
           DbQuery (Pg.from "products" (Insert (product_row data n s))
                    |> Pg.returning |> Pg.single) ].
Proof.
  intros Hw Hn Hs Hfree. unfold Admin.createProduct. rewrite Hn, Hs. cbn [maybe_value].
  destruct (await_served (Pg.from "products" (Pg.select [Col "id"])
                          |> Pg.eq "slug" (VStr s) |> Pg.single) w Hw)
    as (w1 & Hrun1 & Hw1 & Hd1 & Hf1 & Hc1 & Hl1 & _).
  erewrite bind_ret by exact Hrun1.
  rewrite (lookup_by_slug_none s (db w) "products" Hfree). cbn [res_data data_truthy].
  erewrite bind_ret by reflexivity. erewrite bind_ret by reflexivity.
  destruct (await_served (Pg.from "products" (Insert (product_row data n s))
                          |> Pg.returning |> Pg.single) w1 Hw1)
    as (w2 & Hrun2 & Hw2 & Hd2 & Hf2 & Hc2 & Hl2 & _).
  fold (product_row data n s).
  erewrite bind_ret by exact Hrun2.
  rewrite run_query_read in Hd1 by reflexivity.
  rewrite Hd1, insert_returning in *. cbn [fst snd res_error res_data] in *.
  exists w2. split; [reflexivity|]. split; [exact Hw2|]. split; [exact Hd2|].
  split; [congruence|]. split; [congruence|].
  rewrite Hc2, Hc1, <- app_assoc. reflexivity.
Qed.

(** X10: A product POST of a signed-in user with valid data and a free slug,
    but without uploaded_files in its body, stores the product and is then
    answered 500 (when the platform serves its calls): reading
    uploaded_files.gallery throws after createProduct has inserted the row;
    the body carries the message of that TypeError (as V8 words it) and one
    line is logged. *)
Theorem product_without_files_is_created_and_answered_500
    (b : ProductRoutes.RequestBody) (n s : string) (u : user) (w : world) :
  healthy w ->
  session w = Some u ->
  ProductRoutes.name b = just n ->
  ProductRoutes.slug b = just s ->
  Admin.validateProductData (ProductRoutes.productData_of b s) = [] ->
  with_slug s (table_rows (db w) "products") = [] ->
  ProductRoutes.uploaded_files b = undefined ->
  exists w',
    ProductRoutes.POST (Body b) w
    = (Ret (json 500
              (failure "Cannot read properties of undefined (reading 'gallery')")), w')
    /\ table_rows (db w') "products"
       = table_rows (db w) "products"
         ++ [stored (db w) (product_row (ProductRoutes.productData_of b s) n s)]
    /\ console w' = console w ++ ["Error creating product:"].
Proof.
  intros Hw Hu Hn Hs Hvalid Hfree Hfiles.
  assert (Hne : exists c rest, s = String c rest).
  { destruct s; [|eauto]. exfalso.
    unfold Admin.validateProductData in Hvalid.
    cbn [Admin.slug ProductRoutes.productData_of] in Hvalid.
    apply app_eq_nil in Hvalid as [_ Hvalid]. apply app_eq_nil in Hvalid as [Hvalid _].
    discriminate. }
  destruct Hne as (c & rest & Hsc).
  pose proof (healthy_issue AuthGetUser w Hw) as Hw0.
  destruct (createProduct_creates (ProductRoutes.productData_of b s) n s
              (issue AuthGetUser w) Hw0 Hn eq_refl Hfree)
    as (w1 & Hcreate & Hw1 & Hd1 & Hf1 & Hl1 & Hc1).
  eexists. split; [|split].
  - unfold ProductRoutes.POST. eapply eq_trans.
    + apply try_catch_throw. open_try.
      erewrite bind_ret by (apply getUser_healthy, healthy_next, Hw).
      cbn [reply_user]. rewrite Hu. erewrite bind_ret by reflexivity.
      unfold ProductRoutes.effective_slug. rewrite Hs, Hsc. erewrite bind_ret by reflexivity.
      rewrite <- Hsc, Hvalid. erewrite bind_ret by exact Hcreate.
      rewrite Hfiles. reflexivity.
    + reflexivity.
  - simpl. rewrite Hd1. apply table_rows_after_insert.
  - simpl. rewrite Hl1. reflexivity.
Qed.

Lemma returns_ret {A} (a : A) : returns (ret a).
Proof. intros w. eexists _, _. reflexivity. Qed.

Lemma returns_bind {A B} (m : M A) (k : A -> M B) :
  returns m -> (forall a, returns (k a)) -> returns (bind m k).
Proof.
  intros Hm Hk w. destruct (Hm w) as (a & w1 & H1). destruct (Hk a w1) as (b & w2 & H2).
  exists b, w2. unfold bind. rewrite H1. exact H2.
Qed.

Lemma returns_try_catch {A} (m : M A) (h : thrown -> M A) :
  (forall e, returns (h e)) -> returns (try_catch m h).
Proof.
  intros Hh w. unfold try_catch. destruct (m w) as [[a|e] w1].
  - eexists _, _. reflexivity.
  - apply Hh.
Qed.

Lemma returns_console (line : string) : returns (console_error line).
Proof. intros w. eexists _, _. reflexivity. Qed.

Lemma returns_for_each {A} (xs : list A) (body_ : A -> M unit) :
  (forall x, returns (body_ x)) -> returns (for_each xs body_).
Proof.
  intros H. induction xs as [|x xs IH]; simpl.
  - apply returns_ret.
  - apply returns_bind; [apply H | intros _; exact IH].
Qed.

Lemma returns_when (c : bool) (m : M unit) : returns m -> returns (when c m).
Proof. intros H. destruct c; [exact H | apply returns_ret]. Qed.

Lemma returns_process_files move line files_ :
  returns (ProductRoutes.process_files move line files_).
Proof.
  apply returns_for_each. intros file. apply returns_try_catch. intros e.
  apply returns_console.
Qed.

Lemma returns_clean_temp (id : string) : returns (ProductRoutes.clean_temp id).
Proof. apply returns_try_catch. intros e. apply returns_ret. Qed.

(** What follows a computation that never throws is what the whole
    answers. *)
Lemma then_answers {A B} (m : M A) (k : M B) (b : B) :
  returns m -> (forall w, exists w', k w = (Ret b, w')) ->
  forall w, exists w', (m ;;; k) w = (Ret b, w').
Proof.
  intros Hm Hk w. destruct (Hm w) as (a & w1 & H1). destruct (Hk w1) as (w2 & H2).
  exists w2. unfold bind. rewrite H1. exact H2.
Qed.

Ltac answers :=
  repeat first
    [ apply then_answers;
      [ first [ apply returns_process_files | apply returns_clean_temp
              | apply returns_when;
                first [apply returns_clean_temp
                      | apply returns_try_catch; intros ?; apply returns_console]
              | apply returns_for_each; intros ?; apply returns_try_catch; intros ?;
                apply returns_console ]
      | ]
    | intros ?; eexists; reflexivity ].

(** X11: Once updateProduct has returned the product, the product PUT is
    answered 200 with it, and once createProduct has returned it and the
    body carries the three lists of uploaded_files, the product POST is
    answered 201 with it, whatever the platform answers afterwards: what
    goes wrong with the files, the asset deletions, the primary and
    secondary flags and the cleanup of the temporary folder is caught (and
    logged), never answered. *)
Theorem product_is_answered_once_stored
    (b : ProductRoutes.RequestBody) (w w1 w2 : world) (auth : user_reply) (u : user)
    (product : answer) :
  auth_getUser w = (Ret auth, w1) ->
  reply_user auth = Some u ->
  (* update *)
  (forall params_id,
      num_truthy (parseInt (default "" params_id) None) = true ->
      Admin.validateProductData (ProductRoutes.updateData_of b) = [] ->
      Admin.updateProduct (parseInt (default "" params_id) None)
        (ProductRoutes.updateData_of b) w1 = (Ret product, w2) ->
      exists w',
        ProductRoutes.PUT params_id (Body b) w
        = (Ret (json 200 (VObj [("success", VBool true); ("product", data_value product)])),
           w'))
  (* creation *)
  /\ (forall s files_ gallery_ additional_ download_,
        ProductRoutes.effective_slug b w1 = (Ret s, w1) ->
        Admin.validateProductData (ProductRoutes.productData_of b s) = [] ->
        Admin.createProduct (ProductRoutes.productData_of b s) w1 = (Ret product, w2) ->
        ProductRoutes.uploaded_files b = just files_ ->
        ProductRoutes.gallery files_ = just gallery_ ->
        ProductRoutes.additional files_ = just additional_ ->
        ProductRoutes.download files_ = just download_ ->
        exists w',
          ProductRoutes.POST (Body b) w
          = (Ret (json 201 (VObj [("success", VBool true); ("product", data_value product)])),
             w')).
Proof.
  intros Hauth Huser. split.
  - intros params_id Hid Hvalid Hupdate.
    assert (Hnan : isNaN (parseInt (default "" params_id) None) = false)
      by (destruct (parseInt (default "" params_id) None); [discriminate | reflexivity ..]).
    assert (H : exists w',
               ProductRoutes.PUT_try params_id (Body b) w
               = (Ret (json 200 (VObj [("success", VBool true);
                                       ("product", data_value product)])), w')).
    { open_try. erewrite bind_ret by exact Hauth. rewrite Huser, Hid, Hnan. cbn [negb orb].
      erewrite bind_ret by reflexivity. rewrite Hvalid.
      erewrite bind_ret by exact Hupdate.
      revert w2 Hupdate. intros w2 _. revert w2. answers. }
    destruct H as (w' & H). exists w'. apply try_catch_ret, H.
  - intros s files_ gallery_ additional_ download_ Hslug Hvalid Hcreate Hfiles Hg Ha Hd.
    assert (H : exists w',
               ProductRoutes.POST_try (Body b) w
               = (Ret (json 201 (VObj [("success", VBool true);
                                       ("product", data_value product)])), w')).
    { open_try. erewrite bind_ret by exact Hauth. rewrite Huser.
      erewrite bind_ret by reflexivity. erewrite bind_ret by exact Hslug.
      rewrite Hvalid. erewrite bind_ret by exact Hcreate.
      rewrite Hfiles. erewrite bind_ret by reflexivity.
      rewrite Hg. erewrite bind_ret by reflexivity.
      revert w2 Hcreate. intros w2 _.
      destruct (returns_process_files
                  (fun file => product_ <- need_row "id" product ;;
                               ProductRoutes.moveFileAndCreateAsset
                                 (as_number (get "id" product_)) product file "gallery"
                                 (bool_truthy (ProductRoutes.is_primary file))
                                 (bool_truthy (ProductRoutes.is_secondary file)))
                  "Error processing gallery file:" gallery_ w2) as (? & w3 & H3).
      erewrite bind_ret by exact H3. rewrite Ha. erewrite bind_ret by reflexivity.
      destruct (returns_process_files
                  (fun file => product_ <- need_row "id" product ;;
                               ProductRoutes.moveFileAndCreateAsset
                                 (as_number (get "id" product_)) product file "additional"
                                 false false)
                  "Error processing additional file:" additional_ w3) as (? & w4 & H4).
      erewrite bind_ret by exact H4. rewrite Hd. erewrite bind_ret by reflexivity.
      revert w4 H4. intros w4 _. revert w4. answers. }
    destruct H as (w' & H). exists w'. apply try_catch_ret, H.
Qed.

(** ** Categories and subcategories that are stored or deleted *)

Lemma with_slug_app (s : string) (l l' : list row) :
  with_slug s (l ++ l') = with_slug s l ++ with_slug s l'.
Proof. apply List.filter_app. Qed.

Lemma with_slug_one (s : string) (r : row) :
  get "slug" r = VStr s -> with_slug s [r] = [r].
Proof.
  intros H. unfold with_slug. simpl. rewrite H. simpl. rewrite String.eqb_refl. reflexivity.
Qed.

(** X12: A category POST of a signed-in user with a name that is not blank
    and a slug that no stored category has, letter for letter, is answered
    201 (when the platform serves its calls) and stores the category with
    the slug in lower case and trimmed. The duplicate check compares the
    slug as sent while the slug is stored normalized, so the new row joins
    the rows that already have the normalized slug. *)
Theorem category_is_stored_normalized
    (b : CategoriesIndex.body) (n s : string) (u : user) (w : world) :
  healthy w ->
  session w = Some u ->
  CategoriesIndex.name b = just n ->
  String.eqb (trim n) "" = false ->
  CategoriesIndex.slug b = just s ->
  with_slug s (table_rows (db w) "categories") = [] ->
  let new := stored (db w) (category_row b n s) in
  exists w',
    CategoriesIndex.POST (Body b) w
    = (Ret (json 201 (VObj [("success", VBool true); ("category", VObj new)])), w')
    /\ table_rows (db w') "categories" = table_rows (db w) "categories" ++ [new]
    /\ get "slug" new = VStr (trim (toLowerCase s))
    /\ with_slug (trim (toLowerCase s)) (table_rows (db w') "categories")
       = with_slug (trim (toLowerCase s)) (table_rows (db w) "categories") ++ [new].
Proof.
  intros Hw Hu Hn Hblank Hs Hfree new.
  pose proof (healthy_issue AuthGetUser w Hw) as Hw0.
  destruct (await_served (Pg.from "categories" (Pg.select [Col "id"])
                          |> Pg.eq "slug" (VStr s) |> Pg.single)
              (issue AuthGetUser w) Hw0)
    as (w1 & Hrun1 & Hw1 & Hd1 & _).
  rewrite run_query_read in Hd1 by reflexivity.
  destruct (await_served (Pg.from "categories" (Insert (category_row b n s))
                          |> Pg.returning |> Pg.single) w1 Hw1)
    as (w2 & Hrun2 & Hw2 & Hd2 & _).
  rewrite Hd1 in Hrun2, Hd2. rewrite insert_returning in Hrun2, Hd2.
  cbn [fst snd] in Hrun2, Hd2. change (db (issue AuthGetUser w)) with (db w) in *.
  assert (Hslug : get "slug" new = VStr (trim (toLowerCase s))).
  { unfold new, stored. rewrite get_set_ne by discriminate. reflexivity. }
  exists w2. split; [|split; [|split]].
  - apply try_catch_ret. open_try.
    erewrite bind_ret by (apply getUser_healthy, healthy_next, Hw).
    cbn [reply_user]. rewrite Hu. erewrite bind_ret by reflexivity.
    unfold Admin.blank. rewrite Hn, Hblank, Hs. cbn [maybe_value].
    erewrite bind_ret by exact Hrun1.
    rewrite (lookup_by_slug_none s (db w) "categories" Hfree). cbn [res_data data_truthy].
    erewrite bind_ret by reflexivity. erewrite bind_ret by reflexivity.
    fold (category_row b n s). erewrite bind_ret by exact Hrun2. reflexivity.
  - rewrite Hd2. apply table_rows_after_insert.
  - exact Hslug.
  - rewrite Hd2, table_rows_after_insert, with_slug_app. f_equal.
    apply with_slug_one, Hslug.
Qed.

Lemma lookup_other_slug (s : string) (id : number) (d : database) (t : string) :
  fst (run_query (Pg.from t (Pg.select [Col "id"]) |> Pg.eq "slug" (VStr s)
                  |> Pg.neq "id" (VNum id) |> Pg.single) d)
  = finish true None (map (shape d t [Col "id"]) (others_with_slug s id (table_rows d t))).
Proof.
  unfold run_query. cbn -[sort_rows shape List.filter matches_all finish].
  rewrite sort_rows_unordered. unfold others_with_slug. f_equal. f_equal.
  apply filter_ext_eq. intros r. unfold matches_all. simpl.
  change (column_value "slug" r) with (get "slug" r).
  change (column_value "id" r) with (get "id" r).
  rewrite !andb_true_r, andb_assoc. reflexivity.
Qed.

Lemma update_by_id (t : string) (p : row) (id : number) (d : database) :
  run_query (Pg.from t (Update p) |> Pg.eq "id" (VNum id) |> Pg.returning |> Pg.single) d
  = (finish true None (map (patch p) (referring "id" id (table_rows d t))),
     set_table t (map (fun r => if value_eqb (get "id" r) (VNum id) then patch p r else r)
                    (table_rows d t)) d).
Proof.
  unfold run_query. cbn -[List.filter matches_all finish patch].
  f_equal.
  - f_equal. f_equal. apply filter_ext_eq. intros r. apply matches_all_one.
  - f_equal. apply map_ext. intros r. rewrite matches_all_one. reflexivity.
Qed.

(** X13: A category PUT of a signed-in user with a name that is not blank
    (the platform serving its calls): when exactly one other category has
    the slug sent, it is answered 400 "Ya existe otra categoría con ese
    slug" and the tables are unchanged; when no other category has it and
    the category exists, it is answered 200 with the updated row, and this
    row alone is rewritten (so a category may keep its own slug). *)
Theorem category_update_checks_the_other_slugs
    (params_id : string) (b : CategoriesIndex.body) (n s : string) (u : user) (w : world) :
  healthy w ->
  session w = Some u ->
  CategoriesIndex.name b = just n ->
  String.eqb (trim n) "" = false ->
  CategoriesIndex.slug b = just s ->
  let id := parseInt params_id None in
  let p := category_row b n s in
  (* the slug belongs to another category *)
  (forall c,
      others_with_slug s id (table_rows (db w) "categories") = [c] ->
      exists w',
        CategoryById.PUT params_id (Body b) w
        = (Ret (json 400 (failure (text "Ya existe otra categoría con ese slug"))), w')
        /\ db w' = db w)
  (* the slug is free, or the one of this category *)
  /\ (forall c,
        others_with_slug s id (table_rows (db w) "categories") = [] ->
        referring "id" id (table_rows (db w) "categories") = [c] ->
        exists w',
          CategoryById.PUT params_id (Body b) w
          = (Ret (json 200 (VObj [("success", VBool true); ("category", VObj (patch p c))])),
             w')
          /\ table_rows (db w') "categories"
             = map (fun r => if value_eqb (get "id" r) (VNum id) then patch p r else r)
                 (table_rows (db w) "categories")).
Proof.
  intros Hw Hu Hn Hblank Hs id p.
  pose proof (healthy_issue AuthGetUser w Hw) as Hw0.
  destruct (await_served (Pg.from "categories" (Pg.select [Col "id"])
                          |> Pg.eq "slug" (VStr s) |> Pg.neq "id" (VNum id) |> Pg.single)
              (issue AuthGetUser w) Hw0)
    as (w1 & Hrun1 & Hw1 & Hd1 & _).
  rewrite run_query_read in Hd1 by reflexivity.
  rewrite lookup_other_slug in Hrun1. change (db (issue AuthGetUser w)) with (db w) in *.
  split.
  - intros c Hother. rewrite Hother in Hrun1. exists w1. split; [|exact Hd1].
    apply try_catch_ret. open_try.
    erewrite bind_ret by (apply getUser_healthy, healthy_next, Hw).
    cbn [reply_user]. rewrite Hu. erewrite bind_ret by reflexivity.
    unfold Admin.blank. rewrite Hn, Hblank, Hs. cbn [maybe_value].
    erewrite bind_ret by exact Hrun1. reflexivity.
  - intros c Hnone Hone. rewrite Hnone in Hrun1.
    destruct (await_served (Pg.from "categories" (Update p) |> Pg.eq "id" (VNum id)
                            |> Pg.returning |> Pg.single) w1 Hw1)
      as (w2 & Hrun2 & Hw2 & Hd2 & _).
    rewrite Hd1, update_by_id in Hrun2, Hd2. cbn [fst snd] in Hrun2, Hd2.
    rewrite Hone in Hrun2.
    exists w2. split.
    + apply try_catch_ret. open_try.
      erewrite bind_ret by (apply getUser_healthy, healthy_next, Hw).
      cbn [reply_user]. rewrite Hu. erewrite bind_ret by reflexivity.
      unfold Admin.blank. rewrite Hn, Hblank, Hs. cbn [maybe_value].
      erewrite bind_ret by exact Hrun1. cbn [map finish res_data data_truthy].
      erewrite bind_ret by reflexivity. erewrite bind_ret by reflexivity.
      fold (category_row b n s). fold p. fold id.
      erewrite bind_ret by exact Hrun2. reflexivity.
    + rewrite Hd2. apply table_rows_set_same.
Qed.

Lemma select_limit_none (column table : string) (id : number) (d : database) :
  referring column id (table_rows d table) = [] ->
  split_arrow column = None ->
  res_data (fst (run_query (Pg.from table (Pg.select [Col "id"])
                            |> Pg.eq column (VNum id) |> Pg.limit 1) d))
  = DRows [].
Proof.
  intros H Hcol. unfold run_query.
  cbn -[sort_rows shape List.filter matches_all].
  rewrite (filter_ext_eq _ (fun r => value_eqb (get column r) (VNum id))).
  2:{ intros x. rewrite matches_all_one. simpl. unfold column_value. rewrite Hcol.
      reflexivity. }
  fold (referring column id (table_rows d table)). rewrite H. reflexivity.
Qed.

Lemma delete_by_id (t : string) (id : number) (d : database) :
  t <> "products" ->
  snd (run_query (Pg.from t Delete |> Pg.eq "id" (VNum id)) d)
  = set_table t (List.filter (fun r => negb (value_eqb (get "id" r) (VNum id)))
                   (table_rows d t)) d.
Proof.
  intros Hne. apply String.eqb_neq in Hne. unfold run_query.
  cbn -[List.filter matches_all String.eqb]. rewrite Hne. f_equal.
  apply filter_ext_eq. intros r. rewrite matches_all_one. reflexivity.
Qed.

Ltac run_delete Hw Hu Hrun1 Hnone Hrun2 :=
  apply try_catch_ret; open_try;
  erewrite bind_ret by (apply getUser_healthy, healthy_next, Hw);
  cbn [reply_user]; rewrite Hu;
  erewrite bind_ret by exact Hrun1;
  rewrite select_limit_none by (exact Hnone || reflexivity);
  erewrite bind_ret by exact Hrun2; reflexivity.

(** X14: For a signed-in user and a platform that serves its calls, the
    DELETE of a category to which no subcategory refers, and the DELETE of a
    subcategory to which no product refers, are answered 200; afterwards the
    table holds the rows it held except those with the id of the route, and
    none with that id. *)
Theorem childless_records_are_deleted (params_id : string) (u : user) (w : world) :
  healthy w ->
  session w = Some u ->
  let id := parseInt params_id None in
  (referring "category_id" id (table_rows (db w) "subcategories") = [] ->
   exists w',
     CategoryById.DELETE params_id w
     = (Ret (json 200 (VObj [("success", VBool true)])), w')
     /\ table_rows (db w') "categories"
        = List.filter (fun r => negb (value_eqb (get "id" r) (VNum id)))
            (table_rows (db w) "categories")
     /\ referring "id" id (table_rows (db w') "categories") = [])
  /\ (referring "subcategory_id" id (table_rows (db w) "products") = [] ->
      exists w',
        SubcategoryById.DELETE params_id w
        = (Ret (json 200 (VObj [("success", VBool true)])), w')
        /\ table_rows (db w') "subcategories"
           = List.filter (fun r => negb (value_eqb (get "id" r) (VNum id)))
               (table_rows (db w) "subcategories")
        /\ referring "id" id (table_rows (db w') "subcategories") = []).
Proof.
  intros Hw Hu id.
  pose proof (healthy_issue AuthGetUser w Hw) as Hw0.
  assert (Hgone : forall rows,
             referring "id" id
               (List.filter (fun r => negb (value_eqb (get "id" r) (VNum id))) rows) = []).
  { intros rows. unfold referring. induction rows as [|r rows IH]; [reflexivity|].
    simpl. destruct (value_eqb (get "id" r) (VNum id)) eqn:Hr; simpl; [exact IH|].
    rewrite Hr. exact IH. }
  split; intros Hnone.
  - destruct (await_served (Pg.from "subcategories" (Pg.select [Col "id"])
                            |> Pg.eq "category_id" (VNum id) |> Pg.limit 1)
                (issue AuthGetUser w) Hw0) as (w1 & Hrun1 & Hw1 & Hd1 & _).
    rewrite run_query_read in Hd1 by reflexivity.
    destruct (await_served (Pg.from "categories" Delete |> Pg.eq "id" (VNum id)) w1 Hw1)
      as (w2 & Hrun2 & Hw2 & Hd2 & _).
    rewrite Hd1, delete_by_id in Hd2 by discriminate.
    change (db (issue AuthGetUser w)) with (db w) in *.
    assert (Hrows : table_rows (db w2) "categories"
                    = List.filter (fun r => negb (value_eqb (get "id" r) (VNum id)))
                        (table_rows (db w) "categories"))
      by (rewrite Hd2; apply table_rows_set_same).
    exists w2. split; [run_delete Hw Hu Hrun1 Hnone Hrun2|].
    split; [exact Hrows | rewrite Hrows; apply Hgone].
  - destruct (await_served (Pg.from "products" (Pg.select [Col "id"])
                            |> Pg.eq "subcategory_id" (VNum id) |> Pg.limit 1)
                (issue AuthGetUser w) Hw0) as (w1 & Hrun1 & Hw1 & Hd1 & _).
    rewrite run_query_read in Hd1 by reflexivity.
    destruct (await_served (Pg.from "subcategories" Delete |> Pg.eq "id" (VNum id)) w1 Hw1)
      as (w2 & Hrun2 & Hw2 & Hd2 & _).
    rewrite Hd1, delete_by_id in Hd2 by discriminate.
    change (db (issue AuthGetUser w)) with (db w) in *.
    assert (Hrows : table_rows (db w2) "subcategories"
                    = List.filter (fun r => negb (value_eqb (get "id" r) (VNum id)))
                        (table_rows (db w) "subcategories"))
      by (rewrite Hd2; apply table_rows_set_same).
    exists w2. split; [run_delete Hw Hu Hrun1 Hnone Hrun2|].
    split; [exact Hrows | rewrite Hrows; apply Hgone].
Qed.

(** X15: When the store answers the guard query of a category or subcategory
    DELETE with an error, the handler does not stop: it reads no error from
    the guard query and goes on to issue the delete. Its calls are the
    session check, the guard query and the delete. *)
Theorem delete_guard_is_skipped_when_its_query_fails
    (params_id : string) (u : user) (message : string) (rest : list fault) (w : world) :
  faults w = Healthy :: Fails message :: rest ->
  session w = Some u ->
  let id := VNum (parseInt params_id None) in
  (exists resp w',
     CategoryById.DELETE params_id w = (Ret resp, w')
     /\ calls w' = calls w ++
          [ AuthGetUser;
            DbQuery (Pg.from "subcategories" (Pg.select [Col "id"])
                     |> Pg.eq "category_id" id |> Pg.limit 1);
            DbQuery (Pg.from "categories" Delete |> Pg.eq "id" id) ])
  /\ (exists resp w',
        SubcategoryById.DELETE params_id w = (Ret resp, w')
        /\ calls w' = calls w ++
             [ AuthGetUser;
               DbQuery (Pg.from "products" (Pg.select [Col "id"])
                        |> Pg.eq "subcategory_id" id |> Pg.limit 1);
               DbQuery (Pg.from "subcategories" Delete |> Pg.eq "id" id) ]).
Proof.
  intros Hf Hu id.
  assert (Hstep : forall (q1 q2 : query) (refusal : string),
             exists resp w',
               try_catch
                 (auth <- auth_getUser ;;
                  match reply_user auth with
                  | None => ret unauthorized
                  | Some _ =>
                      children <- await q1 ;;
                      match res_data children with
                      | DRows (_ :: _) => ret (json 400 (failure refusal))
                      | _ =>
                          deleted <- await q2 ;;
                          match res_error deleted with
                          | Some message => throw (JsError message)
                          | None => ret (json 200 (VObj [("success", VBool true)]))
                          end
                      end
                  end) catch_with_message w = (Ret resp, w')
               /\ calls w' = calls w ++ [AuthGetUser; DbQuery q1; DbQuery q2]).
  { intros q1 q2 refusal.
    assert (H1 : auth_getUser w
                 = (Ret {| reply_user := Some u; auth_error := None |}, issue AuthGetUser w)).
    { rewrite getUser_healthy by (unfold next_fault; rewrite Hf; reflexivity).
      rewrite Hu. reflexivity. }
    assert (H2 : await q1 (issue AuthGetUser w)
                 = (Ret (failed message), issue (DbQuery q1) (issue AuthGetUser w))).
    { unfold await, platform, next_fault. simpl. rewrite Hf. reflexivity. }
    destruct (await q2 (issue (DbQuery q1) (issue AuthGetUser w))) as [o3 w3] eqn:H3.
    pose proof (await_calls _ _ _ _ H3) as Hc3.
    unfold try_catch. erewrite bind_ret by exact H1. cbn [reply_user].
    erewrite bind_ret by exact H2. cbn [failed res_data].
    unfold bind at 1. rewrite H3.
    destruct o3 as [deleted|e].
    - destruct (res_error deleted); eexists _, _; (split; [reflexivity|]);
        rewrite ?Hc3; simpl; rewrite <- !app_assoc; reflexivity.
    - eexists _, _. split; [reflexivity|]. simpl. rewrite Hc3. simpl.
      rewrite <- !app_assoc. reflexivity. }
  split; apply Hstep.
Qed.

(** ** Records without a name; uploads that are not signed *)

Ltac run_refused Hauth Huser H :=
  apply try_catch_ret; open_try; erewrite bind_ret by exact Hauth;
  rewrite Huser; erewrite bind_ret by reflexivity; rewrite ?H; reflexivity.

(** X16: For a signed-in user, the POST and PUT of a category and of a
    subcategory with a missing or blank name are answered 400 "El nombre es
    requerido", and the POST of a subcategory with a name and no category is
    answered 400 "La categoría es requerida"; in each case nothing is called
    after the session check. *)
Theorem nameless_records_are_refused (w w1 : world) (auth : user_reply) (u : user) :
  auth_getUser w = (Ret auth, w1) ->
  reply_user auth = Some u ->
  (forall (b : CategoriesIndex.body) (params_id : string),
      Admin.blank (CategoriesIndex.name b) = true ->
      CategoriesIndex.POST (Body b) w
      = (Ret (json 400 (failure "El nombre es requerido")), w1)
      /\ CategoryById.PUT params_id (Body b) w
         = (Ret (json 400 (failure "El nombre es requerido")), w1))
  /\ (forall (b : SubcategoriesIndex.body) (params_id : string),
        Admin.blank (SubcategoriesIndex.name b) = true ->
        SubcategoriesIndex.POST (Body b) w
        = (Ret (json 400 (failure "El nombre es requerido")), w1)
        /\ SubcategoryById.PUT params_id (Body b) w
           = (Ret (json 400 (failure "El nombre es requerido")), w1))
  /\ (forall b : SubcategoriesIndex.body,
        Admin.blank (SubcategoriesIndex.name b) = false ->
        number_truthy (SubcategoriesIndex.category_id b) = false ->
        SubcategoriesIndex.POST (Body b) w
        = (Ret (json 400 (failure (text "La categoría es requerida"))), w1)).
Proof.
  intros Hauth Huser. split; [|split].
  - intros b params_id Hb. split; run_refused Hauth Huser Hb.
  - intros b params_id Hb. split; run_refused Hauth Huser Hb.
  - intros b Hb Hc. apply try_catch_ret. open_try. erewrite bind_ret by exact Hauth.
    rewrite Huser. erewrite bind_ret by reflexivity. rewrite Hb, Hc. reflexivity.
Qed.

(** X17: When a valid upload-url request of a signed-in user is refused by
    the storage (createSignedUploadUrl answers with an error), the handler
    logs "Error creating signed URL:" and answers 500 with the fixed message
    "Error al crear URL de subida"; the message of the storage is not
    relayed. *)
Theorem unsigned_upload_is_answered_500
    (b : UploadUrl.body) (f t s i : string) (ts : list string)
    (w w1 w2 : world) (auth : user_reply) (u : user)
    (signed : reply Storage.signed_upload) (message : string) :
  auth_getUser w = (Ret auth, w1) ->
  auth_error auth = None ->
  reply_user auth = Some u ->
  UploadUrl.filename b = just f -> UploadUrl.contentType b = just t ->
  UploadUrl.section b = just s -> UploadUrl.tempUploadId b = just i ->
  String.eqb f "" = false -> String.eqb t "" = false ->
  String.eqb s "" = false -> String.eqb i "" = false ->
  UploadUrl.allowed_for s = Some ts ->
  UploadUrl.includes ts t = true ->
  Storage.createSignedUploadUrl "products"
    (UploadUrl.storagePath i s (clock w1) (sanitize_filename f)) w1 = (Ret signed, w2) ->
  rep_error signed = Some message ->
  UploadUrl.POST (Body b) w
  = (Ret (json 500 (error_only "Error al crear URL de subida")),
     print "Error creating signed URL:" w2).
Proof.
  intros Hauth Herr Huser Hf Ht Hs Hi Hf0 Ht0 Hs0 Hi0 Hts Hallowed Hsign Hrefused.
  assert (Hvalid : UploadUrl.includes UploadUrl.validSections s = true).
  { unfold UploadUrl.allowed_for in Hts.
    destruct (List.find _ UploadUrl.allowedTypes) as [entry|] eqn:Hfind; [|discriminate].
    apply find_some in Hfind as [Hin Heq]. apply String.eqb_eq in Heq. subst s.
    destruct Hin as [<- | [<- | [<- | []]]]; reflexivity. }
  apply try_catch_ret. open_try. erewrite bind_ret by exact Hauth.
  rewrite Herr, Huser. erewrite bind_ret by reflexivity.
  rewrite Hf, Ht, Hs, Hi, Hf0, Ht0, Hs0, Hi0, Hvalid, Hts. cbn [orb negb].
  erewrite bind_ret by reflexivity. rewrite Hallowed. cbn [negb].
  erewrite bind_ret by reflexivity. erewrite bind_ret by exact Hsign.
  rewrite Hrefused. reflexivity.
Qed.

(** A file already stored under the path that would be signed. *)

(** ** The parameters of the listing *)

Lemma number_leb_not_lt (a : Z) (b : number) :
  isNaN b = false -> num_lt b (num_of_Z a) = false -> number_leb (num_of_Z a) b = true.
Proof.
  intros Hnan Hlt. destruct b as [|[]|q]; try discriminate; try reflexivity.
  unfold num_of_Z in *. apply number_leb_Num. apply num_lt_Num_false in Hlt. exact Hlt.
Qed.

Lemma parseInt_whole (s : string) (radix : option Z) :
  parseInt s radix = NaN \/ exists z, parseInt s radix = num_of_Z z.
Proof.
  unfold parseInt. destruct (strip_sign (trimStart s)) as [negative body_].
  match goal with |- context [let (_, _) := ?p in _] => destruct p as [r digits] end.
  destruct (take_while (is_radix_digit r) digits); [left; reflexivity | right; eauto].
Qed.

Lemma leb_truthy (b : number) : number_leb (num_of_Z 1) b = true -> num_truthy b = true.
Proof.
  destruct b as [|[]|q]; try discriminate; try reflexivity.
  unfold num_of_Z. rewrite number_leb_Num. intros H. simpl.
  apply negb_true_iff, not_true_iff_false. rewrite Qeq_bool_iff. intros Hq.
  rewrite Hq in H. revert H. apply Qlt_not_le. reflexivity.
Qed.

Lemma leb_not_lt (a b : number) : number_leb a b = true -> num_lt b a = false.
Proof.
  destruct a as [|[]|p], b as [|[]|q]; try discriminate; try reflexivity.
  rewrite number_leb_Num, num_lt_Num_false. auto.
Qed.

Lemma sanitize_sort_cases (raw : option string) :
  ProductsListing.sanitize_sort raw = undefined
  \/ exists s, raw = Some s /\ ProductsListing.sanitize_sort raw = just s
               /\ In s ProductsListing.VALID_SORT_OPTIONS.
Proof.
  unfold ProductsListing.sanitize_sort.
  destruct raw as [s|]; [|left; reflexivity].
  destruct (ProductsListing.present (Some s)) as [s'|] eqn:Hp; [|left; reflexivity].
  assert (s' = s) by (destruct s; simpl in Hp; congruence). subst s'.
  destruct (UploadUrl.includes ProductsListing.VALID_SORT_OPTIONS s) eqn:Hin;
    [|left; reflexivity].
  right. exists s. split; [reflexivity|]. split; [reflexivity|].
  apply includes_In, Hin.
Qed.

Section Listing.

Variable PAGE_SIZE : number.

Lemma sanitize_page_ok (raw : option string) :
  number_leb (num_of_Z 1) (ProductsListing.sanitize_page raw) = true.
Proof.
  unfold ProductsListing.sanitize_page.
  destruct (ProductsListing.present raw) as [s|]; [|reflexivity].
  destruct (isNaN (parseInt s (Some 10))) eqn:Hnan; [reflexivity|].
  destruct (num_lt (parseInt s (Some 10)) (num_of_Z 1)) eqn:Hlt; [reflexivity|].
  simpl. apply number_leb_not_lt; assumption.
Qed.

Lemma sanitize_pageSize_ok (raw : option string) :
  ProductsListing.sanitize_pageSize PAGE_SIZE raw = PAGE_SIZE
  \/ exists z, 1 <= z <= 50
               /\ ProductsListing.sanitize_pageSize PAGE_SIZE raw = num_of_Z z.
Proof.
  unfold ProductsListing.sanitize_pageSize.
  destruct (ProductsListing.present raw) as [s|].
  - destruct (parseInt_whole s (Some 10)) as [-> | [z ->]]; [left; reflexivity|].
    change (isNaN (num_of_Z z)) with false. unfold num_gt. rewrite !num_lt_int.
    destruct (Z.ltb_spec z 1); [left; reflexivity|].
    destruct (Z.ltb_spec 50 z); [left; reflexivity|].
    right. exists z. split; [lia | reflexivity].
  - left. destruct (isNaN PAGE_SIZE || _ || _); reflexivity.
Qed.

(** X18: Whatever the query string of the listing holds: the page is at
    least 1; the page size is PAGE_SIZE or a whole number between 1 and 50;
    the sort option is undefined or one of VALID_SORT_OPTIONS, as sent; a
    price bound is undefined or a number that is not NaN and not negative. *)
Theorem listing_parameters_are_sanitized (raw : option string) :
  number_leb (num_of_Z 1) (ProductsListing.sanitize_page raw) = true
  /\ (ProductsListing.sanitize_pageSize PAGE_SIZE raw = PAGE_SIZE
      \/ exists z, 1 <= z <= 50
                   /\ ProductsListing.sanitize_pageSize PAGE_SIZE raw = num_of_Z z)
  /\ (ProductsListing.sanitize_sort raw = undefined
      \/ exists s, raw = Some s /\ ProductsListing.sanitize_sort raw = just s
                   /\ In s ProductsListing.VALID_SORT_OPTIONS)
  /\ (ProductsListing.sanitize_price raw = undefined
      \/ exists p, ProductsListing.sanitize_price raw = just p
                   /\ isNaN p = false /\ number_leb (num_of_Z 0) p = true).
Proof.
  split; [apply sanitize_page_ok|]. split; [apply sanitize_pageSize_ok|]. split.
  - apply sanitize_sort_cases.
  - unfold ProductsListing.sanitize_price.
    destruct (ProductsListing.present raw) as [s|]; [|left; reflexivity].
    destruct (isNaN (parseFloat s)) eqn:Hnan; [left; reflexivity|].
    destruct (number_leb (num_of_Z 0) (parseFloat s)) eqn:Hle; [|left; reflexivity].
    right. exists (parseFloat s). auto.
Qed.

(** X19: When PAGE_SIZE is a whole number between 1 and 50,
    normalizePagination leaves the page and the page size that the listing
    handler sanitized as they are: the two checks agree. *)
Theorem sanitized_pagination_is_kept (rawPage rawPageSize : option string) (z : Z) :
  PAGE_SIZE = num_of_Z z -> 1 <= z <= 50 ->
  Products.normalizePagination
    {| Products.p_page := just (ProductsListing.sanitize_page rawPage);
       Products.p_pageSize := just (ProductsListing.sanitize_pageSize PAGE_SIZE rawPageSize) |}
  = {| Products.page := ProductsListing.sanitize_page rawPage;
       Products.pageSize := ProductsListing.sanitize_pageSize PAGE_SIZE rawPageSize |}.
Proof.
  intros HP Hz.
  pose proof (sanitize_page_ok rawPage) as Hpage.
  assert (Hsize : exists k, 1 <= k <= 50
                            /\ ProductsListing.sanitize_pageSize PAGE_SIZE rawPageSize
                               = num_of_Z k).
  { destruct (sanitize_pageSize_ok rawPageSize) as [H | H];
      [exists z; rewrite H; auto | exact H]. }
  destruct Hsize as (k & Hk & Hsize).
  unfold Products.normalizePagination. cbn [Products.p_page Products.p_pageSize].
  unfold Products.number_or. rewrite (leb_truthy _ Hpage), (leb_not_lt _ _ Hpage).
  rewrite Hsize. unfold Products.DEFAULT_PAGE_SIZE, Products.MAX_PAGE_SIZE, num_gt.
  replace (num_truthy (num_of_Z k)) with true.
  2:{ symmetry. apply leb_truthy. unfold num_of_Z. apply number_leb_Num.
      rewrite <- Zle_Qle. lia. }
  rewrite !num_lt_int.
  destruct (Z.ltb_spec k 1); [lia|]. rewrite ?num_lt_int.
  destruct (Z.ltb_spec 50 k); [lia|]. reflexivity.
Qed.

End Listing.

(** X20: A sort parameter other than price_asc, price_desc, name_asc and
    name_desc is ordered by created_at and then id, both descending. This
    holds for a missing or rejected parameter and also for "oldest", which
    the listing handler accepts as a valid option and applyFilters has no
    case for. *)
Theorem unknown_sort_is_the_default_order (raw : option string) (q : query) :
  (forall s, In s ["price_asc"; "price_desc"; "name_asc"; "name_desc"] -> raw <> Some s) ->
  Products.applySort (ProductsListing.sanitize_sort raw) q
  = (q |> Pg.order "created_at" false None |> Pg.order "id" false None).
Proof.
  intros Hnot.
  destruct (sanitize_sort_cases raw) as [-> | (s & -> & -> & Hin)]; [reflexivity|].
  destruct Hin as [<- | [<- | [<- | [<- | [<- | []]]]]];
    try (exfalso; eapply Hnot; cycle 1; [reflexivity | simpl; tauto]).
  reflexivity.
Qed.

(** ** Listings of places that do not exist *)

Lemma shape_all (d : database) (t : string) (r : row) : shape d t [Col "*"] r = r.
Proof. unfold shape. simpl. apply app_nil_r. Qed.

Lemma map_shape_all (d : database) (t : string) (rs : list row) :
  map (shape d t [Col "*"]) rs = rs.
Proof. induction rs as [|r rs IH]; simpl; [reflexivity|]. rewrite shape_all. f_equal. exact IH. Qed.

Lemma select_all_by_slug (s : string) (d : database) (t : string) :
  fst (run_query (Pg.from t (Pg.select [Col "*"]) |> Pg.eq "slug" (VStr s) |> Pg.single) d)
  = finish true None (with_slug s (table_rows d t)).
Proof.
  unfold run_query. cbn -[sort_rows shape List.filter matches_all finish].
  rewrite sort_rows_unordered, map_shape_all. f_equal.
  apply filter_ext_eq. intros r. apply matches_all_one.
Qed.

Lemma In_insert_sorted (os : list ordering) (x r : row) (l : list row) :
  In x (insert_sorted os r l) <-> x = r \/ In x l.
Proof.
  induction l as [|y l IH]; simpl; [intuition congruence|].
  destruct (compare_rows os r y); simpl; rewrite ?IH; intuition congruence.
Qed.

Lemma In_sort_rows (os : list ordering) (x : row) (l : list row) :
  In x (sort_rows os l) <-> In x l.
Proof.
  unfold sort_rows. induction l as [|y l IH]; simpl; [tauto|].
  rewrite In_insert_sorted, IH. intuition congruence.
Qed.

Lemma getCategoryAndSubcategories_none (cs : string) (w : world) :
  healthy w ->
  with_slug cs (table_rows (db w) "categories") = [] ->
  exists w',
    Categories.getCategoryAndSubcategories cs w = (Ret None, w')
    /\ healthy w' /\ db w' = db w /\ console w' = console w
    /\ calls w' = calls w ++ [DbQuery (Pg.from "categories" (Pg.select [Col "*"])
                                       |> Pg.eq "slug" (VStr cs) |> Pg.single)].
Proof.
  intros Hw Hnone.
  destruct (await_served (Pg.from "categories" (Pg.select [Col "*"])
                          |> Pg.eq "slug" (VStr cs) |> Pg.single) w Hw)
    as (w1 & Hrun1 & Hw1 & Hd1 & _ & Hc1 & Hl1 & _).
  rewrite run_query_read in Hd1 by reflexivity.
  rewrite select_all_by_slug, Hnone in Hrun1.
  exists w1. split; [|auto].
  unfold Categories.getCategoryAndSubcategories. erewrite bind_ret by exact Hrun1.
  reflexivity.
Qed.

Lemma getCategoryAndSubcategories_some (cs : string) (c : row) (w : world) :
  healthy w ->
  with_slug cs (table_rows (db w) "categories") = [c] ->
  exists w',
    Categories.getCategoryAndSubcategories cs w
    = (Ret (Some {| Categories.category := c;
                    Categories.subcategories := subcategories_of c (db w) |}), w')
    /\ healthy w' /\ db w' = db w /\ console w' = console w.
Proof.
  intros Hw Hone.
  destruct (await_served (Pg.from "categories" (Pg.select [Col "*"])
                          |> Pg.eq "slug" (VStr cs) |> Pg.single) w Hw)
    as (w1 & Hrun1 & Hw1 & Hd1 & _ & Hc1 & Hl1 & _).
  rewrite run_query_read in Hd1 by reflexivity.
  rewrite select_all_by_slug, Hone in Hrun1.
  destruct (await_served (Pg.from "subcategories" (Pg.select [Col "*"])
                          |> Pg.eq "category_id" (get "id" c)
                          |> Pg.order "display_order" true None
                          |> Pg.order "name" true None) w1 Hw1)
    as (w2 & Hrun2 & Hw2 & Hd2 & _ & Hc2 & Hl2 & _).
  rewrite run_query_read in Hd2 by reflexivity.
  exists w2. split; [|split; [exact Hw2 | split; congruence]].
  unfold Categories.getCategoryAndSubcategories. erewrite bind_ret by exact Hrun1.
  cbn [finish res_error res_data]. erewrite bind_ret by exact Hrun2.
  rewrite Hd1. unfold run_query.
  cbn -[sort_rows shape List.filter matches_all].
  rewrite map_shape_all. unfold subcategories_of.
  rewrite (filter_ext_eq (matches_all [Eq "category_id" (get "id" c)])
             (fun r => value_eqb (get "category_id" r) (get "id" c)))
    by (intros r; apply matches_all_one).
  reflexivity.
Qed.

Lemma find_nothing {A} (f : A -> bool) (l : list A) :
  (forall x, In x l -> f x = false) -> List.find f l = None.
Proof.
  induction l as [|x l IH]; intros H; simpl; [reflexivity|].
  rewrite (H x (or_introl eq_refl)). apply IH. intros y Hy. apply H. right. exact Hy.
Qed.

(** X21: The listing answers 400 "categorySlug is required" without any call
    when no category is named (the parameter is missing or empty); 404
    "Category not found" when no category has the slug; and 404 "Subcategory
    not found or does not belong to this category" when the category exists
    and none of its subcategories has the slug asked for. The 404 answers
    leave the tables and the console as they were. *)
Theorem listing_of_an_unknown_place (PAGE_SIZE : number) (params : list (string * string))
    (w : world) :
  let categorySlug :=
    ProductsListing.present (ProductsListing.searchParams_get params "categorySlug") in
  let subcategorySlug :=
    ProductsListing.present (ProductsListing.searchParams_get params "subcategoria") in
  (* no category is named *)
  (categorySlug = None ->
   ProductsListing.GET PAGE_SIZE params w
   = (Ret (json 400 (error_only "categorySlug is required")), w))
  (* the category does not exist *)
  /\ (forall cs,
        healthy w -> categorySlug = Some cs ->
        with_slug cs (table_rows (db w) "categories") = [] ->
        exists w',
          ProductsListing.GET PAGE_SIZE params w
          = (Ret (json 404 (error_only "Category not found")), w')
          /\ db w' = db w /\ console w' = console w)
  (* the subcategory is not one of the category *)
  /\ (forall cs c ss,
        healthy w -> categorySlug = Some cs ->
        with_slug cs (table_rows (db w) "categories") = [c] ->
        subcategorySlug = Some ss ->
        (forall sub, In sub (table_rows (db w) "subcategories") ->
                     value_eqb (get "category_id" sub) (get "id" c) = true ->
                     value_eqb (get "slug" sub) (VStr ss) = false) ->
        exists w',
          ProductsListing.GET PAGE_SIZE params w
          = (Ret (json 404
                    (error_only "Subcategory not found or does not belong to this category")),
             w')
          /\ db w' = db w /\ console w' = console w).
Proof.
  intros categorySlug subcategorySlug. split; [|split].
  - intros Hnone. apply try_catch_ret. unfold ProductsListing.GET_try. cbv zeta.
    fold categorySlug. rewrite Hnone. reflexivity.
  - intros cs Hw Hcs Hfree.
    destruct (getCategoryAndSubcategories_none cs w Hw Hfree) as (w1 & Hrun & _ & Hd & Hl & _).
    exists w1. split; [|auto].
    apply try_catch_ret. unfold ProductsListing.GET_try. cbv zeta.
    fold categorySlug. rewrite Hcs. erewrite bind_ret by exact Hrun. reflexivity.
  - intros cs c ss Hw Hcs Hone Hss Hother.
    destruct (getCategoryAndSubcategories_some cs c w Hw Hone) as (w1 & Hrun1 & Hw1 & Hd1 & Hl1).
    rewrite <- Hd1 in Hone.
    destruct (getCategoryAndSubcategories_some cs c w1 Hw1 Hone)
      as (w2 & Hrun2 & Hw2 & Hd2 & Hl2).
    assert (Hsub : Categories.getSubcategoryBySlugWithinCategory cs ss w1 = (Ret None, w2)).
    { unfold Categories.getSubcategoryBySlugWithinCategory.
      erewrite bind_ret by exact Hrun2.
      cbn [Categories.subcategories Categories.category].
      rewrite find_nothing; [reflexivity|].
      intros sub Hin. unfold subcategories_of in Hin. apply In_sort_rows in Hin.
      apply filter_In in Hin as [Hin Hcat]. rewrite Hd1 in Hin.
      exact (Hother sub Hin Hcat). }
    exists w2. split; [|split; congruence].
    apply try_catch_ret. unfold ProductsListing.GET_try. cbv zeta.
    fold categorySlug. rewrite Hcs. erewrite bind_ret by exact Hrun1.
    fold subcategorySlug. rewrite Hss.
    erewrite bind_ret by exact Hsub. reflexivity.
Qed.

(** ** Assets: uploads and deletions *)

(** *** One call, by the fault that decides it *)

Lemma await_next_served (q : query) (w : world) :
  next_fault w = Healthy ->
  await q w = (Ret (fst (run_query q (db w))),
               with_db (snd (run_query q (db w))) (issue (DbQuery q) w)).
Proof.
  intros Hn. unfold await, platform. rewrite Hn. cbv beta.
  change (db (issue (DbQuery q) w)) with (db w).
  destruct (run_query q (db w)) as [r d]. reflexivity.
Qed.

Lemma await_next_refused (q : query) (message : string) (w : world) :
  next_fault w = Fails message ->
  await q w = (Ret (failed message), issue (DbQuery q) w).
Proof. intros Hn. unfold await, platform. rewrite Hn. reflexivity. Qed.

Lemma upload_next_served (b p c : string) (u : bool) (w : world) :
  next_fault w = Healthy -> files w !! (b, p) = None ->
  Storage.upload b p c u w
  = (Ret (ok p), with_files (<[(b, p) := c]> (files w)) (issue (StorageUpload b p u) w)).
Proof.
  intros Hn Hfree. unfold Storage.upload, platform. rewrite Hn. cbv beta.
  change (files (issue (StorageUpload b p u) w)) with (files w). rewrite Hfree. reflexivity.
Qed.

Lemma remove_next_served (b : string) (ps : list string) (w : world) :
  next_fault w = Healthy ->
  Storage.remove b ps w
  = (Ret (ok (List.filter (fun p => bool_decide (is_Some (files w !! (b, p)))) ps)),
     with_files (fold_right (fun p fs => delete (b, p) fs) (files w) ps)
       (issue (StorageRemove b ps) w)).
Proof. intros Hn. unfold Storage.remove, platform. rewrite Hn. reflexivity. Qed.

Lemma faults_issue (c : call) (w : world) : faults (issue c w) = tail (faults w).
Proof. reflexivity. Qed.

Lemma faults_with_db (d : database) (w : world) : faults (with_db d w) = faults w.
Proof. reflexivity. Qed.

Lemma faults_with_files fs (w : world) : faults (with_files fs w) = faults w.
Proof. reflexivity. Qed.

Lemma faults_print (line : string) (w : world) : faults (print line w) = faults w.
Proof. reflexivity. Qed.

Ltac next_faults H :=
  rewrite ?faults_with_db, ?faults_with_files, ?faults_print, ?faults_issue, H; reflexivity.

Lemma next_fault_of (f : fault) (rest : list fault) (w : world) :
  faults w = f :: rest -> next_fault w = f.
Proof. unfold next_fault. intros ->. reflexivity. Qed.

(** X22: uploadProductAsset, on a path that holds no file yet: when the
    storage refuses the object it throws "Error uploading file: ..." and
    calls nothing else; when the store refuses the asset row it removes the
    uploaded object again and throws "Error saving asset: ...", so the files
    are as before, but the is_primary flags that were cleared for a new
    primary gallery asset stay cleared. *)
Theorem failed_upload_removes_the_file
    (productId : number) (file : Admin.File) (options : Admin.upload_options)
    (message : string) (rest : list fault) (w : world) :
  let path_ := Admin.asset_path productId (Admin.opt_section options) (clock w)
                 (sanitize_filename (Admin.file_name file)) in
  let clears := bool_truthy (Admin.opt_is_primary options)
                && String.eqb (Admin.opt_section options) "gallery" in
  files w !! ("products", path_) = None ->
  (* the storage refuses the object: nothing else is called *)
  (faults w = Fails message :: rest ->
   Admin.uploadProductAsset productId file options w
   = (Throw (JsError (String.append "Error uploading file: " message)),
      issue (StorageUpload "products" path_ false) w))
  (* the store refuses the row: the object is removed again, the flags
     that were cleared stay cleared *)
  /\ (faults w = Healthy :: (if clears then [Healthy] else [])
                 ++ Healthy :: Fails message :: Healthy :: rest ->
      exists w',
        Admin.uploadProductAsset productId file options w
        = (Throw (JsError (String.append "Error saving asset: " message)), w')
        /\ files w' = files w
        /\ assets (db w')
           = (if clears then clear_primary (VNum productId) (assets (db w))
              else assets (db w))).
Proof.
  intros path_ clears Hfree. split.
  - intros Hf. unfold Admin.uploadProductAsset. cbv zeta.
    erewrite bind_ret by reflexivity. fold path_.
    unfold Storage.upload, platform. unfold bind at 1.
    rewrite (next_fault_of _ _ _ Hf). reflexivity.
  - intros Hf. unfold Admin.uploadProductAsset. cbv zeta.
    erewrite bind_ret by reflexivity. fold path_.
    erewrite bind_ret
      by (apply upload_next_served; [exact (next_fault_of _ _ _ Hf) | exact Hfree]).
    cbn [rep_error ok]. fold clears.
    set (w1 := with_files (<[("products", path_) := Admin.file_content file]> (files w))
                 (issue (StorageUpload "products" path_ false) w)).
    assert (Hf1 : faults w1 = (if clears then [Healthy] else [])
                              ++ Healthy :: Fails message :: Healthy :: rest)
      by (unfold w1; next_faults Hf).
    destruct clears.
    + (* the flags are cleared first *)
      simpl app in Hf1. simpl when.
      erewrite bind_ret.
      2:{ erewrite bind_ret
            by (apply await_next_served; exact (next_fault_of _ _ _ Hf1)).
          reflexivity. }
      set (q0 := Admin.clear_gallery_flag "is_primary" (VNum productId)) in *.
      set (w2 := with_db (snd (run_query q0 (db w1))) (issue (DbQuery q0) w1)).
      assert (Hf2 : faults w2 = Healthy :: Fails message :: Healthy :: rest)
        by (unfold w2; next_faults Hf1).
      erewrite bind_ret by (apply await_next_served; exact (next_fault_of _ _ _ Hf2)).
      set (q1 := Admin.last_sort_order productId (Admin.opt_section options)) in *.
      set (w3 := with_db (snd (run_query q1 (db w2))) (issue (DbQuery q1) w2)).
      assert (Hd3 : db w3 = db w2) by (apply run_query_read; reflexivity).
      assert (Hf3 : faults w3 = Fails message :: Healthy :: rest)
        by (unfold w3; next_faults Hf2).
      erewrite bind_ret by (apply await_next_refused; exact (next_fault_of _ _ _ Hf3)).
      cbn [failed res_error].
      match goal with
      | |- context [issue (DbQuery ?q) w3] => set (w4 := issue (DbQuery q) w3)
      end.
      assert (Hf4 : faults w4 = Healthy :: rest)
        by (unfold w4; next_faults Hf3).
      erewrite bind_ret by (apply remove_next_served; exact (next_fault_of _ _ _ Hf4)).
      eexists. split; [reflexivity|]. split.
      * simpl. apply delete_insert_id. exact Hfree.
      * change (assets (db w3) = clear_primary (VNum productId) (assets (db w))).
        rewrite Hd3. unfold w2. change (db (with_db ?d _)) with d.
        rewrite (run_query_assets q0 (db w1)) by reflexivity.
        apply clear_primary_after.
    + simpl app in Hf1. simpl when.
      erewrite bind_ret by reflexivity.
      erewrite bind_ret by (apply await_next_served; exact (next_fault_of _ _ _ Hf1)).
      set (q1 := Admin.last_sort_order productId (Admin.opt_section options)) in *.
      set (w3 := with_db (snd (run_query q1 (db w1))) (issue (DbQuery q1) w1)).
      assert (Hd3 : db w3 = db w1) by (apply run_query_read; reflexivity).
      assert (Hf3 : faults w3 = Fails message :: Healthy :: rest)
        by (unfold w3; next_faults Hf1).
      erewrite bind_ret by (apply await_next_refused; exact (next_fault_of _ _ _ Hf3)).
      cbn [failed res_error].
      match goal with
      | |- context [issue (DbQuery ?q) w3] => set (w4 := issue (DbQuery q) w3)
      end.
      assert (Hf4 : faults w4 = Healthy :: rest)
        by (unfold w4; next_faults Hf3).
      erewrite bind_ret by (apply remove_next_served; exact (next_fault_of _ _ _ Hf4)).
      eexists. split; [reflexivity|]. split.
      * simpl. apply delete_insert_id. exact Hfree.
      * change (assets (db w3) = assets (db w)). rewrite Hd3. reflexivity.
Qed.

Lemma delete_asset_after (aid : number) (d : database) :
  assets_after (Pg.from "product_assets" Delete |> Pg.eq "id" (VNum aid)) d
  = List.filter (fun r => negb (has_id aid r)) (assets d).
Proof.
  unfold assets_after. simpl q_verb. cbv iota.
  apply filter_ext_eq. intros r.
  change (q_filters (Pg.from "product_assets" Delete |> Pg.eq "id" (VNum aid)))
    with [Eq "id" (VNum aid)].
  rewrite matches_all_one. reflexivity.
Qed.

(** X23: deleteProductAsset throws "Asset not found" after its first query
    when no asset has the id. When exactly one has it and the platform
    serves its calls, the row and the file are removed and nothing is
    logged. When the storage refuses the removal, a line is logged, the file
    stays and the row is deleted all the same. *)
Theorem asset_is_deleted_with_its_file (assetId : number) (w : world) :
  let fetch := Pg.from "product_assets"
                 (Pg.select [Col "storage_bucket"; Col "storage_path"])
               |> Pg.eq "id" (VNum assetId) |> Pg.single in
  (* no such asset: only the fetch is issued *)
  (next_fault w = Healthy ->
   List.filter (has_id assetId) (assets (db w)) = [] ->
   Admin.deleteProductAsset assetId w
   = (Throw (JsError "Asset not found"), issue (DbQuery fetch) w))
  (* the asset and its file are removed *)
  /\ (forall a,
        healthy w ->
        List.filter (has_id assetId) (assets (db w)) = [a] ->
        exists w',
          Admin.deleteProductAsset assetId w = (Ret tt, w')
          /\ assets (db w') = List.filter (fun r => negb (has_id assetId r)) (assets (db w))
          /\ files w' = delete (as_string (get "storage_bucket" a),
                                as_string (get "storage_path" a)) (files w)
          /\ console w' = console w)
  (* the storage refuses the removal: the row is deleted all the same *)
  /\ (forall a message rest,
        faults w = Healthy :: Fails message :: Healthy :: rest ->
        List.filter (has_id assetId) (assets (db w)) = [a] ->
        exists w',
          Admin.deleteProductAsset assetId w = (Ret tt, w')
          /\ assets (db w') = List.filter (fun r => negb (has_id assetId r)) (assets (db w))
          /\ files w' = files w
          /\ console w' = console w ++ ["Error removing from storage:"]).
Proof.
  intros fetch.
  assert (Hfetch : forall rows,
             List.filter (has_id assetId) (assets (db w)) = rows ->
             next_fault w = Healthy ->
             await fetch w
             = (Ret (finish true None
                       (map (shape (db w) "product_assets"
                               [Col "storage_bucket"; Col "storage_path"]) rows)),
                issue (DbQuery fetch) w)).
  { intros rows Hrows Hn. rewrite await_next_served by exact Hn.
    unfold fetch. rewrite fetch_by_id, Hrows. reflexivity. }
  assert (Hcols : forall a,
             as_string (get "storage_bucket"
                          (shape (db w) "product_assets"
                             [Col "storage_bucket"; Col "storage_path"] a))
             = as_string (get "storage_bucket" a)
             /\ as_string (get "storage_path"
                             (shape (db w) "product_assets"
                                [Col "storage_bucket"; Col "storage_path"] a))
                = as_string (get "storage_path" a)).
  { intros a. unfold shape. simpl embedded. rewrite app_nil_r. simpl plain_columns.
    rewrite !get_project by (simpl; tauto). auto. }
  split; [|split].
  - intros Hn Hnone. unfold Admin.deleteProductAsset. fold fetch.
    erewrite bind_ret by (apply (Hfetch []); assumption). reflexivity.
  - intros a Hw Hone. destruct (Hcols a) as [Hb Hp].
    unfold Admin.deleteProductAsset. fold fetch.
    erewrite bind_ret by (apply (Hfetch [a]); [assumption | apply healthy_next, Hw]).
    cbn [map finish res_error res_data]. rewrite Hb, Hp.
    set (bucket := as_string (get "storage_bucket" a)).
    set (path_ := as_string (get "storage_path" a)).
    set (w1 := issue (DbQuery fetch) w).
    assert (Hw1 : healthy w1) by (apply healthy_issue, Hw).
    erewrite bind_ret by (apply remove_next_served, healthy_next, Hw1).
    cbn [rep_error ok]. rewrite bool_decide_eq_false_2 by (intros [? ?]; discriminate).
    cbn [when]. erewrite bind_ret by reflexivity.
    set (w2 := with_files (fold_right (fun p fs => delete (bucket, p) fs) (files w1) [path_])
                 (issue (StorageRemove bucket [path_]) w1)).
    assert (Hw2 : healthy w2) by (apply healthy_issue with (c := StorageRemove bucket [path_]), Hw1).
    set (qd := Pg.from "product_assets" Delete |> Pg.eq "id" (VNum assetId)).
    destruct (await_served qd w2 Hw2) as (w3 & Hrun3 & _ & Hd3 & Hf3 & _ & Hl3 & _).
    erewrite bind_ret by exact Hrun3.
    change (res_error (fst (run_query qd (db w2)))) with (@None string).
    exists w3. split; [reflexivity|]. split; [|split].
    + rewrite Hd3. change (db w2) with (db w).
      rewrite run_query_assets by reflexivity. apply delete_asset_after.
    + rewrite Hf3. reflexivity.
    + rewrite Hl3. reflexivity.
  - intros a message rest Hf Hone. destruct (Hcols a) as [Hb Hp].
    unfold Admin.deleteProductAsset. fold fetch.
    erewrite bind_ret by (apply (Hfetch [a]); [assumption | exact (next_fault_of _ _ _ Hf)]).
    cbn [map finish res_error res_data]. rewrite Hb, Hp.
    set (w1 := issue (DbQuery fetch) w).
    assert (Hf1 : faults w1 = Fails message :: Healthy :: rest) by (unfold w1; next_faults Hf).
    unfold Storage.remove at 1, platform. unfold bind at 1.
    rewrite (next_fault_of _ _ _ Hf1). cbn [rep_error refused].
    rewrite bool_decide_eq_true_2 by eauto. cbn [when].
    erewrite bind_ret by reflexivity.
    set (w2 := print "Error removing from storage:"
                 (issue (StorageRemove (as_string (get "storage_bucket" a))
                           [as_string (get "storage_path" a)]) w1)).
    assert (Hf2 : faults w2 = Healthy :: rest) by (unfold w2; next_faults Hf1).
    erewrite bind_ret by (apply await_next_served; exact (next_fault_of _ _ _ Hf2)).
    eexists. split; [reflexivity|]. split; [|split; reflexivity].
    change (assets (snd (run_query (Pg.from "product_assets" Delete
                                    |> Pg.eq "id" (VNum assetId)) (db w)))
            = List.filter (fun r => negb (has_id assetId r)) (assets (db w))).
    rewrite run_query_assets by reflexivity. apply delete_asset_after.
Qed.

(** ** Assets: their order *)

Section Order.

Variables (productId : number) (section : string).

Lemma order_update_after (i : Z) (aid : number) (d : database) :
  assets_after (order_update productId section i aid) d
  = map (fun r => if in_place productId section aid r
                  then patch [("sort_order", VNum (num_of_Z i))] r else r) (assets d).
Proof.
  unfold assets_after. simpl q_verb. cbv iota. apply map_ext. intros r.
  change (q_filters (order_update productId section i aid))
    with [Eq "id" (VNum aid); Eq "product_id" (VNum productId); Eq "section" (VStr section)].
  unfold matches_all, in_place. simpl. rewrite andb_true_r, andb_assoc. reflexivity.
Qed.

Lemma get_patch_one_ne (k k' : string) (v : value) (r : row) :
  k <> k' -> get k (patch [(k', v)] r) = get k r.
Proof. intros H. unfold patch. simpl. apply get_set_ne, H. Qed.

Lemma in_place_patch (aid : number) (v : value) (r : row) :
  in_place productId section aid (patch [("sort_order", v)] r)
  = in_place productId section aid r.
Proof. unfold in_place. rewrite !get_patch_one_ne by discriminate. reflexivity. Qed.

Lemma in_place_reordered (aid : number) (i : Z) (ids : list number) (r : row) :
  in_place productId section aid (reordered productId section i ids r)
  = in_place productId section aid r.
Proof.
  revert i r. induction ids as [|id ids IH]; intros i r; simpl; [reflexivity|].
  rewrite IH. destruct (in_place productId section id r); [apply in_place_patch | reflexivity].
Qed.

Lemma reordered_other_keys (k : string) (i : Z) (ids : list number) (r : row) :
  k <> "sort_order" ->
  get k (reordered productId section i ids r) = get k r.
Proof.
  intros Hk. revert i r. induction ids as [|id ids IH]; intros i r; simpl; [reflexivity|].
  rewrite IH. destruct (in_place productId section id r);
    [apply get_patch_one_ne, Hk | reflexivity].
Qed.

Lemma reordered_untouched (i : Z) (ids : list number) (r : row) :
  Forall (fun aid => in_place productId section aid r = false) ids ->
  reordered productId section i ids r = r.
Proof.
  intros H. revert i. induction H as [|id ids Hid _ IH]; intros i; simpl; [reflexivity|].
  rewrite Hid. apply IH.
Qed.

Lemma reordered_position (i : Z) (ids : list number) (k : nat) (aid : number) (r : row) :
  ids !! k = Some aid ->
  in_place productId section aid r = true ->
  Forall (fun later => in_place productId section later r = false) (drop (S k) ids) ->
  get "sort_order" (reordered productId section i ids r) = VNum (num_of_Z (i + Z.of_nat k)).
Proof.
  revert i k r. induction ids as [|id ids IH]; intros i k r Hk Hin Hlater; [discriminate|].
  destruct k as [|k]; simpl in Hk, Hlater; cbn [reordered].
  - injection Hk as ->. rewrite Hin.
    rewrite reordered_untouched.
    + unfold patch. simpl. rewrite get_set_eq. f_equal. f_equal. lia.
    + eapply List.Forall_impl; [|exact Hlater]. intros later H. cbv beta in *.
      rewrite in_place_patch. exact H.
  - replace (i + Z.of_nat (S k)) with ((i + 1) + Z.of_nat k) by lia.
    apply IH; [exact Hk | | ].
    + destruct (in_place productId section id r); [rewrite in_place_patch|]; exact Hin.
    + eapply List.Forall_impl; [|exact Hlater]. intros later H. cbv beta in *.
      destruct (in_place productId section id r); [rewrite in_place_patch|]; exact H.
Qed.

Lemma updateAssetOrder_from_served (i : Z) (ids : list number) (w : world) :
  healthy w ->
  exists w',
    Admin.updateAssetOrder_from i productId section ids w = (Ret tt, w')
    /\ healthy w'
    /\ assets (db w') = map (reordered productId section i ids) (assets (db w))
    /\ files w' = files w
    /\ calls w' = calls w ++ order_updates productId section i ids.
Proof.
  revert i w. induction ids as [|aid ids IH]; intros i w Hw.
  - exists w. simpl. rewrite map_id, app_nil_r. auto.
  - destruct (await_step (order_update productId section i aid) w Hw eq_refl)
      as (w1 & Hrun1 & Hw1 & Ha1).
    destruct (await_served (order_update productId section i aid) w Hw)
      as (w1' & Hrun1' & _ & _ & Hf1 & Hc1 & _).
    rewrite Hrun1 in Hrun1'. injection Hrun1' as <-.
    destruct (IH (i + 1) w1 Hw1) as (w2 & Hrun2 & Hw2 & Ha2 & Hf2 & Hc2).
    exists w2. split; [|split; [exact Hw2 | split; [|split]]].
    + cbn [Admin.updateAssetOrder_from]. fold (order_update productId section i aid).
      erewrite bind_ret by exact Hrun1. exact Hrun2.
    + rewrite Ha2, Ha1, order_update_after, map_map. reflexivity.
    + congruence.
    + rewrite Hc2, Hc1, <- app_assoc. reflexivity.
Qed.

(** X24: When the platform serves its calls, updateAssetOrder issues one
    update per listed id, in order, and returns; it changes no column but
    sort_order and no file; an asset that no listed id selects (by id,
    product and section) is unchanged, and an asset selected by the id at
    position k, and by none after it, gets sort_order k. *)
Theorem asset_order_is_rewritten (assetIds : list number) (w : world) :
  healthy w ->
  exists w',
    Admin.updateAssetOrder productId section assetIds w = (Ret tt, w')
    /\ calls w' = calls w ++ order_updates productId section 0 assetIds
    /\ files w' = files w
    /\ exists after : row -> row,
         assets (db w') = map after (assets (db w))
         (* only [sort_order] changes *)
         /\ (forall r k, k <> "sort_order" -> get k (after r) = get k r)
         (* and only in the assets that are listed *)
         /\ (forall r, Forall (fun aid => in_place productId section aid r = false) assetIds ->
                       after r = r)
         (* an asset that is listed takes the index of its last mention *)
         /\ (forall r k aid,
               assetIds !! k = Some aid ->
               in_place productId section aid r = true ->
               Forall (fun later => in_place productId section later r = false)
                 (drop (S k) assetIds) ->
               get "sort_order" (after r) = VNum (num_of_Z (Z.of_nat k))).
Proof.
  intros Hw.
  destruct (updateAssetOrder_from_served 0 assetIds w Hw) as (w' & Hrun & _ & Ha & Hf & Hc).
  exists w'. split; [exact Hrun|]. split; [exact Hc|]. split; [exact Hf|].
  exists (reordered productId section 0 assetIds). split; [exact Ha|]. split; [|split].
  - intros r k Hk. apply reordered_other_keys, Hk.
  - intros r. apply reordered_untouched.
  - intros r k aid. apply (reordered_position 0).
Qed.

Lemma updateAssetOrder_from_refused (i : Z) (ids : list number) (k : nat)
    (message : string) (rest : list fault) (w : world) :
  faults w = replicate k Healthy ++ Fails message :: rest ->
  (k < length ids)%nat ->
  exists w',
    Admin.updateAssetOrder_from i productId section ids w
    = (Throw (JsError (String.append "Error updating asset order: " message)), w')
    /\ assets (db w') = map (reordered productId section i (take k ids)) (assets (db w))
    /\ calls w' = calls w ++ order_updates productId section i (take (S k) ids).
Proof.
  revert i ids w. induction k as [|k IH]; intros i ids w Hf Hk.
  - destruct ids as [|aid ids]; [simpl in Hk; lia|].
    simpl in Hf. eexists. split; [|split].
    + cbn [Admin.updateAssetOrder_from]. fold (order_update productId section i aid).
      erewrite bind_ret by (apply await_next_refused; exact (next_fault_of _ _ _ Hf)).
      reflexivity.
    + simpl. rewrite map_id. reflexivity.
    + reflexivity.
  - destruct ids as [|aid ids]; [simpl in Hk; lia|].
    simpl in Hf, Hk.
    set (q := order_update productId section i aid).
    set (w1 := with_db (snd (run_query q (db w))) (issue (DbQuery q) w)).
    assert (Hf1 : faults w1 = replicate k Healthy ++ Fails message :: rest)
      by (unfold w1; next_faults Hf).
    destruct (IH (i + 1) ids w1 Hf1 ltac:(lia)) as (w2 & Hrun2 & Ha2 & Hc2).
    exists w2. split; [|split].
    + cbn [Admin.updateAssetOrder_from]. fold q.
      erewrite bind_ret by (apply await_next_served; exact (next_fault_of _ _ _ Hf)).
      fold w1. change (res_error (fst (run_query q (db w)))) with (@None string).
      exact Hrun2.
    + rewrite Ha2. unfold w1. change (db (with_db ?d _)) with d.
      rewrite (run_query_assets q (db w)) by reflexivity.
      unfold q. rewrite order_update_after, map_map. reflexivity.
    + rewrite Hc2. unfold w1. simpl. rewrite <- app_assoc. reflexivity.
Qed.

(** X25: When the store refuses the update of the id at position k,
    updateAssetOrder throws "Error updating asset order: ..." and issues no
    further update; the ids before position k have been renumbered and stay
    renumbered: the reordering is not undone. *)
Theorem asset_order_stops_at_the_first_refusal (assetIds : list number) (k : nat)
    (message : string) (rest : list fault) (w : world) :
  faults w = replicate k Healthy ++ Fails message :: rest ->
  (k < length assetIds)%nat ->
  exists w',
    Admin.updateAssetOrder productId section assetIds w
    = (Throw (JsError (String.append "Error updating asset order: " message)), w')
    /\ calls w' = calls w ++ order_updates productId section 0 (take (S k) assetIds)
    /\ assets (db w')
       = map (reordered productId section 0 (take k assetIds)) (assets (db w)).
Proof.
  intros Hf Hk.
  destruct (updateAssetOrder_from_refused 0 assetIds k message rest w Hf Hk)
    as (w' & Hrun & Ha & Hc).
  exists w'. auto.
Qed.

End Order.

(** ** Assets: the secondary flag *)

Lemma get_patch_one_eq (k : string) (v : value) (r : row) : get k (patch [(k, v)] r) = v.
Proof. unfold patch. simpl. apply get_set_eq. Qed.

Lemma get_patch_ne (k k' : string) (v : value) (r : row) :
  k <> k' -> get k (patch [(k', v)] r) = get k r.
Proof. intros H. unfold patch. simpl. apply get_set_ne, H. Qed.

Lemma in_gallery_patch_flag (p v : value) (flag : string) (r : row) :
  flag <> "product_id" -> flag <> "section" ->
  in_gallery_of p (patch [(flag, v)] r) = in_gallery_of p r.
Proof.
  intros H1 H2. unfold in_gallery_of. rewrite !get_patch_ne by congruence. reflexivity.
Qed.

Lemma has_id_patch_flag (aid : number) (v : value) (flag : string) (r : row) :
  flag <> "id" -> has_id aid (patch [(flag, v)] r) = has_id aid r.
Proof. intros H. unfold has_id. rewrite get_patch_ne by congruence. reflexivity. Qed.

(** X26: When the platform serves its calls, setAssetAsSecondary returns and
    changes no file. With no asset chosen (null, undefined, 0) it issues one
    update, after which no gallery asset of the product is secondary. With
    an asset chosen, that asset is secondary afterwards (whatever its
    product and section: only the id is compared) and no other gallery asset
    of the product is. *)
Theorem secondary_asset_is_flagged (assetId : maybe number) (productId : number)
    (w : world) :
  healthy w ->
  exists w',
    Admin.setAssetAsSecondary assetId productId w = (Ret tt, w')
    /\ files w' = files w
    (* no asset is chosen: the gallery of the product has no secondary asset *)
    /\ (number_truthy assetId = false ->
        calls w' = calls w ++ [DbQuery (Admin.clear_gallery_flag "is_secondary"
                                          (VNum productId))]
        /\ forall r, In r (assets (db w')) ->
                     in_gallery_of (VNum productId) r = true ->
                     get "is_secondary" r = VBool false)
    (* an asset is chosen: it is flagged wherever it is, and it alone in
       the gallery of the product *)
    /\ (forall aid,
          assetId = just aid -> num_truthy aid = true ->
          forall r, In r (assets (db w')) ->
                    (has_id aid r = true -> get "is_secondary" r = VBool true)
                    /\ (in_gallery_of (VNum productId) r = true -> has_id aid r = false ->
                        get "is_secondary" r = VBool false)).
Proof.
  intros Hw.
  set (q0 := Admin.clear_gallery_flag "is_secondary" (VNum productId)).
  destruct (await_step q0 w Hw eq_refl) as (w1 & Hrun1 & Hw1 & Ha1).
  destruct (await_served q0 w Hw) as (w1' & Hrun1' & _ & _ & Hf1 & Hc1 & _).
  rewrite Hrun1 in Hrun1'. injection Hrun1' as <-.
  assert (Hcleared : assets (db w1)
                     = map (fun r => if in_gallery_of (VNum productId) r
                                     then patch [("is_secondary", VBool false)] r else r)
                         (assets (db w))).
  { rewrite Ha1. unfold assets_after. simpl q_verb. cbv iota. apply map_ext. intros r.
    unfold q0. rewrite clear_filters. reflexivity. }
  assert (Hflag : forall r, In r (assets (db w1)) ->
                            in_gallery_of (VNum productId) r = true ->
                            get "is_secondary" r = VBool false).
  { intros r Hin Hg. rewrite Hcleared in Hin. apply in_map_iff in Hin as (r0 & <- & _).
    destruct (in_gallery_of (VNum productId) r0) eqn:Hg0; [apply get_patch_one_eq|].
    congruence. }
  unfold Admin.setAssetAsSecondary. fold q0.
  destruct (number_truthy assetId) eqn:Htruthy.
  - destruct assetId as [| |aid]; try discriminate. cbn [maybe_value].
    set (q1 := Pg.from "product_assets" (Update [("is_secondary", VBool true)])
               |> Pg.eq "id" (VNum aid)).
    destruct (await_step q1 w1 Hw1 eq_refl) as (w2 & Hrun2 & Hw2 & Ha2).
    destruct (await_served q1 w1 Hw1) as (w2' & Hrun2' & _ & _ & Hf2 & _).
    rewrite Hrun2 in Hrun2'. injection Hrun2' as <-.
    assert (Hset : assets (db w2)
                   = map (fun r => if has_id aid r
                                   then patch [("is_secondary", VBool true)] r else r)
                       (assets (db w1))).
    { rewrite Ha2. unfold assets_after. simpl q_verb. cbv iota. apply map_ext. intros r.
      change (q_filters q1) with [Eq "id" (VNum aid)]. rewrite matches_all_one.
      reflexivity. }
    exists w2. split; [|split; [congruence | split]].
    + erewrite bind_ret by exact Hrun1. erewrite bind_ret by exact Hrun2. reflexivity.
    + discriminate.
    + intros aid' [= <-] _ r Hin. rewrite Hset in Hin.
      apply in_map_iff in Hin as (r1 & <- & Hin1).
      destruct (has_id aid r1) eqn:Hid.
      * rewrite has_id_patch_flag by discriminate. rewrite Hid.
        split; [intros _; apply get_patch_one_eq | discriminate].
      * rewrite Hid. split; [discriminate|]. intros Hg _. apply Hflag; assumption.
  - exists w1. split; [|split; [exact Hf1 | split]].
    + erewrite bind_ret by exact Hrun1. reflexivity.
    + intros _. split; [exact Hc1 | exact Hflag].
    + intros aid -> Haid. simpl in Htruthy. congruence.
Qed.

(** ** Deleting a product *)

Lemma lookup_without_paths_in (b p : string) (ps : list string)
    (fs : gmap (string * string) string) :
  In p ps -> fold_right (fun p fs => delete (b, p) fs) fs ps !! (b, p) = None.
Proof.
  induction ps as [|p0 ps IH]; simpl; [tauto|]. intros [->|Hin].
  - apply lookup_delete_eq.
  - destruct (decide ((b, p0) = (b, p))) as [->|Hne]; [apply lookup_delete_eq|].
    rewrite lookup_delete_ne by exact Hne. apply IH, Hin.
Qed.

Lemma lookup_without_paths_none (b : string) (ps : list string)
    (fs : gmap (string * string) string) (key : string * string) :
  fs !! key = None -> fold_right (fun p fs => delete (b, p) fs) fs ps !! key = None.
Proof.
  intros Hnone. induction ps as [|p0 ps IH]; simpl; [exact Hnone|].
  destruct (decide ((b, p0) = key)) as [->|Hne]; [apply lookup_delete_eq|].
  rewrite lookup_delete_ne by exact Hne. exact IH.
Qed.

Lemma lookup_without_paths_other (b : string) (ps : list string)
    (fs : gmap (string * string) string) (key : string * string) :
  (forall p, In p ps -> key <> (b, p)) ->
  fold_right (fun p fs => delete (b, p) fs) fs ps !! key = fs !! key.
Proof.
  induction ps as [|p0 ps IH]; simpl; [reflexivity|]. intros Hother.
  rewrite lookup_delete_ne by (intros E; apply (Hother p0); [left; reflexivity | congruence]).
  apply IH. intros p Hin. apply Hother. right. exact Hin.
Qed.

Lemma without_groups_none (groups : list (string * list string))
    (fs : gmap (string * string) string) (key : string * string) :
  fs !! key = None -> without_groups groups fs !! key = None.
Proof.
  revert fs. induction groups as [|g groups IH]; simpl; intros fs Hnone; [exact Hnone|].
  apply IH, lookup_without_paths_none, Hnone.
Qed.

Lemma without_groups_in (groups : list (string * list string))
    (fs : gmap (string * string) string) (b p : string) (ps : list string) :
  In (b, ps) groups -> In p ps -> without_groups groups fs !! (b, p) = None.
Proof.
  revert fs. induction groups as [|g groups IH]; simpl; intros fs Hg Hp; [tauto|].
  destruct Hg as [->|Hg].
  - apply without_groups_none. simpl. apply lookup_without_paths_in, Hp.
  - apply IH; assumption.
Qed.

Lemma without_groups_other (groups : list (string * list string))
    (fs : gmap (string * string) string) (key : string * string) :
  (forall b ps p, In (b, ps) groups -> In p ps -> key <> (b, p)) ->
  without_groups groups fs !! key = fs !! key.
Proof.
  revert fs. induction groups as [|[b ps] groups IH]; simpl; intros fs Hother; [reflexivity|].
  rewrite IH by (intros b' ps' p' Hin; apply Hother; right; exact Hin).
  apply lookup_without_paths_other. intros p Hin. apply (Hother b ps p); [left; reflexivity | exact Hin].
Qed.

(** Every path is filed under its bucket, and nothing else is. *)
Lemma In_group_add (bucket path_ b p : string) (groups : list (string * list string)) :
  (exists ps, In (b, ps) (Admin.group_add bucket path_ groups) /\ In p ps)
  <-> (b = bucket /\ p = path_) \/ (exists ps, In (b, ps) groups /\ In p ps).
Proof.
  induction groups as [|[b0 ps0] groups IH]; simpl.
  - split.
    + intros (ps & [[= <- <-]|[]] & Hp). left. destruct Hp as [<-|[]]. split; reflexivity.
    + intros [[-> ->]|(ps & [] & _)]. exists [path_]. split; left; reflexivity.
  - destruct (String.eqb b0 bucket) eqn:Hb.
    + apply String.eqb_eq in Hb. subst b0. split.
      * intros (ps & [[= <- <-]|Hin] & Hp).
        -- apply in_app_or in Hp as [Hp|[<-|[]]].
           ++ right. exists ps0. split; [left; reflexivity | exact Hp].
           ++ left. split; reflexivity.
        -- right. exists ps. split; [right|]; assumption.
      * intros [[-> ->]|(ps & [[= <- <-]|Hin] & Hp)].
        -- exists (ps0 ++ [path_]). split; [left; reflexivity|]. apply in_or_app. right. left. reflexivity.
        -- exists (ps0 ++ [path_]). split; [left; reflexivity|]. apply in_or_app. left. exact Hp.
        -- exists ps. split; [right|]; assumption.
    + split.
      * intros (ps & [[= <- <-]|Hin] & Hp).
        -- right. exists ps0. split; [left; reflexivity | exact Hp].
        -- destruct (proj1 IH (ex_intro _ ps (conj Hin Hp))) as [Heq|(ps' & Hin' & Hp')].
           ++ left. exact Heq.
           ++ right. exists ps'. split; [right|]; assumption.
      * intros [Heq|(ps & [[= <- <-]|Hin] & Hp)].
        -- destruct (proj2 IH (or_introl Heq)) as (ps' & Hin' & Hp').
           exists ps'. split; [right|]; assumption.
        -- exists ps0. split; [left; reflexivity | exact Hp].
        -- destruct (proj2 IH (or_intror (ex_intro _ ps (conj Hin Hp)))) as (ps' & Hin' & Hp').
           exists ps'. split; [right|]; assumption.
Qed.

Lemma In_bucketGroups (rows : list row) (b p : string) :
  (exists ps, In (b, ps) (Admin.bucketGroups rows) /\ In p ps)
  <-> exists a, In a rows /\ b = as_string (get "storage_bucket" a)
                /\ p = as_string (get "storage_path" a).
Proof.
  unfold Admin.bucketGroups.
  assert (Hgen : forall groups,
    (exists ps, In (b, ps)
       (fold_left (fun groups asset =>
                     Admin.group_add (as_string (get "storage_bucket" asset))
                       (as_string (get "storage_path" asset)) groups) rows groups)
     /\ In p ps)
    <-> (exists ps, In (b, ps) groups /\ In p ps)
        \/ exists a, In a rows /\ b = as_string (get "storage_bucket" a)
                     /\ p = as_string (get "storage_path" a)).
  { induction rows as [|a rows IH]; intros groups; simpl.
    - split; [intros H; left; exact H | intros [H|(a & [] & _)]; exact H].
    - rewrite IH, In_group_add. split.
      + intros [[[-> ->]|H]|(a' & Hin & Hb)].
        * right. exists a. split; [left; reflexivity | split; reflexivity].
        * left. exact H.
        * right. exists a'. split; [right; exact Hin | exact Hb].
      + intros [H|(a' & [<-|Hin] & Hb & Hp)].
        * left. right. exact H.
        * left. left. split; assumption.
        * right. exists a'. split; [exact Hin | split; assumption]. }
  rewrite Hgen. split; [intros [(ps & [] & _)|H]; exact H | intros H; right; exact H].
Qed.

(** The loop of [deleteProduct], served. *)
Lemma remove_groups_served (groups : list (string * list string)) (w : world) :
  healthy w ->
  exists w',
    for_each groups (fun group => Storage.remove (fst group) (snd group) ;;; ret tt) w
    = (Ret tt, w')
    /\ healthy w'
    /\ db w' = db w
    /\ files w' = without_groups groups (files w).
Proof.
  revert w. induction groups as [|g groups IH]; intros w Hw.
  - exists w. repeat split. exact Hw.
  - set (w1 := with_files (fold_right (fun p fs => delete (fst g, p) fs) (files w) (snd g))
                 (issue (StorageRemove (fst g) (snd g)) w)).
    assert (Hw1 : healthy w1) by (apply healthy_issue with (c := StorageRemove (fst g) (snd g)) in Hw; exact Hw).
    destruct (IH w1 Hw1) as (w' & Hrun & Hw' & Hdb & Hfiles).
    exists w'. split; [|split; [exact Hw' | split; [rewrite Hdb; reflexivity | rewrite Hfiles; reflexivity]]].
    cbn [for_each].
    erewrite bind_ret; [exact Hrun|].
    erewrite bind_ret by (apply remove_next_served, healthy_next, Hw). reflexivity.
Qed.

Lemma table_rows_set_other (t t' : string) (rs : list row) (d : database) :
  t <> t' -> table_rows (set_table t rs d) t' = table_rows d t'.
Proof.
  intros Hne. unfold table_rows, set_table. simpl.
  rewrite lookup_insert_ne by exact Hne. reflexivity.
Qed.

Lemma products_after_delete (id : number) (d : database) :
  table_rows (snd (run_query (Pg.from "products" Delete |> Pg.eq "id" (VNum id)) d)) "products"
  = List.filter (fun r => negb (value_eqb (get "id" r) (VNum id))) (table_rows d "products").
Proof.
  unfold run_query. cbn -[List.filter matches_all existsb].
  rewrite table_rows_set_other by discriminate. rewrite table_rows_set_same.
  apply filter_ext_eq. intros r. rewrite matches_all_one. reflexivity.
Qed.

Lemma assets_of_product (productId : number) (d : database) :
  fst (run_query (Pg.from "product_assets"
                    (Pg.select [Col "storage_bucket"; Col "storage_path"])
                  |> Pg.eq "product_id" (VNum productId)) d)
  = finish false None
      (map (shape d "product_assets" [Col "storage_bucket"; Col "storage_path"])
         (List.filter (fun a => value_eqb (get "product_id" a) (VNum productId)) (assets d))).
Proof.
  unfold run_query. cbn -[sort_rows shape List.filter matches_all finish].
  rewrite sort_rows_unordered. do 2 f_equal.
  apply filter_ext_eq. intros r. apply matches_all_one.
Qed.

Lemma get_shape_paths (d : database) (k : string) (a : row) :
  k = "storage_bucket" \/ k = "storage_path" ->
  get k (shape d "product_assets" [Col "storage_bucket"; Col "storage_path"] a) = get k a.
Proof.
  intros Hk. unfold shape. simpl embedded. rewrite app_nil_r.
  apply get_project. simpl. destruct Hk as [->| ->]; auto.
Qed.

(** X27: When the platform serves its calls, deleteProduct returns;
    afterwards no product row has the id, the file of every asset of the
    product is gone from its bucket, and every file that is not the file of
    an asset of the product is as before. *)
Theorem product_is_deleted_with_its_files (productId : number) (w : world) :
  healthy w ->
  exists w',
    Admin.deleteProduct productId w = (Ret tt, w')
    /\ (forall p, In p (table_rows (db w') "products") ->
                  value_eqb (get "id" p) (VNum productId) = false)
    /\ (forall a bucket path_,
          In a (assets (db w)) ->
          value_eqb (get "product_id" a) (VNum productId) = true ->
          stored_at bucket path_ a ->
          files w' !! (bucket, path_) = None)
    /\ (forall key,
          (forall a, In a (assets (db w)) ->
                     value_eqb (get "product_id" a) (VNum productId) = true ->
                     key <> (as_string (get "storage_bucket" a),
                             as_string (get "storage_path" a))) ->
          files w' !! key = files w !! key).
Proof.
  intros Hw.
  set (q0 := Pg.from "product_assets" (Pg.select [Col "storage_bucket"; Col "storage_path"])
             |> Pg.eq "product_id" (VNum productId)).
  destruct (await_served q0 w Hw) as (w1 & Hrun1 & Hw1 & Hdb1 & Hf1 & _).
  unfold q0 in Hrun1 at 2. rewrite assets_of_product in Hrun1.
  rewrite (run_query_read q0) in Hdb1 by reflexivity.
  set (rows := map (shape (db w) "product_assets" [Col "storage_bucket"; Col "storage_path"])
                 (List.filter (fun a => value_eqb (get "product_id" a) (VNum productId))
                    (assets (db w)))) in *.
  destruct (remove_groups_served (Admin.bucketGroups rows) w1 Hw1)
    as (w2 & Hrun2 & Hw2 & Hdb2 & Hf2).
  set (q1 := Pg.from "products" Delete |> Pg.eq "id" (VNum productId)).
  destruct (await_served q1 w2 Hw2) as (w3 & Hrun3 & _ & Hdb3 & Hf3 & _).
  assert (Hfiles : files w3 = without_groups (Admin.bucketGroups rows) (files w))
    by (rewrite Hf3, Hf2, Hf1; reflexivity).
  assert (Hrows : forall b p,
             (exists ps, In (b, ps) (Admin.bucketGroups rows) /\ In p ps)
             <-> exists a, In a (assets (db w))
                           /\ value_eqb (get "product_id" a) (VNum productId) = true
                           /\ b = as_string (get "storage_bucket" a)
                           /\ p = as_string (get "storage_path" a)).
  { intros b p. rewrite In_bucketGroups. unfold rows. split.
    - intros (a' & Hin & -> & ->). apply in_map_iff in Hin as (a & <- & Hin).
      apply filter_In in Hin as [Hin Hp]. exists a.
      rewrite !get_shape_paths by auto. auto.
    - intros (a & Hin & Hp & -> & ->).
      exists (shape (db w) "product_assets" [Col "storage_bucket"; Col "storage_path"] a).
      rewrite !get_shape_paths by auto. split; [|auto].
      apply in_map, filter_In. auto. }
  exists w3. split; [|split; [|split]].
  - unfold Admin.deleteProduct. fold q0 q1.
    erewrite bind_ret by exact Hrun1. cbn [res_data finish].
    erewrite bind_ret.
    + erewrite bind_ret by exact Hrun3. reflexivity.
    + fold rows. destruct rows as [|a more] eqn:Hrows0; [|exact Hrun2].
      simpl in Hrun2. exact Hrun2.
  - intros p Hin. rewrite Hdb3, Hdb2, Hdb1 in Hin. unfold q1 in Hin.
    rewrite products_after_delete in Hin. apply filter_In in Hin as [_ Hne].
    apply negb_true_iff in Hne. exact Hne.
  - intros a b p Hin Hp [Hb Hpath]. rewrite Hfiles.
    destruct (proj2 (Hrows b p)) as (ps & Hg & Hps).
    { exists a. rewrite Hb, Hpath. auto. }
    eapply without_groups_in; eassumption.
  - intros key Hother. rewrite Hfiles. apply without_groups_other.
    intros b ps p Hg Hps ->.
    destruct (proj1 (Hrows b p)) as (a & Hin & Hp & Hb & Hpath); [exists ps; auto|].
    apply (Hother a Hin Hp). congruence.
Qed.

(** ** Signing in *)

(** X28: The sign-in handler answers 400 "Email y contraseña son requeridos"
    without calling the platform when the email or the password is missing
    or empty. With both, it makes one call: an error of the platform is
    answered 400 with the platform's own message, and a served call is
    answered 200 when the platform accepts the credentials and 400
    otherwise. *)
Theorem signin_relays_the_refusal (form : list (string * string)) (w : world) :
  let email := Signin.form_get form "email" in
  let password := Signin.form_get form "password" in
  (* a credential that is missing or empty: answered before any call *)
  (email = None \/ email = Some "" \/ password = None \/ password = Some "" ->
   Signin.POST (Body form) w
   = (Ret (Signin.answer_with 400 false (text "Email y contraseña son requeridos")), w))
  /\ (forall e p,
        email = Some e -> password = Some p -> e <> "" -> p <> "" ->
        let w' := issue (AuthSignInWithPassword e p) w in
        (* the refusal of the platform is relayed *)
        (forall message,
           next_fault w = Fails message ->
           Signin.POST (Body form) w = (Ret (Signin.answer_with 400 false message), w'))
        (* served: the answer follows the platform *)
        /\ (next_fault w = Healthy ->
            exists r,
              Signin.POST (Body form) w = (Ret r, w')
              /\ status r = (if existsb (fun a => String.eqb (fst a) e && String.eqb (snd a) p)
                                  (accounts w)
                             then 200 else 400)%Z)).
Proof.
  intros email password. split.
  - intros Hmissing.
    assert (Hp : ProductsListing.present email = None
                 \/ ProductsListing.present password = None).
    { destruct Hmissing as [->|[->|[->| ->]]]; auto. }
    apply try_catch_ret. unfold Signin.POST_try. simpl request_json.
    unfold email, password in *. unfold bind at 1. unfold ret at 1.
    destruct Hp as [Hp|Hp]; rewrite Hp; [reflexivity|].
    destruct (ProductsListing.present (Signin.form_get form "email")); reflexivity.
  - intros e p He Hp Hne Hnp w'.
    assert (Hpe : ProductsListing.present email = Some e)
      by (rewrite He; destruct e; [congruence | reflexivity]).
    assert (Hpp : ProductsListing.present password = Some p)
      by (rewrite Hp; destruct p; [congruence | reflexivity]).
    assert (Htry : Signin.POST_try (Body form) w
                   = (error <- auth_signInWithPassword e p ;;
                      match error with
                      | Some message => ret (Signin.answer_with 400 false message)
                      | None =>
                          ret {| status := 200;
                                 body := VObj [ ("success", VBool true);
                                                ("message", VStr (text "Sesión iniciada correctamente"));
                                                ("redirect", VStr "/admin") ];
                                 headers := [] |}
                      end) w).
    { unfold Signin.POST_try. simpl request_json. unfold email, password in *.
      unfold bind at 1. unfold ret at 1. rewrite Hpe, Hpp. reflexivity. }
    split.
    + intros message Hn. apply try_catch_ret. rewrite Htry.
      assert (Hrun : auth_signInWithPassword e p w = (Ret (Some message), w'))
        by (unfold auth_signInWithPassword, platform; rewrite Hn; reflexivity).
      erewrite bind_ret by exact Hrun. reflexivity.
    + intros Hn.
      assert (Hrun : auth_signInWithPassword e p w
                     = (Ret (if existsb (fun a => String.eqb (fst a) e && String.eqb (snd a) p)
                                  (accounts w)
                             then None else Some "Invalid login credentials"), w'))
        by (unfold auth_signInWithPassword, platform; rewrite Hn; reflexivity).
      clearbody w'. destruct (existsb _ (accounts w)); eexists;
        (split; [apply try_catch_ret; rewrite Htry; erewrite bind_ret by exact Hrun;
                 reflexivity | reflexivity]).
Qed.

(** ** The properties on the sample store *)

Lemma cart_quantities_stay_in_range_witness :
  Cart.clampQuantity NaN = num_of_Z 1
  /\ int_between 1 99 (Cart.clampQuantity (Num (7 # 2)))
  /\ Cart.quantities_ok
       (Cart.apply_op (Cart.SetQuantity "3" (num_of_Z 250))
          (Cart.apply_op (Cart.AddToCart Sample.litera None) ∅)).
Proof.
  split; [reflexivity|]. split.
  - apply (proj1 cart_quantities_stay_in_range).
  - apply (proj2 cart_quantities_stay_in_range).
    apply (proj2 cart_quantities_stay_in_range).
    intros k item Hlook. rewrite lookup_empty in Hlook. discriminate.
Defined.

Lemma duplicate_category_slug_is_refused_witness :
  exists w',
    CategoriesIndex.POST (Body Sample.category_body) Sample.signed_in
    = (Ret (json 400 (failure CategoriesIndex.duplicate_slug)), w')
    /\ db w' = db Sample.signed_in
    /\ calls w' = calls Sample.signed_in ++
         [ AuthGetUser;
           DbQuery (Pg.from "categories" (Pg.select [Col "id"])
                    |> Pg.eq "slug" (VStr "camas") |> Pg.single) ].
Proof.
  refine (duplicate_category_slug_is_refused Sample.category_body "camas"
            [("id", Sample.int 1); ("name", VStr "Camas"); ("slug", VStr "camas");
             ("image_url", VNull)]
            Sample.admin Sample.signed_in _ _ _ _ _).
  - reflexivity.
  - reflexivity.
  - reflexivity.
  - reflexivity.
  - vm_compute. reflexivity.
Defined.

Lemma delete_guards_refuse_and_delete_nothing_witness :
  exists w' cs,
    CategoryById.DELETE "1" Sample.signed_in
    = (Ret (json 400 (failure CategoryById.has_children)), w')
    /\ db w' = db Sample.signed_in
    /\ issued Sample.signed_in w' cs
    /\ Forall (fun c => is_delete c = false) cs.
Proof.
  refine (proj1 (delete_guards_refuse_and_delete_nothing "1" Sample.signed_in _) _).
  - reflexivity.
  - vm_compute. discriminate.
Defined.

Lemma duplicate_product_slug_is_answered_500_witness :
  exists w1 w2 w',
    Admin.createProduct (ProductRoutes.productData_of Sample.product_body "litera-roble") w1
    = (Throw (JsError ProductRoutes.duplicate_slug), w2)
    /\ ProductRoutes.POST_try (Body Sample.product_body) Sample.signed_in
       = (Throw (JsError ProductRoutes.duplicate_slug), w2)
    /\ ProductRoutes.POST (Body Sample.product_body) Sample.signed_in
       = (Ret (json 500 (failure ProductRoutes.duplicate_slug)), w')
    /\ db w' = db Sample.signed_in
    /\ console w' = console Sample.signed_in ++ ["Error creating product:"].
Proof.
  refine (duplicate_product_slug_is_answered_500 Sample.product_body "litera-roble"
            [("id", Sample.int 3); ("subcategory_id", Sample.int 2);
             ("category_id", Sample.int 1); ("name", VStr "Litera Roble");
             ("slug", VStr "litera-roble"); ("description", VNull);
             ("price", Sample.int 100); ("stock", Sample.int 5); ("brand", VNull);
             ("attributes", VObj [])]
            Sample.admin Sample.signed_in _ _ _ _ _).
  - reflexivity.
  - reflexivity.
  - left. split; reflexivity.
  - vm_compute. reflexivity.
  - vm_compute. reflexivity.
Defined.


Lemma pagination_is_normalized_and_reported_witness :
  Products.getProductsByCategory (num_of_Z 1) Products.no_filters Sample.far_page
    Sample.signed_in
  = (Ret {| Products.items := [];
            Products.r_page := num_of_Z 7;
            Products.r_pageSize := num_of_Z 50;
            Products.total := num_of_Z 1;
            Products.totalPages := num_of_Z 1 |},
     issue (DbQuery (Products.countQuery "category_id" (num_of_Z 1) Products.no_filters))
       Sample.signed_in).
Proof.
  refine (proj2 (proj2 (pagination_is_normalized_and_reported
                          Products.getProductsByCategory "category_id" _
                          (num_of_Z 1) Products.no_filters Sample.far_page
                          Sample.signed_in))
            (num_of_Z 1) _ _ _ _).
  - left. split; reflexivity.
  - reflexivity.
  - vm_compute. reflexivity.
  - vm_compute. reflexivity.
  - vm_compute. reflexivity.
Defined.

Lemma every_handler_answers_500_when_its_try_block_throws_witness :
  exists resp w',
    handler GetCategories (Sample.with_faults [Fails "connection reset"] Sample.signed_in)
    = (Ret resp, w')
    /\ status resp = 500
    /\ body resp = failure "connection reset"
    /\ console w' = [].
Proof.
  destruct (every_handler_answers_500_when_its_try_block_throws GetCategories
              (Sample.with_faults [Fails "connection reset"] Sample.signed_in))
    as (resp & w' & Hrun & Hcaught).
  edestruct Hcaught as (Hstatus & Hbody & _ & _ & _ & Hconsole).
  - vm_compute. reflexivity.
  - exists resp, w'. split; [exact Hrun|]. split; [exact Hstatus|].
    split; [exact Hbody | exact Hconsole].
Defined.

Lemma upload_url_is_validated_then_signed_witness :
  exists d w2,
    UploadUrl.POST (Body Sample.upload_body) Sample.signed_in
    = (Ret (json 200
              (VObj [ ("signedUrl", VStr (Storage.signedUrl d));
                      ("token", VStr (Storage.token d));
                      ("path", VStr "temp/t1/gallery/1700000000000-frente_1.jpg") ])),
       w2).
Proof.
  eexists _, _.
  refine (proj1 (proj2 (proj2 (upload_url_is_validated_then_signed Sample.upload_body
                                 Sample.signed_in (issue AuthGetUser Sample.signed_in)
                                 {| reply_user := Some Sample.admin; auth_error := None |}
                                 Sample.admin _ _ _)))
            "frente 1.jpg" "image/jpeg" "gallery" "t1"
            (UploadUrl.imageTypes ++ UploadUrl.videoTypes) _ _
            _ _ _ _ _ _ _ _ _ _ _ _).
  - reflexivity.
  - reflexivity.
  - reflexivity.
  - reflexivity.
  - reflexivity.
  - reflexivity.
  - reflexivity.
  - discriminate.
  - discriminate.
  - discriminate.
  - discriminate.
  - left. reflexivity.
  - reflexivity.
  - left. reflexivity.
  - vm_compute. reflexivity.
Defined.

Lemma sample_one_primary : one_primary (db Sample.signed_in).
Proof.
  intros pid. change (assets (db Sample.signed_in)) with Sample.assets.
  unfold Sample.assets. cbn [List.filter].
  match goal with
  | |- context [if is_primary_of pid ?a then ?a :: nil else nil] =>
      replace (is_primary_of pid a) with false
        by (symmetry; apply andb_false_intro2; reflexivity)
  end.
  destruct (is_primary_of pid _); simpl; lia.
Qed.

(** C8: the claim fails on the code.  [setAssetAsPrimary] awaits the
    clearing of [is_primary] and discards its answer, while it reads the
    error of the flagging that follows.  When the store answers the
    clearing with an error, [setAssetAsPrimary] of the second gallery asset
    of the sample product, started with one primary asset, returns
    normally and leaves both gallery assets of the product primary. *)
Theorem refused_clearing_leaves_two_primaries :
  let w := Requests.second_call_refused in
  one_primary (db w)
  /\ exists w',
       Admin.setAssetAsPrimary (num_of_Z 5) w = (Ret tt, w')
       /\ calls w' = primary_calls (num_of_Z 5) (Sample.int 3)
       /\ map (fun a => (get "id" a, get "section" a, get "is_primary" a)) (assets (db w'))
          = [ (Sample.int 4, VStr "gallery", VBool true);
              (Sample.int 5, VStr "gallery", VBool true) ]
       /\ length (List.filter (is_primary_of (Sample.int 3)) (assets (db w'))) = 2%nat
       /\ ~ one_primary (db w').
Proof.
  cbv zeta. split; [exact sample_one_primary|].
  eexists. split; [vm_compute; reflexivity|].
  split; [reflexivity|]. split; [reflexivity|]. split; [reflexivity|].
  intros H. specialize (H (Sample.int 3)). vm_compute in H. lia.
Qed.

Lemma served_asset_operations_keep_one_primary_witness :
  one_primary
    (db (snd (run_asset_op (SetAssetAsPrimary (num_of_Z 5)) Sample.signed_in)))
  /\ List.filter (is_primary_of (Sample.int 3))
       (assets (db (snd (run_asset_op (SetAssetAsPrimary (num_of_Z 5)) Sample.signed_in))))
     = List.filter (has_id (num_of_Z 5))
         (assets (db (snd (run_asset_op (SetAssetAsPrimary (num_of_Z 5)) Sample.signed_in)))).
Proof.
  split.
  - apply (proj1 served_asset_operations_keep_one_primary).
    + reflexivity.
    + exact sample_one_primary.
  - vm_compute. reflexivity.
Defined.


(** ** Further properties on the sample store *)

Lemma increase_then_decrease_witness :
  let c := Cart.addToCart Sample.litera (Some (num_of_Z 4)) ∅ in
  Cart.decreaseQuantity "3" (Cart.increaseQuantity "3" c) = c.
Proof.
  intros c.
  apply (proj1 (increase_then_decrease "3" (Cart.with_quantity Sample.litera (num_of_Z 4)) 4 c
                  ltac:(reflexivity) ltac:(reflexivity) ltac:(lia))).
  lia.
Defined.

Lemma adding_twice_accumulates_witness :
  Cart.addToCart Sample.litera (Some (num_of_Z 60))
    (Cart.addToCart Sample.litera (Some (num_of_Z 70)) ∅)
  = <["3" := Cart.with_quantity Sample.litera (num_of_Z 99)]> ∅.
Proof.
  apply (adding_twice_accumulates Sample.litera 70 60 ∅). reflexivity.
Defined.

Lemma removing_undoes_adding_witness :
  Cart.removeFromCart "3" (Cart.addToCart Sample.litera None ∅) = ∅
  /\ Cart.increaseQuantity "toString" ∅
     = <["toString" := {| Cart.fields := None; Cart.quantity := num_of_Z 1 |}]> ∅
  /\ Cart.increaseQuantity "4" ∅ = ∅.
Proof.
  split; [|split].
  - apply (proj1 (removing_undoes_adding Sample.litera None "3" ∅)). reflexivity.
  - apply (proj1 (proj2 (proj2 (removing_undoes_adding Sample.litera None "toString" ∅)))).
    + reflexivity.
    + simpl. tauto.
  - apply (proj1 (proj2 (removing_undoes_adding Sample.litera None "4" ∅))).
    + reflexivity.
    + simpl. intros H. repeat (destruct H as [H|H]; [discriminate|]). exact H.
Defined.

Lemma cart_count_is_bounded_witness :
  exists n : Z,
    cartCount (Cart.addToCart Sample.litera (Some (num_of_Z 4)) ∅) = num_of_Z n
    /\ 1 <= n <= 99.
Proof.
  destruct (cart_count_is_bounded (Cart.addToCart Sample.litera (Some (num_of_Z 4)) ∅))
    as (n & Hn & Hrange).
  - apply (apply_op_keeps_quantities (Cart.AddToCart Sample.litera (Some (num_of_Z 4))) ∅).
    intros k item Hlook. rewrite lookup_empty in Hlook. discriminate.
  - exists n. split; [exact Hn|].
    change (size (Cart.addToCart Sample.litera (Some (num_of_Z 4)) ∅)) with 1%nat in Hrange.
    lia.
Defined.

Lemma sanitized_filename_is_safe_witness :
  sanitize_filename "manual.pdf" = "manual.pdf".
Proof.
  apply (sanitized_filename_is_safe "manual.pdf"). reflexivity.
Defined.

Lemma guarded_routes_need_a_session_witness :
  handler (DeleteProduct (Some "3")) Sample.anonymous
  = (Ret (json 401 (failure "No autorizado")), issue AuthGetUser Sample.anonymous).
Proof.
  apply (guarded_routes_need_a_session (DeleteProduct (Some "3")) Sample.anonymous
           (issue AuthGetUser Sample.anonymous)
           {| reply_user := None; auth_error := Some "Auth session missing!" |}).
  - reflexivity.
  - reflexivity.
  - reflexivity.
Defined.

Lemma invalid_product_id_is_refused_witness :
  ProductRoutes.GET (Some "abc") Sample.signed_in
  = (Ret (json 400 (failure ProductRoutes.invalid_id)), Sample.signed_in)
  /\ ProductRoutes.GET (Some "0") Sample.signed_in
     = (Ret (json 400 (failure ProductRoutes.invalid_id)), Sample.signed_in)
  /\ ProductRoutes.GET None Sample.signed_in
     = (Ret (json 400 (failure ProductRoutes.invalid_id)), Sample.signed_in).
Proof.
  split; [|split].
  - apply (invalid_product_id_is_refused (Some "abc") Sample.signed_in). reflexivity.
  - apply (invalid_product_id_is_refused (Some "0") Sample.signed_in). reflexivity.
  - apply (invalid_product_id_is_refused None Sample.signed_in). reflexivity.
Defined.

Lemma invalid_product_data_is_refused_witness :
  ProductRoutes.POST (Body Requests.negative_price) Sample.signed_in
  = (Ret (json 400 (failure "El precio no puede ser negativo")),
     issue AuthGetUser Sample.signed_in).
Proof.
  refine (proj1 (proj1 (invalid_product_data_is_refused Requests.negative_price
                   Sample.signed_in (issue AuthGetUser Sample.signed_in)
                   {| reply_user := Some Sample.admin; auth_error := None |} Sample.admin
                   _ _) "cama-nido" (issue AuthGetUser Sample.signed_in)
                   "El precio no puede ser negativo" [] _ _)); reflexivity.
Defined.

Lemma product_without_files_is_created_and_answered_500_witness :
  exists w',
    ProductRoutes.POST (Body Requests.new_product) Sample.signed_in
    = (Ret (json 500
              (failure "Cannot read properties of undefined (reading 'gallery')")), w')
    /\ length (table_rows (db w') "products") = 2%nat.
Proof.
  destruct (product_without_files_is_created_and_answered_500 Requests.new_product
              "Cama Nido" "cama-nido" Sample.admin Sample.signed_in)
    as (w' & Hrun & Hrows & _); try reflexivity.
  exists w'. split; [exact Hrun|]. rewrite Hrows. reflexivity.
Defined.

Lemma product_is_answered_once_stored_witness :
  exists product w',
    ProductRoutes.POST (Body Requests.new_product_with_files) Sample.signed_in
    = (Ret (json 201 (VObj [("success", VBool true); ("product", data_value product)])), w').
Proof.
  eexists.
  eapply (proj2 (product_is_answered_once_stored Requests.new_product_with_files
                   Sample.signed_in (issue AuthGetUser Sample.signed_in) _
                   {| reply_user := Some Sample.admin; auth_error := None |} Sample.admin
                   _ eq_refl eq_refl) "cama-nido" _ [] [] []);
    reflexivity.
Defined.

Lemma category_is_stored_normalized_witness :
  exists w',
    CategoriesIndex.POST (Body Requests.shouted_category) Sample.signed_in
    = (Ret (json 201
              (VObj [("success", VBool true);
                     ("category",
                      VObj [("name", VStr "Camas de roble"); ("slug", VStr "camas");
                            ("image_url", VNull); ("id", Sample.int 6)])])), w')
    /\ length (with_slug "camas" (table_rows (db w') "categories")) = 2%nat.
Proof.
  destruct (category_is_stored_normalized Requests.shouted_category "Camas de roble" "CAMAS"
              Sample.admin Sample.signed_in)
    as (w' & Hrun & _ & _ & Hslug); try reflexivity.
  exists w'. split; [exact Hrun|].
  change (trim (toLowerCase "CAMAS")) with "camas" in Hslug. rewrite Hslug. reflexivity.
Defined.

Lemma category_update_checks_the_other_slugs_witness :
  exists w',
    CategoryById.PUT "7" (Body Sample.category_body) Requests.with_empty_places
    = (Ret (json 400 (failure (text "Ya existe otra categoría con ese slug"))), w')
    /\ db w' = db Requests.with_empty_places.
Proof.
  eapply (proj1 (category_update_checks_the_other_slugs "7" Sample.category_body
                   "Camas de roble" "camas" Sample.admin Requests.with_empty_places
                   eq_refl eq_refl eq_refl eq_refl eq_refl)).
  reflexivity.
Defined.

Lemma childless_records_are_deleted_witness :
  exists w',
    SubcategoryById.DELETE "8" Requests.with_empty_places
    = (Ret (json 200 (VObj [("success", VBool true)])), w')
    /\ table_rows (db w') "subcategories" = Sample.subcategories.
Proof.
  destruct (proj2 (childless_records_are_deleted "8" Sample.admin Requests.with_empty_places
                     eq_refl eq_refl))
    as (w' & Hrun & Hrows & _); [reflexivity|].
  exists w'. split; [exact Hrun|]. rewrite Hrows. reflexivity.
Defined.

Lemma delete_guard_is_skipped_when_its_query_fails_witness :
  let w := Sample.with_faults [Healthy; Fails "canceling statement due to statement timeout"]
             Sample.signed_in in
  exists resp w',
    CategoryById.DELETE "1" w = (Ret resp, w')
    /\ calls w'
       = [ AuthGetUser;
           DbQuery (Pg.from "subcategories" (Pg.select [Col "id"])
                    |> Pg.eq "category_id" (Sample.int 1) |> Pg.limit 1);
           DbQuery (Pg.from "categories" Delete |> Pg.eq "id" (Sample.int 1)) ].
Proof.
  intros w.
  exact (proj1 (delete_guard_is_skipped_when_its_query_fails "1" Sample.admin
                  "canceling statement due to statement timeout" [] w eq_refl eq_refl)).
Defined.

Lemma nameless_records_are_refused_witness :
  CategoriesIndex.POST (Body Requests.nameless_category) Sample.signed_in
  = (Ret (json 400 (failure "El nombre es requerido")), issue AuthGetUser Sample.signed_in).
Proof.
  refine (proj1 (proj1 (nameless_records_are_refused Sample.signed_in
                          (issue AuthGetUser Sample.signed_in)
                          {| reply_user := Some Sample.admin; auth_error := None |}
                          Sample.admin _ _)
                   Requests.nameless_category "1" _)); reflexivity.
Defined.

Lemma unsigned_upload_is_answered_500_witness :
  let taken := with_files (<[("products", "temp/t1/gallery/1700000000000-frente_1.jpg")
                             := "jpeg"]> (files Sample.signed_in)) Sample.signed_in in
  exists w',
    UploadUrl.POST (Body Sample.upload_body) taken
    = (Ret (json 500 (error_only "Error al crear URL de subida")), w')
    /\ console w' = ["Error creating signed URL:"].
Proof.
  intros taken. eexists. split.
  - eapply (unsigned_upload_is_answered_500 Sample.upload_body
              "frente 1.jpg" "image/jpeg" "gallery" "t1"
              (UploadUrl.imageTypes ++ UploadUrl.videoTypes) taken (issue AuthGetUser taken) _
              {| reply_user := Some Sample.admin; auth_error := None |} Sample.admin
              (refused "The resource already exists") "The resource already exists");
      reflexivity.
  - reflexivity.
Defined.

Lemma sanitized_pagination_is_kept_witness :
  Products.normalizePagination
    {| Products.p_page := just (ProductsListing.sanitize_page (Some "3"));
       Products.p_pageSize :=
         just (ProductsListing.sanitize_pageSize (num_of_Z 12) (Some "500")) |}
  = {| Products.page := ProductsListing.sanitize_page (Some "3");
       Products.pageSize := ProductsListing.sanitize_pageSize (num_of_Z 12) (Some "500") |}.
Proof.
  apply (sanitized_pagination_is_kept (num_of_Z 12) (Some "3") (Some "500") 12).
  - reflexivity.
  - lia.
Defined.

Lemma unknown_sort_is_the_default_order_witness :
  ProductsListing.sanitize_sort (Some "oldest") = just "oldest"
  /\ Products.applySort (ProductsListing.sanitize_sort (Some "oldest"))
       (Pg.from "products" (Pg.select [Col "*"]))
     = (Pg.from "products" (Pg.select [Col "*"])
        |> Pg.order "created_at" false None |> Pg.order "id" false None).
Proof.
  split; [reflexivity|].
  apply (unknown_sort_is_the_default_order (Some "oldest")).
  intros s [<- | [<- | [<- | [<- | []]]]]; discriminate.
Defined.

Lemma listing_of_an_unknown_place_witness :
  exists w',
    ProductsListing.GET (num_of_Z 12) [("categorySlug", "sillas")] Sample.signed_in
    = (Ret (json 404 (error_only "Category not found")), w')
    /\ db w' = db Sample.signed_in /\ console w' = console Sample.signed_in.
Proof.
  apply (proj1 (proj2 (listing_of_an_unknown_place (num_of_Z 12) [("categorySlug", "sillas")]
                         Sample.signed_in)) "sillas"); reflexivity.
Defined.

Lemma failed_upload_removes_the_file_witness :
  let w := Sample.with_faults [Healthy; Healthy; Healthy; Fails "violates check constraint";
                               Healthy] Sample.signed_in in
  exists w',
    Admin.uploadProductAsset (num_of_Z 3) Requests.picture Requests.as_primary w
    = (Throw (JsError "Error saving asset: violates check constraint"), w')
    /\ files w' = files w
    /\ Forall (fun a => get "is_primary" a = VBool false) (assets (db w')).
Proof.
  intros w.
  destruct (proj2 (failed_upload_removes_the_file (num_of_Z 3) Requests.picture
                     Requests.as_primary "violates check constraint" [] w eq_refl) eq_refl)
    as (w' & Hrun & Hfiles & Hassets).
  exists w'. split; [exact Hrun | split; [exact Hfiles|]].
  rewrite Hassets. repeat constructor.
Defined.

Lemma asset_is_deleted_with_its_file_witness :
  exists w',
    Admin.deleteProductAsset (num_of_Z 5) Sample.signed_in = (Ret tt, w')
    /\ files w' !! ("products", "3/gallery/2-lado.jpg") = None
    /\ length (assets (db w')) = 1%nat.
Proof.
  destruct (proj1 (proj2 (asset_is_deleted_with_its_file (num_of_Z 5) Sample.signed_in))
              (nth 1 Sample.assets []) eq_refl eq_refl)
    as (w' & Hrun & Hassets & Hfiles & _).
  exists w'. split; [exact Hrun|]. rewrite Hassets, Hfiles. split; reflexivity.
Defined.

Lemma asset_order_is_rewritten_witness :
  exists w',
    Admin.updateAssetOrder (num_of_Z 3) "gallery" [num_of_Z 5; num_of_Z 4] Sample.signed_in
    = (Ret tt, w')
    /\ length (calls w') = 2%nat
    /\ files w' = files Sample.signed_in.
Proof.
  destruct (asset_order_is_rewritten (num_of_Z 3) "gallery" [num_of_Z 5; num_of_Z 4]
              Sample.signed_in eq_refl)
    as (w' & Hrun & Hcalls & Hfiles & _).
  exists w'. split; [exact Hrun|]. rewrite Hcalls. split; [reflexivity | exact Hfiles].
Defined.

Lemma asset_order_stops_at_the_first_refusal_witness :
  let w := Sample.with_faults [Healthy; Fails "deadlock detected"] Sample.signed_in in
  exists w',
    Admin.updateAssetOrder (num_of_Z 3) "gallery" [num_of_Z 5; num_of_Z 4] w
    = (Throw (JsError "Error updating asset order: deadlock detected"), w')
    /\ map (get "sort_order") (assets (db w')) = [Sample.int 1; Sample.int 0].
Proof.
  intros w.
  destruct (asset_order_stops_at_the_first_refusal (num_of_Z 3) "gallery"
              [num_of_Z 5; num_of_Z 4] 1 "deadlock detected" [] w eq_refl)
    as (w' & Hrun & _ & Hassets); [simpl; lia|].
  exists w'. split; [exact Hrun|]. rewrite Hassets. reflexivity.
Defined.

Lemma secondary_asset_is_flagged_witness :
  exists w',
    Admin.setAssetAsSecondary (just (num_of_Z 4)) (num_of_Z 3) Sample.signed_in = (Ret tt, w')
    /\ files w' = files Sample.signed_in.
Proof.
  destruct (secondary_asset_is_flagged (just (num_of_Z 4)) (num_of_Z 3) Sample.signed_in
              eq_refl)
    as (w' & Hrun & Hfiles & _).
  exists w'. split; [exact Hrun | exact Hfiles].
Defined.

Lemma product_is_deleted_with_its_files_witness :
  exists w',
    Admin.deleteProduct (num_of_Z 3) Sample.signed_in = (Ret tt, w')
    /\ files w' !! ("products", "3/gallery/1-frente.jpg") = None
    /\ files w' !! ("products", "3/gallery/2-lado.jpg") = None.
Proof.
  destruct (product_is_deleted_with_its_files (num_of_Z 3) Sample.signed_in eq_refl)
    as (w' & Hrun & _ & Hfiles & _).
  exists w'. split; [exact Hrun|]. split.
  - apply (Hfiles (nth 0 Sample.assets [])); [left; reflexivity | reflexivity | split; reflexivity].
  - apply (Hfiles (nth 1 Sample.assets []));
      [right; left; reflexivity | reflexivity | split; reflexivity].
Defined.

Lemma signin_relays_the_refusal_witness :
  let w := Sample.with_faults [Fails "Email not confirmed"] Sample.anonymous in
  Signin.POST (Body [("email", "admin@galur.test"); ("password", "secret")]) w
  = (Ret (Signin.answer_with 400 false "Email not confirmed"),
     issue (AuthSignInWithPassword "admin@galur.test" "secret") w).
Proof.
  intros w.
  apply (proj1 (proj2 (signin_relays_the_refusal
                         [("email", "admin@galur.test"); ("password", "secret")] w)
                  "admin@galur.test" "secret" eq_refl eq_refl
                  ltac:(discriminate) ltac:(discriminate))).
  reflexivity.
Defined.
